(** * CDCSDK producer: a shallow embedding of [cdcsdk_producer.cc]

    The development follows [ent/src/yb/cdc/cdcsdk_producer.cc].  Protobuf
    messages are records whose scalar fields hold what the generated getter
    returns (the default when the field is unset); repeated fields are lists.
    A C++ function that mutates its arguments through pointers is a
    computation in a state-and-error monad whose state survives a failure, as
    the caller's objects do.  Functions that live in other translation units
    (DocDB decoding, the tablet, the catalog client, the log reader) are
    fields of records the development is parameterised by.

    Memory accounting ([ScopedTrackedConsumption], [ReplicateMsgsHolder]) and
    logging have no influence on the response and are left out;
    [LOG(DFATAL)] is taken in its release meaning (a log line). *)

From Stdlib Require Import ZArith List String Bool Lia.
Import ListNotations.
Local Open Scope string_scope.
Local Open Scope Z_scope.

Set Implicit Arguments.

(** ** Status values *)

Inductive StatusCode :=
| InternalError | Corruption | ServiceUnavailable | TabletSplit | InvalidArgument.

(** A failure is either a status built in this file ([STATUS_FORMAT] and
    friends), a status handed back by a collaborator and propagated by
    [RETURN_NOT_OK] / [VERIFY_RESULT], or a failed [CHECK] / null dereference
    (the process aborts). *)
Inductive Error :=
| STATUS (code : StatusCode) (msg : string)
| Collab (e : string)
| Abort (what : string).

Inductive Status := OK | NotOK (e : Error).

(** ** The state-and-error monad *)

Definition M (S A : Type) : Type := S -> (A + Error) * S.

Definition ret {S A} (a : A) : M S A := fun s => (inl a, s).
Definition bind {S A B} (m : M S A) (k : A -> M S B) : M S B :=
  fun s => match m s with
           | (inl a, s') => k a s'
           | (inr e, s') => (inr e, s')
           end.
Definition fail {S A} (e : Error) : M S A := fun s => (inr e, s).
Definition get {S} : M S S := fun s => (inl s, s).
Definition put {S} (s : S) : M S unit := fun _ => (inl tt, s).
Definition modify {S} (f : S -> S) : M S unit := fun s => (inl tt, f s).
(** [VERIFY_RESULT] / [RETURN_NOT_OK] on a collaborator's result. *)
Definition liftC {S A} (r : A + string) : M S A :=
  fun s => match r with inl a => (inl a, s) | inr e => (inr (Collab e), s) end.
(** [CHECK_OK]. *)
Definition checkC {S A} (r : A + string) : M S A :=
  fun s => match r with inl a => (inl a, s) | inr e => (inr (Abort e), s) end.
(** Run a computation on a part of the state. *)
Definition zoom {S T A} (proj : S -> T) (inj : T -> S -> S) (m : M T A) : M S A :=
  fun s => let (r, t) := m (proj s) in (r, inj t s).
Definition when {S} (b : bool) (m : M S unit) : M S unit :=
  if b then m else ret tt.

Declare Scope monad_scope.
Delimit Scope monad_scope with monad.
Notation "x <- m ;; k" := (bind m (fun x => k))
  (at level 61, m at next level, right associativity) : monad_scope.
Notation "m ;; k" := (bind m (fun _ => k))
  (at level 61, right associativity) : monad_scope.
Local Open Scope monad_scope.

Fixpoint forM {S A} (l : list A) (body : A -> M S unit) : M S unit :=
  match l with
  | [] => ret tt
  | x :: r => body x ;; forM r body
  end.

Definition status_of {A} (r : A + Error) : Status :=
  match r with inl _ => OK | inr e => NotOK e end.

(** ** Machine integers *)

Definition wrap64 (z : Z) : Z := z mod 2 ^ 64.
Definition to_uint32 (z : Z) : Z := z mod 2 ^ 32.
Definition to_int32 (z : Z) : Z := (z + 2 ^ 31) mod 2 ^ 32 - 2 ^ 31.

(** ** Data model *)

Definition ColumnId := Z.

Record OpId := mkOpId { op_term : Z; op_index : Z }.

Definition OpId_eqb (a b : OpId) : bool :=
  (op_term a =? op_term b) && (op_index a =? op_index b).

(** Modelled from the spec: [operator<=] of [OpId] ([yb/util/opid.h] is not
    among the sources); "OpId -- pair (term, index) identifying a consensus log
    entry; totally ordered lexicographically". *)
Definition OpId_le (a b : OpId) : bool :=
  (op_term a <? op_term b) || ((op_term a =? op_term b) && (op_index a <=? op_index b)).

Inductive RowMessage_Op :=
| RowMessage_Op_UNKNOWN
| RowMessage_Op_INSERT | RowMessage_Op_UPDATE | RowMessage_Op_DELETE
| RowMessage_Op_READ | RowMessage_Op_TRUNCATE | RowMessage_Op_DDL
| RowMessage_Op_BEGIN | RowMessage_Op_COMMIT.

Definition Op_eqb (a b : RowMessage_Op) : bool :=
  match a, b with
  | RowMessage_Op_UNKNOWN, RowMessage_Op_UNKNOWN
  | RowMessage_Op_INSERT, RowMessage_Op_INSERT
  | RowMessage_Op_UPDATE, RowMessage_Op_UPDATE
  | RowMessage_Op_DELETE, RowMessage_Op_DELETE
  | RowMessage_Op_READ, RowMessage_Op_READ
  | RowMessage_Op_TRUNCATE, RowMessage_Op_TRUNCATE
  | RowMessage_Op_DDL, RowMessage_Op_DDL
  | RowMessage_Op_BEGIN, RowMessage_Op_BEGIN
  | RowMessage_Op_COMMIT, RowMessage_Op_COMMIT => true
  | _, _ => false
  end.

Lemma Op_eqb_eq a b : Op_eqb a b = true <-> a = b.
Proof. destruct a, b; simpl; split; intro H; try reflexivity; discriminate H. Qed.

Record DatumMessagePB := mkDatum {
  column_name : string;
  column_type : Z;
  datum : option string }.

Definition DatumMessagePB_default : DatumMessagePB := mkDatum "" 0 None.

Record CDCSDKColumnInfoPB := mkColumnInfo {
  ci_name : string; ci_type : Z; ci_is_key : bool; ci_is_hash_key : bool;
  ci_is_nullable : bool; ci_oid : Z }.

Record CDCSDKTablePropertiesPB := mkTabInfo {
  ti_default_time_to_live : Z; ti_num_tablets : Z; ti_is_ysql_catalog_table : bool }.

Record RowMessage := mkRowMessage {
  transaction_id : string;
  commit_time : Z;
  table : string;
  op : RowMessage_Op;
  new_tuple : list DatumMessagePB;
  old_tuple : list DatumMessagePB;
  schema_column_info : list CDCSDKColumnInfoPB;
  schema_tab_info : option CDCSDKTablePropertiesPB;
  schema_version : Z;
  new_table_name : string;
  pgschema_name : string }.

Definition RowMessage_default : RowMessage :=
  mkRowMessage "" 0 "" RowMessage_Op_UNKNOWN [] [] [] None 0 "" "".

Definition set_transaction_id (v : string) (m : RowMessage) : RowMessage :=
  mkRowMessage v (commit_time m) (table m) (op m) (new_tuple m) (old_tuple m)
    (schema_column_info m) (schema_tab_info m) (schema_version m) (new_table_name m)
    (pgschema_name m).
Definition set_commit_time (v : Z) (m : RowMessage) : RowMessage :=
  mkRowMessage (transaction_id m) v (table m) (op m) (new_tuple m) (old_tuple m)
    (schema_column_info m) (schema_tab_info m) (schema_version m) (new_table_name m)
    (pgschema_name m).
Definition set_table (v : string) (m : RowMessage) : RowMessage :=
  mkRowMessage (transaction_id m) (commit_time m) v (op m) (new_tuple m) (old_tuple m)
    (schema_column_info m) (schema_tab_info m) (schema_version m) (new_table_name m)
    (pgschema_name m).
Definition set_op (v : RowMessage_Op) (m : RowMessage) : RowMessage :=
  mkRowMessage (transaction_id m) (commit_time m) (table m) v (new_tuple m) (old_tuple m)
    (schema_column_info m) (schema_tab_info m) (schema_version m) (new_table_name m)
    (pgschema_name m).
Definition set_new_tuple (v : list DatumMessagePB) (m : RowMessage) : RowMessage :=
  mkRowMessage (transaction_id m) (commit_time m) (table m) (op m) v (old_tuple m)
    (schema_column_info m) (schema_tab_info m) (schema_version m) (new_table_name m)
    (pgschema_name m).
Definition set_old_tuple (v : list DatumMessagePB) (m : RowMessage) : RowMessage :=
  mkRowMessage (transaction_id m) (commit_time m) (table m) (op m) (new_tuple m) v
    (schema_column_info m) (schema_tab_info m) (schema_version m) (new_table_name m)
    (pgschema_name m).
Definition set_schema_column_info (v : list CDCSDKColumnInfoPB) (m : RowMessage) : RowMessage :=
  mkRowMessage (transaction_id m) (commit_time m) (table m) (op m) (new_tuple m) (old_tuple m)
    v (schema_tab_info m) (schema_version m) (new_table_name m) (pgschema_name m).
Definition set_schema_tab_info (v : option CDCSDKTablePropertiesPB) (m : RowMessage) : RowMessage :=
  mkRowMessage (transaction_id m) (commit_time m) (table m) (op m) (new_tuple m) (old_tuple m)
    (schema_column_info m) v (schema_version m) (new_table_name m) (pgschema_name m).
Definition set_schema_version (v : Z) (m : RowMessage) : RowMessage :=
  mkRowMessage (transaction_id m) (commit_time m) (table m) (op m) (new_tuple m) (old_tuple m)
    (schema_column_info m) (schema_tab_info m) v (new_table_name m) (pgschema_name m).
Definition set_new_table_name (v : string) (m : RowMessage) : RowMessage :=
  mkRowMessage (transaction_id m) (commit_time m) (table m) (op m) (new_tuple m) (old_tuple m)
    (schema_column_info m) (schema_tab_info m) (schema_version m) v (pgschema_name m).
Definition set_pgschema_name (v : string) (m : RowMessage) : RowMessage :=
  mkRowMessage (transaction_id m) (commit_time m) (table m) (op m) (new_tuple m) (old_tuple m)
    (schema_column_info m) (schema_tab_info m) (schema_version m) (new_table_name m) v.
(** [add_new_tuple()] / [add_old_tuple()] with the content the caller then
    writes through the returned pointer. *)
Definition add_new_tuple (d : DatumMessagePB) (m : RowMessage) : RowMessage :=
  set_new_tuple (new_tuple m ++ [d]) m.
Definition add_old_tuple (d : DatumMessagePB) (m : RowMessage) : RowMessage :=
  set_old_tuple (old_tuple m ++ [d]) m.

Record CDCSDKOpIdPB := mkCDCSDKOpId {
  oi_term : Z; oi_index : Z; oi_write_id : Z; oi_write_id_key : string }.

Definition CDCSDKOpIdPB_default : CDCSDKOpIdPB := mkCDCSDKOpId 0 0 0 "".

Record CDCSDKProtoRecordPB := mkProtoRecord {
  row_message : RowMessage;
  cdc_sdk_op_id : CDCSDKOpIdPB }.

Definition CDCSDKProtoRecordPB_default : CDCSDKProtoRecordPB :=
  mkProtoRecord RowMessage_default CDCSDKOpIdPB_default.

Record CDCSDKCheckpointPB := mkCheckpoint {
  cp_term : Z; cp_index : Z; cp_write_id : Z; cp_key : string; cp_snapshot_time : Z }.

Definition CDCSDKCheckpointPB_default : CDCSDKCheckpointPB := mkCheckpoint 0 0 0 "" 0.

Record GetChangesResponsePB := mkResp {
  cdc_sdk_proto_records : list CDCSDKProtoRecordPB;
  cdc_sdk_checkpoint : CDCSDKCheckpointPB;
  checkpoint_op_id : option OpId }.

Definition GetChangesResponsePB_default : GetChangesResponsePB :=
  mkResp [] CDCSDKCheckpointPB_default None.

Definition add_cdc_sdk_proto_records (r : CDCSDKProtoRecordPB) (resp : GetChangesResponsePB)
  : GetChangesResponsePB :=
  mkResp (cdc_sdk_proto_records resp ++ [r]) (cdc_sdk_checkpoint resp) (checkpoint_op_id resp).

(** *** DocDB values as this file sees them *)

Inductive KeyEntryType := kColumnId | kSystemColumnId | kKeyEntryOther.
Inductive ValueEntryType := kTombstone | kNullLow | kPackedRow | kValueEntryOther.

Definition KeyEntryType_eqb (a b : KeyEntryType) : bool :=
  match a, b with
  | kColumnId, kColumnId | kSystemColumnId, kSystemColumnId
  | kKeyEntryOther, kKeyEntryOther => true
  | _, _ => false
  end.
Definition ValueEntryType_eqb (a b : ValueEntryType) : bool :=
  match a, b with
  | kTombstone, kTombstone | kNullLow, kNullLow | kPackedRow, kPackedRow
  | kValueEntryOther, kValueEntryOther => true
  | _, _ => false
  end.

(** [KeyEntryValue] and [PrimitiveValue] payloads are opaque here. *)
Definition PrimitiveValue := string.

Record KeyEntryValue := mkKeyEntry { ke_type : KeyEntryType; GetColumnId : ColumnId }.

Record SubDocKey := mkSubDocKey {
  hashed_group : list PrimitiveValue;
  range_group : list PrimitiveValue;
  num_subkeys : Z }.

Record Value := mkValue { value_type : ValueEntryType; primitive_value : PrimitiveValue }.

Inductive QLValuePB := QLNull | QLVal (v : string).
Definition IsNull (v : QLValuePB) : bool := match v with QLNull => true | _ => false end.

Record ColumnSchema := mkColumnSchema { name : string; type : Z; pg_type_oid : Z }.

Record ColumnSchemaPB := mkColumnSchemaPB {
  cpb_name : string; cpb_type : Z; cpb_is_key : bool; cpb_is_hash_key : bool;
  cpb_is_nullable : bool; cpb_pg_type_oid : Z }.

Record TablePropertiesPB := mkTableProperties {
  default_time_to_live : Z; num_tablets : Z; is_ysql_catalog_table : bool }.

Record SchemaPB := mkSchemaPB {
  columns : list ColumnSchemaPB;
  table_properties : TablePropertiesPB;
  spb_pgschema_name : string }.

Definition SchemaPB_default : SchemaPB := mkSchemaPB [] (mkTableProperties 0 0 false) "".

(** The [Schema] class, seen through the accessors this file calls. *)
Record Schema := mkSchema {
  num_columns : Z;
  num_key_columns : Z;
  is_key_column : ColumnId -> bool;
  column : Z -> ColumnSchema;
  column_id : Z -> ColumnId;
  column_by_id : ColumnId -> ColumnSchema + string;
  SchemaName : string;
  initialized : bool;
  SchemaToPB : SchemaPB }.

Record IntentKeyValueForCDC := mkIntent {
  key_buf : string;
  value_buf : string;
  reverse_index_key : string;
  write_id : Z;
  intent_ht : Z }.

Record ApplyTransactionState := mkApplyState { as_key : string; as_write_id : Z }.

Definition ApplyTransactionState_default : ApplyTransactionState := mkApplyState "" 0.

Inductive TableType := PGSQL_TABLE_TYPE | OTHER_TABLE_TYPE.

(** ** Collaborators *)

(** DocDB encoding and the generated protobuf code. *)
Record DocDB := mkDocDB {
  DocKey_EncodedSize : string -> nat + string;
  KeyEntryValue_DecodeKey : string -> KeyEntryValue + string;
  SubDocKey_DecodeFrom : string -> SubDocKey + string;
  SubDocKey_FullyDecodeFrom : string -> SubDocKey + string;
  Value_Decode : string -> Value + string;
  ValueControlFields_Decode : string -> string + string;
  DecodeValueEntryType : string -> ValueEntryType;
  ToQLValuePB : PrimitiveValue -> Z -> QLValuePB;
  SetValueFromQLBinaryWrapper : QLValuePB -> Z -> DatumMessagePB -> DatumMessagePB + string;
  GetPhysicalValueMicros : Z -> Z;
  RowMessage_IsInitialized : RowMessage -> bool;
  CDCSDKProtoRecordPB_IsInitialized : CDCSDKProtoRecordPB -> bool;
  IntentKeyValueForCDC_default : IntentKeyValueForCDC }.

Record Flags := mkFlags {
  FLAGS_cdc_snapshot_batch_size : Z;
  FLAGS_stream_truncate_record : bool;
  FLAGS_enable_single_record_update : bool;
  FLAGS_cdc_intent_retention_ms : Z;
  FLAGS_TEST_cdc_snapshot_failure : bool }.

Record RemoveIntentsData := mkRemoveIntentsData { rid_op_id : OpId; log_ht : Z }.

(** [txn_participant->context()].  [GetLastReplicatedData n] is what the
    call made after [n] earlier ones in the request leaves in [*data]: the
    tablet goes on replicating between the calls. *)
Record TransactionParticipantContext := mkContext {
  GetLastReplicatedData : nat -> RemoveIntentsData + string }.

(** [txn_participant] and its [context()]; either pointer may be null. *)
Record TransactionParticipant := mkParticipant {
  context : option TransactionParticipantContext;
  RequestScope_Create : unit + string }.

Inductive OperationType :=
| UPDATE_TRANSACTION_OP | WRITE_OP | CHANGE_METADATA_OP | TRUNCATE_OP | SPLIT_OP
| OTHER_OP.

Inductive TransactionStatus := APPLYING | OTHER_STATUS.

Record TransactionStatePB := mkTransactionState {
  ts_status : TransactionStatus;
  ts_transaction_id : string;
  commit_hybrid_time : string }.

Record ChangeMetadataRequestPB := mkChangeMetadata {
  cm_schema : SchemaPB;
  cm_schema_version : Z;
  cm_new_table_name : string }.

Definition ChangeMetadataRequestPB_default : ChangeMetadataRequestPB :=
  mkChangeMetadata SchemaPB_default 0 "".

Record ReplicateMsg := mkReplicateMsg {
  id : OpId;
  hybrid_time : Z;
  op_type : OperationType;
  transaction_state : TransactionStatePB;
  has_transaction : bool;
  write_pairs : list (string * string);
  change_metadata_request_opt : option ChangeMetadataRequestPB;
  has_truncate : bool;
  (** the text [msg->ShortDebugString()] prints *)
  ShortDebugString : string }.

(** The getter of an optional sub-message returns the default instance when
    the field is unset. *)
Definition change_metadata_request (msg : ReplicateMsg) : ChangeMetadataRequestPB :=
  match change_metadata_request_opt msg with
  | Some r => r
  | None => ChangeMetadataRequestPB_default
  end.
Definition has_change_metadata_request (msg : ReplicateMsg) : bool :=
  match change_metadata_request_opt msg with Some _ => true | None => false end.

(** The scan iterator of the snapshot path, by the number of rows already
    taken from it. *)
Record QLTableRow := mkRow { GetColumn : ColumnId -> option QLValuePB }.

Record SnapshotIterator := mkIterator {
  HasNext : nat -> bool + string;
  NextRow : nat -> QLTableRow + string;
  (** the encoded next key; the empty string when the document key is empty *)
  GetNextReadSubDocKey : nat -> string + string }.

(** What [tablet_peer->shared_tablet_safe()] gives access to. *)
Record Tablet := mkTablet {
  table_type : TableType;
  table_name : string;
  table_id : string;
  table_name_of : string -> string;
  metadata_schema_version : Z;
  tablet_schema : Schema;
  (** [GetIntents (transaction_id, stream_state)]: the vector handed back
      in [*keyValueIntents] and the state left in [*stream_state] *)
  GetIntents :
    string -> ApplyTransactionState ->
    (list IntentKeyValueForCDC * ApplyTransactionState) + string;
  transaction_participant : option TransactionParticipant;
  CreateCDCSnapshotIterator : Z -> string -> SnapshotIterator + string }.

Record TabletPeer := mkTabletPeer {
  shared_tablet_safe : Tablet + string;
  GetLatestCheckPoint : OpId;
  GetAllColocatedTables : list string;
  (** [ReadReplicatedMessagesForCDC (from, *last_readable_opid_index)]: the
      messages and the value left in [*last_readable_opid_index] *)
  ReadReplicatedMessagesForCDC :
    OpId -> option Z -> (list ReplicateMsg * option Z) + string }.

Record TabletLocationsPB := mkTabletLocations { split_parent_tablet_id : option string }.

Record YBClient := mkClient {
  GetTableSchemaFromSysCatalog : string -> Z -> (Schema * Z) + string;
  GetTablets : string -> list TabletLocationsPB + string;
  SchemaFromPB : SchemaPB -> Schema + string;
  DecodeTransactionId : string -> string + string;
  FullyDecodeTransactionId : string -> string + string }.

(** Calls on the consensus and the transaction participant that this file
    makes for their effect. *)
Inductive Effect :=
| UpdateCDCConsumerOpId (op_id : OpId)
| SetIntentRetainOpIdAndTime (op_id : OpId) (retention_ms : Z).

(** [OpId::Invalid()] ([yb/util/opid.h] is not among the sources). *)
Record OpIdDecl := mkOpIdDecl { OpId_Invalid : OpId }.

(** The collaborators are found by instance resolution. *)
Existing Class DocDB.
Existing Class Flags.
Existing Class TabletPeer.
Existing Class YBClient.
Existing Class OpIdDecl.

(** ** The producer *)

Section Producer.

Context {docdb : DocDB} {flags : Flags} {tablet_peer : TabletPeer} {client : YBClient}
        {opid_decl : OpIdDecl}.

Definition SetOperation (ty : RowMessage_Op) (schema : Schema) (m : RowMessage) : RowMessage :=
  set_pgschema_name (SchemaName schema) (set_op ty m).

Definition AddColumnToMap (col_schema : ColumnSchema) (col : PrimitiveValue)
  : M DatumMessagePB unit :=
  tablet <- liftC (shared_tablet_safe tablet_peer) ;;
  modify (fun d => mkDatum (name col_schema) (column_type d) (datum d)) ;;
  match table_type tablet with
  | PGSQL_TABLE_TYPE =>
      let ql_value := ToQLValuePB docdb col (type col_schema) in
      if negb (IsNull ql_value) && negb (pg_type_oid col_schema =? 0) then
        d <- get ;;
        d' <- liftC (SetValueFromQLBinaryWrapper docdb ql_value (pg_type_oid col_schema) d) ;;
        put d'
      else
        modify (fun d => mkDatum (column_name d) (pg_type_oid col_schema) (datum d))
  | OTHER_TABLE_TYPE => ret tt
  end.

(** [AddTuple] appends an entry to both lists; the pointer it returns
    designates the last entry of [old_tuple] for a DELETE and of [new_tuple]
    otherwise. *)
Definition AddTuple (m : RowMessage) : RowMessage :=
  add_new_tuple DatumMessagePB_default (add_old_tuple DatumMessagePB_default m).

Fixpoint set_last {A} (a : A) (l : list A) : list A :=
  match l with
  | [] => []
  | [_] => [a]
  | x :: r => x :: set_last a r
  end.

Definition tuple_of_AddTuple (m : RowMessage) : DatumMessagePB :=
  if Op_eqb (op m) RowMessage_Op_DELETE
  then last (old_tuple m) DatumMessagePB_default
  else last (new_tuple m) DatumMessagePB_default.

Definition set_tuple_of_AddTuple (d : DatumMessagePB) (m : RowMessage) : RowMessage :=
  if Op_eqb (op m) RowMessage_Op_DELETE
  then set_old_tuple (set_last d (old_tuple m)) m
  else set_new_tuple (set_last d (new_tuple m)) m.

(** One iteration of either loop of [AddPrimaryKey]. *)
Definition AddPrimaryKey_column (tablet_schema : Schema) (i : Z) (col : PrimitiveValue)
  : M RowMessage unit :=
  modify AddTuple ;;
  zoom tuple_of_AddTuple set_tuple_of_AddTuple
       (AddColumnToMap (column tablet_schema i) col).

Fixpoint AddPrimaryKey_loop (tablet_schema : Schema) (i : Z) (cols : list PrimitiveValue)
  : M RowMessage unit :=
  match cols with
  | [] => ret tt
  | col :: rest =>
      AddPrimaryKey_column tablet_schema i col ;;
      AddPrimaryKey_loop tablet_schema (i + 1) rest
  end.

Definition AddPrimaryKey (decoded_key : SubDocKey) (tablet_schema : Schema)
  : M RowMessage unit :=
  AddPrimaryKey_loop tablet_schema 0 (hashed_group decoded_key) ;;
  AddPrimaryKey_loop tablet_schema (Z.of_nat (List.length (hashed_group decoded_key)))
                     (range_group decoded_key).

Definition SetCDCSDKOpId (term index write_id : Z) (key : string) : CDCSDKOpIdPB :=
  mkCDCSDKOpId term index write_id key.

Definition IsInsertOperation (m : RowMessage) : bool :=
  Op_eqb (op m) RowMessage_Op_INSERT.

Definition IsInsertOrUpdate (m : RowMessage) : bool :=
  RowMessage_IsInitialized docdb m &&
  (Op_eqb (op m) RowMessage_Op_INSERT || Op_eqb (op m) RowMessage_Op_UPDATE).

(** *** [PopulateCDCSDKIntentRecord] *)

(** The objects [PopulateCDCSDKIntentRecord] reads and writes: the caller's
    [resp], [*write_id] and [*reverse_index_key], and its own locals.
    [row_message] points into [proto_record]. *)
Record IntentLoop := mkIntentLoop {
  il_resp : GetChangesResponsePB;
  il_write_id : Z;
  il_reverse_index_key : string;
  il_prev_key : string;
  il_proto_record : CDCSDKProtoRecordPB;
  il_col_count : Z;
  il_prev_intent : IntentKeyValueForCDC;
  il_prev_intent_phy_time : Z;
  il_new_cdc_record_needed : bool }.

Definition il_row_message (st : IntentLoop) : RowMessage := row_message (il_proto_record st).

Definition with_resp (v : GetChangesResponsePB) (st : IntentLoop) : IntentLoop :=
  mkIntentLoop v (il_write_id st) (il_reverse_index_key st) (il_prev_key st)
    (il_proto_record st) (il_col_count st) (il_prev_intent st) (il_prev_intent_phy_time st)
    (il_new_cdc_record_needed st).
Definition with_write_id (v : Z) (st : IntentLoop) : IntentLoop :=
  mkIntentLoop (il_resp st) v (il_reverse_index_key st) (il_prev_key st)
    (il_proto_record st) (il_col_count st) (il_prev_intent st) (il_prev_intent_phy_time st)
    (il_new_cdc_record_needed st).
Definition with_reverse_index_key (v : string) (st : IntentLoop) : IntentLoop :=
  mkIntentLoop (il_resp st) (il_write_id st) v (il_prev_key st)
    (il_proto_record st) (il_col_count st) (il_prev_intent st) (il_prev_intent_phy_time st)
    (il_new_cdc_record_needed st).
Definition with_prev_key (v : string) (st : IntentLoop) : IntentLoop :=
  mkIntentLoop (il_resp st) (il_write_id st) (il_reverse_index_key st) v
    (il_proto_record st) (il_col_count st) (il_prev_intent st) (il_prev_intent_phy_time st)
    (il_new_cdc_record_needed st).
Definition with_proto_record (v : CDCSDKProtoRecordPB) (st : IntentLoop) : IntentLoop :=
  mkIntentLoop (il_resp st) (il_write_id st) (il_reverse_index_key st) (il_prev_key st)
    v (il_col_count st) (il_prev_intent st) (il_prev_intent_phy_time st)
    (il_new_cdc_record_needed st).
Definition with_col_count (v : Z) (st : IntentLoop) : IntentLoop :=
  mkIntentLoop (il_resp st) (il_write_id st) (il_reverse_index_key st) (il_prev_key st)
    (il_proto_record st) v (il_prev_intent st) (il_prev_intent_phy_time st)
    (il_new_cdc_record_needed st).
Definition with_prev_intent (v : IntentKeyValueForCDC) (st : IntentLoop) : IntentLoop :=
  mkIntentLoop (il_resp st) (il_write_id st) (il_reverse_index_key st) (il_prev_key st)
    (il_proto_record st) (il_col_count st) v (il_prev_intent_phy_time st)
    (il_new_cdc_record_needed st).
Definition with_prev_intent_phy_time (v : Z) (st : IntentLoop) : IntentLoop :=
  mkIntentLoop (il_resp st) (il_write_id st) (il_reverse_index_key st) (il_prev_key st)
    (il_proto_record st) (il_col_count st) (il_prev_intent st) v
    (il_new_cdc_record_needed st).
Definition with_new_cdc_record_needed (v : bool) (st : IntentLoop) : IntentLoop :=
  mkIntentLoop (il_resp st) (il_write_id st) (il_reverse_index_key st) (il_prev_key st)
    (il_proto_record st) (il_col_count st) (il_prev_intent st) (il_prev_intent_phy_time st)
    v.
Definition with_row_message (m : RowMessage) (st : IntentLoop) : IntentLoop :=
  with_proto_record (mkProtoRecord m (cdc_sdk_op_id (il_proto_record st))) st.

(** [MakeNewProtoRecord]; [row_message] is the caller's [*row_message]. *)
Definition MakeNewProtoRecord (intent : IntentKeyValueForCDC) (op_id : OpId)
           (row_message : RowMessage) (st : IntentLoop) : IntentLoop :=
  let proto_record :=
    mkProtoRecord (il_row_message st)
      (SetCDCSDKOpId (op_term op_id) (op_index op_id) (write_id intent)
                     (reverse_index_key intent)) in
  let record_to_be_added := mkProtoRecord row_message (cdc_sdk_op_id proto_record) in
  with_reverse_index_key (reverse_index_key intent)
    (with_write_id (write_id intent)
       (with_resp (add_cdc_sdk_proto_records record_to_be_added (il_resp st))
          (with_proto_record proto_record st))).

(** [Slice(key.data(), key_size)] and [key.WithoutPrefix(key_size)]. *)
Definition Slice_prefix (key : string) (n : nat) : string := substring 0 n key.
Definition WithoutPrefix (key : string) (n : nat) : string :=
  substring n (String.length key - n) key.

Definition is_root_tombstone (decoded_value : Value) (decoded_key : SubDocKey) : bool :=
  ValueEntryType_eqb (value_type decoded_value) kTombstone && (num_subkeys decoded_key =? 0).

(** The decoding at the head of the loop body (lines 206-224). *)
Record DecodedIntent := mkDecoded {
  di_key_size : nat;
  di_column_id_opt : option KeyEntryValue;
  di_decoded_key : SubDocKey;
  di_decoded_value : Value }.

Definition decode_intent (intent : IntentKeyValueForCDC) : DecodedIntent + string :=
  match DocKey_EncodedSize docdb (key_buf intent) with
  | inr e => inr e
  | inl key_size =>
      let key_column := WithoutPrefix (key_buf intent) key_size in
      match (if String.eqb key_column ""
             then inl None
             else match KeyEntryValue_DecodeKey docdb key_column with
                  | inl column_id => inl (Some column_id)
                  | inr e => inr e
                  end) with
      | inr e => inr e
      | inl column_id_opt =>
          match SubDocKey_DecodeFrom docdb (key_buf intent) with
          | inr e => inr e
          | inl decoded_key =>
              match Value_Decode docdb (value_buf intent) with
              | inr e => inr e
              | inl decoded_value =>
                  inl (mkDecoded key_size column_id_opt decoded_key decoded_value)
              end
          end
      end
  end.

Definition has_type (column_id_opt : option KeyEntryValue) (t : KeyEntryType) : bool :=
  match column_id_opt with
  | Some c => KeyEntryType_eqb (ke_type c) t
  | None => false
  end.

(** The guard of line 226: the intent writes a primary-key column. *)
Definition is_key_column_intent (schema : Schema) (column_id_opt : option KeyEntryValue) : bool :=
  match column_id_opt with
  | Some c => KeyEntryType_eqb (ke_type c) kColumnId && is_key_column schema (GetColumnId c)
  | None => false
  end.

Definition intent_phy_time (intent : IntentKeyValueForCDC) : Z :=
  GetPhysicalValueMicros docdb (intent_ht intent).

(** Lines 240-248. *)
Definition compute_new_cdc_record_needed (schema : Schema) (intent : IntentKeyValueForCDC)
           (d : DecodedIntent) (st : IntentLoop) : bool :=
  let primary_key := Slice_prefix (key_buf intent) (di_key_size d) in
  if FLAGS_enable_single_record_update flags then
    negb (String.eqb (il_prev_key st) primary_key)
    || (num_columns schema <=? il_col_count st)
    || is_root_tombstone (di_decoded_value d) (di_decoded_key d)
    || negb (il_prev_intent_phy_time st =? intent_phy_time intent)
  else
    negb (String.eqb (il_prev_key st) primary_key)
    || (num_columns schema <=? il_col_count st).

Definition pending_update (st : IntentLoop) : bool :=
  CDCSDKProtoRecordPB_IsInitialized docdb (il_proto_record st)
  && RowMessage_IsInitialized docdb (il_row_message st)
  && Op_eqb (op (il_row_message st)) RowMessage_Op_UPDATE.

(** Lines 251-260: a pending UPDATE is flushed before a new record opens. *)
Definition flush_before_open (op_id : OpId) : M IntentLoop unit :=
  when (FLAGS_enable_single_record_update flags)
    (modify (fun st => if 0 <? il_col_count st then with_col_count 0 st else st) ;;
     st <- get ;;
     when (pending_update st)
          (modify (MakeNewProtoRecord (il_prev_intent st) op_id (il_row_message st)))).

(** Lines 262-291: the new record is cleared, classified and given its
    primary key. *)
Definition open_record (transaction_id : string) (schema : Schema)
           (intent : IntentKeyValueForCDC) (d : DecodedIntent) : M IntentLoop unit :=
  modify (with_proto_record CDCSDKProtoRecordPB_default) ;;
  (if is_root_tombstone (di_decoded_value d) (di_decoded_key d) then
     modify (fun st => with_row_message
                         (SetOperation RowMessage_Op_DELETE schema (il_row_message st)) st) ;;
     modify (with_write_id (write_id intent)) ;;
     when (negb (FLAGS_enable_single_record_update flags))
          (modify (with_col_count (num_columns schema)))
   else if has_type (di_column_id_opt d) kSystemColumnId
           && ValueEntryType_eqb (value_type (di_decoded_value d)) kNullLow then
     modify (fun st => with_row_message
                         (SetOperation RowMessage_Op_INSERT schema (il_row_message st)) st) ;;
     modify (with_col_count (wrap64 (num_key_columns schema - 1)))
   else
     modify (fun st => with_row_message
                         (SetOperation RowMessage_Op_UPDATE schema (il_row_message st)) st) ;;
     modify (with_write_id (write_id intent)) ;;
     when (negb (FLAGS_enable_single_record_update flags))
          (modify (with_col_count (num_columns schema)))) ;;
  modify (fun st => with_row_message (set_transaction_id transaction_id (il_row_message st)) st) ;;
  zoom il_row_message with_row_message (AddPrimaryKey (di_decoded_key d) schema).

(** Lines 296-321: the written column joins an INSERT or UPDATE message. *)
Definition fold_column (schema : Schema) (intent : IntentKeyValueForCDC)
           (d : DecodedIntent) : M IntentLoop unit :=
  st <- get ;;
  when (IsInsertOrUpdate (il_row_message st))
    ((if FLAGS_enable_single_record_update flags then
        modify (fun st => with_col_count (wrap64 (il_col_count st + 1)) st)
      else
        when (IsInsertOperation (il_row_message st))
             (modify (fun st => with_col_count (wrap64 (il_col_count st + 1)) st))) ;;
     decoded_value <- liftC (Value_Decode docdb (value_buf intent)) ;;
     match di_column_id_opt d with
     | Some column_id =>
         if KeyEntryType_eqb (ke_type column_id) kColumnId then
           col <- liftC (column_by_id schema (GetColumnId column_id)) ;;
           zoom il_row_message with_row_message
                (zoom (fun _ => DatumMessagePB_default) add_new_tuple
                      (AddColumnToMap col (primitive_value decoded_value))) ;;
           modify (fun st => with_row_message
                               (add_old_tuple DatumMessagePB_default (il_row_message st)) st)
         else ret tt
     | None => ret tt
     end).

(** Lines 323-342: the message is given its table and, when complete, copied
    into the response. *)
Definition emit_record (op_id : OpId) (schema : Schema) (table_name : string)
           (intent : IntentKeyValueForCDC) : M IntentLoop unit :=
  modify (fun st => with_row_message (set_table table_name (il_row_message st)) st) ;;
  st <- get ;;
  let m := il_row_message st in
  if FLAGS_enable_single_record_update flags then
    if (Op_eqb (op m) RowMessage_Op_INSERT && (il_col_count st =? num_columns schema))
       || Op_eqb (op m) RowMessage_Op_DELETE then
      modify (MakeNewProtoRecord intent op_id m) ;;
      modify (with_col_count (num_columns schema))
    else if Op_eqb (op m) RowMessage_Op_UPDATE then
      modify (with_prev_intent intent)
    else ret tt
  else
    when ((Op_eqb (op m) RowMessage_Op_INSERT && (il_col_count st =? num_columns schema))
          || (Op_eqb (op m) RowMessage_Op_UPDATE || Op_eqb (op m) RowMessage_Op_DELETE))
         (modify (MakeNewProtoRecord intent op_id m)).

(** The body of the loop over [intents] (lines 205-343). *)
Definition intent_body (op_id : OpId) (transaction_id : string) (schema : Schema)
           (table_name : string) (intent : IntentKeyValueForCDC) : M IntentLoop unit :=
  d <- liftC (decode_intent intent) ;;
  if is_key_column_intent schema (di_column_id_opt d) then
    modify (with_write_id (write_id intent)) ;;
    modify (with_reverse_index_key (reverse_index_key intent))
  else
    modify (fun st => with_new_cdc_record_needed
                        (compute_new_cdc_record_needed schema intent d st) st) ;;
    st <- get ;;
    when (il_new_cdc_record_needed st)
         (flush_before_open op_id ;;
          open_record transaction_id schema intent d) ;;
    modify (with_prev_key (Slice_prefix (key_buf intent) (di_key_size d))) ;;
    modify (with_prev_intent_phy_time (intent_phy_time intent)) ;;
    fold_column schema intent d ;;
    emit_record op_id schema table_name intent.

(** Lines 345-351: an UPDATE still pending when the intents run out. *)
Definition flush_at_end (op_id : OpId) (table_name : string) : M IntentLoop unit :=
  st <- get ;;
  when (FLAGS_enable_single_record_update flags && pending_update st)
       (modify (fun st => with_row_message (set_table table_name (il_row_message st)) st) ;;
        st <- get ;;
        modify (MakeNewProtoRecord (il_prev_intent st) op_id (il_row_message st))).

Definition IntentLoop_init (resp : GetChangesResponsePB) (write_id : Z)
           (reverse_index_key : string) : IntentLoop :=
  mkIntentLoop resp write_id reverse_index_key "" CDCSDKProtoRecordPB_default 0
               (IntentKeyValueForCDC_default docdb) 0 false.

Definition PopulateCDCSDKIntentRecord (op_id : OpId) (transaction_id : string)
           (intents : list IntentKeyValueForCDC) (schema : Schema) : M IntentLoop unit :=
  tablet <- liftC (shared_tablet_safe tablet_peer) ;;
  forM intents (intent_body op_id transaction_id schema (table_name tablet)) ;;
  flush_at_end op_id (table_name tablet).

(** *** [PopulateCDCSDKWriteRecord] *)

(** [proto_record] and [row_message] point at the record last added to
    [resp]; both are null until the first record is added. *)
Record WriteLoop := mkWriteLoop {
  wl_resp : GetChangesResponsePB;
  wl_prev_key : string;
  wl_proto_record_set : bool }.

Definition wl_with_resp (v : GetChangesResponsePB) (st : WriteLoop) : WriteLoop :=
  mkWriteLoop v (wl_prev_key st) (wl_proto_record_set st).

Definition last_record (resp : GetChangesResponsePB) : CDCSDKProtoRecordPB :=
  last (cdc_sdk_proto_records resp) CDCSDKProtoRecordPB_default.
Definition set_last_record (r : CDCSDKProtoRecordPB) (resp : GetChangesResponsePB)
  : GetChangesResponsePB :=
  mkResp (set_last r (cdc_sdk_proto_records resp)) (cdc_sdk_checkpoint resp)
         (checkpoint_op_id resp).
Definition with_record_row_message (m : RowMessage) (r : CDCSDKProtoRecordPB)
  : CDCSDKProtoRecordPB := mkProtoRecord m (cdc_sdk_op_id r).
Definition with_record_op_id (o : CDCSDKOpIdPB) (r : CDCSDKProtoRecordPB)
  : CDCSDKProtoRecordPB := mkProtoRecord (row_message r) o.

Definition wl_row_message (st : WriteLoop) : RowMessage :=
  row_message (last_record (wl_resp st)).
Definition wl_with_row_message (m : RowMessage) (st : WriteLoop) : WriteLoop :=
  wl_with_resp (set_last_record (with_record_row_message m (last_record (wl_resp st)))
                                (wl_resp st)) st.

Definition write_pair_body (msg : ReplicateMsg) (tablet_ptr : Tablet) (schema : Schema)
           (write_pair : string * string) : M WriteLoop unit :=
  let key := fst write_pair in
  let value := snd write_pair in
  key_size <- liftC (DocKey_EncodedSize docdb key) ;;
  decoded_value <- liftC (Value_Decode docdb value) ;;
  let primary_key := Slice_prefix key key_size in
  st <- get ;;
  when (negb (String.eqb (wl_prev_key st) primary_key))
    (modify (fun st => mkWriteLoop
                         (add_cdc_sdk_proto_records CDCSDKProtoRecordPB_default (wl_resp st))
                         (wl_prev_key st) true) ;;
     modify (fun st => wl_with_row_message
                         (set_table (table_name tablet_ptr)
                            (set_pgschema_name (SchemaName schema) (wl_row_message st))) st) ;;
     modify (fun st => wl_with_resp
                         (set_last_record
                            (with_record_op_id
                               (SetCDCSDKOpId (op_term (id msg)) (op_index (id msg)) 0 "")
                               (last_record (wl_resp st)))
                            (wl_resp st)) st) ;;
     decoded_key <- liftC (SubDocKey_DecodeFrom docdb key) ;;
     (if is_root_tombstone decoded_value decoded_key then
        modify (fun st => wl_with_row_message
                            (SetOperation RowMessage_Op_DELETE schema (wl_row_message st)) st)
      else
        column_id <- liftC (KeyEntryValue_DecodeKey docdb (WithoutPrefix key key_size)) ;;
        if KeyEntryType_eqb (ke_type column_id) kSystemColumnId
           && ValueEntryType_eqb (value_type decoded_value) kNullLow then
          modify (fun st => wl_with_row_message
                              (SetOperation RowMessage_Op_INSERT schema (wl_row_message st)) st)
        else
          modify (fun st => wl_with_row_message
                              (SetOperation RowMessage_Op_UPDATE schema (wl_row_message st)) st)) ;;
     zoom wl_row_message wl_with_row_message (AddPrimaryKey decoded_key schema) ;;
     modify (fun st => wl_with_row_message
                         (set_commit_time (hybrid_time msg) (wl_row_message st)) st)) ;;
  modify (fun st => mkWriteLoop (wl_resp st) primary_key (wl_proto_record_set st)) ;;
  st <- get ;;
  if negb (wl_proto_record_set st) then fail (Abort "row_message is null")
  else
    when (IsInsertOrUpdate (wl_row_message st))
      (column_id <- liftC (KeyEntryValue_DecodeKey docdb (WithoutPrefix key key_size)) ;;
       if KeyEntryType_eqb (ke_type column_id) kColumnId then
         col <- liftC (column_by_id schema (GetColumnId column_id)) ;;
         zoom wl_row_message wl_with_row_message
              (zoom (fun _ => DatumMessagePB_default) add_new_tuple
                    (AddColumnToMap col (primitive_value decoded_value))) ;;
         modify (fun st => wl_with_row_message
                             (add_old_tuple DatumMessagePB_default (wl_row_message st)) st)
       else ret tt).

Definition PopulateCDCSDKWriteRecord (msg : ReplicateMsg) (schema : Schema)
  : M GetChangesResponsePB unit :=
  tablet_ptr <- liftC (shared_tablet_safe tablet_peer) ;;
  zoom (fun resp => mkWriteLoop resp "" false) (fun st _ => wl_resp st)
       (forM (write_pairs msg) (write_pair_body msg tablet_ptr schema)).

(** *** DDL, TRUNCATE and snapshot records *)

Definition SetTableProperties (table_properties : TablePropertiesPB) : CDCSDKTablePropertiesPB :=
  mkTabInfo (default_time_to_live table_properties) (num_tablets table_properties)
            (is_ysql_catalog_table table_properties).

Definition SetColumnInfo (column : ColumnSchemaPB) : CDCSDKColumnInfoPB :=
  mkColumnInfo (cpb_name column) (cpb_type column) (cpb_is_key column)
               (cpb_is_hash_key column) (cpb_is_nullable column) (cpb_pg_type_oid column).

Definition PopulateCDCSDKDDLRecord (msg : ReplicateMsg) (table_name : string) (schema : Schema)
  : M CDCSDKProtoRecordPB unit :=
  if negb (has_change_metadata_request msg) then
    fail (STATUS InvalidArgument
                 ("Change metadata (DDL) message requires metadata information: "
                  ++ ShortDebugString msg))
  else
    modify (fun r => with_record_row_message
                       (set_table table_name (set_op RowMessage_Op_DDL (row_message r))) r) ;;
    modify (with_record_op_id (SetCDCSDKOpId (op_term (id msg)) (op_index (id msg)) 0 "")) ;;
    modify (fun r => with_record_row_message
                       (set_schema_column_info
                          (schema_column_info (row_message r)
                           ++ map SetColumnInfo (columns (cm_schema (change_metadata_request msg))))
                          (row_message r)) r) ;;
    modify (fun r => with_record_row_message
                       (set_schema_tab_info
                          (Some (SetTableProperties
                                   (table_properties (cm_schema (change_metadata_request msg)))))
                          (set_pgschema_name (SchemaName schema)
                             (set_new_table_name (cm_new_table_name (change_metadata_request msg))
                                (set_schema_version
                                   (cm_schema_version (change_metadata_request msg))
                                   (row_message r))))) r).

Definition PopulateCDCSDKTruncateRecord (msg : ReplicateMsg) (schema : Schema)
  : M CDCSDKProtoRecordPB unit :=
  if negb (has_truncate msg) then
    fail (STATUS InvalidArgument
                 ("Truncate message requires truncate request information: "
                  ++ ShortDebugString msg))
  else
    modify (fun r => with_record_row_message
                       (set_pgschema_name (SchemaName schema)
                          (set_op RowMessage_Op_TRUNCATE (row_message r))) r) ;;
    modify (with_record_op_id (SetCDCSDKOpId (op_term (id msg)) (op_index (id msg)) 0 "")).

(** [resp->add_cdc_sdk_proto_records()] is evaluated as an argument: the
    record is in the response before the callee runs. *)
Definition on_added_record (m : M CDCSDKProtoRecordPB unit) : M GetChangesResponsePB unit :=
  modify (add_cdc_sdk_proto_records CDCSDKProtoRecordPB_default) ;;
  zoom last_record set_last_record m.

(** The body of the loop over the columns in [PopulateCDCSDKSnapshotRecord]. *)
Definition snapshot_column (row : QLTableRow) (schema : Schema) (col_idx : Z)
  : M RowMessage unit :=
  let col_id := column_id schema col_idx in
  let value := GetColumn row col_id in
  col_schema <- liftC (column_by_id schema col_id) ;;
  zoom (fun _ => DatumMessagePB_default) add_new_tuple
       (modify (fun d => mkDatum (name col_schema) (column_type d) (datum d)) ;;
        match value with
        | Some v =>
            if negb (IsNull v) && negb (pg_type_oid col_schema =? 0) then
              d <- get ;;
              d' <- liftC (SetValueFromQLBinaryWrapper docdb v (pg_type_oid col_schema) d) ;;
              put d'
            else modify (fun d => mkDatum (column_name d) (pg_type_oid col_schema) (datum d))
        | None => modify (fun d => mkDatum (column_name d) (pg_type_oid col_schema) (datum d))
        end) ;;
  modify (add_old_tuple DatumMessagePB_default).

(** The column indexes [0 .. num_columns - 1]. *)
Definition column_indexes (schema : Schema) : list Z :=
  map Z.of_nat (seq 0 (Z.to_nat (num_columns schema))).

Definition PopulateCDCSDKSnapshotRecord (row : QLTableRow) (schema : Schema) (time : Z)
  : M GetChangesResponsePB unit :=
  tablet <- liftC (shared_tablet_safe tablet_peer) ;;
  modify (add_cdc_sdk_proto_records CDCSDKProtoRecordPB_default) ;;
  zoom last_record set_last_record
    (zoom row_message with_record_row_message
       (modify (fun m => set_commit_time time
                           (set_pgschema_name (SchemaName schema)
                              (set_op RowMessage_Op_READ
                                 (set_table (table_name tablet) m)))) ;;
        forM (column_indexes schema) (snapshot_column row schema))).

Definition FillDDLInfo_record (tablet : Tablet) (table_id : string) (current_schema : Schema)
           (current_schema_version : Z) : CDCSDKProtoRecordPB :=
  let schema_pb := SchemaToPB current_schema in
  mkProtoRecord
    (set_schema_tab_info (Some (SetTableProperties (table_properties schema_pb)))
       (set_pgschema_name (spb_pgschema_name schema_pb)
          (set_schema_version current_schema_version
             (set_schema_column_info (map SetColumnInfo (columns schema_pb))
                (set_table (table_name_of tablet table_id)
                   (set_op RowMessage_Op_DDL RowMessage_default))))))
    CDCSDKOpIdPB_default.

Definition FillDDLInfo (current_schema : Schema) (current_schema_version : Z)
           (resp : GetChangesResponsePB) : GetChangesResponsePB :=
  fold_left
    (fun resp table_id =>
       match shared_tablet_safe tablet_peer with
       | inr _ => resp
       | inl tablet =>
           add_cdc_sdk_proto_records
             (FillDDLInfo_record tablet table_id current_schema current_schema_version) resp
       end)
    (GetAllColocatedTables tablet_peer) resp.

Definition VerifyTabletSplitOnParentTablet (table_id tablet_id : string) : bool :=
  match GetTablets client table_id with
  | inr _ => false
  | inl tablets =>
      let children_tablet_count :=
        to_uint32
          (Z.of_nat
             (List.length
                (filter (fun tablet =>
                           match split_parent_tablet_id tablet with
                           | Some parent => String.eqb parent tablet_id
                           | None => false
                           end) tablets))) in
      children_tablet_count =? 2
  end.

(** *** [ProcessIntents] *)

(** The caller's [resp], [checkpoint], [*keyValueIntents], [*stream_state],
    [*cached_schema] and [*cached_schema_version], and the locals
    [current_schema], [write_id] and [reverse_index_key]. *)
Record ProcessIntentsState := mkProcessIntentsState {
  pi_resp : GetChangesResponsePB;
  pi_checkpoint : CDCSDKCheckpointPB;
  pi_keyValueIntents : list IntentKeyValueForCDC;
  pi_stream_state : ApplyTransactionState;
  pi_cached_schema : Schema;
  pi_cached_schema_version : Z;
  pi_current_schema : Schema;
  pi_write_id : Z;
  pi_reverse_index_key : string }.

Definition set_pi_resp (v : GetChangesResponsePB) (st : ProcessIntentsState) : ProcessIntentsState :=
    mkProcessIntentsState v (pi_checkpoint st) (pi_keyValueIntents st) (pi_stream_state st)
    (pi_cached_schema st) (pi_cached_schema_version st) (pi_current_schema st) (pi_write_id
    st) (pi_reverse_index_key st).
Definition set_pi_checkpoint (v : CDCSDKCheckpointPB) (st : ProcessIntentsState) : ProcessIntentsState :=
    mkProcessIntentsState (pi_resp st) v (pi_keyValueIntents st) (pi_stream_state st)
    (pi_cached_schema st) (pi_cached_schema_version st) (pi_current_schema st) (pi_write_id
    st) (pi_reverse_index_key st).
Definition set_pi_keyValueIntents (v : list IntentKeyValueForCDC) (st : ProcessIntentsState) : ProcessIntentsState :=
    mkProcessIntentsState (pi_resp st) (pi_checkpoint st) v (pi_stream_state st)
    (pi_cached_schema st) (pi_cached_schema_version st) (pi_current_schema st) (pi_write_id
    st) (pi_reverse_index_key st).
Definition set_pi_stream_state (v : ApplyTransactionState) (st : ProcessIntentsState) : ProcessIntentsState :=
    mkProcessIntentsState (pi_resp st) (pi_checkpoint st) (pi_keyValueIntents st) v
    (pi_cached_schema st) (pi_cached_schema_version st) (pi_current_schema st) (pi_write_id
    st) (pi_reverse_index_key st).
Definition set_pi_cached_schema (v : Schema) (st : ProcessIntentsState) : ProcessIntentsState :=
    mkProcessIntentsState (pi_resp st) (pi_checkpoint st) (pi_keyValueIntents st)
    (pi_stream_state st) v (pi_cached_schema_version st) (pi_current_schema st) (pi_write_id
    st) (pi_reverse_index_key st).
Definition set_pi_cached_schema_version (v : Z) (st : ProcessIntentsState) : ProcessIntentsState :=
    mkProcessIntentsState (pi_resp st) (pi_checkpoint st) (pi_keyValueIntents st)
    (pi_stream_state st) (pi_cached_schema st) v (pi_current_schema st) (pi_write_id st)
    (pi_reverse_index_key st).
Definition set_pi_current_schema (v : Schema) (st : ProcessIntentsState) : ProcessIntentsState :=
    mkProcessIntentsState (pi_resp st) (pi_checkpoint st) (pi_keyValueIntents st)
    (pi_stream_state st) (pi_cached_schema st) (pi_cached_schema_version st) v (pi_write_id
    st) (pi_reverse_index_key st).
Definition set_pi_write_id (v : Z) (st : ProcessIntentsState) : ProcessIntentsState :=
    mkProcessIntentsState (pi_resp st) (pi_checkpoint st) (pi_keyValueIntents st)
    (pi_stream_state st) (pi_cached_schema st) (pi_cached_schema_version st)
    (pi_current_schema st) v (pi_reverse_index_key st).
Definition set_pi_reverse_index_key (v : string) (st : ProcessIntentsState) : ProcessIntentsState :=
    mkProcessIntentsState (pi_resp st) (pi_checkpoint st) (pi_keyValueIntents st)
    (pi_stream_state st) (pi_cached_schema st) (pi_cached_schema_version st)
    (pi_current_schema st) (pi_write_id st) v.

Definition SetTermIndex (term index : Z) (checkpoint : CDCSDKCheckpointPB)
  : CDCSDKCheckpointPB :=
  mkCheckpoint term index (cp_write_id checkpoint) (cp_key checkpoint)
               (cp_snapshot_time checkpoint).

Definition SetKeyWriteId (key : string) (write_id : Z) (checkpoint : CDCSDKCheckpointPB)
  : CDCSDKCheckpointPB :=
  mkCheckpoint (cp_term checkpoint) (cp_index checkpoint) (to_int32 write_id) key
               (cp_snapshot_time checkpoint).

Definition is_fresh (stream_state : ApplyTransactionState) : bool :=
  String.eqb (as_key stream_state) "" && (as_write_id stream_state =? 0).

Definition BEGIN_record (transaction_id table_name : string) : CDCSDKProtoRecordPB :=
  mkProtoRecord
    (set_table table_name
       (set_transaction_id transaction_id (set_op RowMessage_Op_BEGIN RowMessage_default)))
    CDCSDKOpIdPB_default.

Definition COMMIT_record (op_id : OpId) (transaction_id table_name : string)
  : CDCSDKProtoRecordPB :=
  mkProtoRecord
    (set_table table_name
       (set_transaction_id transaction_id (set_op RowMessage_Op_COMMIT RowMessage_default)))
    (SetCDCSDKOpId (op_term op_id) (op_index op_id) 0 "").

Definition IntentsGCed_status (transaction_id : string) : Error :=
  STATUS InternalError
         ("CDCSDK Trying to fetch already GCed intents for transaction " ++ transaction_id).

(** The body of the loop of lines 566-600. *)
Definition resolve_schema_body (tablet : Tablet) (keyValue : IntentKeyValueForCDC)
  : M ProcessIntentsState unit :=
  sub_doc_key <- checkC (SubDocKey_FullyDecodeFrom docdb (key_buf keyValue)) ;;
  st <- get ;;
  when (negb (initialized (pi_cached_schema st)))
    (match GetTableSchemaFromSysCatalog client (table_id tablet) (intent_ht keyValue) with
     | inr _ =>
         modify (set_pi_current_schema (tablet_schema tablet)) ;;
         modify (set_pi_cached_schema_version (metadata_schema_version tablet))
     | inl result =>
         modify (set_pi_current_schema (fst result)) ;;
         modify (set_pi_cached_schema_version (snd result)) ;;
         modify (set_pi_cached_schema (fst result))
     end) ;;
  value_slice <- liftC (ValueControlFields_Decode docdb (value_buf keyValue)) ;;
  match DecodeValueEntryType docdb value_slice with
  | kPackedRow => ret tt
  | _ => decoded_value <- liftC (Value_Decode docdb (value_buf keyValue)) ;; ret tt
  end.

Definition ProcessIntents (op_id : OpId) (transaction_id : string)
  : M ProcessIntentsState unit :=
  tablet <- liftC (shared_tablet_safe tablet_peer) ;;
  st <- get ;;
  when (is_fresh (pi_stream_state st))
       (modify (fun st => set_pi_resp
                            (add_cdc_sdk_proto_records
                               (BEGIN_record transaction_id (table_name tablet)) (pi_resp st))
                            st)) ;;
  fetched <- liftC (GetIntents tablet transaction_id (pi_stream_state st)) ;;
  modify (set_pi_keyValueIntents (fst fetched)) ;;
  modify (set_pi_stream_state (snd fetched)) ;;
  let checkpoint_op_id := GetLatestCheckPoint tablet_peer in
  st <- get ;;
  if Nat.eqb (List.length (pi_keyValueIntents st)) 0 && OpId_le op_id checkpoint_op_id then
    fail (IntentsGCed_status transaction_id)
  else
    modify (fun st => set_pi_current_schema (pi_cached_schema st) st) ;;
    forM (pi_keyValueIntents st) (resolve_schema_body tablet) ;;
    modify (set_pi_reverse_index_key "") ;;
    modify (set_pi_write_id 0) ;;
    st <- get ;;
    zoom (fun st => IntentLoop_init (pi_resp st) (pi_write_id st) (pi_reverse_index_key st))
         (fun il st => set_pi_reverse_index_key (il_reverse_index_key il)
                         (set_pi_write_id (il_write_id il) (set_pi_resp (il_resp il) st)))
         (PopulateCDCSDKIntentRecord op_id transaction_id (pi_keyValueIntents st)
                                     (pi_current_schema st)) ;;
    modify (fun st => set_pi_checkpoint
                        (SetTermIndex (op_term op_id) (op_index op_id) (pi_checkpoint st)) st) ;;
    st <- get ;;
    if is_fresh (pi_stream_state st) then
      modify (fun st => set_pi_resp
                          (add_cdc_sdk_proto_records
                             (COMMIT_record op_id transaction_id (table_name tablet))
                             (pi_resp st)) st) ;;
      modify (fun st => set_pi_checkpoint (SetKeyWriteId "" 0 (pi_checkpoint st)) st)
    else
      modify (fun st => set_pi_checkpoint
                          (SetKeyWriteId (pi_reverse_index_key st) (pi_write_id st)
                                         (pi_checkpoint st)) st).

(** *** [GetChangesForCDCSDK] *)

(** The caller's [resp], [*cached_schema], [*cached_schema_version],
    [*last_streamed_op_id], [*commit_timestamp] and
    [*last_readable_opid_index] (null when [None]), the calls made for their
    effect, and the locals of the function. *)
Record GetChangesState := mkGetChangesState {
  gc_resp : GetChangesResponsePB;
  gc_checkpoint : CDCSDKCheckpointPB;
  gc_checkpoint_updated : bool;
  gc_report_tablet_split : bool;
  gc_split_op_id : OpId;
  gc_snapshot_operation : bool;
  gc_op_id : OpId;
  gc_cached_schema : Schema;
  gc_cached_schema_version : Z;
  gc_last_streamed_op_id : OpId;
  gc_commit_timestamp : string;
  gc_last_readable_opid_index : option Z;
  gc_effects : list Effect;
  gc_last_seen_op_id : OpId;
  gc_last_seen_default_message_op_id : OpId;
  gc_current_schema : Schema;
  gc_pending_intents : bool;
  gc_schema_streamed : bool }.

Definition set_gc_resp (v : GetChangesResponsePB) (st : GetChangesState) : GetChangesState :=
  mkGetChangesState v (gc_checkpoint st) (gc_checkpoint_updated st) (gc_report_tablet_split
    st) (gc_split_op_id st) (gc_snapshot_operation st) (gc_op_id st) (gc_cached_schema st)
    (gc_cached_schema_version st) (gc_last_streamed_op_id st) (gc_commit_timestamp st)
    (gc_last_readable_opid_index st) (gc_effects st) (gc_last_seen_op_id st)
    (gc_last_seen_default_message_op_id st) (gc_current_schema st) (gc_pending_intents st)
    (gc_schema_streamed st).
Definition set_gc_checkpoint (v : CDCSDKCheckpointPB) (st : GetChangesState) : GetChangesState :=
  mkGetChangesState (gc_resp st) v (gc_checkpoint_updated st) (gc_report_tablet_split st)
    (gc_split_op_id st) (gc_snapshot_operation st) (gc_op_id st) (gc_cached_schema st)
    (gc_cached_schema_version st) (gc_last_streamed_op_id st) (gc_commit_timestamp st)
    (gc_last_readable_opid_index st) (gc_effects st) (gc_last_seen_op_id st)
    (gc_last_seen_default_message_op_id st) (gc_current_schema st) (gc_pending_intents st)
    (gc_schema_streamed st).
Definition set_gc_checkpoint_updated (v : bool) (st : GetChangesState) : GetChangesState :=
  mkGetChangesState (gc_resp st) (gc_checkpoint st) v (gc_report_tablet_split st)
    (gc_split_op_id st) (gc_snapshot_operation st) (gc_op_id st) (gc_cached_schema st)
    (gc_cached_schema_version st) (gc_last_streamed_op_id st) (gc_commit_timestamp st)
    (gc_last_readable_opid_index st) (gc_effects st) (gc_last_seen_op_id st)
    (gc_last_seen_default_message_op_id st) (gc_current_schema st) (gc_pending_intents st)
    (gc_schema_streamed st).
Definition set_gc_report_tablet_split (v : bool) (st : GetChangesState) : GetChangesState :=
  mkGetChangesState (gc_resp st) (gc_checkpoint st) (gc_checkpoint_updated st) v
    (gc_split_op_id st) (gc_snapshot_operation st) (gc_op_id st) (gc_cached_schema st)
    (gc_cached_schema_version st) (gc_last_streamed_op_id st) (gc_commit_timestamp st)
    (gc_last_readable_opid_index st) (gc_effects st) (gc_last_seen_op_id st)
    (gc_last_seen_default_message_op_id st) (gc_current_schema st) (gc_pending_intents st)
    (gc_schema_streamed st).
Definition set_gc_split_op_id (v : OpId) (st : GetChangesState) : GetChangesState :=
  mkGetChangesState (gc_resp st) (gc_checkpoint st) (gc_checkpoint_updated st)
    (gc_report_tablet_split st) v (gc_snapshot_operation st) (gc_op_id st) (gc_cached_schema
    st) (gc_cached_schema_version st) (gc_last_streamed_op_id st) (gc_commit_timestamp st)
    (gc_last_readable_opid_index st) (gc_effects st) (gc_last_seen_op_id st)
    (gc_last_seen_default_message_op_id st) (gc_current_schema st) (gc_pending_intents st)
    (gc_schema_streamed st).
Definition set_gc_snapshot_operation (v : bool) (st : GetChangesState) : GetChangesState :=
  mkGetChangesState (gc_resp st) (gc_checkpoint st) (gc_checkpoint_updated st)
    (gc_report_tablet_split st) (gc_split_op_id st) v (gc_op_id st) (gc_cached_schema st)
    (gc_cached_schema_version st) (gc_last_streamed_op_id st) (gc_commit_timestamp st)
    (gc_last_readable_opid_index st) (gc_effects st) (gc_last_seen_op_id st)
    (gc_last_seen_default_message_op_id st) (gc_current_schema st) (gc_pending_intents st)
    (gc_schema_streamed st).
Definition set_gc_op_id (v : OpId) (st : GetChangesState) : GetChangesState :=
  mkGetChangesState (gc_resp st) (gc_checkpoint st) (gc_checkpoint_updated st)
    (gc_report_tablet_split st) (gc_split_op_id st) (gc_snapshot_operation st) v
    (gc_cached_schema st) (gc_cached_schema_version st) (gc_last_streamed_op_id st)
    (gc_commit_timestamp st) (gc_last_readable_opid_index st) (gc_effects st)
    (gc_last_seen_op_id st) (gc_last_seen_default_message_op_id st) (gc_current_schema st)
    (gc_pending_intents st) (gc_schema_streamed st).
Definition set_gc_cached_schema (v : Schema) (st : GetChangesState) : GetChangesState :=
  mkGetChangesState (gc_resp st) (gc_checkpoint st) (gc_checkpoint_updated st)
    (gc_report_tablet_split st) (gc_split_op_id st) (gc_snapshot_operation st) (gc_op_id st)
    v (gc_cached_schema_version st) (gc_last_streamed_op_id st) (gc_commit_timestamp st)
    (gc_last_readable_opid_index st) (gc_effects st) (gc_last_seen_op_id st)
    (gc_last_seen_default_message_op_id st) (gc_current_schema st) (gc_pending_intents st)
    (gc_schema_streamed st).
Definition set_gc_cached_schema_version (v : Z) (st : GetChangesState) : GetChangesState :=
  mkGetChangesState (gc_resp st) (gc_checkpoint st) (gc_checkpoint_updated st)
    (gc_report_tablet_split st) (gc_split_op_id st) (gc_snapshot_operation st) (gc_op_id st)
    (gc_cached_schema st) v (gc_last_streamed_op_id st) (gc_commit_timestamp st)
    (gc_last_readable_opid_index st) (gc_effects st) (gc_last_seen_op_id st)
    (gc_last_seen_default_message_op_id st) (gc_current_schema st) (gc_pending_intents st)
    (gc_schema_streamed st).
Definition set_gc_last_streamed_op_id (v : OpId) (st : GetChangesState) : GetChangesState :=
  mkGetChangesState (gc_resp st) (gc_checkpoint st) (gc_checkpoint_updated st)
    (gc_report_tablet_split st) (gc_split_op_id st) (gc_snapshot_operation st) (gc_op_id st)
    (gc_cached_schema st) (gc_cached_schema_version st) v (gc_commit_timestamp st)
    (gc_last_readable_opid_index st) (gc_effects st) (gc_last_seen_op_id st)
    (gc_last_seen_default_message_op_id st) (gc_current_schema st) (gc_pending_intents st)
    (gc_schema_streamed st).
Definition set_gc_commit_timestamp (v : string) (st : GetChangesState) : GetChangesState :=
  mkGetChangesState (gc_resp st) (gc_checkpoint st) (gc_checkpoint_updated st)
    (gc_report_tablet_split st) (gc_split_op_id st) (gc_snapshot_operation st) (gc_op_id st)
    (gc_cached_schema st) (gc_cached_schema_version st) (gc_last_streamed_op_id st) v
    (gc_last_readable_opid_index st) (gc_effects st) (gc_last_seen_op_id st)
    (gc_last_seen_default_message_op_id st) (gc_current_schema st) (gc_pending_intents st)
    (gc_schema_streamed st).
Definition set_gc_last_readable_opid_index (v : option Z) (st : GetChangesState) : GetChangesState :=
  mkGetChangesState (gc_resp st) (gc_checkpoint st) (gc_checkpoint_updated st)
    (gc_report_tablet_split st) (gc_split_op_id st) (gc_snapshot_operation st) (gc_op_id st)
    (gc_cached_schema st) (gc_cached_schema_version st) (gc_last_streamed_op_id st)
    (gc_commit_timestamp st) v (gc_effects st) (gc_last_seen_op_id st)
    (gc_last_seen_default_message_op_id st) (gc_current_schema st) (gc_pending_intents st)
    (gc_schema_streamed st).
Definition set_gc_effects (v : list Effect) (st : GetChangesState) : GetChangesState :=
  mkGetChangesState (gc_resp st) (gc_checkpoint st) (gc_checkpoint_updated st)
    (gc_report_tablet_split st) (gc_split_op_id st) (gc_snapshot_operation st) (gc_op_id st)
    (gc_cached_schema st) (gc_cached_schema_version st) (gc_last_streamed_op_id st)
    (gc_commit_timestamp st) (gc_last_readable_opid_index st) v (gc_last_seen_op_id st)
    (gc_last_seen_default_message_op_id st) (gc_current_schema st) (gc_pending_intents st)
    (gc_schema_streamed st).
Definition set_gc_last_seen_op_id (v : OpId) (st : GetChangesState) : GetChangesState :=
  mkGetChangesState (gc_resp st) (gc_checkpoint st) (gc_checkpoint_updated st)
    (gc_report_tablet_split st) (gc_split_op_id st) (gc_snapshot_operation st) (gc_op_id st)
    (gc_cached_schema st) (gc_cached_schema_version st) (gc_last_streamed_op_id st)
    (gc_commit_timestamp st) (gc_last_readable_opid_index st) (gc_effects st) v
    (gc_last_seen_default_message_op_id st) (gc_current_schema st) (gc_pending_intents st)
    (gc_schema_streamed st).
Definition set_gc_last_seen_default_message_op_id (v : OpId) (st : GetChangesState) : GetChangesState :=
  mkGetChangesState (gc_resp st) (gc_checkpoint st) (gc_checkpoint_updated st)
    (gc_report_tablet_split st) (gc_split_op_id st) (gc_snapshot_operation st) (gc_op_id st)
    (gc_cached_schema st) (gc_cached_schema_version st) (gc_last_streamed_op_id st)
    (gc_commit_timestamp st) (gc_last_readable_opid_index st) (gc_effects st)
    (gc_last_seen_op_id st) v (gc_current_schema st) (gc_pending_intents st)
    (gc_schema_streamed st).
Definition set_gc_current_schema (v : Schema) (st : GetChangesState) : GetChangesState :=
  mkGetChangesState (gc_resp st) (gc_checkpoint st) (gc_checkpoint_updated st)
    (gc_report_tablet_split st) (gc_split_op_id st) (gc_snapshot_operation st) (gc_op_id st)
    (gc_cached_schema st) (gc_cached_schema_version st) (gc_last_streamed_op_id st)
    (gc_commit_timestamp st) (gc_last_readable_opid_index st) (gc_effects st)
    (gc_last_seen_op_id st) (gc_last_seen_default_message_op_id st) v (gc_pending_intents
    st) (gc_schema_streamed st).
Definition set_gc_pending_intents (v : bool) (st : GetChangesState) : GetChangesState :=
  mkGetChangesState (gc_resp st) (gc_checkpoint st) (gc_checkpoint_updated st)
    (gc_report_tablet_split st) (gc_split_op_id st) (gc_snapshot_operation st) (gc_op_id st)
    (gc_cached_schema st) (gc_cached_schema_version st) (gc_last_streamed_op_id st)
    (gc_commit_timestamp st) (gc_last_readable_opid_index st) (gc_effects st)
    (gc_last_seen_op_id st) (gc_last_seen_default_message_op_id st) (gc_current_schema st) v
    (gc_schema_streamed st).
Definition set_gc_schema_streamed (v : bool) (st : GetChangesState) : GetChangesState :=
  mkGetChangesState (gc_resp st) (gc_checkpoint st) (gc_checkpoint_updated st)
    (gc_report_tablet_split st) (gc_split_op_id st) (gc_snapshot_operation st) (gc_op_id st)
    (gc_cached_schema st) (gc_cached_schema_version st) (gc_last_streamed_op_id st)
    (gc_commit_timestamp st) (gc_last_readable_opid_index st) (gc_effects st)
    (gc_last_seen_op_id st) (gc_last_seen_default_message_op_id st) (gc_current_schema st)
    (gc_pending_intents st) v.

Definition Schema_default : Schema :=
  mkSchema 0 0 (fun _ => false) (fun _ => mkColumnSchema "" 0 0) (fun _ => 0)
           (fun _ => inr "column not found") "" false SchemaPB_default.

Definition GetChangesState_init (resp : GetChangesResponsePB) (cached_schema : Schema)
           (cached_schema_version : Z) (last_streamed_op_id : OpId)
           (commit_timestamp : string) (last_readable_opid_index : option Z)
           (from_op_id : CDCSDKCheckpointPB) : GetChangesState :=
  mkGetChangesState resp CDCSDKCheckpointPB_default false false (OpId_Invalid opid_decl) false
    (mkOpId (cp_term from_op_id) (cp_index from_op_id))
    cached_schema cached_schema_version last_streamed_op_id commit_timestamp
    last_readable_opid_index [] (mkOpId (cp_term from_op_id) (cp_index from_op_id))
    (OpId_Invalid opid_decl) Schema_default false false.

(** [SetCheckpoint]; [last_streamed_op_id] is null when [set_last_streamed]
    is [false]. *)
Definition SetCheckpoint (term index write_id : Z) (key : string) (time : Z)
           (set_last_streamed : bool) (st : GetChangesState) : GetChangesState :=
  let st := set_gc_checkpoint (mkCheckpoint term index write_id key time) st in
  if set_last_streamed then set_gc_last_streamed_op_id (mkOpId term index) st else st.

(** A call of [ProcessIntents] on the caller's objects with a fresh
    [keyValueIntents]; the value returned is what the call leaves in
    [*stream_state]. *)
Definition call_ProcessIntents (op_id : OpId) (transaction_id : string)
           (stream_state : ApplyTransactionState) : M GetChangesState ApplyTransactionState :=
  fun st =>
    let (r, pi) :=
      ProcessIntents op_id transaction_id
        (mkProcessIntentsState (gc_resp st) (gc_checkpoint st) [] stream_state
           (gc_cached_schema st) (gc_cached_schema_version st) (gc_cached_schema st) 0 "") in
    (match r with inl _ => inl (pi_stream_state pi) | inr e => inr e end,
     set_gc_cached_schema_version (pi_cached_schema_version pi)
       (set_gc_cached_schema (pi_cached_schema pi)
          (set_gc_checkpoint (pi_checkpoint pi) (set_gc_resp (pi_resp pi) st)))).

Definition on_resp (m : M GetChangesResponsePB unit) : M GetChangesState unit :=
  zoom gc_resp set_gc_resp m.

Definition participant_context_is_null : Error :=
  STATUS Corruption "Cannot read data as the transaction participant context is null".

(** Lines 768-796: the first call of a snapshot.  [data] is read at line
    773 and read again, into the same variable, at line 789. *)
Definition snapshot_first_call (tablet_ptr : Tablet) : M GetChangesState unit :=
  match transaction_participant tablet_ptr with
  | None => fail participant_context_is_null
  | Some txn_participant =>
      match context txn_participant with
      | None => fail participant_context_is_null
      | Some txn_context =>
          data <- liftC (GetLastReplicatedData txn_context 0) ;;
          modify (fun st => set_gc_effects
                              (gc_effects st ++ [UpdateCDCConsumerOpId (rid_op_id data)]) st) ;;
          modify (fun st => set_gc_effects
                              (gc_effects st
                               ++ [SetIntentRetainOpIdAndTime (rid_op_id data)
                                     (FLAGS_cdc_intent_retention_ms flags)]) st) ;;
          data <- liftC (GetLastReplicatedData txn_context 1) ;;
          let time := log_ht data in
          modify (SetCheckpoint (op_term (rid_op_id data)) (op_index (rid_op_id data))
                                (-1) "" time false) ;;
          modify (set_gc_checkpoint_updated true)
      end
  end.

(** The loop of lines 840-845; [remaining] is [limit - fetched]. *)
Fixpoint snapshot_rows (iter : SnapshotIterator) (schema : Schema) (time : Z)
         (remaining fetched : nat) : M GetChangesState nat :=
  has_next <- liftC (HasNext iter fetched) ;;
  match remaining with
  | O => ret fetched
  | S remaining' =>
      if has_next : bool then
        row <- liftC (NextRow iter fetched) ;;
        on_resp (PopulateCDCSDKSnapshotRecord row schema time) ;;
        snapshot_rows iter schema time remaining' (S fetched)
      else ret fetched
  end.

Definition UINT64_MAX : Z := 2 ^ 64 - 1.

(** Lines 798-865: a snapshot already under way. *)
Definition snapshot_next_call (tablet_id : string) (from_op_id : CDCSDKCheckpointPB)
           (tablet_ptr : Tablet) : M GetChangesState unit :=
  let time := cp_snapshot_time from_op_id in
  let nextKey := cp_key from_op_id in
  if FLAGS_TEST_cdc_snapshot_failure flags then
    fail (STATUS ServiceUnavailable
                 ("CDC snapshot is failed for tablet: " ++ tablet_id ++ " "))
  else
    st <- get ;;
    resolved <-
      (if negb (initialized (gc_cached_schema st)) then
         match GetTableSchemaFromSysCatalog client (table_id tablet_ptr) UINT64_MAX with
         | inr _ => ret (tablet_schema tablet_ptr, metadata_schema_version tablet_ptr)
         | inl result =>
             modify (set_gc_cached_schema (fst result)) ;;
             modify (set_gc_cached_schema_version (snd result)) ;;
             ret result
         end
       else ret (gc_cached_schema st, gc_cached_schema_version st)) ;;
    let schema := fst resolved in
    let schema_version := snd resolved in
    on_resp (modify (FillDDLInfo schema schema_version)) ;;
    let limit := FLAGS_cdc_snapshot_batch_size flags in
    iter <- liftC (CreateCDCSnapshotIterator tablet_ptr time nextKey) ;;
    fetched <- snapshot_rows iter schema time (Z.to_nat limit) 0 ;;
    sub_doc_key <- liftC (GetNextReadSubDocKey iter fetched) ;;
    if String.eqb sub_doc_key "" then
      modify (SetCheckpoint (cp_term from_op_id) (cp_index from_op_id) 0 "" 0 false) ;;
      modify (set_gc_checkpoint_updated true)
    else
      modify (SetCheckpoint (cp_term from_op_id) (cp_index from_op_id) (-1) sub_doc_key
                            time false) ;;
      modify (set_gc_checkpoint_updated true).

(** Lines 761-866. *)
Definition snapshot_branch (tablet_id : string) (from_op_id : CDCSDKCheckpointPB)
           (tablet_ptr : Tablet) : M GetChangesState unit :=
  modify (set_gc_snapshot_operation true) ;;
  if String.eqb (cp_key from_op_id) "" && (cp_snapshot_time from_op_id =? 0)
  then snapshot_first_call tablet_ptr
  else snapshot_next_call tablet_id from_op_id tablet_ptr.

(** Lines 867-887: the intents of a transaction left over by the previous
    call. *)
Definition resume_branch (from_op_id : CDCSDKCheckpointPB) : M GetChangesState unit :=
  let stream_state := mkApplyState (cp_key from_op_id) (to_uint32 (cp_write_id from_op_id)) in
  transaction_id <- liftC (DecodeTransactionId client (cp_key from_op_id)) ;;
  st <- get ;;
  _ <- call_ProcessIntents (gc_op_id st) transaction_id stream_state ;;
  st <- get ;;
  when ((cp_write_id (gc_checkpoint st) =? 0) && String.eqb (cp_key (gc_checkpoint st)) "")
       (modify (set_gc_last_streamed_op_id
                  (mkOpId (cp_term (gc_checkpoint st)) (cp_index (gc_checkpoint st))))) ;;
  modify (set_gc_checkpoint_updated true).

(** Lines 926-950: the schema the message is decoded with.  [Schema] is
    copied by [std::move] (the class declares a copy constructor only), so
    [current_schema] keeps its value. *)
Definition resolve_message_schema (tablet_ptr : Tablet) (msg : ReplicateMsg)
  : M GetChangesState unit :=
  st <- get ;;
  if negb (gc_schema_streamed st) && negb (initialized (gc_cached_schema st)) then
    match GetTableSchemaFromSysCatalog client (table_id tablet_ptr) (hybrid_time msg) with
    | inr _ =>
        modify (set_gc_current_schema (tablet_schema tablet_ptr)) ;;
        modify (set_gc_cached_schema_version (metadata_schema_version tablet_ptr))
    | inl result =>
        modify (set_gc_current_schema (fst result)) ;;
        modify (set_gc_cached_schema_version (snd result))
    end ;;
    modify (set_gc_schema_streamed true) ;;
    modify (fun st => set_gc_cached_schema (gc_current_schema st) st) ;;
    st <- get ;;
    on_resp (modify (FillDDLInfo (gc_current_schema st) (gc_cached_schema_version st)))
  else
    modify (fun st => set_gc_current_schema (gc_cached_schema st) st).

(** Lines 953-981. *)
Definition on_UPDATE_TRANSACTION_OP (msg : ReplicateMsg) : M GetChangesState unit :=
  match ts_status (transaction_state msg) with
  | APPLYING =>
      txn_id <- liftC (FullyDecodeTransactionId client
                         (ts_transaction_id (transaction_state msg))) ;;
      modify (set_gc_commit_timestamp (commit_hybrid_time (transaction_state msg))) ;;
      modify (set_gc_op_id (mkOpId (op_term (id msg)) (op_index (id msg)))) ;;
      st <- get ;;
      new_stream_state <-
        call_ProcessIntents (gc_op_id st) txn_id ApplyTransactionState_default ;;
      if negb (as_write_id new_stream_state =? 0)
         && negb (String.eqb (as_key new_stream_state) "") then
        modify (set_gc_pending_intents true)
      else
        modify (set_gc_last_streamed_op_id (mkOpId (op_term (id msg)) (op_index (id msg))))
  | OTHER_STATUS => ret tt
  end ;;
  modify (set_gc_checkpoint_updated true).

(** Lines 983-995. *)
Definition on_WRITE_OP (msg : ReplicateMsg) : M GetChangesState unit :=
  when (negb (has_transaction msg))
    (st <- get ;;
     on_resp (PopulateCDCSDKWriteRecord msg (gc_current_schema st)) ;;
     modify (SetCheckpoint (op_term (id msg)) (op_index (id msg)) 0 "" 0 true) ;;
     modify (set_gc_checkpoint_updated true)).

Definition last_record_is_DDL (resp : GetChangesResponsePB) : bool :=
  (0 <? Z.of_nat (List.length (cdc_sdk_proto_records resp)))
  && Op_eqb (op (row_message (last_record resp))) RowMessage_Op_DDL.

(** Lines 997-1036. *)
Definition on_CHANGE_METADATA_OP (tablet_ptr : Tablet) (msg : ReplicateMsg)
  : M GetChangesState unit :=
  current_schema <- liftC (SchemaFromPB client (cm_schema (change_metadata_request msg))) ;;
  modify (set_gc_current_schema current_schema) ;;
  let table_name := table_name tablet_ptr in
  modify (set_gc_cached_schema current_schema) ;;
  modify (set_gc_cached_schema_version (cm_schema_version (change_metadata_request msg))) ;;
  st <- get ;;
  match GetTableSchemaFromSysCatalog client (table_id tablet_ptr) (hybrid_time msg) with
  | inr _ => ret tt
  | inl result =>
      when (negb (gc_cached_schema_version st =? snd result))
           (modify (set_gc_current_schema (fst result)) ;;
            modify (set_gc_cached_schema (fst result)) ;;
            modify (set_gc_cached_schema_version (snd result)))
  end ;;
  st <- get ;;
  (if last_record_is_DDL (gc_resp st) then
     when (negb (schema_version (row_message (last_record (gc_resp st)))
                 =? gc_cached_schema_version st))
          (on_resp (on_added_record
                      (PopulateCDCSDKDDLRecord msg table_name (gc_current_schema st))))
   else
     on_resp (on_added_record
                (PopulateCDCSDKDDLRecord msg table_name (gc_current_schema st)))) ;;
  modify (SetCheckpoint (op_term (id msg)) (op_index (id msg)) 0 "" 0 true) ;;
  modify (set_gc_checkpoint_updated true).

(** Lines 1038-1047. *)
Definition on_TRUNCATE_OP (msg : ReplicateMsg) : M GetChangesState unit :=
  when (FLAGS_stream_truncate_record flags)
    (st <- get ;;
     on_resp (on_added_record (PopulateCDCSDKTruncateRecord msg (gc_current_schema st))) ;;
     modify (SetCheckpoint (op_term (id msg)) (op_index (id msg)) 0 "" 0 true) ;;
     modify (set_gc_checkpoint_updated true)).

(** Lines 1049-1089. *)
Definition on_SPLIT_OP (tablet_id : string) (tablet_ptr : Tablet) (msg : ReplicateMsg)
  : M GetChangesState unit :=
  if negb (VerifyTabletSplitOnParentTablet (table_id tablet_ptr) tablet_id) then ret tt
  else
    st <- get ;;
    if gc_checkpoint_updated st then ret tt
    else
      modify (SetCheckpoint (op_term (id msg)) (op_index (id msg)) 0 "" 0 true) ;;
      modify (set_gc_checkpoint_updated true) ;;
      modify (set_gc_split_op_id (id msg)).

(** The body of the loop over [read_ops.messages] up to the test of
    [pending_intents] (lines 924-1098). *)
Definition message_body (tablet_id : string) (tablet_ptr : Tablet) (msg : ReplicateMsg)
  : M GetChangesState unit :=
  modify (set_gc_last_seen_op_id (mkOpId (op_term (id msg)) (op_index (id msg)))) ;;
  resolve_message_schema tablet_ptr msg ;;
  match op_type msg with
  | UPDATE_TRANSACTION_OP => on_UPDATE_TRANSACTION_OP msg
  | WRITE_OP => on_WRITE_OP msg
  | CHANGE_METADATA_OP => on_CHANGE_METADATA_OP tablet_ptr msg
  | TRUNCATE_OP => on_TRUNCATE_OP msg
  | SPLIT_OP => on_SPLIT_OP tablet_id tablet_ptr msg
  | OTHER_OP =>
      modify (set_gc_last_seen_default_message_op_id
                (mkOpId (op_term (id msg)) (op_index (id msg))))
  end.

(** The loop over [read_ops.messages]; it is left when [pending_intents] is
    set (line 1100). *)
Fixpoint messages_loop (tablet_id : string) (tablet_ptr : Tablet) (msgs : list ReplicateMsg)
  : M GetChangesState unit :=
  match msgs with
  | [] => ret tt
  | msg :: rest =>
      message_body tablet_id tablet_ptr msg ;;
      st <- get ;;
      if gc_pending_intents st then ret tt
      else messages_loop tablet_id tablet_ptr rest
  end.

(** One turn of the [do ... while] of lines 899-1115; the value is [true]
    when the turn left the loop through [break] (no message was read). *)
Definition read_batch (tablet_id : string) (tablet_ptr : Tablet) : M GetChangesState bool :=
  st <- get ;;
  read_ops <- liftC (ReadReplicatedMessagesForCDC tablet_peer (gc_last_seen_op_id st)
                       (gc_last_readable_opid_index st)) ;;
  modify (set_gc_last_readable_opid_index (snd read_ops)) ;;
  match transaction_participant tablet_ptr with
  | Some txn_participant => liftC (RequestScope_Create txn_participant)
  | None => ret tt
  end ;;
  modify (set_gc_current_schema Schema_default) ;;
  modify (set_gc_pending_intents false) ;;
  modify (set_gc_schema_streamed false) ;;
  match fst read_ops with
  | [] => ret true
  | msgs => messages_loop tablet_id tablet_ptr msgs ;; ret false
  end.

(** The loop condition of lines 1114-1115. *)
Definition read_again (st : GetChangesState) : bool :=
  negb (gc_checkpoint_updated st)
  && match gc_last_readable_opid_index st with
     | Some last_readable => op_index (gc_last_seen_op_id st) <? last_readable
     | None => false
     end.

(** The [do ... while]; [None] when [fuel] turns do not end it. *)
Fixpoint read_batches (fuel : nat) (tablet_id : string) (tablet_ptr : Tablet)
         (st : GetChangesState) : option ((unit + Error) * GetChangesState) :=
  match fuel with
  | O => None
  | S fuel' =>
      match read_batch tablet_id tablet_ptr st with
      | (inr e, st') => Some (inr e, st')
      | (inl true, st') => Some (inl tt, st')
      | (inl false, st') =>
          if read_again st' then read_batches fuel' tablet_id tablet_ptr st'
          else Some (inl tt, st')
      end
  end.

(** Lines 1117-1128. *)
Definition checkpoint_from_default_message : M GetChangesState unit :=
  st <- get ;;
  when (negb (gc_checkpoint_updated st)
        && negb (OpId_eqb (gc_last_seen_default_message_op_id st) (OpId_Invalid opid_decl)))
       (modify (SetCheckpoint (op_term (gc_last_seen_default_message_op_id st))
                              (op_index (gc_last_seen_default_message_op_id st))
                              0 "" 0 true) ;;
        modify (set_gc_checkpoint_updated true)).

Definition TabletSplit_status (tablet_id : string) : Error :=
  STATUS TabletSplit
         ("Tablet Split on tablet: " ++ tablet_id ++ ", no more records to stream").

(** Lines 1131-1163. *)
Definition finish (tablet_id : string) (from_op_id : CDCSDKCheckpointPB)
  : M GetChangesState unit :=
  st <- get ;;
  when (negb (gc_snapshot_operation st)
        && (op_term (gc_split_op_id st) =? cp_term (gc_checkpoint st))
        && (op_index (gc_split_op_id st) =? cp_index (gc_checkpoint st)))
       (modify (set_gc_report_tablet_split true)) ;;
  modify (fun st =>
            set_gc_resp
              (mkResp (cdc_sdk_proto_records (gc_resp st))
                      (if gc_checkpoint_updated st then gc_checkpoint st else from_op_id)
                      (checkpoint_op_id (gc_resp st))) st) ;;
  modify (fun st =>
            if 0 <? op_index (gc_last_streamed_op_id st) then
              set_gc_resp
                (mkResp (cdc_sdk_proto_records (gc_resp st)) (cdc_sdk_checkpoint (gc_resp st))
                        (Some (gc_last_streamed_op_id st))) st
            else st) ;;
  st <- get ;;
  if gc_report_tablet_split st then fail (TabletSplit_status tablet_id) else ret tt.

(** The three modes (lines 761, 867 and 888). *)
Definition select_mode (fuel : nat) (tablet_id : string) (from_op_id : CDCSDKCheckpointPB)
           (tablet_ptr : Tablet) (st : GetChangesState)
  : option ((unit + Error) * GetChangesState) :=
  if cp_write_id from_op_id =? -1 then
    Some (snapshot_branch tablet_id from_op_id tablet_ptr st)
  else if negb (String.eqb (cp_key from_op_id) "") && negb (cp_write_id from_op_id =? 0) then
    Some (resume_branch from_op_id st)
  else
    match read_batches fuel tablet_id tablet_ptr st with
    | Some (inl _, st') => Some (checkpoint_from_default_message st')
    | other => other
    end.

Definition GetChangesForCDCSDK (fuel : nat) (tablet_id : string)
           (from_op_id : CDCSDKCheckpointPB) (st : GetChangesState)
  : option ((unit + Error) * GetChangesState) :=
  match shared_tablet_safe tablet_peer with
  | inr e => Some (inr (Collab e), st)
  | inl tablet_ptr =>
      match select_mode fuel tablet_id from_op_id tablet_ptr st with
      | Some (inl _, st') => Some (finish tablet_id from_op_id st')
      | other => other
      end
  end.

End Producer.
(** ** A small concrete world *)

Module Toy.

(** Keys are two characters of row key, then nothing (the row itself), ["s"]
    (the liveness system column) or ["c"] and a digit (a column). *)
Definition digit (s : string) : Z :=
  match s with
  | "0" => 0 | "1" => 1 | "2" => 2 | "3" => 3 | "4" => 4
  | "5" => 5 | "6" => 6 | "7" => 7 | "8" => 8 | _ => 9
  end.

Definition docdb : DocDB :=
  mkDocDB
    (fun key => if (String.length key <? 2)%nat then inr "short key" else inl 2%nat)
    (fun s => match substring 0 1 s with
              | "c" => inl (mkKeyEntry kColumnId (digit (substring 1 1 s)))
              | "s" => inl (mkKeyEntry kSystemColumnId 0)
              | "x" => inl (mkKeyEntry kKeyEntryOther 0)
              | _ => inr "bad column"
              end)
    (fun key => inl (mkSubDocKey [substring 1 1 key] []
                                 (if (String.length key <=? 2)%nat then 0 else 1)))
    (fun key => inl (mkSubDocKey [substring 1 1 key] []
                                 (if (String.length key <=? 2)%nat then 0 else 1)))
    (fun v => match substring 0 1 v with
              | "T" => inl (mkValue kTombstone "")
              | "N" => inl (mkValue kNullLow "")
              | "P" => inl (mkValue kPackedRow v)
              | "!" => inr "bad value"
              | _ => inl (mkValue kValueEntryOther v)
              end)
    (fun v => inl v)
    (fun v => match substring 0 1 v with
              | "T" => kTombstone | "N" => kNullLow | "P" => kPackedRow
              | _ => kValueEntryOther
              end)
    (fun v _ => QLVal v)
    (fun q oid d => match q with
                    | QLVal v => inl (mkDatum (column_name d) oid (Some v))
                    | QLNull => inl d
                    end)
    (fun ht => Z.shiftr ht 12)
    (fun _ => true)
    (fun _ => true)
    (mkIntent "" "" "" 0 0).

Definition columns3 : list ColumnSchema :=
  [mkColumnSchema "id" 1 23; mkColumnSchema "c1" 1 23; mkColumnSchema "c2" 1 23].

(** A table with key column [id] (column id 0) and two more columns. *)
Definition schema : Schema :=
  mkSchema 3 1 (fun cid => cid =? 0)
           (fun i => nth (Z.to_nat i) columns3 (mkColumnSchema "" 0 0))
           (fun i => i)
           (fun cid => if (0 <=? cid) && (cid <? 3)
                       then inl (nth (Z.to_nat cid) columns3 (mkColumnSchema "" 0 0))
                       else inr "no such column")
           "public" true
           (mkSchemaPB [] (mkTableProperties 0 1 false) "public").

Definition flags : Flags := mkFlags 2 false true 1000 false.
Definition flags_unpacked : Flags := mkFlags 2 false false 1000 false.

Definition tablet (intents : list IntentKeyValueForCDC) (after : ApplyTransactionState)
           (rows : list QLTableRow) (next_key : nat -> string) : Tablet :=
  mkTablet PGSQL_TABLE_TYPE "t" "table-id" (fun _ => "t") 7 schema
           (fun _ _ => inl (intents, after))
           (Some (mkParticipant
                    (Some (mkContext (fun _ => inl (mkRemoveIntentsData (mkOpId 2 9) 4096000))))
                    (inl tt)))
           (fun _ _ => inl (mkIterator (fun n => inl (n <? List.length rows)%nat)
                                       (fun n => inl (nth n rows (mkRow (fun _ => None))))
                                       (fun n => inl (next_key n)))).

Definition peer (t : Tablet) (latest : OpId) (log : list ReplicateMsg) : TabletPeer :=
  mkTabletPeer (inl t) latest []
               (fun from last_readable => inl (log, last_readable)).

(** A peer whose reader hands out the entries of [log] that are after the
    OpId it reads from. *)
Definition wal_peer (t : Tablet) (latest : OpId) (log : list ReplicateMsg) : TabletPeer :=
  mkTabletPeer (inl t) latest []
               (fun from last_readable =>
                  inl (filter (fun m => negb (OpId_le (id m) from)) log, last_readable)).

Definition client (children : nat) (catalog_version : option Z) : YBClient :=
  mkClient
    (fun _ _ => match catalog_version with
                | Some v => inl (schema, v)
                | None => inr "catalog unavailable"
                end)
    (fun _ => inl (repeat (mkTabletLocations (Some "tablet-1")) children))
    (fun _ => inl schema)
    (fun key => inl "txn")
    (fun bytes => inl "txn").

Definition opid_decl : OpIdDecl := mkOpIdDecl (mkOpId (-1) (-1)).

End Toy.

(** ** Reasoning about computations *)

Local Open Scope list_scope.

(** [triple P m Q R]: from a state in [P], [m] ends in [Q] when it succeeds
    and in [R] when it fails. *)
Definition triple {S A} (P : S -> Prop) (m : M S A)
           (Q : A -> S -> Prop) (R : Error -> S -> Prop) : Prop :=
  forall s, P s ->
            match m s with
            | (inl a, s') => Q a s'
            | (inr e, s') => R e s'
            end.

Lemma triple_ret {S A} (P : S -> Prop) (a : A) Q R :
  (forall s, P s -> Q a s) -> triple P (ret a) Q R.
Proof. intros H s Hs. simpl. auto. Qed.

Lemma triple_fail {S A} (P : S -> Prop) e (Q : A -> S -> Prop) (R : Error -> S -> Prop) :
  (forall s, P s -> R e s) -> triple P (fail e) Q R.
Proof. intros H s Hs. simpl. auto. Qed.

Lemma triple_bind {S A B} (P : S -> Prop) (m : M S A) (k : A -> M S B) Q' Q R :
  triple P m Q' R -> (forall a, triple (Q' a) (k a) Q R) -> triple P (bind m k) Q R.
Proof.
  intros Hm Hk s Hs. unfold bind. specialize (Hm s Hs).
  destruct (m s) as [[a | e] s']; [exact (Hk a s' Hm) | exact Hm].
Qed.

Lemma triple_modify {S} (P : S -> Prop) (f : S -> S) Q R :
  (forall s, P s -> Q tt (f s)) -> triple P (modify f) Q R.
Proof. intros H s Hs. simpl. auto. Qed.

Lemma triple_get {S} (P : S -> Prop) Q R :
  (forall s, P s -> Q s s) -> triple P (@get S) Q R.
Proof. intros H s Hs. simpl. auto. Qed.

Lemma triple_put {S} (P : S -> Prop) (s0 : S) Q R :
  (forall s, P s -> Q tt s0) -> triple P (put s0) Q R.
Proof. intros H s Hs. simpl. eauto. Qed.

Lemma triple_liftC {S A} (P : S -> Prop) (r : A + string) (Q : A -> S -> Prop) R :
  (forall s a, P s -> r = inl a -> Q a s) ->
  (forall s e, P s -> r = inr e -> R (Collab e) s) ->
  triple P (liftC r) Q R.
Proof. intros H1 H2 s Hs. unfold liftC. destruct r; auto. Qed.

Lemma triple_checkC {S A} (P : S -> Prop) (r : A + string) (Q : A -> S -> Prop) R :
  (forall s a, P s -> r = inl a -> Q a s) ->
  (forall s e, P s -> r = inr e -> R (Abort e) s) ->
  triple P (checkC r) Q R.
Proof. intros H1 H2 s Hs. unfold checkC. destruct r; auto. Qed.

Lemma triple_when {S} (P : S -> Prop) (b : bool) (m : M S unit) Q R :
  (b = true -> triple P m Q R) ->
  (b = false -> forall s, P s -> Q tt s) ->
  triple P (when b m) Q R.
Proof.
  intros H1 H2. destruct b; simpl.
  - auto.
  - apply triple_ret. auto.
Qed.

Lemma triple_conseq {S A} (P P' : S -> Prop) (m : M S A) (Q Q' : A -> S -> Prop)
      (R R' : Error -> S -> Prop) :
  triple P' m Q' R' ->
  (forall s, P s -> P' s) ->
  (forall a s, Q' a s -> Q a s) ->
  (forall e s, R' e s -> R e s) ->
  triple P m Q R.
Proof.
  intros H HP HQ HR s Hs. specialize (H s (HP s Hs)).
  destruct (m s) as [[a | e] s']; auto.
Qed.

Lemma triple_forM {S A} (I : S -> Prop) (l : list A) (body : A -> M S unit) R :
  (forall x, In x l -> triple I (body x) (fun _ => I) R) ->
  triple I (forM l body) (fun _ => I) R.
Proof.
  induction l as [| x l IH]; intros H; simpl.
  - apply triple_ret. auto.
  - eapply triple_bind.
    + apply H. left. reflexivity.
    + intros u. apply IH. intros y Hy. apply H. right. exact Hy.
Qed.

Lemma triple_zoom {S T A} (P : S -> Prop) (proj : S -> T) (inj : T -> S -> S)
      (m : M T A) Q R :
  (forall s, P s ->
             triple (fun t => t = proj s) m
                    (fun a t => Q a (inj t s)) (fun e t => R e (inj t s))) ->
  triple P (zoom proj inj m) Q R.
Proof.
  intros H s Hs. unfold zoom. specialize (H s Hs (proj s) eq_refl).
  destruct (m (proj s)) as [[a | e] t]; exact H.
Qed.

(** A property of the state that no step of [m] can break. *)
Definition preserves {S A} (I : S -> Prop) (m : M S A) : Prop :=
  triple I m (fun _ => I) (fun _ => I).

Lemma triple_run {S A} (P : S -> Prop) (m : M S A) Q R s r s' :
  triple P m Q R -> P s -> m s = (r, s') ->
  match r with inl a => Q a s' | inr e => R e s' end.
Proof. intros H Hs E. specialize (H s Hs). rewrite E in H. exact H. Qed.

(** ** Tuples *)

Lemma set_last_app {A} (a x : A) (l : list A) : set_last a (l ++ [x]) = l ++ [a].
Proof.
  induction l as [| y l IH]; simpl.
  - reflexivity.
  - rewrite IH. destruct (l ++ [x]) eqn:E.
    + destruct l; discriminate E.
    + reflexivity.
Qed.

(** One step of a proof that a computation keeps [I] as long as it succeeds. *)
Ltac keep_step I :=
  lazymatch goal with
  | |- triple _ (bind _ _) _ _ => eapply triple_bind with (Q' := fun _ => I); [| intro]
  | |- triple _ (modify _) _ _ => apply triple_modify; intros ? ?
  | |- triple _ (liftC _) _ _ => apply triple_liftC; intros; auto
  | |- triple _ (when _ _) _ _ => apply triple_when; [intro | intros; auto]
  | |- triple _ (ret _) _ _ => apply triple_ret; auto
  | |- triple _ get _ _ => apply triple_get; auto
  | |- triple _ (fail _) _ _ => apply triple_fail; auto
  | |- triple _ (if ?b then _ else _) _ _ => destruct b eqn:?
  | |- triple _ (match ?x with _ => _ end) _ _ => destruct x eqn:?
  end.

(** *** Failures handed up from collaborators *)

(** A failure that is not a status built in this file. *)
Definition foreign (e : Error) : Prop :=
  match e with STATUS _ _ => False | _ => True end.

Definition fails_foreign {S A} (m : M S A) : Prop :=
  triple (fun _ => True) m (fun _ _ => True) (fun e _ => foreign e).

Ltac foreign_step :=
  lazymatch goal with
  | |- triple _ (bind _ _) _ _ => eapply triple_bind with (Q' := fun _ _ => True); [| intro]
  | |- triple _ (modify _) _ _ => apply triple_modify; auto
  | |- triple _ (liftC _) _ _ => apply triple_liftC; intros; exact I
  | |- triple _ (checkC _) _ _ => apply triple_checkC; intros; exact I
  | |- triple _ (when _ _) _ _ => apply triple_when; [intro | auto]
  | |- triple _ (ret _) _ _ => apply triple_ret; auto
  | |- triple _ get _ _ => apply triple_get; auto
  | |- triple _ (put _) _ _ => apply triple_put; auto
  | |- triple _ (zoom _ _ _) _ _ =>
      apply triple_zoom; intros ? _;
      eapply triple_conseq
        with (P' := fun _ => True) (Q' := fun _ _ => True) (R' := fun e _ => foreign e);
      [ | auto | auto | auto]
  | |- triple _ (forM _ _) _ _ => apply triple_forM with (I := fun _ => True); intros ? _
  | |- triple _ (if ?b then _ else _) _ _ => destruct b
  | |- triple _ (match ?x with _ => _ end) _ _ => destruct x
  end.

Section Properties.

Context {docdb : DocDB} {flags : Flags} {tablet_peer : TabletPeer} {client : YBClient}
        {opid_decl : OpIdDecl}.

(** What [AddColumnToMap] writes into a fresh entry. *)
Definition filled (col_schema : ColumnSchema) (v : PrimitiveValue) (d : DatumMessagePB) : Prop :=
  AddColumnToMap col_schema v DatumMessagePB_default = (inl tt, d).

(** The entries written for the key components [cols], the first of which
    is column [i] of the schema. *)
Fixpoint pk_filled (schema : Schema) (i : Z) (cols : list PrimitiveValue)
         (ds : list DatumMessagePB) : Prop :=
  match cols, ds with
  | [], [] => True
  | col :: cols', d :: ds' => filled (column schema i) col d /\ pk_filled schema (i + 1) cols' ds'
  | _, _ => False
  end.

Lemma pk_filled_length schema cols : forall i ds,
  pk_filled schema i cols ds -> List.length ds = List.length cols.
Proof.
  induction cols as [| c cols IH]; intros i [| d ds] H; simpl in *; try tauto.
  destruct H as [_ H]. f_equal. eapply IH. exact H.
Qed.

Lemma pk_filled_app schema cols1 : forall i ds1 cols2 ds2,
  pk_filled schema i cols1 ds1 ->
  pk_filled schema (i + Z.of_nat (List.length cols1)) cols2 ds2 ->
  pk_filled schema i (cols1 ++ cols2) (ds1 ++ ds2).
Proof.
  induction cols1 as [| c cols1 IH]; intros i [| d ds1] cols2 ds2 H1 H2; simpl in *; try tauto.
  - replace (i + 0) with i in H2 by lia. exact H2.
  - destruct H1 as [Hd H1]. split; [exact Hd |].
    apply IH; [exact H1 |].
    replace (i + 1 + Z.of_nat (List.length cols1))
      with (i + Z.pos (Pos.of_succ_nat (List.length cols1))) by lia.
    exact H2.
Qed.

(** The message after [AddPrimaryKey] has written the entries [ds]. *)
Definition with_key_entries (ds : list DatumMessagePB) (m : RowMessage) : RowMessage :=
  if Op_eqb (op m) RowMessage_Op_DELETE
  then set_new_tuple (new_tuple m ++ repeat DatumMessagePB_default (List.length ds))
                     (set_old_tuple (old_tuple m ++ ds) m)
  else set_new_tuple (new_tuple m ++ ds)
                     (set_old_tuple (old_tuple m ++ repeat DatumMessagePB_default
                                                (List.length ds)) m).

Lemma with_key_entries_nil m : with_key_entries [] m = m.
Proof.
  unfold with_key_entries. destruct m; simpl.
  destruct (Op_eqb _ _); unfold set_new_tuple, set_old_tuple; simpl;
    rewrite !app_nil_r; reflexivity.
Qed.

Lemma repeat_snoc {A} (a : A) n : repeat a n ++ [a] = a :: repeat a n.
Proof. induction n; simpl; [reflexivity | rewrite IHn; reflexivity]. Qed.

Lemma with_key_entries_cons d ds m :
  with_key_entries ds (with_key_entries [d] m) = with_key_entries (d :: ds) m.
Proof.
  unfold with_key_entries. destruct m as [t c tb o n ol sc st sv nt pg]; simpl.
  destruct (Op_eqb o RowMessage_Op_DELETE) eqn:E; simpl; rewrite ?E;
    unfold set_new_tuple, set_old_tuple; simpl; rewrite <- ?app_assoc; reflexivity.
Qed.

Lemma AddPrimaryKey_column_run schema i col m :
  AddPrimaryKey_column schema i col m =
  (fst (AddColumnToMap (column schema i) col DatumMessagePB_default),
   with_key_entries [snd (AddColumnToMap (column schema i) col DatumMessagePB_default)] m).
Proof.
  unfold AddPrimaryKey_column, bind, modify, zoom, tuple_of_AddTuple, set_tuple_of_AddTuple,
    with_key_entries, AddTuple, add_new_tuple, add_old_tuple.
  destruct m as [t c tb o n ol sc st sv nt pg]; simpl.
  destruct (Op_eqb o RowMessage_Op_DELETE) eqn:E; simpl.
  - rewrite last_last.
    destruct (AddColumnToMap (column schema i) col DatumMessagePB_default) as [r d]; simpl.
    rewrite ?E. unfold set_old_tuple, set_new_tuple; simpl. rewrite ?set_last_app. reflexivity.
  - rewrite last_last.
    destruct (AddColumnToMap (column schema i) col DatumMessagePB_default) as [r d]; simpl.
    rewrite ?E. unfold set_old_tuple, set_new_tuple; simpl. rewrite ?set_last_app. reflexivity.
Qed.

Lemma AddPrimaryKey_loop_ok schema cols : forall i m m',
  AddPrimaryKey_loop schema i cols m = (inl tt, m') ->
  exists ds, pk_filled schema i cols ds /\ m' = with_key_entries ds m.
Proof.
  induction cols as [| col cols IH]; intros i m m' H; simpl in H.
  - inversion H; subst. exists []. split; [exact I | symmetry; apply with_key_entries_nil].
  - unfold bind in H. rewrite AddPrimaryKey_column_run in H.
    destruct (AddColumnToMap (column schema i) col DatumMessagePB_default) as [[[] | e] d] eqn:E;
      simpl in H; [| discriminate H].
    apply IH in H. destruct H as [ds [Hds Hm]].
    exists (d :: ds). split.
    + simpl. split; [exact E | exact Hds].
    + rewrite Hm. apply with_key_entries_cons.
Qed.

Lemma with_key_entries_op ds m : op (with_key_entries ds m) = op m.
Proof. unfold with_key_entries. destruct (Op_eqb _ _); reflexivity. Qed.

Lemma with_key_entries_app ds1 ds2 m :
  with_key_entries ds2 (with_key_entries ds1 m) = with_key_entries (ds1 ++ ds2) m.
Proof.
  unfold with_key_entries. destruct m as [t c tb o n ol sc st sv nt pg]; simpl.
  destruct (Op_eqb o RowMessage_Op_DELETE) eqn:E; simpl; rewrite ?E;
    unfold set_new_tuple, set_old_tuple; simpl;
    rewrite <- ?app_assoc, ?length_app, ?repeat_app; reflexivity.
Qed.

Definition key_components (k : SubDocKey) : list PrimitiveValue :=
  hashed_group k ++ range_group k.

Lemma AddPrimaryKey_ok decoded_key schema m m' :
  AddPrimaryKey decoded_key schema m = (inl tt, m') ->
  exists ds, pk_filled schema 0 (key_components decoded_key) ds /\ m' = with_key_entries ds m.
Proof.
  unfold AddPrimaryKey, bind. intro H.
  destruct (AddPrimaryKey_loop schema 0 (hashed_group decoded_key) m) as [[[] | e] m1] eqn:E1;
    [| discriminate H].
  apply AddPrimaryKey_loop_ok in E1. destruct E1 as [ds1 [H1 Hm1]].
  apply AddPrimaryKey_loop_ok in H. destruct H as [ds2 [H2 Hm2]].
  exists (ds1 ++ ds2). split.
  - apply pk_filled_app; assumption.
  - subst. apply with_key_entries_app.
Qed.

(** The state [flush_before_open] leaves. *)
Definition flush_state (op_id : OpId) (st : IntentLoop) : IntentLoop :=
  if FLAGS_enable_single_record_update flags then
    let st1 := if 0 <? il_col_count st then with_col_count 0 st else st in
    if pending_update st1
    then MakeNewProtoRecord (il_prev_intent st1) op_id (il_row_message st1) st1
    else st1
  else st.

Lemma flush_before_open_run op_id st :
  flush_before_open op_id st = (inl tt, flush_state op_id st).
Proof.
  unfold flush_before_open, flush_state, when, bind, modify, get, ret.
  destruct (FLAGS_enable_single_record_update flags); [| reflexivity].
  destruct (pending_update _); reflexivity.
Qed.

(** The state [emit_record] leaves. *)
Definition emit_state (op_id : OpId) (schema : Schema) (table_name : string)
           (intent : IntentKeyValueForCDC) (st : IntentLoop) : IntentLoop :=
  let st1 := with_row_message (set_table table_name (il_row_message st)) st in
  let m := il_row_message st1 in
  if FLAGS_enable_single_record_update flags then
    if (Op_eqb (op m) RowMessage_Op_INSERT && (il_col_count st1 =? num_columns schema))
       || Op_eqb (op m) RowMessage_Op_DELETE
    then with_col_count (num_columns schema) (MakeNewProtoRecord intent op_id m st1)
    else if Op_eqb (op m) RowMessage_Op_UPDATE then with_prev_intent intent st1
         else st1
  else
    if (Op_eqb (op m) RowMessage_Op_INSERT && (il_col_count st1 =? num_columns schema))
       || (Op_eqb (op m) RowMessage_Op_UPDATE || Op_eqb (op m) RowMessage_Op_DELETE)
    then MakeNewProtoRecord intent op_id m st1
    else st1.

Lemma emit_record_run op_id schema table_name intent st :
  emit_record op_id schema table_name intent st
  = (inl tt, emit_state op_id schema table_name intent st).
Proof.
  unfold emit_record, emit_state, when, bind, modify, get, ret. cbv zeta.
  destruct (FLAGS_enable_single_record_update flags).
  - destruct (_ || _); [reflexivity |].
    destruct (Op_eqb _ RowMessage_Op_UPDATE); reflexivity.
  - destruct (_ || _); reflexivity.
Qed.

(** The operation [open_record] gives the new message. *)
Definition opened_op (d : DecodedIntent) : RowMessage_Op :=
  if is_root_tombstone (di_decoded_value d) (di_decoded_key d) then RowMessage_Op_DELETE
  else if has_type (di_column_id_opt d) kSystemColumnId
          && ValueEntryType_eqb (value_type (di_decoded_value d)) kNullLow
       then RowMessage_Op_INSERT
       else RowMessage_Op_UPDATE.

(** The state of [open_record] when it calls [AddPrimaryKey]. *)
Definition open_state (transaction_id : string) (schema : Schema)
           (intent : IntentKeyValueForCDC) (d : DecodedIntent) (st : IntentLoop) : IntentLoop :=
  let fresh := set_transaction_id transaction_id
                 (SetOperation (opened_op d) schema RowMessage_default) in
  let st1 := with_row_message fresh (with_proto_record CDCSDKProtoRecordPB_default st) in
  match opened_op d with
  | RowMessage_Op_INSERT => with_col_count (wrap64 (num_key_columns schema - 1)) st1
  | _ =>
      let st2 := with_write_id (write_id intent) st1 in
      if FLAGS_enable_single_record_update flags then st2
      else with_col_count (num_columns schema) st2
  end.

Lemma open_record_run transaction_id schema intent d st :
  open_record transaction_id schema intent d st
  = let st0 := open_state transaction_id schema intent d st in
    let (r, m) := AddPrimaryKey (di_decoded_key d) schema (il_row_message st0) in
    (r, with_row_message m st0).
Proof.
  unfold open_record, open_state, opened_op, when, bind, modify, get, ret, zoom. cbv zeta.
  destruct (is_root_tombstone _ _).
  - destruct (FLAGS_enable_single_record_update flags); reflexivity.
  - destruct (_ && _).
    + reflexivity.
    + destruct (FLAGS_enable_single_record_update flags); reflexivity.
Qed.


(** The count [fold_column] leaves in [col_count]. *)
Definition fold_bump (st : IntentLoop) : IntentLoop :=
  if FLAGS_enable_single_record_update flags
  then with_col_count (wrap64 (il_col_count st + 1)) st
  else if IsInsertOperation (il_row_message st)
       then with_col_count (wrap64 (il_col_count st + 1)) st
       else st.

Lemma fold_column_run schema intent d st :
  fold_column schema intent d st
  = if IsInsertOrUpdate (il_row_message st) then
      let st1 := fold_bump st in
      match Value_Decode docdb (value_buf intent) with
      | inr e => (inr (Collab e), st1)
      | inl decoded_value =>
          if has_type (di_column_id_opt d) kColumnId then
            match di_column_id_opt d with
            | None => (inl tt, st1)
            | Some column_id =>
                match column_by_id schema (GetColumnId column_id) with
                | inr e => (inr (Collab e), st1)
                | inl col =>
                    match AddColumnToMap col (primitive_value decoded_value)
                                         DatumMessagePB_default with
                    | (inl _, dt) =>
                        (inl tt,
                         with_row_message
                           (add_old_tuple DatumMessagePB_default
                              (add_new_tuple dt (il_row_message st1))) st1)
                    | (inr e, dt) =>
                        (inr e, with_row_message (add_new_tuple dt (il_row_message st1)) st1)
                    end
                end
            end
          else (inl tt, st1)
      end
    else (inl tt, st).
Proof.
  unfold fold_column, fold_bump, when, bind, modify, get, ret, zoom, liftC, has_type.
  destruct (IsInsertOrUpdate (il_row_message st)); [| reflexivity].
  destruct (FLAGS_enable_single_record_update flags).
  - destruct (Value_Decode docdb (value_buf intent)); [| reflexivity].
    destruct (di_column_id_opt d) as [c |]; [| reflexivity].
    destruct (KeyEntryType_eqb (ke_type c) kColumnId); [| reflexivity].
    destruct (column_by_id schema (GetColumnId c)); [| reflexivity].
    destruct st; simpl.
    destruct (AddColumnToMap _ _ _) as [[[] | e] dt]; reflexivity.
  - destruct (IsInsertOperation (il_row_message st)).
    + destruct (Value_Decode docdb (value_buf intent)); [| reflexivity].
      destruct (di_column_id_opt d) as [c |]; [| reflexivity].
      destruct (KeyEntryType_eqb (ke_type c) kColumnId); [| reflexivity].
      destruct (column_by_id schema (GetColumnId c)); [| reflexivity].
      destruct st; simpl.
      destruct (AddColumnToMap _ _ _) as [[[] | e] dt]; reflexivity.
    + destruct (Value_Decode docdb (value_buf intent)); [| reflexivity].
      destruct (di_column_id_opt d) as [c |]; [| reflexivity].
      destruct (KeyEntryType_eqb (ke_type c) kColumnId); [| reflexivity].
      destruct (column_by_id schema (GetColumnId c)); [| reflexivity].
      destruct st; simpl.
      destruct (AddColumnToMap _ _ _) as [[[] | e] dt]; reflexivity.
Qed.

(** The state after the guard of line 226 let the intent through and the
    record it belongs to was opened or kept. *)
Definition skip_state (intent : IntentKeyValueForCDC) (st : IntentLoop) : IntentLoop :=
  with_reverse_index_key (reverse_index_key intent) (with_write_id (write_id intent) st).

Definition mark_state (intent : IntentKeyValueForCDC) (d : DecodedIntent) (st : IntentLoop)
  : IntentLoop :=
  with_prev_intent_phy_time (intent_phy_time intent)
    (with_prev_key (Slice_prefix (key_buf intent) (di_key_size d)) st).

Lemma intent_body_run op_id transaction_id schema table_name intent st :
  intent_body op_id transaction_id schema table_name intent st
  = match decode_intent intent with
    | inr e => (inr (Collab e), st)
    | inl d =>
        if is_key_column_intent schema (di_column_id_opt d) then (inl tt, skip_state intent st)
        else
          let st1 := with_new_cdc_record_needed
                       (compute_new_cdc_record_needed schema intent d st) st in
          match (if il_new_cdc_record_needed st1
                 then open_record transaction_id schema intent d (flush_state op_id st1)
                 else (inl tt, st1)) with
          | (inr e, st2) => (inr e, st2)
          | (inl _, st2) =>
              match fold_column schema intent d (mark_state intent d st2) with
              | (inr e, st4) => (inr e, st4)
              | (inl _, st4) => (inl tt, emit_state op_id schema table_name intent st4)
              end
          end
    end.
Proof.
  unfold intent_body, bind, liftC.
  destruct (decode_intent intent) as [d | e]; [| reflexivity].
  destruct (is_key_column_intent schema (di_column_id_opt d)); [reflexivity |].
  unfold modify at 1. unfold get at 1. cbv zeta.
  set (st1 := with_new_cdc_record_needed _ st).
  unfold when, bind.
  destruct (il_new_cdc_record_needed st1).
  - rewrite flush_before_open_run.
    destruct (open_record _ _ _ _ _) as [[[] | e] st2]; [| reflexivity].
    unfold modify, mark_state.
    destruct (fold_column _ _ _ _) as [[[] | e] st4]; [| reflexivity].
    apply emit_record_run.
  - unfold ret, modify, mark_state.
    destruct (fold_column _ _ _ _) as [[[] | e] st4]; [| reflexivity].
    apply emit_record_run.
Qed.

(** *** Tuple-length parity *)

Definition balanced (m : RowMessage) : Prop :=
  List.length (new_tuple m) = List.length (old_tuple m).

Definition all_balanced (resp : GetChangesResponsePB) : Prop :=
  Forall (fun r => balanced (row_message r)) (cdc_sdk_proto_records resp).

Lemma all_balanced_add r resp :
  all_balanced resp -> balanced (row_message r) ->
  all_balanced (add_cdc_sdk_proto_records r resp).
Proof.
  unfold all_balanced, add_cdc_sdk_proto_records. simpl. intros H Hr.
  apply Forall_app. split; [exact H |]. constructor; [exact Hr | constructor].
Qed.

Lemma balanced_with_key_entries ds m : balanced m -> balanced (with_key_entries ds m).
Proof.
  unfold balanced, with_key_entries. intro H.
  destruct (Op_eqb _ _); simpl; rewrite !length_app, repeat_length; lia.
Qed.

Definition intent_balanced (st : IntentLoop) : Prop :=
  all_balanced (il_resp st) /\ balanced (il_row_message st).

Lemma MakeNewProtoRecord_balanced x op_id st :
  intent_balanced st -> intent_balanced (MakeNewProtoRecord x op_id (il_row_message st) st).
Proof.
  intros [H1 H2]. split; simpl.
  - apply all_balanced_add; assumption.
  - exact H2.
Qed.

Lemma flush_state_balanced op_id st :
  intent_balanced st -> intent_balanced (flush_state op_id st).
Proof.
  intro H. unfold flush_state.
  destruct (FLAGS_enable_single_record_update flags); [| exact H].
  assert (H' : intent_balanced (if 0 <? il_col_count st then with_col_count 0 st else st)).
  { destruct (0 <? il_col_count st); exact H. }
  destruct (pending_update _); [| exact H'].
  apply MakeNewProtoRecord_balanced. exact H'.
Qed.

Lemma emit_state_balanced op_id schema table_name intent st :
  intent_balanced st -> intent_balanced (emit_state op_id schema table_name intent st).
Proof.
  intros [H1 H2].
  assert (H' : intent_balanced
                 (with_row_message (set_table table_name (il_row_message st)) st)).
  { split; [exact H1 | exact H2]. }
  unfold emit_state. cbv zeta.
  destruct (FLAGS_enable_single_record_update flags).
  - destruct (_ || _).
    + apply (MakeNewProtoRecord_balanced intent op_id) in H'. exact H'.
    + destruct (Op_eqb _ RowMessage_Op_UPDATE); exact H'.
  - destruct (_ || _); [| exact H'].
    apply (MakeNewProtoRecord_balanced intent op_id) in H'. exact H'.
Qed.

Lemma open_record_balanced transaction_id schema intent d st r st' :
  all_balanced (il_resp st) ->
  open_record transaction_id schema intent d st = (r, st') ->
  all_balanced (il_resp st') /\ (r = inl tt -> balanced (il_row_message st')).
Proof.
  intros H E. rewrite open_record_run in E. cbv zeta in E.
  destruct (AddPrimaryKey _ _ _) as [r0 m] eqn:EA. inversion E; subst; clear E.
  split.
  - unfold open_state. simpl.
    destruct (opened_op d); simpl; try exact H;
      destruct (FLAGS_enable_single_record_update flags); exact H.
  - intros ->. apply AddPrimaryKey_ok in EA. destruct EA as [ds [_ ->]].
    replace (il_row_message (with_row_message _ _)) with
      (with_key_entries ds
         (il_row_message (open_state transaction_id schema intent d st))) by reflexivity.
    apply balanced_with_key_entries.
    unfold open_state. cbv zeta.
    destruct (opened_op d); simpl; try reflexivity;
      destruct (FLAGS_enable_single_record_update flags); reflexivity.
Qed.

Lemma fold_column_balanced schema intent d st r st' :
  intent_balanced st ->
  fold_column schema intent d st = (r, st') ->
  all_balanced (il_resp st') /\ (r = inl tt -> balanced (il_row_message st')).
Proof.
  intros [H1 H2] E. rewrite fold_column_run in E.
  assert (Hb : intent_balanced (fold_bump st)).
  { unfold fold_bump. destruct (FLAGS_enable_single_record_update flags); [split; assumption |].
    destruct (IsInsertOperation _); split; assumption. }
  destruct Hb as [Hb1 Hb2].
  destruct (IsInsertOrUpdate _); [| inversion E; subst; auto].
  cbv zeta in E.
  destruct (Value_Decode _ _); [| inversion E; subst; split; [assumption | discriminate]].
  destruct (has_type _ _); [| inversion E; subst; auto].
  destruct (di_column_id_opt d); [| inversion E; subst; auto].
  destruct (column_by_id _ _); [| inversion E; subst; split; [assumption | discriminate]].
  destruct (AddColumnToMap _ _ _) as [[[] | e] dt]; inversion E; subst; clear E.
  - split; [exact Hb1 |]. intros _. unfold balanced in *. simpl.
    rewrite !length_app. simpl. lia.
  - split; [exact Hb1 | discriminate].
Qed.

Lemma intent_body_balanced op_id transaction_id schema table_name intent st r st' :
  intent_balanced st ->
  intent_body op_id transaction_id schema table_name intent st = (r, st') ->
  all_balanced (il_resp st') /\ (r = inl tt -> balanced (il_row_message st')).
Proof.
  intros H E. rewrite intent_body_run in E.
  destruct (decode_intent intent) as [d | e].
  2:{ inversion E; subst. destruct H. split; [assumption | discriminate]. }
  destruct (is_key_column_intent _ _).
  { inversion E; subst. exact (conj (proj1 H) (fun _ => proj2 H)). }
  cbv zeta in E.
  set (st1 := with_new_cdc_record_needed _ st) in E.
  assert (H1 : intent_balanced st1) by exact H.
  destruct (il_new_cdc_record_needed st1).
  - destruct (open_record _ _ _ _ _) as [[[] | e] st2] eqn:EO.
    + eapply open_record_balanced in EO; [| apply flush_state_balanced; exact H1].
      destruct EO as [Ha Hb]. specialize (Hb eq_refl).
      destruct (fold_column _ _ _ _) as [[[] | e] st4] eqn:EF.
      * eapply fold_column_balanced in EF; [| split; [exact Ha | exact Hb]].
        destruct EF as [Hc Hd]. inversion E; subst.
        pose proof (emit_state_balanced op_id schema table_name intent (conj Hc (Hd eq_refl)))
          as [He Hf].
        split; [exact He | intros _; exact Hf].
      * eapply fold_column_balanced in EF; [| split; [exact Ha | exact Hb]].
        inversion E; subst. split; [apply EF | discriminate].
    + eapply open_record_balanced in EO; [| apply flush_state_balanced; exact H1].
      inversion E; subst. split; [apply EO | discriminate].
  - destruct (fold_column _ _ _ _) as [[[] | e] st4] eqn:EF.
    + eapply fold_column_balanced in EF; [| exact H1].
      destruct EF as [Hc Hd]. inversion E; subst.
      pose proof (emit_state_balanced op_id schema table_name intent (conj Hc (Hd eq_refl)))
        as [He Hf].
      split; [exact He | intros _; exact Hf].
    + eapply fold_column_balanced in EF; [| exact H1].
      inversion E; subst. split; [apply EF | discriminate].
Qed.

Lemma forM_intent_balanced body (l : list IntentKeyValueForCDC) :
  (forall x (st : IntentLoop) r st', intent_balanced st -> body x st = (r, st') ->
                        all_balanced (il_resp st') /\ (r = inl tt -> balanced (il_row_message st'))) ->
  forall st r st', intent_balanced st -> forM l body st = (r, st') ->
                   all_balanced (il_resp st') /\ (r = inl tt -> balanced (il_row_message st')).
Proof.
  intros Hbody. induction l as [| x l IH]; intros st r st' H E; simpl in E.
  - inversion E; subst. exact (conj (proj1 H) (fun _ => proj2 H)).
  - unfold bind in E. destruct (body x st) as [[[] | e] st1] eqn:E1.
    + apply Hbody in E1; [| exact H]. destruct E1 as [Ha Hb].
      eapply IH; [split; [exact Ha | exact (Hb eq_refl)] | exact E].
    + apply Hbody in E1; [| exact H]. inversion E; subst. split; [apply E1 | discriminate].
Qed.

Lemma flush_at_end_run op_id table_name st :
  flush_at_end op_id table_name st
  = (inl tt,
     if FLAGS_enable_single_record_update flags && pending_update st then
       let st1 := with_row_message (set_table table_name (il_row_message st)) st in
       MakeNewProtoRecord (il_prev_intent st1) op_id (il_row_message st1) st1
     else st).
Proof.
  unfold flush_at_end, when, bind, get, modify, ret.
  destruct (_ && _); reflexivity.
Qed.

Lemma PopulateCDCSDKIntentRecord_balanced op_id transaction_id intents schema st r st' :
  intent_balanced st ->
  PopulateCDCSDKIntentRecord op_id transaction_id intents schema st = (r, st') ->
  all_balanced (il_resp st').
Proof.
  intros H E. unfold PopulateCDCSDKIntentRecord, bind, liftC in E.
  destruct (shared_tablet_safe tablet_peer) as [tablet | e].
  2:{ inversion E; subst. apply H. }
  destruct (forM _ _ st) as [[[] | e] st1] eqn:EF.
  - eapply forM_intent_balanced in EF; [| intros; eapply intent_body_balanced; eassumption | exact H].
    destruct EF as [Ha Hb]. specialize (Hb eq_refl).
    rewrite flush_at_end_run in E. inversion E; subst.
    destruct (_ && _); [| exact Ha].
    cbv zeta. simpl. apply all_balanced_add; [exact Ha | exact Hb].
  - eapply forM_intent_balanced in EF; [| intros; eapply intent_body_balanced; eassumption | exact H].
    inversion E; subst. apply EF.
Qed.

Lemma Forall_set_last {A} (P : A -> Prop) (a : A) (l : list A) :
  Forall P l -> P a -> Forall P (set_last a l).
Proof.
  intros H Ha. induction l as [| x l IH]; simpl.
  - constructor.
  - inversion H; subst. destruct l as [| y l'].
    + constructor; [exact Ha | constructor].
    + constructor; [assumption | apply IH; assumption].
Qed.

Lemma Forall_last {A} (P : A -> Prop) (l : list A) (d : A) :
  Forall P l -> P d -> P (last l d).
Proof.
  intros H Hd. induction l as [| x l IH]; simpl.
  - exact Hd.
  - inversion H; subst. destruct l; [assumption | apply IH; assumption].
Qed.

Lemma balanced_last_record resp :
  all_balanced resp -> balanced (row_message (last_record resp)).
Proof.
  intro H. unfold last_record.
  apply Forall_last with (P := fun r => balanced (row_message r)); [exact H | reflexivity].
Qed.

Lemma all_balanced_set_last_record r resp :
  all_balanced resp -> balanced (row_message r) -> all_balanced (set_last_record r resp).
Proof. intros H Hr. unfold all_balanced, set_last_record. simpl. apply Forall_set_last; assumption. Qed.

Definition write_balanced (st : WriteLoop) : Prop := all_balanced (wl_resp st).

Lemma wl_with_row_message_balanced m st :
  write_balanced st -> balanced m -> write_balanced (wl_with_row_message m st).
Proof.
  intros H Hm. unfold write_balanced, wl_with_row_message. simpl.
  apply all_balanced_set_last_record; [exact H | exact Hm].
Qed.

Lemma wl_row_message_balanced st : write_balanced st -> balanced (wl_row_message st).
Proof. apply balanced_last_record. Qed.

Lemma AddPrimaryKey_write_balanced decoded_key schema :
  triple write_balanced
         (zoom wl_row_message wl_with_row_message (AddPrimaryKey decoded_key schema))
         (fun _ => write_balanced) (fun _ _ => True).
Proof.
  apply triple_zoom. intros s Hs t ->.
  destruct (AddPrimaryKey decoded_key schema (wl_row_message s)) as [[[] | e] m] eqn:E;
    [| exact I].
  apply AddPrimaryKey_ok in E. destruct E as [ds [_ ->]].
  apply wl_with_row_message_balanced; [exact Hs |].
  apply balanced_with_key_entries, wl_row_message_balanced, Hs.
Qed.

Lemma add_column_write_balanced col v :
  triple write_balanced
         (zoom wl_row_message wl_with_row_message
               (zoom (fun _ => DatumMessagePB_default) add_new_tuple (AddColumnToMap col v)) ;;
          modify (fun st => wl_with_row_message
                              (add_old_tuple DatumMessagePB_default (wl_row_message st)) st))
         (fun _ => write_balanced) (fun _ _ => True).
Proof.
  intros s Hs. unfold bind, zoom, modify.
  destruct (AddColumnToMap col v DatumMessagePB_default) as [[[] | e] dt]; [| exact I].
  unfold write_balanced, wl_with_row_message, wl_row_message in *. simpl.
  pose proof (balanced_last_record Hs) as Hl.
  destruct s as [[recs cp oid] pk set]. simpl in *.
  unfold set_last_record, last_record in *. simpl in *.
  destruct recs as [| r0 recs] using rev_ind.
  - constructor.
  - clear IHrecs. rewrite !set_last_app. rewrite last_last in *. rewrite last_last.
    unfold all_balanced in *. simpl in *.
    apply Forall_app in Hs. destruct Hs as [Hs _].
    apply Forall_app. split; [exact Hs |]. constructor; [| constructor].
    unfold balanced in *. simpl. rewrite !length_app. simpl. lia.
Qed.

Lemma write_pair_body_balanced msg tablet_ptr schema write_pair :
  triple write_balanced (write_pair_body msg tablet_ptr schema write_pair)
         (fun _ => write_balanced) (fun _ _ => True).
Proof.
  unfold write_pair_body.
  keep_step write_balanced. { keep_step write_balanced. }
  keep_step write_balanced. { keep_step write_balanced. }
  keep_step write_balanced. { keep_step write_balanced. }
  keep_step write_balanced.
  { keep_step write_balanced.
    keep_step write_balanced.
    { keep_step write_balanced. apply all_balanced_add; [assumption | reflexivity]. }
    keep_step write_balanced.
    { keep_step write_balanced. apply wl_with_row_message_balanced; [assumption |].
      apply wl_row_message_balanced. assumption. }
    keep_step write_balanced.
    { keep_step write_balanced. unfold write_balanced. simpl.
      apply all_balanced_set_last_record; [assumption |].
      apply balanced_last_record. assumption. }
    keep_step write_balanced. { keep_step write_balanced. }
    keep_step write_balanced.
    { keep_step write_balanced.
      - keep_step write_balanced. apply wl_with_row_message_balanced; [assumption |].
        apply wl_row_message_balanced. assumption.
      - keep_step write_balanced. { keep_step write_balanced. }
        keep_step write_balanced;
          (keep_step write_balanced; apply wl_with_row_message_balanced; [assumption |];
           apply wl_row_message_balanced; assumption). }
    keep_step write_balanced. { apply AddPrimaryKey_write_balanced. }
    keep_step write_balanced. apply wl_with_row_message_balanced; [assumption |].
    apply wl_row_message_balanced. assumption. }
  keep_step write_balanced. { keep_step write_balanced. assumption. }
  keep_step write_balanced. { keep_step write_balanced. }
  keep_step write_balanced. { keep_step write_balanced. }
  keep_step write_balanced.
  keep_step write_balanced. { keep_step write_balanced. }
  keep_step write_balanced; [| keep_step write_balanced].
  keep_step write_balanced. { keep_step write_balanced. }
  apply add_column_write_balanced.
Qed.

Lemma PopulateCDCSDKWriteRecord_balanced msg schema resp resp' :
  all_balanced resp ->
  PopulateCDCSDKWriteRecord msg schema resp = (inl tt, resp') ->
  all_balanced resp'.
Proof.
  intros H E.
  assert (T : triple all_balanced (PopulateCDCSDKWriteRecord msg schema)
                     (fun _ => all_balanced) (fun _ _ => True)).
  { unfold PopulateCDCSDKWriteRecord.
    keep_step all_balanced. { keep_step all_balanced. }
    apply triple_zoom. intros s Hs.
    eapply triple_conseq
      with (P' := write_balanced) (Q' := fun _ => write_balanced) (R' := fun _ _ => True).
    - apply triple_forM. intros x _. apply write_pair_body_balanced.
    - intros t ->. exact Hs.
    - intros _ t Ht. exact Ht.
    - auto. }
  exact (triple_run _ T H E).
Qed.

Lemma snapshot_column_balanced row schema col_idx :
  triple balanced (snapshot_column row schema col_idx) (fun _ => balanced) (fun _ _ => True).
Proof.
  intros m Hm. unfold snapshot_column, bind, liftC, zoom, modify, get, put.
  destruct (column_by_id schema (column_id schema col_idx)) as [col_schema | e]; [| exact I].
  assert (Hok : forall dt, balanced (add_old_tuple DatumMessagePB_default (add_new_tuple dt m))).
  { intro dt. unfold balanced in *. simpl. rewrite !length_app. simpl. lia. }
  destruct (GetColumn row (column_id schema col_idx)) as [v |].
  - destruct (negb (IsNull v) && negb (pg_type_oid col_schema =? 0)).
    + destruct (SetValueFromQLBinaryWrapper _ _ _ _); [apply Hok | exact I].
    + apply Hok.
  - apply Hok.
Qed.

Lemma PopulateCDCSDKSnapshotRecord_balanced row schema time resp resp' :
  all_balanced resp ->
  PopulateCDCSDKSnapshotRecord row schema time resp = (inl tt, resp') ->
  all_balanced resp'.
Proof.
  intros H E.
  assert (T : triple all_balanced (PopulateCDCSDKSnapshotRecord row schema time)
                     (fun _ => all_balanced) (fun _ _ => True)).
  { unfold PopulateCDCSDKSnapshotRecord.
    keep_step all_balanced. { keep_step all_balanced. }
    keep_step all_balanced.
    { keep_step all_balanced. apply all_balanced_add; [assumption | reflexivity]. }
    apply triple_zoom. intros s Hs.
    apply triple_zoom. intros r ->.
    eapply triple_conseq
      with (P' := balanced) (Q' := fun _ => balanced) (R' := fun _ _ => True).
    - keep_step balanced.
      { keep_step balanced. exact H0. }
      apply triple_forM. intros x _. apply snapshot_column_balanced.
    - intros m ->. apply balanced_last_record. exact Hs.
    - intros _ m Hm. apply all_balanced_set_last_record; [exact Hs | exact Hm].
    - auto. }
  exact (triple_run _ T H E).
Qed.

Lemma with_key_entries_DELETE ds m :
  op m = RowMessage_Op_DELETE ->
  new_tuple (with_key_entries ds m)
  = new_tuple m ++ repeat DatumMessagePB_default (List.length ds)
  /\ old_tuple (with_key_entries ds m) = old_tuple m ++ ds.
Proof. intro H. unfold with_key_entries. rewrite H. simpl. split; reflexivity. Qed.

(** C10. Every record the intent path, the write-batch path and the snapshot
    path add to a response has an [old_tuple] and a [new_tuple] of the same
    length: the intent path whatever its outcome, the other two when they
    return OK.  In a DELETE message [AddPrimaryKey] gives [new_tuple] one
    placeholder entry for each component of the primary key. *)
Theorem tuple_length_parity (resp : GetChangesResponsePB) :
  all_balanced resp ->
  (forall op_id transaction_id intents schema w k r st',
      PopulateCDCSDKIntentRecord op_id transaction_id intents schema
                                 (IntentLoop_init resp w k) = (r, st') ->
      all_balanced (il_resp st'))
  /\ (forall msg schema resp',
         PopulateCDCSDKWriteRecord msg schema resp = (inl tt, resp') -> all_balanced resp')
  /\ (forall row schema time resp',
         PopulateCDCSDKSnapshotRecord row schema time resp = (inl tt, resp') ->
         all_balanced resp')
  /\ (forall decoded_key schema m m',
         op m = RowMessage_Op_DELETE ->
         AddPrimaryKey decoded_key schema m = (inl tt, m') ->
         new_tuple m'
         = new_tuple m ++ repeat DatumMessagePB_default
                                 (List.length (key_components decoded_key))
         /\ List.length (old_tuple m')
            = (List.length (old_tuple m) + List.length (key_components decoded_key))%nat).
Proof.
  intro H. repeat split.
  - intros. eapply PopulateCDCSDKIntentRecord_balanced; [| eassumption].
    split; [exact H | reflexivity].
  - intros. eapply PopulateCDCSDKWriteRecord_balanced; eassumption.
  - intros. eapply PopulateCDCSDKSnapshotRecord_balanced; eassumption.
  - apply AddPrimaryKey_ok in H1. destruct H1 as [ds [Hds ->]].
    destruct (with_key_entries_DELETE ds m H0) as [-> _].
    rewrite (pk_filled_length _ _ _ _ Hds). reflexivity.
  - apply AddPrimaryKey_ok in H1. destruct H1 as [ds [Hds ->]].
    destruct (with_key_entries_DELETE ds m H0) as [_ ->].
    rewrite length_app, (pk_filled_length _ _ _ _ Hds). reflexivity.
Qed.

(** *** When a new record is opened *)

Lemma ValueEntryType_eqb_eq a b : ValueEntryType_eqb a b = true <-> a = b.
Proof. destruct a, b; simpl; split; intro H; try reflexivity; discriminate H. Qed.

Lemma KeyEntryType_eqb_eq a b : KeyEntryType_eqb a b = true <-> a = b.
Proof. destruct a, b; simpl; split; intro H; try reflexivity; discriminate H. Qed.

Lemma is_root_tombstone_iff v k :
  is_root_tombstone v k = true <-> value_type v = kTombstone /\ num_subkeys k = 0.
Proof.
  unfold is_root_tombstone. rewrite andb_true_iff, ValueEntryType_eqb_eq, Z.eqb_eq. tauto.
Qed.

(** The record an emission adds for [intent]. *)
Definition record_for (op_id : OpId) (intent : IntentKeyValueForCDC) (m : RowMessage)
  : CDCSDKProtoRecordPB :=
  mkProtoRecord m (SetCDCSDKOpId (op_term op_id) (op_index op_id) (write_id intent)
                                 (reverse_index_key intent)).

Definition records (st : IntentLoop) : list CDCSDKProtoRecordPB :=
  cdc_sdk_proto_records (il_resp st).

Lemma flush_state_fields op_id st :
  il_new_cdc_record_needed (flush_state op_id st) = il_new_cdc_record_needed st
  /\ il_prev_key (flush_state op_id st) = il_prev_key st
  /\ il_prev_intent_phy_time (flush_state op_id st) = il_prev_intent_phy_time st
  /\ il_prev_intent (flush_state op_id st) = il_prev_intent st
  /\ il_row_message (flush_state op_id st) = il_row_message st
  /\ records (flush_state op_id st)
     = records st ++ (if FLAGS_enable_single_record_update flags && pending_update st
                      then [record_for op_id (il_prev_intent st) (il_row_message st)]
                      else []).
Proof.
  unfold flush_state, records.
  destruct (FLAGS_enable_single_record_update flags); simpl.
  2:{ rewrite app_nil_r. repeat split. }
  assert (E : pending_update (if 0 <? il_col_count st then with_col_count 0 st else st)
              = pending_update st).
  { destruct (0 <? il_col_count st); reflexivity. }
  rewrite E. destruct (pending_update st); destruct (0 <? il_col_count st); simpl;
    rewrite ?app_nil_r; repeat split.
Qed.

Lemma open_record_fields transaction_id schema intent d st r st' :
  open_record transaction_id schema intent d st = (r, st') ->
  il_new_cdc_record_needed st' = il_new_cdc_record_needed st
  /\ il_prev_key st' = il_prev_key st
  /\ il_prev_intent_phy_time st' = il_prev_intent_phy_time st
  /\ il_prev_intent st' = il_prev_intent st
  /\ records st' = records st
  /\ (r = inl tt ->
      exists ds, pk_filled schema 0 (key_components (di_decoded_key d)) ds
                 /\ il_row_message st'
                    = with_key_entries ds
                        (set_transaction_id transaction_id
                           (SetOperation (opened_op d) schema RowMessage_default))).
Proof.
  intro E. rewrite open_record_run in E. cbv zeta in E.
  destruct (AddPrimaryKey _ _ _) as [r0 m] eqn:EA. inversion E; subst; clear E.
  assert (Hrow : il_row_message (open_state transaction_id schema intent d st)
                 = set_transaction_id transaction_id
                     (SetOperation (opened_op d) schema RowMessage_default)).
  { unfold open_state. cbv zeta.
    destruct (opened_op d); simpl; try reflexivity;
      destruct (FLAGS_enable_single_record_update flags); reflexivity. }
  unfold records.
  repeat split;
    try (unfold open_state; cbv zeta;
         destruct (opened_op d); simpl; try reflexivity;
         destruct (FLAGS_enable_single_record_update flags); reflexivity).
  intros ->. apply AddPrimaryKey_ok in EA. destruct EA as [ds [Hds ->]].
  exists ds. split; [exact Hds |]. rewrite <- Hrow. reflexivity.
Qed.

Lemma fold_column_fields schema intent d st r st' :
  fold_column schema intent d st = (r, st') ->
  il_new_cdc_record_needed st' = il_new_cdc_record_needed st
  /\ il_prev_key st' = il_prev_key st
  /\ il_prev_intent_phy_time st' = il_prev_intent_phy_time st
  /\ il_prev_intent st' = il_prev_intent st
  /\ records st' = records st
  /\ il_write_id st' = il_write_id st
  /\ il_reverse_index_key st' = il_reverse_index_key st
  /\ (r = inl tt ->
      il_row_message st' = il_row_message st
      \/ exists dt, il_row_message st'
                    = add_old_tuple DatumMessagePB_default
                        (add_new_tuple dt (il_row_message st))).
Proof.
  intro E. rewrite fold_column_run in E.
  assert (Hb : il_new_cdc_record_needed (fold_bump st) = il_new_cdc_record_needed st
               /\ il_prev_key (fold_bump st) = il_prev_key st
               /\ il_prev_intent_phy_time (fold_bump st) = il_prev_intent_phy_time st
               /\ il_prev_intent (fold_bump st) = il_prev_intent st
               /\ records (fold_bump st) = records st
               /\ il_write_id (fold_bump st) = il_write_id st
               /\ il_reverse_index_key (fold_bump st) = il_reverse_index_key st
               /\ il_row_message (fold_bump st) = il_row_message st).
  { unfold fold_bump. destruct (FLAGS_enable_single_record_update flags);
      [| destruct (IsInsertOperation _)]; repeat split. }
  destruct Hb as (B1 & B2 & B3 & B4 & B5 & B6 & B7 & B8).
  destruct (IsInsertOrUpdate _).
  2:{ inversion E; subst. repeat split. intros _. left. reflexivity. }
  cbv zeta in E.
  destruct (Value_Decode _ _).
  2:{ inversion E; subst. repeat split; try assumption. discriminate. }
  destruct (has_type _ _).
  2:{ inversion E; subst. repeat split; try assumption. intros _. left. assumption. }
  destruct (di_column_id_opt d).
  2:{ inversion E; subst. repeat split; try assumption. intros _. left. assumption. }
  destruct (column_by_id _ _).
  2:{ inversion E; subst. repeat split; try assumption. discriminate. }
  destruct (AddColumnToMap _ _ _) as [[[] | e] dt]; inversion E; subst; clear E;
    unfold records in *; simpl; repeat split; try assumption.
  - intros _. right. exists dt. rewrite B8. reflexivity.
  - discriminate.
Qed.

(** The test that makes [emit_record] copy the message into the response. *)
Definition emits (schema : Schema) (st : IntentLoop) : bool :=
  let m := il_row_message st in
  if FLAGS_enable_single_record_update flags then
    (Op_eqb (op m) RowMessage_Op_INSERT && (il_col_count st =? num_columns schema))
    || Op_eqb (op m) RowMessage_Op_DELETE
  else
    (Op_eqb (op m) RowMessage_Op_INSERT && (il_col_count st =? num_columns schema))
    || (Op_eqb (op m) RowMessage_Op_UPDATE || Op_eqb (op m) RowMessage_Op_DELETE).

Lemma emit_state_fields op_id schema table_name intent st :
  let st' := emit_state op_id schema table_name intent st in
  il_new_cdc_record_needed st' = il_new_cdc_record_needed st
  /\ il_prev_key st' = il_prev_key st
  /\ il_prev_intent_phy_time st' = il_prev_intent_phy_time st
  /\ il_row_message st' = set_table table_name (il_row_message st)
  /\ records st'
     = records st ++ (if emits schema st
                      then [record_for op_id intent (set_table table_name (il_row_message st))]
                      else []).
Proof.
  unfold emit_state, emits, records. cbv zeta.
  destruct (FLAGS_enable_single_record_update flags); simpl.
  - destruct (_ || _); simpl; [repeat split |].
    destruct (Op_eqb _ RowMessage_Op_UPDATE); simpl; rewrite app_nil_r; repeat split.
  - destruct (_ || _); simpl; rewrite ?app_nil_r; repeat split.
Qed.


Lemma compute_new_cdc_record_needed_packed schema intent d st :
  FLAGS_enable_single_record_update flags = true ->
  (compute_new_cdc_record_needed schema intent d st = true <->
   il_prev_key st <> Slice_prefix (key_buf intent) (di_key_size d)
   \/ num_columns schema <= il_col_count st
   \/ (value_type (di_decoded_value d) = kTombstone /\ num_subkeys (di_decoded_key d) = 0)
   \/ il_prev_intent_phy_time st <> intent_phy_time intent).
Proof.
  intro Hf. unfold compute_new_cdc_record_needed. rewrite Hf.
  rewrite !orb_true_iff, !negb_true_iff, String.eqb_neq, Z.leb_le, Z.eqb_neq,
    is_root_tombstone_iff.
  tauto.
Qed.

(** One iteration in packed mode, from any state of the loop: the record is
    opened exactly when one of the four tests of lines 241-245 holds of the
    loop's variables.  When it is, a pending UPDATE is first added to the
    response as a record of its own, and the new message is built from an
    empty one with this intent alone; when it is not, the message in hand is
    carried on. *)
Lemma intent_body_opening
        op_id transaction_id schema table_name intent d st r st' :
  FLAGS_enable_single_record_update flags = true ->
  decode_intent intent = inl d ->
  is_key_column_intent schema (di_column_id_opt d) = false ->
  intent_body op_id transaction_id schema table_name intent st = (r, st') ->
  let primary_key := Slice_prefix (key_buf intent) (di_key_size d) in
  let fresh := set_transaction_id transaction_id
                 (SetOperation (opened_op d) schema RowMessage_default) in
  (il_new_cdc_record_needed st' = true <->
   il_prev_key st <> primary_key
   \/ num_columns schema <= il_col_count st
   \/ (value_type (di_decoded_value d) = kTombstone /\ num_subkeys (di_decoded_key d) = 0)
   \/ il_prev_intent_phy_time st <> intent_phy_time intent)
  /\ (il_new_cdc_record_needed st' = true ->
      (exists rest,
          records st'
          = records st
            ++ (if pending_update st
                then [record_for op_id (il_prev_intent st) (il_row_message st)]
                else [])
            ++ rest)
      /\ (r = inl tt ->
          exists ds,
            pk_filled schema 0 (key_components (di_decoded_key d)) ds
            /\ (il_row_message st' = set_table table_name (with_key_entries ds fresh)
                \/ exists dt,
                  il_row_message st'
                  = set_table table_name
                      (add_old_tuple DatumMessagePB_default
                         (add_new_tuple dt (with_key_entries ds fresh))))))
  /\ (il_new_cdc_record_needed st' = false ->
      r = inl tt ->
      il_row_message st' = set_table table_name (il_row_message st)
      \/ exists dt,
        il_row_message st'
        = set_table table_name
            (add_old_tuple DatumMessagePB_default (add_new_tuple dt (il_row_message st)))).
Proof.
  intros Hf Hd Hk E primary_key fresh.
  rewrite intent_body_run, Hd, Hk in E. cbv zeta in E.
  set (needed := compute_new_cdc_record_needed schema intent d st) in E.
  set (st1 := with_new_cdc_record_needed needed st) in E.
  assert (Hn1 : il_new_cdc_record_needed st1 = needed) by reflexivity.
  assert (Hflag : il_new_cdc_record_needed st' = needed).
  { rewrite Hn1 in E. destruct needed.
    - destruct (open_record _ _ _ _ _) as [[[] | e] st2] eqn:EO.
      + apply open_record_fields in EO. destruct EO as (O1 & _).
        destruct (fold_column _ _ _ _) as [[[] | e] st4] eqn:EF;
          apply fold_column_fields in EF; destruct EF as (F1 & _);
          inversion E; subst; clear E.
        * destruct (emit_state_fields op_id schema table_name intent st4) as (M1 & _).
          rewrite M1, F1. simpl. rewrite O1.
          destruct (flush_state_fields op_id st1) as (L1 & _). rewrite L1. reflexivity.
        * rewrite F1. simpl. rewrite O1.
          destruct (flush_state_fields op_id st1) as (L1 & _). rewrite L1. reflexivity.
      + apply open_record_fields in EO. destruct EO as (O1 & _).
        inversion E; subst; clear E. rewrite O1.
        destruct (flush_state_fields op_id st1) as (L1 & _). rewrite L1. reflexivity.
    - destruct (fold_column _ _ _ _) as [[[] | e] st4] eqn:EF;
        apply fold_column_fields in EF; destruct EF as (F1 & _);
        inversion E; subst; clear E.
      + destruct (emit_state_fields op_id schema table_name intent st4) as (M1 & _).
        rewrite M1, F1. reflexivity.
      + rewrite F1. reflexivity. }
  split; [| split].
  - rewrite Hflag. apply compute_new_cdc_record_needed_packed. exact Hf.
  - intro Hn. rewrite Hflag in Hn. rewrite Hn1, Hn in E.
    destruct (flush_state_fields op_id st1) as (_ & _ & _ & _ & _ & L6).
    rewrite Hf in L6. simpl in L6.
    change (pending_update st1) with (pending_update st) in L6.
    change (il_prev_intent st1) with (il_prev_intent st) in L6.
    change (il_row_message st1) with (il_row_message st) in L6.
    change (records st1) with (records st) in L6.
    destruct (open_record _ _ _ _ _) as [[[] | e] st2] eqn:EO.
    + apply open_record_fields in EO. destruct EO as (_ & _ & _ & _ & O5 & O6).
      destruct (O6 eq_refl) as [ds [Hds Hrow]].
      destruct (fold_column _ _ _ _) as [[[] | e] st4] eqn:EF;
        apply fold_column_fields in EF;
        destruct EF as (_ & _ & _ & _ & F5 & _ & _ & F8);
        inversion E; subst; clear E.
      * destruct (emit_state_fields op_id schema table_name intent st4)
          as (_ & _ & _ & M4 & M5).
        split.
        -- eexists. rewrite M5, F5. change (records (mark_state intent d st2)) with (records st2).
           rewrite O5, L6. rewrite <- app_assoc. reflexivity.
        -- intros _. exists ds. split; [exact Hds |]. rewrite M4.
           destruct (F8 eq_refl) as [F | [dt F]]; rewrite F;
             change (il_row_message (mark_state intent d st2)) with (il_row_message st2);
             rewrite Hrow; [left | right; exists dt]; reflexivity.
      * split; [| discriminate].
        exists []. rewrite app_nil_r, F5.
        change (records (mark_state intent d st2)) with (records st2).
        rewrite O5, L6. reflexivity.
    + apply open_record_fields in EO. destruct EO as (_ & _ & _ & _ & O5 & _).
      inversion E; subst; clear E.
      split; [| discriminate].
      exists []. rewrite app_nil_r, O5, L6. reflexivity.
  - intros Hn ->. rewrite Hflag in Hn. rewrite Hn1, Hn in E.
    destruct (fold_column _ _ _ _) as [[[] | e] st4] eqn:EF; [| discriminate E].
    apply fold_column_fields in EF. destruct EF as (_ & _ & _ & _ & _ & _ & _ & F8).
    inversion E; subst; clear E.
    destruct (emit_state_fields op_id schema table_name intent st4) as (_ & _ & _ & M4 & _).
    rewrite M4.
    destruct (F8 eq_refl) as [F | [dt F]]; rewrite F; [left | right; exists dt]; reflexivity.
Qed.

Lemma open_record_ok transaction_id schema intent d st st' :
  open_record transaction_id schema intent d st = (inl tt, st') ->
  exists ds,
    pk_filled schema 0 (key_components (di_decoded_key d)) ds
    /\ st' = with_row_message
               (with_key_entries ds
                  (set_transaction_id transaction_id
                     (SetOperation (opened_op d) schema RowMessage_default)))
               (open_state transaction_id schema intent d st).
Proof.
  intro E. rewrite open_record_run in E. cbv zeta in E.
  destruct (AddPrimaryKey _ _ _) as [r0 m] eqn:EA. inversion E; subst; clear E.
  apply AddPrimaryKey_ok in EA. destruct EA as [ds [Hds ->]].
  exists ds. split; [exact Hds |]. f_equal. f_equal.
  unfold open_state. cbv zeta.
  destruct (opened_op d); simpl; try reflexivity;
    destruct (FLAGS_enable_single_record_update flags); reflexivity.
Qed.

Lemma fold_column_ok schema intent d st st' :
  fold_column schema intent d st = (inl tt, st') ->
  (IsInsertOrUpdate (il_row_message st) = false /\ st' = st)
  \/ (IsInsertOrUpdate (il_row_message st) = true
      /\ has_type (di_column_id_opt d) kColumnId = false /\ st' = fold_bump st)
  \/ (IsInsertOrUpdate (il_row_message st) = true
      /\ has_type (di_column_id_opt d) kColumnId = true
      /\ exists dt,
        st' = with_row_message
                (add_old_tuple DatumMessagePB_default
                   (add_new_tuple dt (il_row_message (fold_bump st)))) (fold_bump st)).
Proof.
  intro E. rewrite fold_column_run in E.
  destruct (IsInsertOrUpdate _); [| left; inversion E; auto].
  right. cbv zeta in E.
  destruct (Value_Decode _ _); [| discriminate E].
  destruct (has_type (di_column_id_opt d) kColumnId) eqn:Eh; [| left; inversion E; auto].
  right. destruct (di_column_id_opt d); [| discriminate Eh].
  destruct (column_by_id _ _); [| discriminate E].
  destruct (AddColumnToMap _ _ _) as [[[] | e] dt]; [| discriminate E].
  inversion E; subst. repeat split. exists dt. reflexivity.
Qed.

(** *** The loop's bookkeeping, read off the intents *)

(** What the loop keeps from one iteration to the next and consults when it
    decides whether to open a record: [prev_key], [prev_intent_phy_time],
    [col_count], the operation of [*row_message] and [prev_intent]. *)
Record Bookkeeping := mkBookkeeping {
  bk_prev_key : string;
  bk_prev_intent_phy_time : Z;
  bk_col_count : Z;
  bk_op : RowMessage_Op;
  bk_prev_intent : IntentKeyValueForCDC }.

Definition bookkeeping (st : IntentLoop) : Bookkeeping :=
  mkBookkeeping (il_prev_key st) (il_prev_intent_phy_time st) (il_col_count st)
                (op (il_row_message st)) (il_prev_intent st).

Definition Bookkeeping_init : Bookkeeping :=
  mkBookkeeping "" 0 0 RowMessage_Op_UNKNOWN (IntentKeyValueForCDC_default docdb).

(** Lines 240-248. *)
Definition opens (schema : Schema) (intent : IntentKeyValueForCDC) (d : DecodedIntent)
           (b : Bookkeeping) : bool :=
  let primary_key := Slice_prefix (key_buf intent) (di_key_size d) in
  if FLAGS_enable_single_record_update flags then
    negb (String.eqb (bk_prev_key b) primary_key)
    || (num_columns schema <=? bk_col_count b)
    || is_root_tombstone (di_decoded_value d) (di_decoded_key d)
    || negb (bk_prev_intent_phy_time b =? intent_phy_time intent)
  else
    negb (String.eqb (bk_prev_key b) primary_key)
    || (num_columns schema <=? bk_col_count b).

(** Line 252. *)
Definition bk_flush (b : Bookkeeping) : Bookkeeping :=
  if FLAGS_enable_single_record_update flags && (0 <? bk_col_count b)
  then mkBookkeeping (bk_prev_key b) (bk_prev_intent_phy_time b) 0 (bk_op b) (bk_prev_intent b)
  else b.

(** Lines 262-286. *)
Definition bk_open (schema : Schema) (d : DecodedIntent) (b : Bookkeeping) : Bookkeeping :=
  mkBookkeeping (bk_prev_key b) (bk_prev_intent_phy_time b)
    (match opened_op d with
     | RowMessage_Op_INSERT => wrap64 (num_key_columns schema - 1)
     | _ => if FLAGS_enable_single_record_update flags then bk_col_count b
            else num_columns schema
     end)
    (opened_op d) (bk_prev_intent b).

(** Lines 294-295. *)
Definition bk_mark (intent : IntentKeyValueForCDC) (d : DecodedIntent) (b : Bookkeeping)
  : Bookkeeping :=
  mkBookkeeping (Slice_prefix (key_buf intent) (di_key_size d)) (intent_phy_time intent)
                (bk_col_count b) (bk_op b) (bk_prev_intent b).

(** Lines 296-303, for a message that is initialised. *)
Definition bk_fold (b : Bookkeeping) : Bookkeeping :=
  if (Op_eqb (bk_op b) RowMessage_Op_INSERT || Op_eqb (bk_op b) RowMessage_Op_UPDATE)
     && (FLAGS_enable_single_record_update flags || Op_eqb (bk_op b) RowMessage_Op_INSERT)
  then mkBookkeeping (bk_prev_key b) (bk_prev_intent_phy_time b) (wrap64 (bk_col_count b + 1))
                     (bk_op b) (bk_prev_intent b)
  else b.

(** Lines 324-333. *)
Definition bk_emit (schema : Schema) (intent : IntentKeyValueForCDC) (b : Bookkeeping)
  : Bookkeeping :=
  if FLAGS_enable_single_record_update flags then
    if (Op_eqb (bk_op b) RowMessage_Op_INSERT && (bk_col_count b =? num_columns schema))
       || Op_eqb (bk_op b) RowMessage_Op_DELETE
    then mkBookkeeping (bk_prev_key b) (bk_prev_intent_phy_time b) (num_columns schema)
                       (bk_op b) (bk_prev_intent b)
    else if Op_eqb (bk_op b) RowMessage_Op_UPDATE
         then mkBookkeeping (bk_prev_key b) (bk_prev_intent_phy_time b) (bk_col_count b)
                            (bk_op b) intent
         else b
  else b.

(** One iteration of the loop, as far as the bookkeeping goes. *)
Definition keep_books (schema : Schema) (b : Bookkeeping) (intent : IntentKeyValueForCDC)
  : Bookkeeping :=
  match decode_intent intent with
  | inr _ => b
  | inl d =>
      if is_key_column_intent schema (di_column_id_opt d) then b
      else
        bk_emit schema intent
          (bk_fold
             (bk_mark intent d
                (if opens schema intent d b then bk_open schema d (bk_flush b) else b)))
  end.

(** The bookkeeping after the intents [walked], from the start of the loop. *)
Definition books (schema : Schema) (walked : list IntentKeyValueForCDC) : Bookkeeping :=
  fold_left (keep_books schema) walked Bookkeeping_init.

Lemma opens_bookkeeping schema intent d st :
  compute_new_cdc_record_needed schema intent d st = opens schema intent d (bookkeeping st).
Proof. reflexivity. Qed.

Lemma flush_books op_id st :
  bookkeeping (flush_state op_id st) = bk_flush (bookkeeping st).
Proof.
  unfold flush_state, bk_flush, bookkeeping.
  destruct (FLAGS_enable_single_record_update flags); [| reflexivity]. simpl.
  destruct (0 <? il_col_count st); destruct (pending_update _); reflexivity.
Qed.

Lemma open_books transaction_id schema intent d st st' :
  open_record transaction_id schema intent d st = (inl tt, st') ->
  bookkeeping st' = bk_open schema d (bookkeeping st).
Proof.
  intro E. apply open_record_ok in E. destruct E as [ds [_ ->]].
  unfold bookkeeping, bk_open.
  change (il_row_message (with_row_message ?m ?s)) with m.
  rewrite with_key_entries_op. unfold open_state. cbv zeta.
  destruct (opened_op d); simpl; try reflexivity;
    destruct (FLAGS_enable_single_record_update flags); reflexivity.
Qed.

Lemma fold_books schema intent d st st' :
  (forall m, RowMessage_IsInitialized docdb m = true) ->
  fold_column schema intent d st = (inl tt, st') ->
  bookkeeping st' = bk_fold (bookkeeping st).
Proof.
  intros Hinit E. apply fold_column_ok in E.
  unfold IsInsertOrUpdate in E. rewrite Hinit in E. simpl in E.
  assert (Hb : bookkeeping (fold_bump st)
               = if FLAGS_enable_single_record_update flags
                    || Op_eqb (op (il_row_message st)) RowMessage_Op_INSERT
                 then mkBookkeeping (il_prev_key st) (il_prev_intent_phy_time st)
                                    (wrap64 (il_col_count st + 1))
                                    (op (il_row_message st)) (il_prev_intent st)
                 else bookkeeping st).
  { unfold fold_bump, IsInsertOperation.
    destruct (FLAGS_enable_single_record_update flags); [reflexivity |].
    destruct (Op_eqb _ _); reflexivity. }
  unfold bk_fold. cbn [bk_op bookkeeping].
  destruct E as [[E ->] | [(E & _ & ->) | (E & _ & [dt ->])]]; rewrite E; simpl.
  - reflexivity.
  - exact Hb.
  - rewrite <- Hb. unfold bookkeeping. reflexivity.
Qed.

Lemma emit_books op_id schema table_name intent st :
  bookkeeping (emit_state op_id schema table_name intent st)
  = bk_emit schema intent (bookkeeping st).
Proof.
  unfold emit_state, bk_emit, bookkeeping. cbv zeta.
  change (il_row_message (with_row_message ?m ?s)) with m.
  change (op (set_table ?t ?m)) with (op m).
  change (il_col_count (with_row_message ?m ?s)) with (il_col_count s).
  destruct (FLAGS_enable_single_record_update flags); simpl.
  - destruct (_ || _); [reflexivity |].
    destruct (Op_eqb _ RowMessage_Op_UPDATE); reflexivity.
  - destruct (_ || _); reflexivity.
Qed.

Lemma intent_body_books op_id transaction_id schema table_name intent st st' :
  (forall m, RowMessage_IsInitialized docdb m = true) ->
  intent_body op_id transaction_id schema table_name intent st = (inl tt, st') ->
  bookkeeping st' = keep_books schema (bookkeeping st) intent.
Proof.
  intros Hinit E. rewrite intent_body_run in E. unfold keep_books.
  destruct (decode_intent intent) as [d | e]; [| discriminate E].
  destruct (is_key_column_intent schema (di_column_id_opt d)).
  { inversion E; subst. reflexivity. }
  cbv zeta in E. rewrite <- opens_bookkeeping.
  destruct (compute_new_cdc_record_needed schema intent d st).
  - change (il_new_cdc_record_needed (with_new_cdc_record_needed true st)) with true in E.
    cbv iota in E.
    destruct (open_record _ _ _ _ _) as [[[] | e] st2] eqn:EO; [| discriminate E].
    apply open_books in EO. rewrite flush_books in EO.
    destruct (fold_column _ _ _ _) as [[[] | e] st4] eqn:EF; [| discriminate E].
    apply fold_books in EF; [| exact Hinit].
    inversion E; subst; clear E.
    rewrite emit_books, EF.
    change (bookkeeping (mark_state intent d st2)) with (bk_mark intent d (bookkeeping st2)).
    rewrite EO. reflexivity.
  - change (il_new_cdc_record_needed (with_new_cdc_record_needed false st)) with false in E.
    cbv iota in E.
    destruct (fold_column _ _ _ _) as [[[] | e] st4] eqn:EF; [| discriminate E].
    apply fold_books in EF; [| exact Hinit].
    inversion E; subst; clear E.
    rewrite emit_books, EF. reflexivity.
Qed.

Lemma forM_intent_books op_id transaction_id schema table_name intents :
  (forall m, RowMessage_IsInitialized docdb m = true) ->
  forall st st',
    forM intents (intent_body op_id transaction_id schema table_name) st = (inl tt, st') ->
    bookkeeping st' = fold_left (keep_books schema) intents (bookkeeping st).
Proof.
  intro Hinit. induction intents as [| intent rest IH]; intros st st' E; simpl in E.
  - inversion E; subst. reflexivity.
  - unfold bind in E.
    destruct (intent_body _ _ _ _ intent st) as [[[] | e] st1] eqn:E1; [| discriminate E].
    simpl. rewrite <- (@intent_body_books _ _ _ _ _ _ _ Hinit E1). apply IH. exact E.
Qed.

Lemma walked_books op_id transaction_id schema table_name intents resp w k st :
  (forall m, RowMessage_IsInitialized docdb m = true) ->
  forM intents (intent_body op_id transaction_id schema table_name)
       (IntentLoop_init resp w k) = (inl tt, st) ->
  bookkeeping st = books schema intents.
Proof. intros Hinit E. exact (@forM_intent_books _ _ _ _ _ Hinit _ _ E). Qed.

(** *** The shape of INSERT and DELETE records *)

(** What [AddPrimaryKey] leaves in the message opened for the root-level
    tombstone [intent]: in [old_tuple] the entries [AddColumnToMap] writes for
    the components of the intent's row key, in [new_tuple] as many empty
    entries. *)
Definition delete_of (schema : Schema) (intent : IntentKeyValueForCDC) (m : RowMessage)
  : Prop :=
  exists d,
    decode_intent intent = inl d
    /\ is_root_tombstone (di_decoded_value d) (di_decoded_key d) = true
    /\ Z.of_nat (List.length (key_components (di_decoded_key d))) = num_key_columns schema
    /\ pk_filled schema 0 (key_components (di_decoded_key d)) (old_tuple m)
    /\ new_tuple m
       = repeat DatumMessagePB_default (List.length (key_components (di_decoded_key d))).

(** An INSERT record has [num_columns] entries; a DELETE record is the
    message of one of the [intents], a root-level tombstone, and carries its
    write id and reverse-index key. *)
Definition record_shape (op_id : OpId) (schema : Schema)
           (intents : list IntentKeyValueForCDC) (rec : CDCSDKProtoRecordPB) : Prop :=
  let m := row_message rec in
  (op m = RowMessage_Op_INSERT ->
   Z.of_nat (List.length (new_tuple m)) = num_columns schema
   /\ Z.of_nat (List.length (old_tuple m)) = num_columns schema)
  /\ (op m = RowMessage_Op_DELETE ->
      exists intent,
        In intent intents
        /\ cdc_sdk_op_id rec
           = SetCDCSDKOpId (op_term op_id) (op_index op_id) (write_id intent)
                           (reverse_index_key intent)
        /\ delete_of schema intent m).

(** The intents the walk gets to carry as many key components as the schema
    has key columns, and each of them writes a regular column unless the loop
    opens a record for it (lines 240-248, read with the bookkeeping [b] the
    intents before it leave). *)
Fixpoint well_formed_intents (schema : Schema) (b : Bookkeeping)
         (intents : list IntentKeyValueForCDC) : Prop :=
  match intents with
  | [] => True
  | intent :: rest =>
      match decode_intent intent with
      | inr _ => True
      | inl d =>
          (is_key_column_intent schema (di_column_id_opt d) = false ->
           Z.of_nat (List.length (key_components (di_decoded_key d))) = num_key_columns schema
           /\ (has_type (di_column_id_opt d) kColumnId = true
               \/ opens schema intent d b = true))
          /\ well_formed_intents schema (keep_books schema b intent) rest
      end
  end.

Definition records_extend (op_id : OpId) (schema : Schema)
           (intents : list IntentKeyValueForCDC) (base : list CDCSDKProtoRecordPB)
           (st : IntentLoop) : Prop :=
  exists added,
    records st = base ++ added /\ Forall (record_shape op_id schema intents) added.

Lemma records_extend_add op_id schema intents base st st' rec :
  records_extend op_id schema intents base st ->
  records st' = records st ++ [rec] ->
  record_shape op_id schema intents rec ->
  records_extend op_id schema intents base st'.
Proof.
  intros [added [E F]] E' Hrec. exists (added ++ [rec]). split.
  - rewrite E', E, app_assoc. reflexivity.
  - apply Forall_app. split; [exact F | constructor; [exact Hrec | constructor]].
Qed.

Lemma records_extend_same op_id schema intents base st st' :
  records_extend op_id schema intents base st -> records st' = records st ->
  records_extend op_id schema intents base st'.
Proof. intros [added [E F]] E'. exists added. rewrite E'. split; assumption. Qed.

Definition tuple_lengths (m : RowMessage) (n : Z) : Prop :=
  Z.of_nat (List.length (new_tuple m)) = n /\ Z.of_nat (List.length (old_tuple m)) = n.

Record shape_inv (op_id : OpId) (schema : Schema) (intents : list IntentKeyValueForCDC)
       (base : list CDCSDKProtoRecordPB) (st : IntentLoop) : Prop := mk_shape_inv {
  si_records : records_extend op_id schema intents base st;
  si_insert : op (il_row_message st) = RowMessage_Op_INSERT ->
              il_col_count st < num_columns schema ->
              tuple_lengths (il_row_message st) (il_col_count st);
  si_delete : op (il_row_message st) = RowMessage_Op_DELETE ->
              num_columns schema <= il_col_count st }.

(** What holds of the state [emit_record] starts from. *)
Record before_emit (op_id : OpId) (schema : Schema) (intents : list IntentKeyValueForCDC)
       (base : list CDCSDKProtoRecordPB) (intent : IntentKeyValueForCDC)
       (st : IntentLoop) : Prop := mk_before_emit {
  be_records : records_extend op_id schema intents base st;
  be_insert : op (il_row_message st) = RowMessage_Op_INSERT ->
              il_col_count st <= num_columns schema
              /\ tuple_lengths (il_row_message st) (il_col_count st);
  be_delete : op (il_row_message st) = RowMessage_Op_DELETE ->
              In intent intents
              /\ delete_of schema intent (il_row_message st)
              /\ (FLAGS_enable_single_record_update flags = false ->
                  num_columns schema <= il_col_count st) }.

Lemma Op_eqb_refl o : Op_eqb o o = true.
Proof. destruct o; reflexivity. Qed.

Lemma Op_eqb_neq a b : Op_eqb a b = false <-> a <> b.
Proof.
  split.
  - intros H E. subst. rewrite Op_eqb_refl in H. discriminate.
  - intro H. destruct (Op_eqb a b) eqn:E; [| reflexivity].
    apply Op_eqb_eq in E. contradiction.
Qed.

Lemma emit_state_shape op_id schema intents table_name intent base st :
  before_emit op_id schema intents base intent st ->
  let st' := emit_state op_id schema table_name intent st in
  records_extend op_id schema intents base st'
  /\ (op (il_row_message st') = RowMessage_Op_INSERT ->
      il_col_count st' < num_columns schema ->
      tuple_lengths (il_row_message st') (il_col_count st'))
  /\ (op (il_row_message st') = RowMessage_Op_DELETE -> num_columns schema <= il_col_count st').
Proof.
  intros [Hr Hi Hd]. unfold emit_state. cbv zeta.
  set (st1 := with_row_message (set_table table_name (il_row_message st)) st).
  assert (R1 : records_extend op_id schema intents base st1) by exact Hr.
  destruct (Op_eqb (op (il_row_message st1)) RowMessage_Op_INSERT) eqn:EI;
    destruct (Op_eqb (op (il_row_message st1)) RowMessage_Op_DELETE) eqn:ED;
    destruct (Op_eqb (op (il_row_message st1)) RowMessage_Op_UPDATE) eqn:EU;
    try (apply Op_eqb_eq in EI); try (apply Op_eqb_eq in ED); try (apply Op_eqb_eq in EU);
    try (simpl in EI, ED; congruence); try (simpl in EI, EU; congruence);
    try (simpl in EU, ED; congruence);
    simpl andb; simpl orb.
  - (* INSERT *)
    simpl in EI. destruct (Hi EI) as [Hle Hlen].
    change (il_col_count st1) with (il_col_count st).
    destruct (il_col_count st =? num_columns schema) eqn:Ec.
    + apply Z.eqb_eq in Ec.
      assert (Hs : record_shape op_id schema intents
                     (record_for op_id intent (set_table table_name (il_row_message st)))).
      { split; simpl.
        - intros _. rewrite <- Ec. exact Hlen.
        - intro H. congruence. }
      destruct (FLAGS_enable_single_record_update flags).
      * split; [eapply records_extend_add; [exact R1 | reflexivity | exact Hs] |].
        split; simpl; intros; lia.
      * split; [eapply records_extend_add; [exact R1 | reflexivity | exact Hs] |].
        split; simpl; intros; [lia | congruence].
    + apply Z.eqb_neq in Ec.
      destruct (FLAGS_enable_single_record_update flags);
        (split; [exact R1 | split; simpl; intros; [exact Hlen | congruence]]).
  - (* DELETE *)
    simpl in ED. destruct (Hd ED) as (Hin & Hs & Hc).
    assert (Hs' : record_shape op_id schema intents
                    (record_for op_id intent (set_table table_name (il_row_message st)))).
    { split; simpl.
      - intro H. congruence.
      - intros _. exists intent. split; [exact Hin | split; [reflexivity | exact Hs]]. }
    destruct (FLAGS_enable_single_record_update flags).
    + split; [eapply records_extend_add; [exact R1 | reflexivity | exact Hs'] |].
      split; simpl; intros; [congruence | lia].
    + split; [eapply records_extend_add; [exact R1 | reflexivity | exact Hs'] |].
      split; simpl; intros; [congruence | auto].
  - (* UPDATE *)
    simpl in EU.
    assert (Hs : record_shape op_id schema intents
                   (record_for op_id intent (set_table table_name (il_row_message st)))).
    { split; simpl; intro; congruence. }
    destruct (FLAGS_enable_single_record_update flags).
    + split; [exact R1 | split; simpl; intros; congruence].
    + split; [eapply records_extend_add; [exact R1 | reflexivity | exact Hs] |].
      split; simpl; intros; congruence.
  - (* any other operation *)
    apply Op_eqb_neq in EI, ED.
    destruct (FLAGS_enable_single_record_update flags);
      (split; [exact R1 | split; simpl; intros; contradiction]).
Qed.

Lemma wrap64_small z : 0 <= z < 2 ^ 64 -> wrap64 z = z.
Proof. intro H. unfold wrap64. apply Z.mod_small. exact H. Qed.

Lemma has_type_system_not_column c :
  has_type c kSystemColumnId = true -> has_type c kColumnId = false.
Proof.
  unfold has_type. destruct c as [[t i] |]; [destruct t |]; simpl; intro H;
    first [reflexivity | discriminate H].
Qed.

Lemma opened_op_INSERT d :
  opened_op d = RowMessage_Op_INSERT -> has_type (di_column_id_opt d) kColumnId = false.
Proof.
  unfold opened_op. destruct (is_root_tombstone _ _); [discriminate |].
  destruct (has_type (di_column_id_opt d) kSystemColumnId) eqn:E; simpl; [| discriminate].
  intros _. apply has_type_system_not_column. exact E.
Qed.

Lemma opened_op_cases d :
  opened_op d = RowMessage_Op_INSERT \/ opened_op d = RowMessage_Op_DELETE
  \/ opened_op d = RowMessage_Op_UPDATE.
Proof.
  unfold opened_op. destruct (is_root_tombstone _ _); [auto |].
  destruct (_ && _); auto.
Qed.

Lemma flush_state_records_extend op_id schema intents base st :
  records_extend op_id schema intents base st ->
  records_extend op_id schema intents base (flush_state op_id st).
Proof.
  intro H. destruct (flush_state_fields op_id st) as (_ & _ & _ & _ & _ & L6).
  destruct (FLAGS_enable_single_record_update flags && pending_update st) eqn:E.
  - eapply records_extend_add; [exact H | exact L6 |].
    apply andb_true_iff in E. destruct E as [_ E].
    unfold pending_update in E. apply andb_true_iff in E. destruct E as [_ E].
    apply Op_eqb_eq in E. split; simpl; intro; congruence.
  - eapply records_extend_same; [exact H |]. rewrite L6, app_nil_r. reflexivity.
Qed.

Lemma with_key_entries_lengths ds m :
  op m <> RowMessage_Op_DELETE -> new_tuple m = [] -> old_tuple m = [] ->
  tuple_lengths (with_key_entries ds m) (Z.of_nat (List.length ds)).
Proof.
  intros Ho Hn Hold. unfold with_key_entries, tuple_lengths.
  apply Op_eqb_neq in Ho. rewrite Ho. simpl. rewrite Hn, Hold. simpl.
  rewrite repeat_length. split; reflexivity.
Qed.

Lemma fold_bump_row st : il_row_message (fold_bump st) = il_row_message st.
Proof.
  unfold fold_bump. destruct (FLAGS_enable_single_record_update flags);
    [| destruct (IsInsertOperation _)]; reflexivity.
Qed.

Lemma opened_op_DELETE d :
  opened_op d = RowMessage_Op_DELETE ->
  is_root_tombstone (di_decoded_value d) (di_decoded_key d) = true.
Proof.
  unfold opened_op. destruct (is_root_tombstone _ _); [reflexivity |].
  destruct (_ && _); discriminate.
Qed.

Section Shape.

Variable op_id : OpId.
Variable schema : Schema.
Variable all_intents : list IntentKeyValueForCDC.
Variable base : list CDCSDKProtoRecordPB.
Hypothesis initialized_always : forall m, RowMessage_IsInitialized docdb m = true.
Hypothesis key_columns_bound :
  1 <= num_key_columns schema <= num_columns schema /\ num_columns schema < 2 ^ 64.

Lemma IsInsertOrUpdate_op m :
  IsInsertOrUpdate m
  = (Op_eqb (op m) RowMessage_Op_INSERT || Op_eqb (op m) RowMessage_Op_UPDATE).
Proof. unfold IsInsertOrUpdate. rewrite initialized_always. reflexivity. Qed.

Lemma fold_bump_INSERT st :
  op (il_row_message st) = RowMessage_Op_INSERT ->
  fold_bump st = with_col_count (wrap64 (il_col_count st + 1)) st.
Proof.
  intro H. unfold fold_bump, IsInsertOperation. rewrite H. simpl.
  destruct (FLAGS_enable_single_record_update flags); reflexivity.
Qed.

Lemma opened_shape transaction_id table_name intent d st st2 r st' :
  In intent all_intents ->
  decode_intent intent = inl d ->
  Z.of_nat (List.length (key_components (di_decoded_key d))) = num_key_columns schema ->
  records_extend op_id schema all_intents base st ->
  open_record transaction_id schema intent d st = (inl tt, st2) ->
  match fold_column schema intent d (mark_state intent d st2) with
  | (inr e, st4) => (inr e, st4)
  | (inl _, st4) => (inl tt, emit_state op_id schema table_name intent st4)
  end = (r, st') ->
  records_extend op_id schema all_intents base st'
  /\ (r = inl tt -> shape_inv op_id schema all_intents base st').
Proof.
  intros Hin Hd Hlen Hr EO E.
  apply open_record_ok in EO. destruct EO as [ds [Hds ->]].
  set (fresh := set_transaction_id transaction_id
                  (SetOperation (opened_op d) schema RowMessage_default)) in *.
  set (st2 := with_row_message (with_key_entries ds fresh) _) in *.
  assert (Hrow2 : il_row_message st2 = with_key_entries ds fresh) by reflexivity.
  assert (Hop2 : op (il_row_message st2) = opened_op d).
  { rewrite Hrow2, with_key_entries_op. reflexivity. }
  assert (Hrec2 : records st2 = records st).
  { unfold st2, open_state. cbv zeta.
    destruct (opened_op d); simpl; try reflexivity;
      destruct (FLAGS_enable_single_record_update flags); reflexivity. }
  assert (Hds_len : Z.of_nat (List.length ds) = num_key_columns schema).
  { rewrite (pk_filled_length _ _ _ _ Hds). exact Hlen. }
  set (st3 := mark_state intent d st2) in *.
  assert (Hbe : forall st4,
             fold_column schema intent d st3 = (inl tt, st4) ->
             before_emit op_id schema all_intents base intent st4).
  { intros st4 EF.
    pose proof (fold_column_fields _ _ _ _ EF) as (_ & _ & _ & _ & F5 & _).
    apply fold_column_ok in EF.
    change (il_row_message st3) with (il_row_message st2) in EF.
    rewrite IsInsertOrUpdate_op, Hop2 in EF.
    assert (R4 : records_extend op_id schema all_intents base st4).
    { eapply records_extend_same; [exact Hr |]. rewrite F5. exact Hrec2. }
    destruct (opened_op_cases d) as [Ho | [Ho | Ho]].
    - (* INSERT *)
      rewrite Ho in EF. simpl in EF.
      rewrite (opened_op_INSERT _ Ho) in EF.
      destruct EF as [[EF _] | [(_ & _ & ->) | (_ & EF & _)]]; try discriminate.
      rewrite fold_bump_INSERT in * by (change (il_row_message st3) with (il_row_message st2);
                                        rewrite Hop2; exact Ho).
      assert (Hc : il_col_count st3 = wrap64 (num_key_columns schema - 1)).
      { unfold st3, st2, open_state. cbv zeta. rewrite Ho. reflexivity. }
      set (st4 := with_col_count (wrap64 (il_col_count st3 + 1)) st3) in *.
      assert (Hc4 : il_col_count st4 = num_key_columns schema).
      { change (il_col_count st4) with (wrap64 (il_col_count st3 + 1)). rewrite Hc.
        rewrite (wrap64_small (z := num_key_columns schema - 1)) by lia.
        replace (num_key_columns schema - 1 + 1) with (num_key_columns schema) by lia.
        apply wrap64_small. lia. }
      assert (Hrow4 : il_row_message st4 = with_key_entries ds fresh) by reflexivity.
      constructor.
      + exact R4.
      + intros _. rewrite Hc4, Hrow4. split; [lia |].
        rewrite <- Hds_len. apply with_key_entries_lengths; try reflexivity.
        unfold fresh. simpl. rewrite Ho. discriminate.
      + rewrite Hrow4, with_key_entries_op. unfold fresh. simpl. rewrite Ho. discriminate.
    - (* DELETE *)
      rewrite Ho in EF. simpl in EF.
      destruct EF as [[_ ->] | [(EF & _) | (EF & _)]]; try discriminate.
      constructor.
      + exact R4.
      + change (il_row_message st3) with (il_row_message st2). rewrite Hop2, Ho. discriminate.
      + intros _. split; [exact Hin |]. split.
        * assert (Hf : op fresh = RowMessage_Op_DELETE) by (unfold fresh; simpl; exact Ho).
          destruct (with_key_entries_DELETE ds fresh Hf) as [En Eo].
          exists d.
          change (il_row_message st3) with (with_key_entries ds fresh).
          rewrite En, Eo.
          change (new_tuple fresh) with (@nil DatumMessagePB).
          change (old_tuple fresh) with (@nil DatumMessagePB).
          split; [exact Hd |]. split; [apply opened_op_DELETE; exact Ho |].
          split; [exact Hlen |].
          rewrite (pk_filled_length _ _ _ _ Hds). split; [exact Hds | reflexivity].
        * intro Hf. unfold st3, st2, open_state. cbv zeta. rewrite Ho, Hf. simpl. lia.
    - (* UPDATE *)
      rewrite Ho in EF. simpl in EF.
      assert (Hop4 : op (il_row_message st4) = RowMessage_Op_UPDATE).
      { destruct EF as [[EF _] | [(_ & _ & ->) | (_ & _ & [dt ->])]]; try discriminate.
        - rewrite fold_bump_row. change (il_row_message st3) with (il_row_message st2).
          rewrite Hop2. exact Ho.
        - change (op (il_row_message (fold_bump st3)) = RowMessage_Op_UPDATE).
          rewrite fold_bump_row. change (il_row_message st3) with (il_row_message st2).
          rewrite Hop2. exact Ho. }
      constructor; [exact R4 | |]; rewrite Hop4; discriminate. }
  destruct (fold_column schema intent d st3) as [[[] | e] st4] eqn:EF.
  - pose proof (Hbe st4 eq_refl) as Hb.
    inversion E; subst; clear E.
    destruct (emit_state_shape table_name Hb) as (S1 & S2 & S3).
    split; [exact S1 |]. intros _.
    constructor; [exact S1 | exact S2 | exact S3].
  - inversion E; subst; clear E.
    pose proof (fold_column_fields _ _ _ _ EF) as (_ & _ & _ & _ & F5 & _).
    split; [| discriminate].
    eapply records_extend_same; [exact Hr |]. rewrite F5. exact Hrec2.
Qed.


Lemma not_needed schema' intent d st :
  compute_new_cdc_record_needed schema' intent d st = false ->
  il_prev_key st = Slice_prefix (key_buf intent) (di_key_size d)
  /\ il_col_count st < num_columns schema'
  /\ (FLAGS_enable_single_record_update flags = true ->
      is_root_tombstone (di_decoded_value d) (di_decoded_key d) = false
      /\ il_prev_intent_phy_time st = intent_phy_time intent).
Proof.
  unfold compute_new_cdc_record_needed.
  destruct (FLAGS_enable_single_record_update flags).
  - rewrite !orb_false_iff, !negb_false_iff, String.eqb_eq, Z.leb_gt, Z.eqb_eq.
    intros [[[H1 H2] H3] H4]. auto.
  - rewrite !orb_false_iff, !negb_false_iff, String.eqb_eq, Z.leb_gt.
    intros [H1 H2]. repeat split; try assumption; discriminate.
Qed.

Lemma continued_shape table_name intent d st r st' :
  shape_inv op_id schema all_intents base st ->
  compute_new_cdc_record_needed schema intent d st = false ->
  has_type (di_column_id_opt d) kColumnId = true
  \/ opens schema intent d (bookkeeping st) = true ->
  match fold_column schema intent d
                    (mark_state intent d (with_new_cdc_record_needed false st)) with
  | (inr e, st4) => (inr e, st4)
  | (inl _, st4) => (inl tt, emit_state op_id schema table_name intent st4)
  end = (r, st') ->
  records_extend op_id schema all_intents base st'
  /\ (r = inl tt -> shape_inv op_id schema all_intents base st').
Proof.
  intros [Hr Hi Hd] Hn Hwf E.
  assert (Hcol : has_type (di_column_id_opt d) kColumnId = true).
  { destruct Hwf as [Hwf | Hwf]; [exact Hwf |].
    rewrite <- opens_bookkeeping in Hwf. congruence. }
  apply not_needed in Hn. destruct Hn as (Nk & Nc & Np).
  set (st3 := mark_state intent d (with_new_cdc_record_needed false st)) in *.
  assert (Hrow3 : il_row_message st3 = il_row_message st) by reflexivity.
  assert (Hc3 : il_col_count st3 = il_col_count st) by reflexivity.
  assert (Hrec3 : records st3 = records st) by reflexivity.
  assert (Hbe : forall st4,
             fold_column schema intent d st3 = (inl tt, st4) ->
             before_emit op_id schema all_intents base intent st4).
  { intros st4 EF.
    pose proof (fold_column_fields _ _ _ _ EF) as (_ & _ & _ & _ & F5 & _).
    assert (R4 : records_extend op_id schema all_intents base st4).
    { eapply records_extend_same; [exact Hr |]. rewrite F5. exact Hrec3. }
    apply fold_column_ok in EF. rewrite Hrow3, IsInsertOrUpdate_op in EF.
    destruct (Op_eqb (op (il_row_message st)) RowMessage_Op_INSERT) eqn:EI.
    - (* an INSERT under way *)
      apply Op_eqb_eq in EI. destruct (Hi EI Nc) as [Ln Lo].
      rewrite Hcol in EF. simpl in EF.
      destruct EF as [[EF _] | [(_ & EF & _) | (_ & _ & [dt ->])]]; try discriminate.
      rewrite fold_bump_INSERT in * by (rewrite Hrow3; exact EI).
      set (st4 := with_col_count (wrap64 (il_col_count st3 + 1)) st3) in *.
      assert (Hc4 : il_col_count (with_row_message
                                    (add_old_tuple DatumMessagePB_default
                                       (add_new_tuple dt (il_row_message st4))) st4)
                    = il_col_count st + 1).
      { change (wrap64 (il_col_count st + 1) = il_col_count st + 1).
        apply wrap64_small. lia. }
      constructor.
      + exact R4.
      + intros _. rewrite Hc4. split; [lia |].
        change (tuple_lengths
                  (add_old_tuple DatumMessagePB_default
                     (add_new_tuple dt (il_row_message st))) (il_col_count st + 1)).
        unfold tuple_lengths. simpl. rewrite !length_app. simpl. lia.
      + intro H. change (op (il_row_message st) = RowMessage_Op_DELETE) in H. congruence.
    - (* any other message *)
      apply Op_eqb_neq in EI.
      assert (Hop4 : op (il_row_message st4) = op (il_row_message st)).
      { destruct EF as [[_ ->] | [(_ & _ & ->) | (_ & _ & [dt ->])]].
        - rewrite Hrow3. reflexivity.
        - rewrite fold_bump_row, Hrow3. reflexivity.
        - change (op (il_row_message (fold_bump st3)) = op (il_row_message st)).
          rewrite fold_bump_row, Hrow3. reflexivity. }
      constructor; [exact R4 | |]; rewrite Hop4; intro H; [contradiction |].
      specialize (Hd H). exfalso. lia. }
  destruct (fold_column schema intent d st3) as [[[] | e] st4] eqn:EF.
  - pose proof (Hbe st4 eq_refl) as Hb.
    inversion E; subst; clear E.
    destruct (emit_state_shape table_name Hb) as (S1 & S2 & S3).
    split; [exact S1 |]. intros _.
    constructor; [exact S1 | exact S2 | exact S3].
  - inversion E; subst; clear E.
    pose proof (fold_column_fields _ _ _ _ EF) as (_ & _ & _ & _ & F5 & _).
    split; [| discriminate].
    eapply records_extend_same; [exact Hr |]. rewrite F5. exact Hrec3.
Qed.

Lemma intent_body_shape transaction_id table_name intent d st r st' :
  In intent all_intents ->
  decode_intent intent = inl d ->
  is_key_column_intent schema (di_column_id_opt d) = false ->
  Z.of_nat (List.length (key_components (di_decoded_key d))) = num_key_columns schema ->
  has_type (di_column_id_opt d) kColumnId = true
  \/ opens schema intent d (bookkeeping st) = true ->
  shape_inv op_id schema all_intents base st ->
  intent_body op_id transaction_id schema table_name intent st = (r, st') ->
  records_extend op_id schema all_intents base st'
  /\ (r = inl tt -> shape_inv op_id schema all_intents base st').
Proof.
  intros Hin Hd Hk Hlen Hwf Hinv E.
  rewrite intent_body_run, Hd, Hk in E. cbv zeta in E.
  destruct (compute_new_cdc_record_needed schema intent d st) eqn:En.
  - change (il_new_cdc_record_needed (with_new_cdc_record_needed true st)) with true in E.
    cbv iota in E.
    destruct (open_record _ _ _ _ _) as [[[] | e] st2] eqn:EO.
    + eapply opened_shape; [exact Hin | exact Hd | exact Hlen | | exact EO | exact E].
      apply flush_state_records_extend. exact (si_records Hinv).
    + inversion E; subst; clear E. split; [| discriminate].
      apply open_record_fields in EO. destruct EO as (_ & _ & _ & _ & O5 & _).
      eapply records_extend_same; [| exact O5].
      apply flush_state_records_extend. exact (si_records Hinv).
  - change (il_new_cdc_record_needed (with_new_cdc_record_needed false st)) with false in E.
    cbv iota in E.
    eapply continued_shape; eassumption.
Qed.

Lemma forM_intent_shape transaction_id table_name intents :
  forall st r st',
    incl intents all_intents ->
    well_formed_intents schema (bookkeeping st) intents ->
    shape_inv op_id schema all_intents base st ->
    forM intents (intent_body op_id transaction_id schema table_name) st = (r, st') ->
    records_extend op_id schema all_intents base st'.
Proof.
  induction intents as [| intent rest IH]; intros st r st' Hin Hwf Hinv E; simpl in E.
  - inversion E; subst. exact (si_records Hinv).
  - unfold bind in E. cbn [well_formed_intents] in Hwf.
    assert (Hin1 : In intent all_intents) by (apply Hin; left; reflexivity).
    assert (Hin2 : incl rest all_intents) by (intros x Hx; apply Hin; right; exact Hx).
    destruct (intent_body op_id transaction_id schema table_name intent st)
      as [[[] | e] st1] eqn:E1.
    + pose proof (@intent_body_books _ _ _ _ _ _ _ initialized_always E1) as Hb.
      rewrite intent_body_run in E1.
      destruct (decode_intent intent) as [d | e] eqn:Ed; [| discriminate E1].
      destruct Hwf as [Hhead Hwf]. rewrite <- Hb in Hwf.
      destruct (is_key_column_intent schema (di_column_id_opt d)) eqn:Ek.
      * inversion E1; subst; clear E1.
        eapply IH; [exact Hin2 | exact Hwf | | exact E].
        destruct Hinv as [Hr Hi Hd]. constructor; assumption.
      * destruct (Hhead eq_refl) as (Hlen & Hcol).
        assert (E1' : intent_body op_id transaction_id schema table_name intent st
                      = (inl tt, st1)).
        { rewrite intent_body_run, Ed, Ek. exact E1. }
        destruct (@intent_body_shape _ _ _ _ _ _ _ Hin1 Ed Ek Hlen Hcol Hinv E1') as [_ Hs].
        eapply IH; [exact Hin2 | exact Hwf | exact (Hs eq_refl) | exact E].
    + inversion E; subst; clear E.
      rewrite intent_body_run in E1.
      destruct (decode_intent intent) as [d | e'] eqn:Ed.
      2:{ inversion E1; subst. exact (si_records Hinv). }
      destruct (is_key_column_intent schema (di_column_id_opt d)) eqn:Ek; [discriminate E1 |].
      destruct Hwf as [Hhead Hwf].
      destruct (Hhead eq_refl) as (Hlen & Hcol).
      assert (E1' : intent_body op_id transaction_id schema table_name intent st
                    = (inr e, st')).
      { rewrite intent_body_run, Ed, Ek. exact E1. }
      exact (proj1 (@intent_body_shape _ _ _ _ _ _ _ Hin1 Ed Ek Hlen Hcol Hinv E1')).
Qed.

End Shape.

(** C4, as the code has it.  Take a schema with at least one key column and
    no more key columns than columns, and intents whose row keys carry one
    component per key column, each of which writes a regular column unless the
    loop opens a record for it: by a different row key, by a column count that
    has reached [num_columns] or, in packed mode, as a root-level tombstone or
    at a different physical time.  Then every INSERT record the walk adds has
    [new_tuple] (and [old_tuple]) of length [num_columns]; every DELETE record
    is stamped with the write id and reverse-index key of one of the intents,
    a root-level tombstone, and has in [old_tuple] the entries
    [AddColumnToMap] writes for the components of that intent's row key, one
    per key column, and in [new_tuple] as many empty placeholder entries. *)
Theorem insert_and_delete_shape
        op_id transaction_id intents schema resp w k r st' :
  (forall m, RowMessage_IsInitialized docdb m = true) ->
  1 <= num_key_columns schema <= num_columns schema /\ num_columns schema < 2 ^ 64 ->
  well_formed_intents schema Bookkeeping_init intents ->
  PopulateCDCSDKIntentRecord op_id transaction_id intents schema
                             (IntentLoop_init resp w k) = (r, st') ->
  exists added,
    cdc_sdk_proto_records (il_resp st') = cdc_sdk_proto_records resp ++ added
    /\ Forall (record_shape op_id schema intents) added.
Proof.
  intros Hinit Hbound Hwf E.
  change Bookkeeping_init with (bookkeeping (IntentLoop_init resp w k)) in Hwf.
  set (base := cdc_sdk_proto_records resp).
  assert (H0 : shape_inv op_id schema intents base (IntentLoop_init resp w k)).
  { constructor.
    - exists []. split; [unfold records; simpl; rewrite app_nil_r; reflexivity | constructor].
    - simpl. discriminate.
    - simpl. discriminate. }
  unfold PopulateCDCSDKIntentRecord, bind, liftC in E.
  destruct (shared_tablet_safe tablet_peer) as [tablet | e].
  2:{ inversion E; subst. exact (si_records H0). }
  destruct (forM _ _ _) as [[[] | e] st1] eqn:EF.
  - assert (H1 : records_extend op_id schema intents base st1).
    { eapply forM_intent_shape;
        [exact Hinit | exact Hbound | apply incl_refl | exact Hwf | exact H0 | exact EF]. }
    rewrite flush_at_end_run in E. inversion E; subst; clear E.
    destruct (FLAGS_enable_single_record_update flags && pending_update st1) eqn:Ep;
      [| exact H1].
    cbv zeta. eapply records_extend_add; [exact H1 | reflexivity |].
    apply andb_true_iff in Ep. destruct Ep as [_ Ep].
    unfold pending_update in Ep. apply andb_true_iff in Ep. destruct Ep as [_ Ep].
    apply Op_eqb_eq in Ep. split; simpl; intro H; congruence.
  - inversion E; subst; clear E.
    eapply forM_intent_shape;
      [exact Hinit | exact Hbound | apply incl_refl | exact Hwf | exact H0 | exact EF].
Qed.

(** *** The resume position the walk leaves *)

Definition row_op (rec : CDCSDKProtoRecordPB) : Prop :=
  op (row_message rec) = RowMessage_Op_INSERT
  \/ op (row_message rec) = RowMessage_Op_UPDATE
  \/ op (row_message rec) = RowMessage_Op_DELETE.



(** An intent the guard of line 226 skips. *)
Definition skipped (schema : Schema) (intent : IntentKeyValueForCDC) : Prop :=
  exists d, decode_intent intent = inl d
            /\ is_key_column_intent schema (di_column_id_opt d) = true.


Lemma emits_row_op schema st :
  emits schema st = true ->
  op (il_row_message st) = RowMessage_Op_INSERT
  \/ op (il_row_message st) = RowMessage_Op_UPDATE
  \/ op (il_row_message st) = RowMessage_Op_DELETE.
Proof.
  unfold emits. cbv zeta.
  destruct (FLAGS_enable_single_record_update flags);
    rewrite !orb_true_iff, ?andb_true_iff, !Op_eqb_eq; tauto.
Qed.


(** *** The previous intent and the columns accumulated *)

Lemma keep_books_skipped schema b intent :
  skipped schema intent -> keep_books schema b intent = b.
Proof. intros [d [Hd Hk]]. unfold keep_books. rewrite Hd, Hk. reflexivity. Qed.

Lemma books_skipped schema mid : forall b,
  Forall (skipped schema) mid -> fold_left (keep_books schema) mid b = b.
Proof.
  induction mid as [| intent mid IH]; intros b H; simpl; [reflexivity |].
  inversion H; subst. rewrite keep_books_skipped by assumption. apply IH. assumption.
Qed.

(** After an iteration that got past the guard of line 226, [prev_key] and
    [prev_intent_phy_time] are those of its intent, and so is [prev_intent]
    in packed mode when the message in hand is an UPDATE. *)
Lemma keep_books_previous schema b prev dp :
  decode_intent prev = inl dp ->
  is_key_column_intent schema (di_column_id_opt dp) = false ->
  bk_prev_key (keep_books schema b prev) = Slice_prefix (key_buf prev) (di_key_size dp)
  /\ bk_prev_intent_phy_time (keep_books schema b prev) = intent_phy_time prev
  /\ (FLAGS_enable_single_record_update flags = true ->
      bk_op (keep_books schema b prev) = RowMessage_Op_UPDATE ->
      bk_prev_intent (keep_books schema b prev) = prev).
Proof.
  intros Hd Hk. unfold keep_books. rewrite Hd, Hk.
  set (b1 := if opens schema prev dp b then _ else _).
  unfold bk_emit, bk_fold, bk_mark. cbn [bk_op bk_col_count bk_prev_key bk_prev_intent
                                           bk_prev_intent_phy_time].
  destruct (FLAGS_enable_single_record_update flags);
    destruct (bk_op b1) eqn:Eo; cbn;
    repeat match goal with
           | |- context [if ?c then _ else _] => destruct c; cbn
           end;
    repeat split; try reflexivity; try (intros; congruence).
Qed.

(** In packed mode a root-level tombstone opens a DELETE, which is added to
    the response at once; line 330 then leaves [col_count] at [num_columns]. *)
Lemma keep_books_tombstone schema b prev dp :
  FLAGS_enable_single_record_update flags = true ->
  decode_intent prev = inl dp ->
  is_key_column_intent schema (di_column_id_opt dp) = false ->
  is_root_tombstone (di_decoded_value dp) (di_decoded_key dp) = true ->
  bk_col_count (keep_books schema b prev) = num_columns schema.
Proof.
  intros Hf Hd Hk Ht. unfold keep_books. rewrite Hd, Hk.
  assert (Ho : opens schema prev dp b = true).
  { unfold opens. rewrite Hf, Ht, orb_true_r. reflexivity. }
  rewrite Ho. unfold bk_emit, bk_fold, bk_mark, bk_open, opened_op.
  rewrite Hf, Ht. reflexivity.
Qed.

Lemma books_previous schema pre prev dp mid :
  decode_intent prev = inl dp ->
  is_key_column_intent schema (di_column_id_opt dp) = false ->
  Forall (skipped schema) mid ->
  books schema (pre ++ prev :: mid) = books schema (pre ++ [prev])
  /\ bk_prev_key (books schema (pre ++ [prev]))
     = Slice_prefix (key_buf prev) (di_key_size dp)
  /\ bk_prev_intent_phy_time (books schema (pre ++ [prev])) = intent_phy_time prev
  /\ (FLAGS_enable_single_record_update flags = true ->
      bk_op (books schema (pre ++ [prev])) = RowMessage_Op_UPDATE ->
      bk_prev_intent (books schema (pre ++ [prev])) = prev).
Proof.
  intros Hd Hk Hmid. unfold books. rewrite !fold_left_app. simpl.
  rewrite (books_skipped _ Hmid).
  split; [reflexivity |]. apply keep_books_previous; assumption.
Qed.

(** The iteration for [cur], reached by the walk over [pre], [prev] and the
    key-column intents [mid] the guard of line 226 skips. *)
Lemma opening_after_previous
      op_id transaction_id schema table_name resp w k pre prev dp mid cur dc st1 r st2 :
  FLAGS_enable_single_record_update flags = true ->
  (forall m, RowMessage_IsInitialized docdb m = true) ->
  (forall rec, CDCSDKProtoRecordPB_IsInitialized docdb rec = true) ->
  decode_intent prev = inl dp ->
  is_key_column_intent schema (di_column_id_opt dp) = false ->
  Forall (skipped schema) mid ->
  decode_intent cur = inl dc ->
  is_key_column_intent schema (di_column_id_opt dc) = false ->
  forM (pre ++ prev :: mid) (intent_body op_id transaction_id schema table_name)
       (IntentLoop_init resp w k) = (inl tt, st1) ->
  intent_body op_id transaction_id schema table_name cur st1 = (r, st2) ->
  let accumulated := bk_col_count (books schema (pre ++ [prev])) in
  let pending := Op_eqb (bk_op (books schema (pre ++ [prev]))) RowMessage_Op_UPDATE in
  let fresh := set_transaction_id transaction_id
                 (SetOperation (opened_op dc) schema RowMessage_default) in
  (il_prev_key st1 = Slice_prefix (key_buf prev) (di_key_size dp)
   /\ il_prev_intent_phy_time st1 = intent_phy_time prev
   /\ il_col_count st1 = accumulated
   /\ (is_root_tombstone (di_decoded_value dp) (di_decoded_key dp) = true ->
       accumulated = num_columns schema))
  /\ (il_new_cdc_record_needed st2 = true <->
   Slice_prefix (key_buf cur) (di_key_size dc) <> Slice_prefix (key_buf prev) (di_key_size dp)
   \/ num_columns schema <= accumulated
   \/ (value_type (di_decoded_value dc) = kTombstone /\ num_subkeys (di_decoded_key dc) = 0)
   \/ intent_phy_time cur <> intent_phy_time prev)
  /\ (il_new_cdc_record_needed st2 = true ->
      (exists rest,
          records st2
          = records st1
            ++ (if pending then [record_for op_id prev (il_row_message st1)] else [])
            ++ rest)
      /\ (r = inl tt ->
          exists ds,
            pk_filled schema 0 (key_components (di_decoded_key dc)) ds
            /\ (il_row_message st2 = set_table table_name (with_key_entries ds fresh)
                \/ exists dt,
                  il_row_message st2
                  = set_table table_name
                      (add_old_tuple DatumMessagePB_default
                         (add_new_tuple dt (with_key_entries ds fresh))))))
  /\ (il_new_cdc_record_needed st2 = false ->
      r = inl tt ->
      il_row_message st2 = set_table table_name (il_row_message st1)
      \/ exists dt,
        il_row_message st2
        = set_table table_name
            (add_old_tuple DatumMessagePB_default (add_new_tuple dt (il_row_message st1)))).
Proof.
  intros Hf Hrow Hrec Hdp Hkp Hmid Hdc Hkc Ew Ec accumulated pending fresh.
  pose proof (walked_books _ _ _ _ _ _ _ _ Hrow Ew) as Hb.
  destruct (@books_previous schema pre prev dp mid Hdp Hkp Hmid) as (Bm & Bk & Bt & Bi).
  rewrite Bm in Hb.
  assert (Hk1 : il_prev_key st1 = Slice_prefix (key_buf prev) (di_key_size dp)).
  { rewrite <- Bk, <- Hb. reflexivity. }
  assert (Ht1 : il_prev_intent_phy_time st1 = intent_phy_time prev).
  { rewrite <- Bt, <- Hb. reflexivity. }
  assert (Hc1 : il_col_count st1 = accumulated).
  { unfold accumulated. rewrite <- Hb. reflexivity. }
  assert (Ho1 : op (il_row_message st1) = bk_op (books schema (pre ++ [prev]))).
  { rewrite <- Hb. reflexivity. }
  assert (Hp1 : pending_update st1 = pending).
  { unfold pending_update, pending. rewrite Hrow, Hrec, Ho1. reflexivity. }
  assert (Hi1 : pending = true -> il_prev_intent st1 = prev).
  { intro Hp. unfold pending in Hp. apply Op_eqb_eq in Hp.
    rewrite <- (Bi Hf Hp), <- Hb. reflexivity. }
  destruct (intent_body_opening _ _ _ _ _ _ Hf Hdc Hkc Ec) as (O1 & O2 & O3).
  rewrite Hk1, Hc1, Ht1 in O1.
  split; [| split; [| split]].
  - split; [exact Hk1 | split; [exact Ht1 | split; [exact Hc1 |]]].
    intro Htomb. unfold accumulated, books. rewrite fold_left_app. simpl.
    exact (@keep_books_tombstone schema _ prev dp Hf Hdp Hkp Htomb).
  - rewrite O1. clear. intuition congruence.
  - intro Hn. destruct (O2 Hn) as [[rest Er] Hm]. split; [| exact Hm].
    exists rest. rewrite Er, Hp1.
    destruct pending; [rewrite (Hi1 eq_refl) |]; reflexivity.
  - exact O3.
Qed.

(** *** Updates at different physical times *)

(** A write that opens an UPDATE: not to a key column, not a root-level
    tombstone and not the liveness column. *)
Definition column_update (schema : Schema) (u : IntentKeyValueForCDC) : Prop :=
  exists d, decode_intent u = inl d
            /\ is_key_column_intent schema (di_column_id_opt d) = false
            /\ opened_op d = RowMessage_Op_UPDATE.

(** Each physical time differs from the one before it, the first from [t]. *)
Fixpoint times_differ (t : Z) (intents : list IntentKeyValueForCDC) : Prop :=
  match intents with
  | [] => True
  | u :: rest => intent_phy_time u <> t /\ times_differ (intent_phy_time u) rest
  end.

(** An UPDATE record of [u] alone: stamped with its write id and
    reverse-index key, it holds the entries of its row key and at most the
    one column it writes. *)
Definition record_of_one (op_id : OpId) (transaction_id : string) (schema : Schema)
           (table_name : string) (u : IntentKeyValueForCDC) (rec : CDCSDKProtoRecordPB)
  : Prop :=
  exists d ds,
    decode_intent u = inl d
    /\ pk_filled schema 0 (key_components (di_decoded_key d)) ds
    /\ cdc_sdk_op_id rec
       = SetCDCSDKOpId (op_term op_id) (op_index op_id) (write_id u) (reverse_index_key u)
    /\ let fresh := set_transaction_id transaction_id
                      (SetOperation RowMessage_Op_UPDATE schema RowMessage_default) in
       row_message rec = set_table table_name (with_key_entries ds fresh)
       \/ exists dt,
         row_message rec
         = set_table table_name
             (add_old_tuple DatumMessagePB_default
                (add_new_tuple dt (with_key_entries ds fresh))).

(** The UPDATE the loop holds back, if any. *)
Definition in_hand (op_id : OpId) (transaction_id : string) (schema : Schema)
           (table_name : string) (p : option IntentKeyValueForCDC) (st : IntentLoop) : Prop :=
  match p with
  | None => op (il_row_message st) <> RowMessage_Op_UPDATE
  | Some u =>
      il_prev_intent st = u
      /\ op (il_row_message st) = RowMessage_Op_UPDATE
      /\ record_of_one op_id transaction_id schema table_name u
                       (record_for op_id u (il_row_message st))
  end.

Definition held_back (op_id : OpId) (p : option IntentKeyValueForCDC) (st : IntentLoop)
  : list CDCSDKProtoRecordPB :=
  match p with
  | None => []
  | Some u => [record_for op_id u (il_row_message st)]
  end.

Lemma pending_in_hand op_id transaction_id schema table_name p st :
  (forall m, RowMessage_IsInitialized docdb m = true) ->
  (forall rec, CDCSDKProtoRecordPB_IsInitialized docdb rec = true) ->
  in_hand op_id transaction_id schema table_name p st ->
  (if pending_update st then [record_for op_id (il_prev_intent st) (il_row_message st)]
   else [])
  = held_back op_id p st.
Proof.
  intros Hrow Hrec Hp. unfold pending_update. rewrite Hrow, Hrec. simpl.
  destruct p as [u |]; simpl in Hp |- *.
  - destruct Hp as (-> & Ho & _). rewrite Ho. reflexivity.
  - apply Op_eqb_neq in Hp. rewrite Hp. reflexivity.
Qed.

Lemma update_step op_id transaction_id schema table_name u st st' p :
  FLAGS_enable_single_record_update flags = true ->
  (forall m, RowMessage_IsInitialized docdb m = true) ->
  (forall rec, CDCSDKProtoRecordPB_IsInitialized docdb rec = true) ->
  column_update schema u ->
  intent_phy_time u <> il_prev_intent_phy_time st ->
  in_hand op_id transaction_id schema table_name p st ->
  intent_body op_id transaction_id schema table_name u st = (inl tt, st') ->
  records st' = records st ++ held_back op_id p st
  /\ in_hand op_id transaction_id schema table_name (Some u) st'
  /\ il_prev_intent_phy_time st' = intent_phy_time u.
Proof.
  intros Hf Hrow Hrec (d & Hd & Hk & Ho) Ht Hp E.
  pose proof (intent_body_books _ _ _ _ _ _ Hrow E) as Hb.
  destruct (@keep_books_previous schema (bookkeeping st) u d Hd Hk) as (_ & Bt & Bi).
  rewrite <- Hb in Bt, Bi.
  destruct (intent_body_opening _ _ _ _ _ _ Hf Hd Hk E) as (O1 & O2 & _).
  assert (Hn : il_new_cdc_record_needed st' = true).
  { apply O1. right. right. right. congruence. }
  destruct (O2 Hn) as [_ Hm]. destruct (Hm eq_refl) as [ds [Hds Hmsg]]. clear O1 O2 Hm.
  rewrite Ho in Hmsg.
  assert (Hop : op (il_row_message st') = RowMessage_Op_UPDATE).
  { destruct Hmsg as [Em | [dt Em]]; rewrite Em.
    - change (op (set_table ?t ?m)) with (op m).
      rewrite with_key_entries_op. reflexivity.
    - change (op (set_table ?t (add_old_tuple ?a (add_new_tuple ?b ?m)))) with (op m).
      rewrite with_key_entries_op. reflexivity. }
  split; [| split; [| exact Bt]].
  - rewrite intent_body_run, Hd, Hk in E. cbv zeta in E.
    assert (En : compute_new_cdc_record_needed schema u d st = true).
    { apply compute_new_cdc_record_needed_packed; [exact Hf |].
      right. right. right. congruence. }
    rewrite En in E.
    change (il_new_cdc_record_needed (with_new_cdc_record_needed true st)) with true in E.
    cbv iota in E.
    destruct (flush_state_fields op_id (with_new_cdc_record_needed true st))
      as (_ & _ & _ & _ & _ & L6).
    rewrite Hf in L6. simpl in L6.
    change (pending_update (with_new_cdc_record_needed true st))
      with (pending_update st) in L6.
    change (il_prev_intent (with_new_cdc_record_needed true st))
      with (il_prev_intent st) in L6.
    change (il_row_message (with_new_cdc_record_needed true st))
      with (il_row_message st) in L6.
    change (records (with_new_cdc_record_needed true st)) with (records st) in L6.
    rewrite (@pending_in_hand op_id transaction_id schema table_name p st Hrow Hrec Hp) in L6.
    destruct (open_record _ _ _ _ _) as [[[] | e] st2] eqn:EO; [| discriminate E].
    pose proof EO as Hb2. apply open_books in Hb2.
    apply open_record_fields in EO. destruct EO as (_ & _ & _ & _ & O5 & _).
    destruct (fold_column _ _ _ _) as [[[] | e] st4] eqn:EF; [| discriminate E].
    pose proof EF as Hb4. apply fold_books in Hb4; [| exact Hrow].
    apply fold_column_fields in EF. destruct EF as (_ & _ & _ & _ & F5 & _).
    inversion E; subst; clear E.
    destruct (emit_state_fields op_id schema table_name u st4) as (_ & _ & _ & _ & M5).
    rewrite M5, F5. change (records (mark_state u d st2)) with (records st2).
    rewrite O5, L6.
    assert (Hem : emits schema st4 = false).
    { assert (H4 : op (il_row_message st4) = RowMessage_Op_UPDATE).
      { change (op (il_row_message st4)) with (bk_op (bookkeeping st4)).
        rewrite Hb4.
        change (bookkeeping (mark_state u d st2)) with (bk_mark u d (bookkeeping st2)).
        rewrite Hb2. unfold bk_fold, bk_open, bk_mark. cbn [bk_op]. rewrite Ho.
        destruct (_ && _); reflexivity. }
      unfold emits. rewrite Hf, H4. reflexivity. }
    rewrite Hem, app_nil_r. reflexivity.
  - simpl. split; [| split; [exact Hop |]].
    + apply Bi; [exact Hf |]. exact Hop.
    + exists d, ds. split; [exact Hd |]. split; [exact Hds |]. split; [reflexivity |].
      exact Hmsg.
Qed.

Definition as_list (p : option IntentKeyValueForCDC) : list IntentKeyValueForCDC :=
  match p with
  | None => []
  | Some u => [u]
  end.

Lemma held_back_of_one op_id transaction_id schema table_name p st :
  in_hand op_id transaction_id schema table_name p st ->
  Forall2 (record_of_one op_id transaction_id schema table_name)
          (as_list p) (held_back op_id p st).
Proof.
  destruct p as [u |]; simpl; intro H; [| constructor].
  destruct H as (_ & _ & H). constructor; [exact H | constructor].
Qed.

Lemma updates_walk op_id transaction_id schema table_name updates :
  FLAGS_enable_single_record_update flags = true ->
  (forall m, RowMessage_IsInitialized docdb m = true) ->
  (forall rec, CDCSDKProtoRecordPB_IsInitialized docdb rec = true) ->
  forall st p st',
    Forall (column_update schema) updates ->
    times_differ (il_prev_intent_phy_time st) updates ->
    in_hand op_id transaction_id schema table_name p st ->
    forM updates (intent_body op_id transaction_id schema table_name) st = (inl tt, st') ->
    exists emitted p' recs,
      as_list p ++ updates = emitted ++ as_list p'
      /\ records st' = records st ++ recs
      /\ Forall2 (record_of_one op_id transaction_id schema table_name) emitted recs
      /\ in_hand op_id transaction_id schema table_name p' st'.
Proof.
  intros Hf Hrow Hrec.
  induction updates as [| u rest IH]; intros st p st' Hu Ht Hp E; simpl in E.
  - inversion E; subst. exists [], p, []. rewrite !app_nil_r.
    repeat split; [constructor | exact Hp].
  - unfold bind in E.
    destruct (intent_body _ _ _ _ u st) as [[[] | e] st1] eqn:E1; [| discriminate E].
    inversion Hu as [| ? ? Hu1 Hu2]; subst. destruct Ht as [Ht1 Ht2].
    destruct (@update_step op_id transaction_id schema table_name u st st1 p
                           Hf Hrow Hrec Hu1 Ht1 Hp E1) as (R1 & P1 & T1).
    rewrite <- T1 in Ht2.
    destruct (IH st1 (Some u) st' Hu2 Ht2 P1 E) as (emitted & p' & recs & A & R & F & P').
    exists (as_list p ++ emitted), p', (held_back op_id p st ++ recs).
    repeat split.
    + rewrite <- app_assoc, <- A. reflexivity.
    + rewrite R, R1, app_assoc. reflexivity.
    + apply Forall2_app; [| exact F]. eapply held_back_of_one. exact Hp.
    + exact P'.
Qed.

(** Column updates whose physical times differ each from the one before are
    never put together: the call adds one UPDATE record for each of them. *)
Lemma updates_kept_apart op_id transaction_id schema resp w k updates tablet st' :
  FLAGS_enable_single_record_update flags = true ->
  (forall m, RowMessage_IsInitialized docdb m = true) ->
  (forall rec, CDCSDKProtoRecordPB_IsInitialized docdb rec = true) ->
  shared_tablet_safe tablet_peer = inl tablet ->
  Forall (column_update schema) updates ->
  times_differ 0 updates ->
  PopulateCDCSDKIntentRecord op_id transaction_id updates schema
                             (IntentLoop_init resp w k) = (inl tt, st') ->
  exists added,
    cdc_sdk_proto_records (il_resp st') = cdc_sdk_proto_records resp ++ added
    /\ Forall2 (record_of_one op_id transaction_id schema (table_name tablet)) updates added.
Proof.
  intros Hf Hrow Hrec Htab Hu Ht E.
  unfold PopulateCDCSDKIntentRecord, bind, liftC in E. rewrite Htab in E.
  destruct (forM _ _ _) as [[[] | e] st1] eqn:EF; [| discriminate E].
  assert (P0 : in_hand op_id transaction_id schema (table_name tablet) None
                       (IntentLoop_init resp w k)).
  { simpl. discriminate. }
  destruct (@updates_walk op_id transaction_id schema (table_name tablet) updates
                          Hf Hrow Hrec (IntentLoop_init resp w k) None st1 Hu Ht P0 EF)
    as (emitted & p' & recs & A & R & F & P').
  simpl in A. rewrite A.
  rewrite flush_at_end_run in E. inversion E; subst; clear E.
  rewrite Hf. simpl andb.
  destruct p' as [u |]; simpl in P'.
  - destruct P' as (Hi & Ho & d & ds & Hd & Hds & _ & Hmsg).
    assert (Hp : pending_update st1 = true).
    { unfold pending_update. rewrite Hrow, Hrec, Ho. reflexivity. }
    rewrite Hp. cbv zeta.
    exists (recs ++ [record_for op_id u (set_table (table_name tablet) (il_row_message st1))]).
    split.
    + change (cdc_sdk_proto_records
                (il_resp (MakeNewProtoRecord ?i op_id ?m ?s)))
        with (cdc_sdk_proto_records (il_resp s) ++ [record_for op_id i m]).
      change (il_prev_intent (with_row_message ?m ?s)) with (il_prev_intent s).
      rewrite Hi.
      change (cdc_sdk_proto_records (il_resp (with_row_message ?m ?s))) with (records s).
      rewrite R. unfold records. simpl. rewrite <- app_assoc. reflexivity.
    + apply Forall2_app; [exact F |]. constructor; [| constructor].
      exists d, ds. split; [exact Hd |]. split; [exact Hds |]. split; [reflexivity |].
      cbv zeta in Hmsg |- *. cbn [row_message record_for] in Hmsg |- *.
      destruct Hmsg as [-> | [dt ->]]; [left | right; exists dt]; reflexivity.
  - apply Op_eqb_neq in P'.
    assert (Hp : pending_update st1 = false).
    { unfold pending_update. rewrite P', andb_false_r. reflexivity. }
    rewrite Hp. exists recs. split.
    + fold (records st1). rewrite R. reflexivity.
    + simpl. rewrite app_nil_r. exact F.
Qed.

(** C3. In packed mode, with messages that are initialised, take the
    iteration for an intent [cur] that is not a primary-key column write,
    reached by the walk from the start of the loop over the intents [pre],
    the previous intent [prev] that got past the guard of line 226, and the
    key-column intents [mid] skipped since.  The loop then holds in
    [prev_key] and [prev_intent_phy_time] the row key and physical time of
    [prev], and in [col_count] the columns accumulated over [pre] and [prev]
    ([num_columns] when [prev] is a root-level tombstone).  The iteration
    opens a new record exactly when the row key of [cur] differs from that of
    [prev], or the accumulated column count has reached [num_columns], or the
    value of [cur] is a root-level tombstone, or the physical time of [cur]
    differs from that of [prev].  When it does, an UPDATE in hand is first added to
    the response as a record of its own, stamped with [prev], and the new
    message is built from an empty one with [cur] alone; when it does not, the
    message in hand is carried on.  Column updates whose physical times differ
    each from the one before (the first from 0, the loop's initial value) are
    never put together: a call that returns OK adds one UPDATE record for
    each, stamped with it and holding its row key and at most its one
    column. *)
Theorem packed_update_flush_condition op_id transaction_id schema resp w k :
  FLAGS_enable_single_record_update flags = true ->
  (forall m, RowMessage_IsInitialized docdb m = true) ->
  (forall rec, CDCSDKProtoRecordPB_IsInitialized docdb rec = true) ->
  (forall table_name pre prev dp mid cur dc st1 r st2,
      decode_intent prev = inl dp ->
      is_key_column_intent schema (di_column_id_opt dp) = false ->
      Forall (skipped schema) mid ->
      decode_intent cur = inl dc ->
      is_key_column_intent schema (di_column_id_opt dc) = false ->
      forM (pre ++ prev :: mid) (intent_body op_id transaction_id schema table_name)
           (IntentLoop_init resp w k) = (inl tt, st1) ->
      intent_body op_id transaction_id schema table_name cur st1 = (r, st2) ->
      let accumulated := bk_col_count (books schema (pre ++ [prev])) in
      let pending := Op_eqb (bk_op (books schema (pre ++ [prev]))) RowMessage_Op_UPDATE in
      let fresh := set_transaction_id transaction_id
                     (SetOperation (opened_op dc) schema RowMessage_default) in
      (il_prev_key st1 = Slice_prefix (key_buf prev) (di_key_size dp)
       /\ il_prev_intent_phy_time st1 = intent_phy_time prev
       /\ il_col_count st1 = accumulated
       /\ (is_root_tombstone (di_decoded_value dp) (di_decoded_key dp) = true ->
           accumulated = num_columns schema))
      /\ (il_new_cdc_record_needed st2 = true <->
       Slice_prefix (key_buf cur) (di_key_size dc)
       <> Slice_prefix (key_buf prev) (di_key_size dp)
       \/ num_columns schema <= accumulated
       \/ (value_type (di_decoded_value dc) = kTombstone
           /\ num_subkeys (di_decoded_key dc) = 0)
       \/ intent_phy_time cur <> intent_phy_time prev)
      /\ (il_new_cdc_record_needed st2 = true ->
          (exists rest,
              records st2
              = records st1
                ++ (if pending then [record_for op_id prev (il_row_message st1)] else [])
                ++ rest)
          /\ (r = inl tt ->
              exists ds,
                pk_filled schema 0 (key_components (di_decoded_key dc)) ds
                /\ (il_row_message st2 = set_table table_name (with_key_entries ds fresh)
                    \/ exists dt,
                      il_row_message st2
                      = set_table table_name
                          (add_old_tuple DatumMessagePB_default
                             (add_new_tuple dt (with_key_entries ds fresh))))))
      /\ (il_new_cdc_record_needed st2 = false ->
          r = inl tt ->
          il_row_message st2 = set_table table_name (il_row_message st1)
          \/ exists dt,
            il_row_message st2
            = set_table table_name
                (add_old_tuple DatumMessagePB_default
                   (add_new_tuple dt (il_row_message st1)))))
  /\ (forall updates tablet st',
         shared_tablet_safe tablet_peer = inl tablet ->
         Forall (column_update schema) updates ->
         times_differ 0 updates ->
         PopulateCDCSDKIntentRecord op_id transaction_id updates schema
                                    (IntentLoop_init resp w k) = (inl tt, st') ->
         exists added,
           cdc_sdk_proto_records (il_resp st') = cdc_sdk_proto_records resp ++ added
           /\ Forall2 (record_of_one op_id transaction_id schema (table_name tablet))
                      updates added).
Proof.
  intros Hf Hrow Hrec. split.
  - intros table_name pre prev dp mid cur dc st1 r st2 Hdp Hkp Hmid Hdc Hkc Ew Ec.
    exact (@opening_after_previous op_id transaction_id schema table_name resp w k
             pre prev dp mid cur dc st1 r st2 Hf Hrow Hrec Hdp Hkp Hmid Hdc Hkc Ew Ec).
  - intros updates tablet st' Htab Hu Ht E.
    exact (@updates_kept_apart op_id transaction_id schema resp w k updates tablet st'
             Hf Hrow Hrec Htab Hu Ht E).
Qed.

Section Locator.

Variable schema : Schema.
Variable base : list CDCSDKProtoRecordPB.
Variables (w0 : Z) (k0 : string).
Variable seen : list IntentKeyValueForCDC.
Hypothesis row_initialized : forall m, RowMessage_IsInitialized docdb m = true.
Hypothesis record_initialized : forall r, CDCSDKProtoRecordPB_IsInitialized docdb r = true.
















End Locator.








Lemma AddColumnToMap_foreign col_schema col : fails_foreign (AddColumnToMap col_schema col).
Proof. unfold fails_foreign, AddColumnToMap. repeat foreign_step. Qed.

Lemma AddPrimaryKey_loop_foreign schema cols :
  forall i, fails_foreign (AddPrimaryKey_loop schema i cols).
Proof.
  unfold fails_foreign. induction cols as [| col cols IH]; intro i; simpl.
  - foreign_step.
  - foreign_step; [| apply IH].
    unfold AddPrimaryKey_column. foreign_step; [foreign_step |].
    foreign_step. apply AddColumnToMap_foreign.
Qed.

Lemma AddPrimaryKey_foreign decoded_key schema : fails_foreign (AddPrimaryKey decoded_key schema).
Proof.
  unfold fails_foreign, AddPrimaryKey.
  foreign_step; apply AddPrimaryKey_loop_foreign.
Qed.

Lemma intent_body_foreign op_id transaction_id schema table_name intent :
  fails_foreign (intent_body op_id transaction_id schema table_name intent).
Proof.
  unfold fails_foreign, intent_body.
  foreign_step; [foreign_step |].
  foreign_step; [repeat foreign_step |].
  foreign_step; [foreign_step |].
  foreign_step; [foreign_step |].
  foreign_step.
  { foreign_step. foreign_step.
    - unfold flush_before_open. repeat foreign_step.
    - unfold open_record. foreign_step; [foreign_step |].
      foreign_step; [repeat foreign_step |].
      foreign_step; [foreign_step |].
      foreign_step. apply AddPrimaryKey_foreign. }
  foreign_step; [foreign_step |].
  foreign_step; [foreign_step |].
  foreign_step.
  { unfold fold_column. foreign_step; [foreign_step |].
    foreign_step. foreign_step; [repeat foreign_step |].
    foreign_step; [foreign_step |].
    foreign_step; [| foreign_step].
    foreign_step; [| foreign_step].
    foreign_step; [foreign_step |].
    foreign_step; [| foreign_step].
    foreign_step. foreign_step. apply AddColumnToMap_foreign. }
  unfold emit_record. repeat foreign_step.
Qed.

Lemma PopulateCDCSDKIntentRecord_foreign op_id transaction_id intents schema :
  fails_foreign (PopulateCDCSDKIntentRecord op_id transaction_id intents schema).
Proof.
  unfold fails_foreign, PopulateCDCSDKIntentRecord.
  foreign_step; [foreign_step |].
  foreign_step.
  - foreign_step. apply intent_body_foreign.
  - unfold flush_at_end. repeat foreign_step.
Qed.

Lemma resolve_schema_body_foreign tablet keyValue :
  fails_foreign (resolve_schema_body tablet keyValue).
Proof. unfold fails_foreign, resolve_schema_body. repeat foreign_step. Qed.

(** *** [ProcessIntents], step by step *)

(** [ProcessIntents] from line 565 on. *)
Definition after_gc_guard (op_id : OpId) (transaction_id : string) (tablet : Tablet)
  : M ProcessIntentsState unit :=
  modify (fun st => set_pi_current_schema (pi_cached_schema st) st) ;;
  st <- get ;;
  forM (pi_keyValueIntents st) (resolve_schema_body tablet) ;;
  modify (set_pi_reverse_index_key "") ;;
  modify (set_pi_write_id 0) ;;
  st <- get ;;
  zoom (fun st => IntentLoop_init (pi_resp st) (pi_write_id st) (pi_reverse_index_key st))
       (fun il st => set_pi_reverse_index_key (il_reverse_index_key il)
                       (set_pi_write_id (il_write_id il) (set_pi_resp (il_resp il) st)))
       (PopulateCDCSDKIntentRecord op_id transaction_id (pi_keyValueIntents st)
                                   (pi_current_schema st)) ;;
  modify (fun st => set_pi_checkpoint
                      (SetTermIndex (op_term op_id) (op_index op_id) (pi_checkpoint st)) st) ;;
  st <- get ;;
  if is_fresh (pi_stream_state st) then
    modify (fun st => set_pi_resp
                        (add_cdc_sdk_proto_records
                           (COMMIT_record op_id transaction_id (table_name tablet))
                           (pi_resp st)) st) ;;
    modify (fun st => set_pi_checkpoint (SetKeyWriteId "" 0 (pi_checkpoint st)) st)
  else
    modify (fun st => set_pi_checkpoint
                        (SetKeyWriteId (pi_reverse_index_key st) (pi_write_id st)
                                       (pi_checkpoint st)) st).

(** The state in which the intents have been fetched. *)
Definition fetched_state (transaction_id : string) (tablet : Tablet)
           (fetched : list IntentKeyValueForCDC * ApplyTransactionState)
           (st : ProcessIntentsState) : ProcessIntentsState :=
  set_pi_stream_state (snd fetched)
    (set_pi_keyValueIntents (fst fetched)
       (if is_fresh (pi_stream_state st)
        then set_pi_resp (add_cdc_sdk_proto_records
                            (BEGIN_record transaction_id (table_name tablet)) (pi_resp st)) st
        else st)).

Lemma ProcessIntents_run op_id transaction_id st :
  ProcessIntents op_id transaction_id st
  = match shared_tablet_safe tablet_peer with
    | inr e => (inr (Collab e), st)
    | inl tablet =>
        match GetIntents tablet transaction_id (pi_stream_state st) with
        | inr e =>
            (inr (Collab e),
             if is_fresh (pi_stream_state st)
             then set_pi_resp (add_cdc_sdk_proto_records
                                 (BEGIN_record transaction_id (table_name tablet))
                                 (pi_resp st)) st
             else st)
        | inl fetched =>
            if Nat.eqb (List.length (fst fetched)) 0
               && OpId_le op_id (GetLatestCheckPoint tablet_peer)
            then (inr (IntentsGCed_status transaction_id),
                  fetched_state transaction_id tablet fetched st)
            else after_gc_guard op_id transaction_id tablet
                                (fetched_state transaction_id tablet fetched st)
        end
    end.
Proof.
  unfold ProcessIntents, after_gc_guard, fetched_state, bind at 1, liftC at 1.
  destruct (shared_tablet_safe tablet_peer) as [tablet | e]; [| reflexivity].
  unfold bind at 1, get at 1, bind at 1, when at 1.
  destruct (is_fresh (pi_stream_state st)).
  - unfold modify at 1, bind at 1, liftC at 1.
    destruct (GetIntents tablet transaction_id (pi_stream_state st)) as [fetched | e];
      [| reflexivity].
    unfold bind at 1, modify at 1, bind at 1, modify at 1, bind at 1, get at 1.
    cbn [pi_keyValueIntents set_pi_stream_state set_pi_keyValueIntents].
    destruct (_ && _); reflexivity.
  - unfold ret at 1, bind at 1, liftC at 1.
    destruct (GetIntents tablet transaction_id (pi_stream_state st)) as [fetched | e];
      [| reflexivity].
    unfold bind at 1, modify at 1, bind at 1, modify at 1, bind at 1, get at 1.
    cbn [pi_keyValueIntents set_pi_stream_state set_pi_keyValueIntents].
    destruct (_ && _); reflexivity.
Qed.

Lemma after_gc_guard_foreign op_id transaction_id tablet :
  fails_foreign (after_gc_guard op_id transaction_id tablet).
Proof.
  unfold fails_foreign, after_gc_guard.
  foreign_step; [foreign_step |].
  foreign_step; [foreign_step |].
  foreign_step; [foreign_step; apply resolve_schema_body_foreign |].
  foreign_step; [foreign_step |].
  foreign_step; [foreign_step |].
  foreign_step; [foreign_step |].
  foreign_step; [foreign_step; apply PopulateCDCSDKIntentRecord_foreign |].
  foreign_step; [foreign_step |].
  foreign_step; [foreign_step |].
  repeat foreign_step.
Qed.

(** C5. [ProcessIntents] returns the status "CDCSDK Trying to fetch already
    GCed intents for transaction ..." exactly when the tablet was reached, the
    fetch of the transaction's intents succeeded with no intent, and the
    OpId of the apply record is at or below the tablet's latest checkpoint. *)
Theorem intents_gced_failure op_id transaction_id st :
  fst (ProcessIntents op_id transaction_id st) = inr (IntentsGCed_status transaction_id)
  <-> exists tablet stream_state,
      shared_tablet_safe tablet_peer = inl tablet
      /\ GetIntents tablet transaction_id (pi_stream_state st) = inl ([], stream_state)
      /\ OpId_le op_id (GetLatestCheckPoint tablet_peer) = true.
Proof.
  rewrite ProcessIntents_run. split.
  - destruct (shared_tablet_safe tablet_peer) as [tablet | e] eqn:Ht; [| discriminate].
    destruct (GetIntents tablet transaction_id (pi_stream_state st))
      as [[intents stream_state] | e] eqn:Hi; [| discriminate].
    simpl fst. destruct intents as [| intent intents]; simpl.
    + destruct (OpId_le op_id (GetLatestCheckPoint tablet_peer)) eqn:El.
      * intros _. exists tablet, stream_state. repeat split; assumption.
      * intro H.
        pose proof (@after_gc_guard_foreign op_id transaction_id tablet
                      (fetched_state transaction_id tablet ([], stream_state) st) I) as Hf.
        destruct (after_gc_guard _ _ _ _) as [[[] | e] st']; simpl in H.
        -- discriminate H.
        -- inversion H; subst. contradiction Hf.
    + intro H.
      pose proof (@after_gc_guard_foreign op_id transaction_id tablet
                    (fetched_state transaction_id tablet (intent :: intents, stream_state) st) I)
        as Hf.
      destruct (after_gc_guard _ _ _ _) as [[[] | e] st']; simpl in H.
      * discriminate H.
      * inversion H; subst. contradiction Hf.
  - intros (tablet & stream_state & Ht & Hi & Hl).
    rewrite Ht, Hi. simpl. rewrite Hl. reflexivity.
Qed.









(** *** The snapshot handshake *)

(** C8. On a cursor with write id -1, an empty key and snapshot time 0, with
    the transaction participant and its context at hand and the last
    replicated data read a first time, the call tells the consensus the OpId
    read and pins intent retention at it, then reads the last replicated data
    again.  When the second read fails the call fails with its error, the
    two calls made; when it succeeds the call returns OK, adds no record to
    the response, and answers with the checkpoint (term and index of the OpId
    read second, write id -1, empty key, hybrid time read second).  The OpId
    that retention is pinned at is the one read first. *)
Theorem snapshot_handshake
        fuel tablet_id from_op_id resp cached_schema cached_schema_version
        last_streamed_op_id commit_timestamp last_readable_opid_index
        tablet participant txn_context pinned :
  cp_write_id from_op_id = -1 ->
  cp_key from_op_id = "" ->
  cp_snapshot_time from_op_id = 0 ->
  shared_tablet_safe tablet_peer = inl tablet ->
  transaction_participant tablet = Some participant ->
  context participant = Some txn_context ->
  GetLastReplicatedData txn_context 0 = inl pinned ->
  exists st',
    GetChangesForCDCSDK fuel tablet_id from_op_id
      (GetChangesState_init resp cached_schema cached_schema_version last_streamed_op_id
                            commit_timestamp last_readable_opid_index from_op_id)
    = Some (match GetLastReplicatedData txn_context 1 with
            | inl _ => inl tt
            | inr e => inr (Collab e)
            end, st')
    /\ cdc_sdk_proto_records (gc_resp st') = cdc_sdk_proto_records resp
    /\ gc_effects st'
       = [UpdateCDCConsumerOpId (rid_op_id pinned);
          SetIntentRetainOpIdAndTime (rid_op_id pinned) (FLAGS_cdc_intent_retention_ms flags)]
    /\ forall data,
        GetLastReplicatedData txn_context 1 = inl data ->
        cdc_sdk_checkpoint (gc_resp st')
        = mkCheckpoint (op_term (rid_op_id data)) (op_index (rid_op_id data)) (-1) ""
                       (log_ht data).
Proof.
  intros Hw Hk Ht Htab Hp Hc Hfirst.
  unfold GetChangesForCDCSDK, select_mode. rewrite Htab, Hw. simpl Z.eqb. cbv iota.
  unfold snapshot_branch, bind at 1, modify at 1.
  rewrite Hk, Ht. simpl andb. cbv iota.
  unfold snapshot_first_call. rewrite Hp, Hc.
  unfold bind at 1. rewrite Hfirst. unfold liftC at 1.
  unfold bind at 1, modify at 1, bind at 1, modify at 1, bind at 1.
  destruct (GetLastReplicatedData txn_context 1) as [data | e].
  - cbv [bind liftC modify finish get when ret fail]. cbn.
    destruct (0 <? op_index last_streamed_op_id);
      (eexists; split; [reflexivity |]; cbn; repeat split;
       intros data' Hd; injection Hd as <-; reflexivity).
  - cbv [liftC]. eexists. split; [reflexivity |]. cbn. repeat split. discriminate.
Qed.

(** *** DDL records *)

Lemma on_added_record_run (m : M CDCSDKProtoRecordPB unit) resp :
  on_added_record m resp
  = let (r, rec) := m CDCSDKProtoRecordPB_default in (r, add_cdc_sdk_proto_records rec resp).
Proof.
  unfold on_added_record, bind, modify, zoom, last_record, set_last_record,
    add_cdc_sdk_proto_records. simpl.
  rewrite last_last. destruct (m CDCSDKProtoRecordPB_default) as [[[] | e] rec];
    rewrite set_last_app; reflexivity.
Qed.

(** The DDL record of a CHANGE_METADATA entry. *)
Definition DDL_record (msg : ReplicateMsg) (table_name : string) (schema : Schema)
  : CDCSDKProtoRecordPB :=
  snd (PopulateCDCSDKDDLRecord msg table_name schema CDCSDKProtoRecordPB_default).

Lemma DDL_record_fields msg table_name schema :
  has_change_metadata_request msg = true ->
  op (row_message (DDL_record msg table_name schema)) = RowMessage_Op_DDL
  /\ schema_version (row_message (DDL_record msg table_name schema))
     = cm_schema_version (change_metadata_request msg).
Proof.
  intro H. unfold DDL_record, PopulateCDCSDKDDLRecord. rewrite H. simpl. split; reflexivity.
Qed.

(** The schema version a CHANGE_METADATA entry resolves to: the catalog's
    when the catalog answers, the entry's own otherwise. *)
Definition resolved_version (tablet_ptr : Tablet) (msg : ReplicateMsg) : Z :=
  match GetTableSchemaFromSysCatalog client (table_id tablet_ptr) (hybrid_time msg) with
  | inl result => snd result
  | inr _ => cm_schema_version (change_metadata_request msg)
  end.

Definition gc_records (st : GetChangesState) : list CDCSDKProtoRecordPB :=
  cdc_sdk_proto_records (gc_resp st).

(** The last record of the response is a DDL record of version [v]. *)
Definition ends_with_DDL (v : Z) (resp : GetChangesResponsePB) : bool :=
  last_record_is_DDL resp && (schema_version (row_message (last_record resp)) =? v).

Lemma on_CHANGE_METADATA_OP_ok tablet_ptr msg st st' :
  on_CHANGE_METADATA_OP tablet_ptr msg st = (inl tt, st') ->
  gc_cached_schema_version st' = resolved_version tablet_ptr msg
  /\ gc_pending_intents st' = gc_pending_intents st
  /\ gc_schema_streamed st' = gc_schema_streamed st
  /\ (exists s, (SchemaFromPB client (cm_schema (change_metadata_request msg)) = inl s
                 \/ exists v, GetTableSchemaFromSysCatalog client (table_id tablet_ptr)
                                                            (hybrid_time msg) = inl (s, v))
                /\ gc_cached_schema st' = s)
  /\ gc_records st'
     = gc_records st
       ++ (if ends_with_DDL (resolved_version tablet_ptr msg) (gc_resp st)
           then []
           else [DDL_record msg (table_name tablet_ptr) (gc_current_schema st')])
  /\ (ends_with_DDL (resolved_version tablet_ptr msg) (gc_resp st) = false ->
      has_change_metadata_request msg = true).
Proof.
  unfold on_CHANGE_METADATA_OP, resolved_version, ends_with_DDL, gc_records.
  unfold bind at 1, liftC at 1.
  destruct (SchemaFromPB client (cm_schema (change_metadata_request msg)))
    as [current_schema | e] eqn:ES; [| discriminate].
  unfold bind at 1, modify at 1, bind at 1, modify at 1, bind at 1, modify at 1,
    bind at 1, get at 1, bind at 1.
  cbn [gc_cached_schema_version set_gc_cached_schema_version].
  set (st0 := set_gc_cached_schema_version _ _).
  assert (Hst0 : gc_resp st0 = gc_resp st /\ gc_pending_intents st0 = gc_pending_intents st
                 /\ gc_schema_streamed st0 = gc_schema_streamed st
                 /\ gc_cached_schema st0 = current_schema
                 /\ gc_current_schema st0 = current_schema
                 /\ gc_cached_schema_version st0
                    = cm_schema_version (change_metadata_request msg)) by (repeat split).
  clearbody st0. destruct Hst0 as (R0 & P0 & S0 & C0 & U0 & V0).
  set (resolve := match GetTableSchemaFromSysCatalog client (table_id tablet_ptr)
                                                     (hybrid_time msg) with
                  | inl result => _
                  | inr _ => _
                  end).
  assert (Hres : exists st1,
             resolve st0 = (inl tt, st1)
             /\ gc_resp st1 = gc_resp st /\ gc_pending_intents st1 = gc_pending_intents st
             /\ gc_schema_streamed st1 = gc_schema_streamed st
             /\ gc_cached_schema_version st1
                = match GetTableSchemaFromSysCatalog client (table_id tablet_ptr)
                                                     (hybrid_time msg) with
                  | inl result => snd result
                  | inr _ => cm_schema_version (change_metadata_request msg)
                  end
             /\ (exists s, (SchemaFromPB client (cm_schema (change_metadata_request msg))
                            = inl s
                            \/ exists v, GetTableSchemaFromSysCatalog
                                           client (table_id tablet_ptr) (hybrid_time msg)
                                         = inl (s, v))
                           /\ gc_cached_schema st1 = s)).
  { unfold resolve.
    destruct (GetTableSchemaFromSysCatalog client (table_id tablet_ptr) (hybrid_time msg))
      as [[s v] | e] eqn:EC.
    - unfold when. cbn [fst snd].
      destruct (negb (cm_schema_version (change_metadata_request msg) =? v)) eqn:En.
      + eexists. split; [reflexivity |]. cbn. repeat split; try assumption.
        exists s. split; [right; exists v; reflexivity | reflexivity].
      + eexists. split; [reflexivity |]. repeat split; try assumption.
        * rewrite V0. apply negb_false_iff, Z.eqb_eq in En. exact En.
        * exists current_schema. split; [left; exact ES | exact C0].
    - eexists. split; [reflexivity |]. repeat split; try assumption.
      exists current_schema. split; [left; exact ES | exact C0]. }
  destruct Hres as (st1 & -> & R1 & P1 & S1 & V1 & C1).
  rewrite ES in C1.
  clearbody resolve. clear resolve.
  unfold bind at 1, get at 1, bind at 1. rewrite V1, R1.
  set (v := match GetTableSchemaFromSysCatalog client (table_id tablet_ptr)
                                              (hybrid_time msg) with
            | inl result => snd result
            | inr _ => cm_schema_version (change_metadata_request msg)
            end) in *.
  assert (Hadd : forall st2,
             on_resp (on_added_record
                        (PopulateCDCSDKDDLRecord msg (table_name tablet_ptr)
                                                 (gc_current_schema st1))) st1
             = (inl tt, st2) ->
             has_change_metadata_request msg = true
             /\ st2 = set_gc_resp
                        (add_cdc_sdk_proto_records
                           (DDL_record msg (table_name tablet_ptr) (gc_current_schema st1))
                           (gc_resp st1)) st1).
  { intros st2 E. unfold on_resp, zoom in E. rewrite on_added_record_run in E.
    unfold DDL_record.
    destruct (PopulateCDCSDKDDLRecord _ _ _ _) as [[[] | e] rec] eqn:EP; [| discriminate E].
    inversion E; subst; clear E. split; [| reflexivity].
    unfold PopulateCDCSDKDDLRecord in EP.
    destruct (has_change_metadata_request msg); [reflexivity | discriminate EP]. }
  destruct (last_record_is_DDL (gc_resp st)) eqn:EL; simpl andb.
  - unfold when.
    destruct (schema_version (row_message (last_record (gc_resp st))) =? v) eqn:EV;
      cbn [negb]; cbv iota.
    + unfold ret, modify. intro E. injection E as <-. cbn.
      rewrite R1, app_nil_r.
      split; [exact V1 | split; [exact P1 | split; [exact S1 | split; [exact C1 |]]]].
      split; [reflexivity | discriminate].
    + destruct (on_resp _ st1) as [[[] | e] st2] eqn:EA; [| discriminate].
      destruct (Hadd st2 eq_refl) as [Hh ->].
      unfold modify. intro E. injection E as <-. cbn.
      rewrite R1.
      split; [exact V1 | split; [exact P1 | split; [exact S1 | split; [exact C1 |]]]].
      split; [reflexivity | intros _; exact Hh].
  - destruct (on_resp _ st1) as [[[] | e] st2] eqn:EA; [| discriminate].
    destruct (Hadd st2 eq_refl) as [Hh ->].
    unfold modify. intro E. injection E as <-. cbn.
    rewrite R1.
    split; [exact V1 | split; [exact P1 | split; [exact S1 | split; [exact C1 |]]]].
    split; [reflexivity | intros _; exact Hh].
Qed.


Lemma ends_with_DDL_records v resp resp' :
  cdc_sdk_proto_records resp' = cdc_sdk_proto_records resp ->
  ends_with_DDL v resp' = ends_with_DDL v resp.
Proof.
  intro H. unfold ends_with_DDL, last_record_is_DDL, last_record. rewrite H. reflexivity.
Qed.

Lemma ends_with_DDL_added v resp resp' rec :
  cdc_sdk_proto_records resp' = cdc_sdk_proto_records resp ++ [rec] ->
  op (row_message rec) = RowMessage_Op_DDL ->
  ends_with_DDL v resp' = (schema_version (row_message rec) =? v).
Proof.
  intros H Ho. unfold ends_with_DDL, last_record_is_DDL, last_record. rewrite H.
  rewrite last_last, length_app, Ho. simpl.
  replace (0 <? Z.of_nat (List.length (cdc_sdk_proto_records resp) + 1)) with true.
  - reflexivity.
  - symmetry. apply Z.ltb_lt. lia.
Qed.

Lemma message_body_CHANGE_METADATA_OP tablet_id tablet_ptr msg st :
  op_type msg = CHANGE_METADATA_OP ->
  initialized (gc_cached_schema st) = true ->
  message_body tablet_id tablet_ptr msg st
  = on_CHANGE_METADATA_OP tablet_ptr msg
      (set_gc_current_schema (gc_cached_schema st)
         (set_gc_last_seen_op_id (mkOpId (op_term (id msg)) (op_index (id msg))) st)).
Proof.
  intros Ho Hi. unfold message_body, resolve_message_schema.
  unfold bind at 1, modify at 1, bind at 1, bind at 1, get at 1.
  cbn [gc_schema_streamed gc_cached_schema set_gc_last_seen_op_id].
  rewrite Hi, andb_false_r. unfold modify at 1. rewrite Ho. reflexivity.
Qed.

(** The guard of lines 1022-1024 at work.  For two successive
    CHANGE_METADATA entries read with an initialised cached schema, each entry
    adds a DDL record, which carries the schema version of the entry's own
    request, unless the record that ends the response is a DDL record whose
    schema version is the one the entry resolves to.  So when both entries resolve to one version and the
    request of the first carries that version, the second entry adds no
    record. *)
Theorem ddl_deduplication tablet_id tablet_ptr m1 m2 st st2 :
  op_type m1 = CHANGE_METADATA_OP ->
  op_type m2 = CHANGE_METADATA_OP ->
  (forall pb s, SchemaFromPB client pb = inl s -> initialized s = true) ->
  (forall t ht s v, GetTableSchemaFromSysCatalog client t ht = inl (s, v) ->
                    initialized s = true) ->
  initialized (gc_cached_schema st) = true ->
  gc_pending_intents st = false ->
  messages_loop tablet_id tablet_ptr [m1; m2] st = (inl tt, st2) ->
  exists st1 ddl1 ddl2,
    (op (row_message ddl1) = RowMessage_Op_DDL
     /\ schema_version (row_message ddl1) = cm_schema_version (change_metadata_request m1))
    /\ (op (row_message ddl2) = RowMessage_Op_DDL
        /\ schema_version (row_message ddl2) = cm_schema_version (change_metadata_request m2))
    /\ gc_records st1
       = gc_records st
         ++ (if ends_with_DDL (resolved_version tablet_ptr m1) (gc_resp st)
             then [] else [ddl1])
    /\ gc_records st2
       = gc_records st1
         ++ (if ends_with_DDL (resolved_version tablet_ptr m2) (gc_resp st1)
             then [] else [ddl2])
    /\ (resolved_version tablet_ptr m1 = resolved_version tablet_ptr m2 ->
        cm_schema_version (change_metadata_request m1) = resolved_version tablet_ptr m1 ->
        gc_records st2 = gc_records st1).
Proof.
  intros Ho1 Ho2 Hpb Hcat Hinit Hpend E.
  simpl in E. unfold bind at 1 in E.
  rewrite (message_body_CHANGE_METADATA_OP tablet_id tablet_ptr m1 st Ho1 Hinit) in E.
  destruct (on_CHANGE_METADATA_OP tablet_ptr m1 _) as [[[] | e] st1] eqn:E1; [| discriminate E].
  apply on_CHANGE_METADATA_OP_ok in E1.
  destruct E1 as (V1 & P1 & _ & [s1 [Hs1 C1]] & R1 & H1).
  cbn [gc_pending_intents set_gc_current_schema set_gc_last_seen_op_id] in P1.
  change (gc_records (set_gc_current_schema _ _)) with (gc_records st) in R1.
  change (gc_resp (set_gc_current_schema _ _)) with (gc_resp st) in R1, H1.
  unfold bind at 1, get at 1 in E. rewrite P1, Hpend in E.
  assert (Hinit1 : initialized (gc_cached_schema st1) = true).
  { rewrite C1. destruct Hs1 as [Hs1 | [v Hs1]]; [eapply Hpb | eapply Hcat]; exact Hs1. }
  unfold bind at 1 in E.
  rewrite (message_body_CHANGE_METADATA_OP tablet_id tablet_ptr m2 st1 Ho2 Hinit1) in E.
  destruct (on_CHANGE_METADATA_OP tablet_ptr m2 _) as [[[] | e] st2'] eqn:E2; [| discriminate E].
  apply on_CHANGE_METADATA_OP_ok in E2.
  destruct E2 as (V2 & P2 & _ & _ & R2 & H2).
  change (gc_records (set_gc_current_schema _ _)) with (gc_records st1) in R2.
  change (gc_resp (set_gc_current_schema _ _)) with (gc_resp st1) in R2, H2.
  assert (st2 = st2').
  { unfold get, bind in E. destruct (gc_pending_intents st2'); inversion E; reflexivity. }
  subst st2'.
  set (d1 := DDL_record m1 (table_name tablet_ptr) (gc_current_schema st1)) in *.
  set (d2 := DDL_record m2 (table_name tablet_ptr) (gc_current_schema st2)) in *.
  set (v1 := resolved_version tablet_ptr m1) in *.
  set (v2 := resolved_version tablet_ptr m2) in *.
  (* a record is only added for an entry that carries a request *)
  assert (D1 : ends_with_DDL v1 (gc_resp st) = false ->
               op (row_message d1) = RowMessage_Op_DDL
               /\ schema_version (row_message d1)
                  = cm_schema_version (change_metadata_request m1)).
  { intro Hn. apply DDL_record_fields. exact (H1 Hn). }
  assert (D2 : ends_with_DDL v2 (gc_resp st1) = false ->
               op (row_message d2) = RowMessage_Op_DDL
               /\ schema_version (row_message d2)
                  = cm_schema_version (change_metadata_request m2)).
  { intro Hn. apply DDL_record_fields. exact (H2 Hn). }
  set (some_ddl := fun m : ReplicateMsg =>
                     mkProtoRecord
                       (set_schema_version (cm_schema_version (change_metadata_request m))
                          (set_op RowMessage_Op_DDL RowMessage_default))
                       CDCSDKOpIdPB_default).
  exists st1,
    (if ends_with_DDL v1 (gc_resp st) then some_ddl m1 else d1),
    (if ends_with_DDL v2 (gc_resp st1) then some_ddl m2 else d2).
  split; [destruct (ends_with_DDL v1 (gc_resp st)); [split; reflexivity | exact (D1 eq_refl)] |].
  split; [destruct (ends_with_DDL v2 (gc_resp st1)); [split; reflexivity | exact (D2 eq_refl)] |].
  split; [rewrite R1; destruct (ends_with_DDL v1 (gc_resp st)); reflexivity |].
  split; [rewrite R2; destruct (ends_with_DDL v2 (gc_resp st1)); reflexivity |].
  intros Hv Hreq. rewrite R2.
  assert (Hend : ends_with_DDL v2 (gc_resp st1) = true).
  { destruct (ends_with_DDL v1 (gc_resp st)) eqn:E0.
    - rewrite app_nil_r in R1. rewrite (@ends_with_DDL_records v2 (gc_resp st) (gc_resp st1) R1), <- Hv. exact E0.
    - destruct (D1 eq_refl) as [Dop Dver].
      rewrite (@ends_with_DDL_added v2 (gc_resp st) (gc_resp st1) d1 R1 Dop), Dver, Hreq, Hv. apply Z.eqb_refl. }
  rewrite Hend. apply app_nil_r.
Qed.

(** *** The WAL loop *)

Lemma triple_top {S A} (P : S -> Prop) (m : M S A) :
  triple P m (fun _ _ => True) (fun _ _ => True).
Proof. intros s _. destruct (m s) as [[a | e] s']; exact I. Qed.

Lemma bind_ok {S A B} (m : M S A) (k : A -> M S B) s b s' :
  bind m k s = (inl b, s') ->
  exists a s1, m s = (inl a, s1) /\ k a s1 = (inl b, s').
Proof.
  unfold bind. destruct (m s) as [[a | e] s1]; intro H.
  - exists a, s1. split; [reflexivity | exact H].
  - discriminate H.
Qed.

(** The fields of the checkpoint that locate an entry of the log. *)
Definition checkpoint_op (checkpoint : CDCSDKCheckpointPB) : OpId :=
  mkOpId (cp_term checkpoint) (cp_index checkpoint).

Definition entry_op (msg : ReplicateMsg) : OpId :=
  mkOpId (op_term (id msg)) (op_index (id msg)).

Lemma after_gc_guard_checkpoint op_id transaction_id tablet st st' :
  after_gc_guard op_id transaction_id tablet st = (inl tt, st') ->
  checkpoint_op (pi_checkpoint st') = mkOpId (op_term op_id) (op_index op_id).
Proof.
  intro E. unfold after_gc_guard in E.
  apply bind_ok in E. destruct E as (u1 & s1 & _ & E).
  apply bind_ok in E. destruct E as (g1 & s2 & _ & E).
  apply bind_ok in E. destruct E as (u2 & s3 & _ & E).
  apply bind_ok in E. destruct E as (u3 & s4 & _ & E).
  apply bind_ok in E. destruct E as (u4 & s5 & _ & E).
  apply bind_ok in E. destruct E as (g2 & s6 & _ & E).
  apply bind_ok in E. destruct E as (u5 & s7 & _ & E).
  apply bind_ok in E. destruct E as (u6 & s8 & E8 & E).
  apply bind_ok in E. destruct E as (g3 & s9 & E9 & E).
  unfold modify in E8. unfold get in E9.
  injection E8 as _ <-. injection E9 as <- <-.
  destruct (is_fresh _); unfold bind, modify in E; injection E as <-; reflexivity.
Qed.

Lemma ProcessIntents_checkpoint op_id transaction_id st st' :
  ProcessIntents op_id transaction_id st = (inl tt, st') ->
  checkpoint_op (pi_checkpoint st') = mkOpId (op_term op_id) (op_index op_id).
Proof.
  rewrite ProcessIntents_run.
  destruct (shared_tablet_safe tablet_peer) as [tablet | e]; [| discriminate].
  destruct (GetIntents tablet transaction_id (pi_stream_state st)) as [fetched | e];
    [| discriminate].
  destruct (_ && _); [discriminate |].
  apply after_gc_guard_checkpoint.
Qed.

(** What steers the loop over the log: everything but the response, the
    checkpoint and the schemas. *)
Record same_control (st st' : GetChangesState) : Prop := {
  sc_checkpoint_updated : gc_checkpoint_updated st' = gc_checkpoint_updated st;
  sc_report_tablet_split : gc_report_tablet_split st' = gc_report_tablet_split st;
  sc_split_op_id : gc_split_op_id st' = gc_split_op_id st;
  sc_snapshot_operation : gc_snapshot_operation st' = gc_snapshot_operation st;
  sc_op_id : gc_op_id st' = gc_op_id st;
  sc_last_streamed_op_id : gc_last_streamed_op_id st' = gc_last_streamed_op_id st;
  sc_last_readable_opid_index :
    gc_last_readable_opid_index st' = gc_last_readable_opid_index st;
  sc_last_seen_op_id : gc_last_seen_op_id st' = gc_last_seen_op_id st;
  sc_last_seen_default_message_op_id :
    gc_last_seen_default_message_op_id st' = gc_last_seen_default_message_op_id st;
  sc_pending_intents : gc_pending_intents st' = gc_pending_intents st }.

Lemma same_control_refl st : same_control st st.
Proof. constructor; reflexivity. Qed.

Lemma call_ProcessIntents_control op_id transaction_id stream_state st r st' :
  call_ProcessIntents op_id transaction_id stream_state st = (r, st') ->
  same_control st st'.
Proof.
  unfold call_ProcessIntents. destruct (ProcessIntents _ _ _) as [r0 p].
  intro E. injection E as _ <-. constructor; reflexivity.
Qed.

Lemma call_ProcessIntents_checkpoint op_id transaction_id stream_state st new_stream_state st' :
  call_ProcessIntents op_id transaction_id stream_state st = (inl new_stream_state, st') ->
  checkpoint_op (gc_checkpoint st') = mkOpId (op_term op_id) (op_index op_id).
Proof.
  unfold call_ProcessIntents.
  destruct (ProcessIntents _ _ _) as [[[] | e] p] eqn:EP; intro E; [| discriminate E].
  injection E as _ <-. simpl. exact (ProcessIntents_checkpoint _ _ _ EP).
Qed.

Lemma resolve_message_schema_run tablet_ptr msg st :
  exists st', resolve_message_schema tablet_ptr msg st = (inl tt, st')
              /\ same_control st st' /\ gc_checkpoint st' = gc_checkpoint st.
Proof.
  unfold resolve_message_schema, bind at 1, get at 1.
  destruct (_ && _).
  - destruct (GetTableSchemaFromSysCatalog _ _ _) as [result | e];
      (eexists; split; [reflexivity | split; [constructor; reflexivity | reflexivity]]).
  - eexists; split; [reflexivity | split; [constructor; reflexivity | reflexivity]].
Qed.


(** An UPDATE_TRANSACTION entry with status APPLYING that is processed
    without failure calls [ProcessIntents] for the entry's OpId with an empty
    stream state.  When the stream state that comes back has a write id other
    than 0 and a key that is not empty, the loop over the messages ends at
    this entry whatever follows it, [last_streamed_op_id] keeps its value, the
    checkpoint stays at the entry's OpId and no further batch is read;
    otherwise [last_streamed_op_id] becomes the entry's OpId and the loop goes
    on with the entries that follow. *)
Theorem mid_transaction_suspension tablet_id tablet_ptr msg st :
  op_type msg = UPDATE_TRANSACTION_OP ->
  ts_status (transaction_state msg) = APPLYING ->
  gc_pending_intents st = false ->
  fst (message_body tablet_id tablet_ptr msg st) = inl tt ->
  exists txn_id st0 new_stream_state st1,
    FullyDecodeTransactionId client (ts_transaction_id (transaction_state msg)) = inl txn_id
    /\ gc_last_streamed_op_id st0 = gc_last_streamed_op_id st
    /\ call_ProcessIntents (entry_op msg) txn_id ApplyTransactionState_default st0
       = (inl new_stream_state, st1)
    /\ if negb (as_write_id new_stream_state =? 0)
          && negb (String.eqb (as_key new_stream_state) "")
       then
         let st' := set_gc_checkpoint_updated true (set_gc_pending_intents true st1) in
         (forall rest,
             messages_loop tablet_id tablet_ptr (msg :: rest) st = (inl tt, st'))
         /\ gc_last_streamed_op_id st' = gc_last_streamed_op_id st
         /\ checkpoint_op (gc_checkpoint st') = entry_op msg
         /\ read_again st' = false
       else
         let st' := set_gc_checkpoint_updated true
                      (set_gc_last_streamed_op_id (entry_op msg) st1) in
         (forall rest,
             messages_loop tablet_id tablet_ptr (msg :: rest) st
             = messages_loop tablet_id tablet_ptr rest st')
         /\ gc_last_streamed_op_id st' = entry_op msg.
Proof.
  intros Hop Hst Hpend Hok.
  assert (Hbody : message_body tablet_id tablet_ptr msg st
                  = bind (resolve_message_schema tablet_ptr msg)
                         (fun _ => on_UPDATE_TRANSACTION_OP msg)
                         (set_gc_last_seen_op_id (entry_op msg) st)).
  { unfold message_body. rewrite Hop. reflexivity. }
  destruct (resolve_message_schema_run tablet_ptr msg
              (set_gc_last_seen_op_id (entry_op msg) st)) as (sr & Er & Cr & _).
  unfold bind at 1 in Hbody. rewrite Er in Hbody.
  unfold on_UPDATE_TRANSACTION_OP in Hbody. rewrite Hst in Hbody.
  unfold bind at 1, bind at 1, liftC at 1 in Hbody.
  destruct (FullyDecodeTransactionId client _) as [txn_id | e] eqn:Ed.
  2:{ rewrite Hbody in Hok. discriminate Hok. }
  unfold bind at 1, modify at 1, bind at 1, modify at 1, bind at 1, get at 1, bind at 1
    in Hbody.
  cbn [gc_op_id set_gc_op_id] in Hbody.
  set (st0 := set_gc_op_id _ (set_gc_commit_timestamp _ sr)) in Hbody.
  change (mkOpId (op_term (id msg)) (op_index (id msg))) with (entry_op msg) in Hbody.
  destruct (call_ProcessIntents (entry_op msg) txn_id ApplyTransactionState_default st0)
    as [[new_stream_state | e] st1] eqn:Ec.
  2:{ rewrite Hbody in Hok. discriminate Hok. }
  pose proof (call_ProcessIntents_control _ _ _ _ Ec) as C1.
  pose proof (call_ProcessIntents_checkpoint _ _ _ _ Ec) as K1.
  assert (L0 : gc_last_streamed_op_id st0 = gc_last_streamed_op_id st).
  { unfold st0. simpl. rewrite (sc_last_streamed_op_id Cr). reflexivity. }
  assert (P0 : gc_pending_intents st1 = false).
  { rewrite (sc_pending_intents C1). unfold st0. simpl.
    rewrite (sc_pending_intents Cr). exact Hpend. }
  exists txn_id, st0, new_stream_state, st1.
  split; [reflexivity | split; [exact L0 | split; [exact Ec |]]].
  destruct (negb (as_write_id new_stream_state =? 0)
            && negb (String.eqb (as_key new_stream_state) "")).
  - unfold modify in Hbody. cbv zeta.
    split; [| split; [| split; [exact K1 | reflexivity]]].
    + intro rest. simpl messages_loop. unfold bind at 1. rewrite Hbody.
      reflexivity.
    + simpl. rewrite (sc_last_streamed_op_id C1). exact L0.
  - unfold modify in Hbody. cbv zeta.
    split; [| reflexivity].
    intro rest. simpl messages_loop. unfold bind at 1. rewrite Hbody.
    unfold bind at 1, get at 1.
    cbn [gc_pending_intents set_gc_checkpoint_updated set_gc_last_streamed_op_id].
    rewrite P0. reflexivity.
Qed.

(** *** Tablet splits *)

Lemma message_body_cached tablet_id tablet_ptr msg st :
  initialized (gc_cached_schema st) = true ->
  message_body tablet_id tablet_ptr msg st
  = match op_type msg with
    | UPDATE_TRANSACTION_OP => on_UPDATE_TRANSACTION_OP msg
    | WRITE_OP => on_WRITE_OP msg
    | CHANGE_METADATA_OP => on_CHANGE_METADATA_OP tablet_ptr msg
    | TRUNCATE_OP => on_TRUNCATE_OP msg
    | SPLIT_OP => on_SPLIT_OP tablet_id tablet_ptr msg
    | OTHER_OP => modify (set_gc_last_seen_default_message_op_id (entry_op msg))
    end (set_gc_current_schema (gc_cached_schema st)
           (set_gc_last_seen_op_id (entry_op msg) st)).
Proof.
  intro Hi. unfold message_body, resolve_message_schema.
  unfold bind at 1, modify at 1, bind at 1, bind at 1, get at 1.
  cbn [gc_schema_streamed gc_cached_schema set_gc_last_seen_op_id].
  rewrite Hi, andb_false_r. unfold modify at 1. reflexivity.
Qed.

(** The state a verified split leaves when no checkpoint was set before it. *)
Definition split_recorded (msg : ReplicateMsg) (st : GetChangesState) : GetChangesState :=
  set_gc_split_op_id (id msg)
    (set_gc_checkpoint_updated true
       (SetCheckpoint (op_term (id msg)) (op_index (id msg)) 0 "" 0 true st)).

Lemma on_SPLIT_OP_run tablet_id tablet_ptr msg st :
  on_SPLIT_OP tablet_id tablet_ptr msg st
  = (inl tt,
     if VerifyTabletSplitOnParentTablet (table_id tablet_ptr) tablet_id
        && negb (gc_checkpoint_updated st)
     then split_recorded msg st else st).
Proof.
  unfold on_SPLIT_OP.
  destruct (VerifyTabletSplitOnParentTablet _ _); cbn [negb andb]; [| reflexivity].
  unfold bind at 1, get at 1. destruct (gc_checkpoint_updated st); reflexivity.
Qed.

(** What the answer is made of. *)
Record same_answer (st st' : GetChangesState) : Prop := {
  sa_resp : gc_resp st' = gc_resp st;
  sa_checkpoint : gc_checkpoint st' = gc_checkpoint st;
  sa_checkpoint_updated : gc_checkpoint_updated st' = gc_checkpoint_updated st;
  sa_report_tablet_split : gc_report_tablet_split st' = gc_report_tablet_split st;
  sa_split_op_id : gc_split_op_id st' = gc_split_op_id st;
  sa_snapshot_operation : gc_snapshot_operation st' = gc_snapshot_operation st;
  sa_last_streamed_op_id : gc_last_streamed_op_id st' = gc_last_streamed_op_id st;
  sa_cached_schema : gc_cached_schema st' = gc_cached_schema st;
  sa_pending_intents : gc_pending_intents st' = gc_pending_intents st }.

Lemma same_answer_trans st1 st2 st3 :
  same_answer st1 st2 -> same_answer st2 st3 -> same_answer st1 st3.
Proof.
  intros [] []. constructor; etransitivity; eassumption.
Qed.

Lemma other_entries_loop tablet_id tablet_ptr rest :
  Forall (fun m => op_type m = OTHER_OP) rest ->
  forall st,
    initialized (gc_cached_schema st) = true ->
    gc_pending_intents st = false ->
    exists st', messages_loop tablet_id tablet_ptr rest st = (inl tt, st')
                /\ same_answer st st'.
Proof.
  induction 1 as [| m rest Hm _ IH]; intros st Hi Hp.
  - exists st. split; [reflexivity | constructor; reflexivity].
  - simpl messages_loop. unfold bind at 1.
    rewrite (message_body_cached tablet_id tablet_ptr m st Hi), Hm.
    unfold modify at 1, bind at 1, get at 1.
    cbn [gc_pending_intents set_gc_last_seen_default_message_op_id set_gc_current_schema
         set_gc_last_seen_op_id].
    rewrite Hp.
    destruct (IH (set_gc_last_seen_default_message_op_id (entry_op m)
                    (set_gc_current_schema (gc_cached_schema st)
                       (set_gc_last_seen_op_id (entry_op m) st))) Hi Hp)
      as (st' & E & S).
    exists st'. split; [exact E |].
    eapply same_answer_trans; [| exact S]. constructor; reflexivity.
Qed.

Definition split_confirmed (st : GetChangesState) : Prop :=
  gc_snapshot_operation st = false
  /\ op_term (gc_split_op_id st) = cp_term (gc_checkpoint st)
  /\ op_index (gc_split_op_id st) = cp_index (gc_checkpoint st).

Lemma finish_run tablet_id from_op_id st :
  gc_report_tablet_split st = false ->
  exists r st',
    finish tablet_id from_op_id st = (r, st')
    /\ (r = inr (TabletSplit_status tablet_id) \/ r = inl tt)
    /\ (r = inr (TabletSplit_status tablet_id) <-> split_confirmed st)
    /\ cdc_sdk_proto_records (gc_resp st') = cdc_sdk_proto_records (gc_resp st)
    /\ cdc_sdk_checkpoint (gc_resp st')
       = (if gc_checkpoint_updated st then gc_checkpoint st else from_op_id)
    /\ gc_last_streamed_op_id st' = gc_last_streamed_op_id st.
Proof.
  intro Hr. unfold finish, split_confirmed.
  unfold bind at 1, get at 1, bind at 1, when at 1.
  destruct (gc_snapshot_operation st); cbn [negb andb].
  - unfold ret at 1, bind at 1, modify at 1, bind at 1, modify at 1, bind at 1, get at 1.
    destruct (0 <? op_index (gc_last_streamed_op_id _));
      cbn [gc_report_tablet_split set_gc_resp]; rewrite Hr;
      (eexists; eexists; split; [reflexivity |
         split; [right; reflexivity |
                 split; [split; [discriminate | intros [H _]; discriminate H] |
                         repeat split]]]).
  - destruct (op_term (gc_split_op_id st) =? cp_term (gc_checkpoint st)) eqn:Et;
      cbn [andb].
    2:{ unfold ret at 1, bind at 1, modify at 1, bind at 1, modify at 1, bind at 1, get at 1.
        apply Z.eqb_neq in Et.
        destruct (0 <? op_index (gc_last_streamed_op_id _));
          cbn [gc_report_tablet_split set_gc_resp]; rewrite Hr;
          (eexists; eexists; split; [reflexivity |
             split; [right; reflexivity |
                     split; [split; [discriminate | intros (_ & H & _); contradiction] |
                             repeat split]]]). }
    destruct (op_index (gc_split_op_id st) =? cp_index (gc_checkpoint st)) eqn:Ei.
    2:{ unfold ret at 1, bind at 1, modify at 1, bind at 1, modify at 1, bind at 1, get at 1.
        apply Z.eqb_neq in Ei.
        destruct (0 <? op_index (gc_last_streamed_op_id _));
          cbn [gc_report_tablet_split set_gc_resp]; rewrite Hr;
          (eexists; eexists; split; [reflexivity |
             split; [right; reflexivity |
                     split; [split; [discriminate | intros (_ & _ & H); contradiction] |
                             repeat split]]]). }
    apply Z.eqb_eq in Et, Ei.
    unfold modify at 1, bind at 1, modify at 1, bind at 1, modify at 1, bind at 1, get at 1.
    destruct (0 <? op_index (gc_last_streamed_op_id _));
      cbn [gc_report_tablet_split set_gc_resp set_gc_report_tablet_split];
      (eexists; eexists; split; [reflexivity |
         split; [left; reflexivity |
                 split; [split; [intros _; repeat split; assumption | reflexivity] |
                         repeat split]]]).
Qed.


Lemma split_then_other_entries tablet_id tablet_ptr msg rest st :
  op_type msg = SPLIT_OP ->
  Forall (fun m => op_type m = OTHER_OP) rest ->
  VerifyTabletSplitOnParentTablet (table_id tablet_ptr) tablet_id = true ->
  initialized (gc_cached_schema st) = true ->
  gc_pending_intents st = false ->
  gc_checkpoint_updated st = false ->
  exists st',
    messages_loop tablet_id tablet_ptr (msg :: rest) st = (inl tt, st')
    /\ same_answer
         (split_recorded msg
            (set_gc_current_schema (gc_cached_schema st)
               (set_gc_last_seen_op_id (entry_op msg) st))) st'.
Proof.
  intros Hop Hrest Hv Hi Hp Hu.
  simpl messages_loop. unfold bind at 1.
  rewrite (message_body_cached tablet_id tablet_ptr msg st Hi), Hop, on_SPLIT_OP_run, Hv.
  cbn [gc_checkpoint_updated set_gc_current_schema set_gc_last_seen_op_id].
  rewrite Hu. cbn [negb andb].
  unfold bind at 1, get at 1.
  set (st1 := split_recorded msg _).
  assert (Hp1 : gc_pending_intents st1 = false) by exact Hp.
  assert (Hi1 : initialized (gc_cached_schema st1) = true) by exact Hi.
  rewrite Hp1.
  destruct (other_entries_loop tablet_id tablet_ptr Hrest st1 Hi1 Hp1) as (st' & E & S).
  exists st'. split; assumption.
Qed.


(** C7, as the code has it.  A SPLIT_OP entry never fails.  When the catalog
    shows two tablets whose split parent is this tablet and no entry of this
    response has set the checkpoint, the entry sets the checkpoint and
    [last_streamed_op_id] to its OpId and remembers that OpId; in every other
    case it leaves the state as it is.  At the end the call reports
    TabletSplit exactly when it is not a snapshot call and the term and index
    of the checkpoint are those of the remembered OpId, otherwise it returns
    OK.  So a call that reads a confirmed split followed only by entries that
    are not acted upon returns TabletSplit with the records of the response
    unchanged and the checkpoint at the split's OpId. *)
Theorem tablet_split_handling
        fuel tablet_id tablet_ptr from_op_id resp cached_schema cached_schema_version
        last_streamed_op_id commit_timestamp last_readable_opid_index msg rest idx :
  shared_tablet_safe tablet_peer = inl tablet_ptr ->
  (cp_write_id from_op_id =? -1) = false ->
  negb (String.eqb (cp_key from_op_id) "") && negb (cp_write_id from_op_id =? 0) = false ->
  ReadReplicatedMessagesForCDC tablet_peer (checkpoint_op from_op_id)
                               last_readable_opid_index = inl (msg :: rest, idx) ->
  match transaction_participant tablet_ptr with
  | Some txn_participant => RequestScope_Create txn_participant = inl tt
  | None => True
  end ->
  initialized cached_schema = true ->
  op_type msg = SPLIT_OP ->
  Forall (fun m => op_type m = OTHER_OP) rest ->
  VerifyTabletSplitOnParentTablet (table_id tablet_ptr) tablet_id = true ->
  (forall tablet_id' tablet_ptr' msg' st,
      on_SPLIT_OP tablet_id' tablet_ptr' msg' st
      = (inl tt,
         if VerifyTabletSplitOnParentTablet (table_id tablet_ptr') tablet_id'
            && negb (gc_checkpoint_updated st)
         then split_recorded msg' st else st))
  /\ (forall tablet_id' from_op_id' st,
         gc_report_tablet_split st = false ->
         exists r st',
           finish tablet_id' from_op_id' st = (r, st')
           /\ (r = inr (TabletSplit_status tablet_id') \/ r = inl tt)
           /\ (r = inr (TabletSplit_status tablet_id') <-> split_confirmed st)
           /\ cdc_sdk_proto_records (gc_resp st') = cdc_sdk_proto_records (gc_resp st)
           /\ cdc_sdk_checkpoint (gc_resp st')
              = (if gc_checkpoint_updated st then gc_checkpoint st else from_op_id'))
  /\ exists st',
      GetChangesForCDCSDK (S fuel) tablet_id from_op_id
        (GetChangesState_init resp cached_schema cached_schema_version last_streamed_op_id
           commit_timestamp last_readable_opid_index from_op_id)
      = Some (inr (TabletSplit_status tablet_id), st')
      /\ cdc_sdk_proto_records (gc_resp st') = cdc_sdk_proto_records resp
      /\ cdc_sdk_checkpoint (gc_resp st')
         = mkCheckpoint (op_term (id msg)) (op_index (id msg)) 0 "" 0
      /\ gc_last_streamed_op_id st' = entry_op msg.
Proof.
  intros Ht Hw Hk Hread Hscope Hi Hop Hrest Hv.
  split; [intros; apply on_SPLIT_OP_run |].
  split.
  { intros tablet_id' from_op_id' st Hr.
    destruct (finish_run tablet_id' from_op_id' st Hr) as (r & st' & E & H1 & H2 & H3 & H4 & _).
    exists r, st'.
    split; [exact E | split; [exact H1 | split; [exact H2 | split; [exact H3 | exact H4]]]]. }
  set (st0 := GetChangesState_init _ _ _ _ _ _ _).
  unfold GetChangesForCDCSDK. rewrite Ht. unfold select_mode. rewrite Hw, Hk.
  cbn [read_batches].
  (* the one batch *)
  set (stb := set_gc_schema_streamed false
                (set_gc_pending_intents false
                   (set_gc_current_schema Schema_default
                      (set_gc_last_readable_opid_index idx st0)))).
  destruct (@split_then_other_entries tablet_id tablet_ptr msg rest stb Hop Hrest Hv Hi
              eq_refl eq_refl) as (stl & El & Sl).
  assert (Eb : read_batch tablet_id tablet_ptr st0 = (inl false, stl)).
  { unfold read_batch. unfold bind at 1, get at 1, bind at 1, liftC at 1.
    change (gc_last_seen_op_id st0) with (checkpoint_op from_op_id).
    change (gc_last_readable_opid_index st0) with last_readable_opid_index.
    rewrite Hread. cbn [fst snd].
    unfold bind at 1, modify at 1, bind at 1.
    assert (Es : forall s : GetChangesState,
               match transaction_participant tablet_ptr with
               | Some txn_participant => liftC (RequestScope_Create txn_participant)
               | None => ret tt
               end s = (inl tt, s)).
    { intro s. destruct (transaction_participant tablet_ptr) as [p |]; [| reflexivity].
      unfold liftC. rewrite Hscope. reflexivity. }
    rewrite Es.
    unfold bind at 1, modify at 1, bind at 1, modify at 1, bind at 1, modify at 1.
    fold stb. unfold bind at 1. rewrite El. reflexivity. }
  rewrite Eb.
  assert (Hu : gc_checkpoint_updated stl = true) by (rewrite (sa_checkpoint_updated Sl); reflexivity).
  unfold read_again. rewrite Hu. cbn [negb andb].
  unfold checkpoint_from_default_message, bind at 1, get at 1. rewrite Hu.
  cbn [negb andb when ret].
  assert (Hr : gc_report_tablet_split stl = false)
    by (rewrite (sa_report_tablet_split Sl); reflexivity).
  destruct (finish_run tablet_id from_op_id stl Hr) as (r & st' & E & _ & H2 & H3 & H4 & H5).
  assert (Hc : split_confirmed stl).
  { unfold split_confirmed.
    rewrite (sa_snapshot_operation Sl), (sa_split_op_id Sl), (sa_checkpoint Sl).
    repeat split. }
  apply H2 in Hc. subst r.
  exists st'. split; [rewrite E; reflexivity |].
  split; [rewrite H3, (sa_resp Sl); reflexivity |].
  split; [rewrite H4, Hu, (sa_checkpoint Sl); reflexivity |].
  rewrite H5, (sa_last_streamed_op_id Sl). reflexivity.
Qed.

(** *** The cursor never moves back in the log *)

Lemma OpId_le_refl a : OpId_le a a = true.
Proof.
  unfold OpId_le. rewrite Z.eqb_refl, Z.leb_refl. apply orb_true_r.
Qed.

Lemma OpId_le_iff a b :
  OpId_le a b = true
  <-> op_term a < op_term b \/ (op_term a = op_term b /\ op_index a <= op_index b).
Proof.
  unfold OpId_le.
  rewrite orb_true_iff, andb_true_iff, Z.ltb_lt, Z.eqb_eq, Z.leb_le. reflexivity.
Qed.

Lemma OpId_le_trans a b c : OpId_le a b = true -> OpId_le b c = true -> OpId_le a c = true.
Proof. rewrite !OpId_le_iff. lia. Qed.

Lemma OpId_eqb_refl a : OpId_eqb a a = true.
Proof. unfold OpId_eqb. rewrite !Z.eqb_refl. reflexivity. Qed.

Lemma liftC_ok {S A} (r : A + string) (s : S) a s' :
  liftC r s = (inl a, s') -> r = inl a /\ s' = s.
Proof.
  unfold liftC. destruct r; intro H; [| discriminate H].
  injection H as -> ->. split; reflexivity.
Qed.

Lemma modify_ok {S} (f : S -> S) s u s' : modify f s = (inl u, s') -> s' = f s.
Proof. unfold modify. intro H. injection H as _ <-. reflexivity. Qed.

Lemma get_ok {S} (s : S) a s' : get s = (inl a, s') -> a = s /\ s' = s.
Proof. unfold get. intro H. injection H as <- <-. split; reflexivity. Qed.

(** An UPDATE_TRANSACTION entry of a tablet's log applies a transaction. *)
Definition applying_only (msg : ReplicateMsg) : Prop :=
  op_type msg = UPDATE_TRANSACTION_OP -> ts_status (transaction_state msg) = APPLYING.

(** The reader hands out entries that are not before the OpId it is asked to
    read from. *)
Definition reads_forward : Prop :=
  forall op idx r,
    ReadReplicatedMessagesForCDC tablet_peer op idx = inl r ->
    Forall (fun m => OpId_le op (id m) = true /\ applying_only m) (fst r).

Lemma ret_ok {S A} (a : A) (s : S) a' s' : ret a s = (inl a', s') -> a' = a /\ s' = s.
Proof. unfold ret. intro H. injection H as <- <-. split; reflexivity. Qed.

Lemma when_modify_ok {S} (b : bool) (f : S -> S) s u s' :
  when b (modify f) s = (inl u, s') -> s' = if b then f s else s.
Proof. destruct b; simpl; intro H; injection H as _ <-; reflexivity. Qed.

Section Monotone.

Variable from_id : OpId.

Definition not_before (o : OpId) : Prop := OpId_le from_id o = true.

Record wal_inv (st : GetChangesState) : Prop := {
  wi_seen : not_before (gc_last_seen_op_id st);
  wi_checkpoint :
    gc_checkpoint_updated st = true -> not_before (checkpoint_op (gc_checkpoint st));
  wi_default :
    OpId_eqb (gc_last_seen_default_message_op_id st) (OpId_Invalid opid_decl) = false ->
    not_before (gc_last_seen_default_message_op_id st) }.

Lemma wal_inv_ext st st' :
  gc_last_seen_op_id st' = gc_last_seen_op_id st ->
  gc_checkpoint_updated st' = gc_checkpoint_updated st ->
  gc_checkpoint st' = gc_checkpoint st ->
  gc_last_seen_default_message_op_id st' = gc_last_seen_default_message_op_id st ->
  wal_inv st -> wal_inv st'.
Proof.
  intros H1 H2 H3 H4 [A B C]. constructor; rewrite ?H1, ?H2, ?H3, ?H4; assumption.
Qed.

(** The checkpoint has been put on an entry that is not before the cursor. *)
Definition placed (st : GetChangesState) : Prop :=
  wal_inv st /\ not_before (checkpoint_op (gc_checkpoint st)).

Lemma placed_SetCheckpoint term index write_id key time b st :
  wal_inv st -> not_before (mkOpId term index) ->
  placed (SetCheckpoint term index write_id key time b st).
Proof.
  intros [A B C] H. unfold SetCheckpoint.
  destruct b; (split; [constructor | exact H]); try assumption; intros _; exact H.
Qed.

Lemma placed_updated st : placed st -> wal_inv (set_gc_checkpoint_updated true st).
Proof.
  intros [[A B C] H]. constructor; try assumption. intros _. exact H.
Qed.

Lemma placed_ext st st' :
  gc_last_seen_op_id st' = gc_last_seen_op_id st ->
  gc_checkpoint_updated st' = gc_checkpoint_updated st ->
  gc_checkpoint st' = gc_checkpoint st ->
  gc_last_seen_default_message_op_id st' = gc_last_seen_default_message_op_id st ->
  placed st -> placed st'.
Proof.
  intros H1 H2 H3 H4 [W H]. split.
  - exact (wal_inv_ext _ H1 H2 H3 H4 W).
  - rewrite H3. exact H.
Qed.

Lemma on_resp_wal_inv (m : M GetChangesResponsePB unit) :
  triple wal_inv (on_resp m) (fun _ => wal_inv) (fun _ _ => True).
Proof.
  intros s Hs. unfold on_resp, zoom. destruct (m (gc_resp s)) as [[a | e] r]; [| exact I].
  eapply wal_inv_ext; [.. | exact Hs]; reflexivity.
Qed.

Lemma place_tail term index write_id key time b :
  not_before (mkOpId term index) ->
  triple wal_inv
         (modify (SetCheckpoint term index write_id key time b) ;;
          modify (set_gc_checkpoint_updated true))
         (fun _ => wal_inv) (fun _ _ => True).
Proof.
  intro H. eapply triple_bind with (Q' := fun _ => placed).
  - apply triple_modify. intros s Hs. apply placed_SetCheckpoint; assumption.
  - intros _. apply triple_modify. intros s Hs. apply placed_updated. exact Hs.
Qed.

Ltac wal_step :=
  first [ apply place_tail; assumption
        | apply on_resp_wal_inv
        | keep_step wal_inv ];
  try (eapply wal_inv_ext; [.. | eassumption]; reflexivity).

Lemma on_WRITE_OP_wal_inv msg :
  not_before (id msg) ->
  triple wal_inv (on_WRITE_OP msg) (fun _ => wal_inv) (fun _ _ => True).
Proof. intro Hm. unfold on_WRITE_OP. repeat wal_step. Qed.

Lemma on_CHANGE_METADATA_OP_wal_inv tablet_ptr msg :
  not_before (id msg) ->
  triple wal_inv (on_CHANGE_METADATA_OP tablet_ptr msg) (fun _ => wal_inv) (fun _ _ => True).
Proof. intro Hm. unfold on_CHANGE_METADATA_OP. repeat wal_step. Qed.

Lemma on_TRUNCATE_OP_wal_inv msg :
  not_before (id msg) ->
  triple wal_inv (on_TRUNCATE_OP msg) (fun _ => wal_inv) (fun _ _ => True).
Proof. intro Hm. unfold on_TRUNCATE_OP. repeat wal_step. Qed.

Lemma on_SPLIT_OP_wal_inv tablet_id tablet_ptr msg :
  not_before (id msg) ->
  triple wal_inv (on_SPLIT_OP tablet_id tablet_ptr msg) (fun _ => wal_inv) (fun _ _ => True).
Proof.
  intros Hm s Hs. rewrite on_SPLIT_OP_run.
  destruct (_ && _); [| exact Hs].
  unfold split_recorded.
  eapply wal_inv_ext; [.. | apply placed_updated, placed_SetCheckpoint; eassumption];
    reflexivity.
Qed.

Lemma on_UPDATE_TRANSACTION_OP_wal_inv msg :
  not_before (id msg) ->
  ts_status (transaction_state msg) = APPLYING ->
  triple wal_inv (on_UPDATE_TRANSACTION_OP msg) (fun _ => wal_inv) (fun _ _ => True).
Proof.
  intros Hm Ha s Hs.
  destruct (on_UPDATE_TRANSACTION_OP msg s) as [[[] | e] s'] eqn:E; [| exact I].
  unfold on_UPDATE_TRANSACTION_OP in E. rewrite Ha in E.
  apply bind_ok in E. destruct E as (u & s1 & E & Eu).
  apply modify_ok in Eu. subst s'.
  apply bind_ok in E. destruct E as (txn_id & s2 & Ed & E).
  apply liftC_ok in Ed. destruct Ed as [_ ->].
  apply bind_ok in E. destruct E as (u1 & s3 & E3 & E). apply modify_ok in E3. subst s3.
  apply bind_ok in E. destruct E as (u2 & s4 & E4 & E). apply modify_ok in E4. subst s4.
  apply bind_ok in E. destruct E as (g & s5 & E5 & E). apply get_ok in E5.
  destruct E5 as [-> ->].
  apply bind_ok in E. destruct E as (new_stream_state & s6 & Ec & E).
  pose proof (call_ProcessIntents_control _ _ _ _ Ec) as C.
  pose proof (call_ProcessIntents_checkpoint _ _ _ _ Ec) as K.
  cbn [gc_op_id set_gc_op_id op_term op_index] in K.
  assert (P6 : placed s6).
  { split.
    - destruct Hs as [A B D]. constructor.
      + rewrite (sc_last_seen_op_id C). exact A.
      + intros _. unfold not_before. rewrite K. exact Hm.
      + rewrite (sc_last_seen_default_message_op_id C). exact D.
    - unfold not_before. rewrite K. exact Hm. }
  apply placed_updated.
  destruct (_ && _); apply modify_ok in E; subst s1;
    (eapply placed_ext; [.. | exact P6]; reflexivity).
Qed.

Lemma message_body_wal_inv tablet_id tablet_ptr msg :
  not_before (id msg) -> applying_only msg ->
  triple wal_inv (message_body tablet_id tablet_ptr msg) (fun _ => wal_inv) (fun _ _ => True).
Proof.
  intros Hm Ha. unfold message_body.
  eapply triple_bind with (Q' := fun _ => wal_inv).
  { apply triple_modify. intros s [A B C]. constructor; [exact Hm | assumption | assumption]. }
  intros _.
  eapply triple_bind with (Q' := fun _ => wal_inv).
  { intros s Hs.
    destruct (resolve_message_schema_run tablet_ptr msg s) as (s' & E & C & K).
    rewrite E.
    eapply wal_inv_ext; [.. | exact Hs];
      [apply (sc_last_seen_op_id C) | apply (sc_checkpoint_updated C) | exact K
       | apply (sc_last_seen_default_message_op_id C)]. }
  intros _.
  destruct (op_type msg) eqn:Eo.
  - apply on_UPDATE_TRANSACTION_OP_wal_inv; [exact Hm | exact (Ha Eo)].
  - apply on_WRITE_OP_wal_inv; exact Hm.
  - apply on_CHANGE_METADATA_OP_wal_inv; exact Hm.
  - apply on_TRUNCATE_OP_wal_inv; exact Hm.
  - apply on_SPLIT_OP_wal_inv; exact Hm.
  - apply triple_modify. intros s [A B C].
    constructor; [assumption | assumption | intros _; exact Hm].
Qed.

Lemma messages_loop_wal_inv tablet_id tablet_ptr msgs :
  Forall (fun m => not_before (id m) /\ applying_only m) msgs ->
  triple wal_inv (messages_loop tablet_id tablet_ptr msgs) (fun _ => wal_inv)
         (fun _ _ => True).
Proof.
  induction 1 as [| m msgs [Hm Ha] _ IH]; simpl.
  - apply triple_ret. auto.
  - eapply triple_bind with (Q' := fun _ => wal_inv).
    + apply message_body_wal_inv; assumption.
    + intros _. eapply triple_bind with (Q' := fun _ => wal_inv).
      * apply triple_get. auto.
      * intro st. destruct (gc_pending_intents st); [apply triple_ret; auto | exact IH].
Qed.

Lemma read_batch_wal_inv tablet_id tablet_ptr st b st' :
  reads_forward ->
  wal_inv st ->
  read_batch tablet_id tablet_ptr st = (inl b, st') ->
  wal_inv st'.
Proof.
  intros Hread Hs E. unfold read_batch in E.
  apply bind_ok in E. destruct E as (g & s1 & Eg & E). apply get_ok in Eg.
  destruct Eg as [-> ->].
  apply bind_ok in E. destruct E as (read_ops & s2 & Er & E). apply liftC_ok in Er.
  destruct Er as [Er ->].
  apply Hread in Er.
  assert (Hmsgs : Forall (fun m => not_before (id m) /\ applying_only m) (fst read_ops)).
  { eapply Forall_impl; [| exact Er]. intros m [H1 H2]. split; [| exact H2].
    exact (OpId_le_trans _ _ _ (wi_seen Hs) H1). }
  apply bind_ok in E. destruct E as (u1 & s3 & E3 & E). apply modify_ok in E3. subst s3.
  apply bind_ok in E. destruct E as (u2 & s4 & E4 & E).
  assert (s4 = set_gc_last_readable_opid_index (snd read_ops) st).
  { destruct (transaction_participant tablet_ptr).
    - apply liftC_ok in E4. apply E4.
    - apply ret_ok in E4. apply E4. }
  subst s4. clear E4.
  apply bind_ok in E. destruct E as (u3 & s5 & E5 & E). apply modify_ok in E5. subst s5.
  apply bind_ok in E. destruct E as (u4 & s6 & E6 & E). apply modify_ok in E6. subst s6.
  apply bind_ok in E. destruct E as (u5 & s7 & E7 & E). apply modify_ok in E7. subst s7.
  match type of E with _ ?s = _ => set (sb := s) in E end.
  assert (Hb : wal_inv sb).
  { eapply wal_inv_ext; [.. | exact Hs]; reflexivity. }
  destruct (fst read_ops) as [| m msgs] eqn:Em.
  - apply ret_ok in E. destruct E as [_ ->]. exact Hb.
  - apply bind_ok in E. destruct E as (u6 & s8 & E8 & E). apply ret_ok in E.
    destruct E as [_ ->].
    exact (triple_run _ (messages_loop_wal_inv tablet_id tablet_ptr Hmsgs) Hb E8).
Qed.

Lemma read_batches_wal_inv tablet_id tablet_ptr :
  reads_forward ->
  forall fuel st st',
    wal_inv st ->
    read_batches fuel tablet_id tablet_ptr st = Some (inl tt, st') ->
    wal_inv st'.
Proof.
  intro Hread. induction fuel as [| fuel IH]; intros st st' Hs E; simpl in E.
  - discriminate E.
  - destruct (read_batch tablet_id tablet_ptr st) as [[b | e] s1] eqn:Eb.
    2:{ discriminate E. }
    pose proof (read_batch_wal_inv _ _ Hread Hs Eb) as H1.
    destruct b.
    + injection E as <-. exact H1.
    + destruct (read_again s1).
      * exact (IH _ _ H1 E).
      * injection E as <-. exact H1.
Qed.

Lemma checkpoint_from_default_message_wal_inv st r st' :
  wal_inv st ->
  checkpoint_from_default_message st = (r, st') ->
  wal_inv st'.
Proof.
  intros Hs E. unfold checkpoint_from_default_message, bind at 1, get at 1 in E.
  destruct (gc_checkpoint_updated st) eqn:Eu; cbn [negb andb when] in E.
  - injection E as _ <-. exact Hs.
  - destruct (OpId_eqb _ _) eqn:Ei; cbn [negb when] in E.
    + injection E as _ <-. exact Hs.
    + unfold bind, modify in E. injection E as _ <-.
      apply placed_updated.
      exact (@placed_SetCheckpoint (op_term (gc_last_seen_default_message_op_id st))
               (op_index (gc_last_seen_default_message_op_id st)) 0 "" 0 true st Hs
               (wi_default Hs Ei)).
Qed.

End Monotone.

Lemma snapshot_first_call_checkpoint tablet_ptr st st' :
  snapshot_first_call tablet_ptr st = (inl tt, st') ->
  exists txn_participant txn_context data,
    transaction_participant tablet_ptr = Some txn_participant
    /\ context txn_participant = Some txn_context
    /\ GetLastReplicatedData txn_context 1 = inl data
    /\ gc_checkpoint_updated st' = true
    /\ checkpoint_op (gc_checkpoint st') = rid_op_id data.
Proof.
  unfold snapshot_first_call.
  destruct (transaction_participant tablet_ptr) as [p |]; [| discriminate].
  destruct (context p) as [ctx |] eqn:Ec; [| discriminate].
  intro E.
  apply bind_ok in E. destruct E as (pinned & s1 & E1 & E). apply liftC_ok in E1.
  destruct E1 as [_ ->].
  apply bind_ok in E. destruct E as (u2 & s2 & E2 & E). apply modify_ok in E2. subst s2.
  apply bind_ok in E. destruct E as (u3 & s3 & E3 & E). apply modify_ok in E3. subst s3.
  apply bind_ok in E. destruct E as (data & s4 & E4 & E). apply liftC_ok in E4.
  destruct E4 as [E4 ->].
  apply bind_ok in E. destruct E as (u5 & s5 & E5 & E). apply modify_ok in E5. subst s5.
  apply modify_ok in E. subst st'.
  exists p, ctx, data.
  split; [reflexivity | split; [exact Ec | split; [exact E4 | split; [reflexivity |]]]].
  unfold checkpoint_op, SetCheckpoint. simpl. destruct (rid_op_id data). reflexivity.
Qed.

Lemma snapshot_next_call_checkpoint tablet_id from_op_id tablet_ptr st st' :
  snapshot_next_call tablet_id from_op_id tablet_ptr st = (inl tt, st') ->
  gc_checkpoint_updated st' = true
  /\ checkpoint_op (gc_checkpoint st') = checkpoint_op from_op_id.
Proof.
  unfold snapshot_next_call.
  destruct (FLAGS_TEST_cdc_snapshot_failure flags); [discriminate |].
  intro E.
  apply bind_ok in E. destruct E as (g & s1 & _ & E).
  apply bind_ok in E. destruct E as (resolved & s2 & _ & E).
  apply bind_ok in E. destruct E as (u3 & s3 & _ & E).
  apply bind_ok in E. destruct E as (iter & s4 & _ & E).
  apply bind_ok in E. destruct E as (fetched & s5 & _ & E).
  apply bind_ok in E. destruct E as (sub_doc_key & s6 & _ & E).
  destruct (String.eqb sub_doc_key "");
    apply bind_ok in E; destruct E as (u7 & s7 & E7 & E);
    apply modify_ok in E7; subst s7; apply modify_ok in E; subst st';
    split; reflexivity.
Qed.

Lemma resume_branch_checkpoint from_op_id st st' :
  resume_branch from_op_id st = (inl tt, st') ->
  gc_checkpoint_updated st' = true
  /\ checkpoint_op (gc_checkpoint st') = mkOpId (op_term (gc_op_id st)) (op_index (gc_op_id st)).
Proof.
  unfold resume_branch. intro E.
  apply bind_ok in E. destruct E as (transaction_id & s1 & E1 & E). apply liftC_ok in E1.
  destruct E1 as [_ ->].
  apply bind_ok in E. destruct E as (g & s2 & E2 & E). apply get_ok in E2.
  destruct E2 as [-> ->].
  apply bind_ok in E. destruct E as (new_stream_state & s3 & Ec & E).
  apply call_ProcessIntents_checkpoint in Ec.
  apply bind_ok in E. destruct E as (g' & s4 & E4 & E). apply get_ok in E4.
  destruct E4 as [-> ->].
  apply bind_ok in E. destruct E as (u5 & s5 & E5 & E). apply when_modify_ok in E5.
  apply modify_ok in E. subst st' s5.
  split; [reflexivity |].
  rewrite <- Ec. destruct (_ && _); reflexivity.
Qed.

Lemma finish_checkpoint tablet_id from_op_id st r st' :
  finish tablet_id from_op_id st = (r, st') ->
  cdc_sdk_checkpoint (gc_resp st')
  = (if gc_checkpoint_updated st then gc_checkpoint st else from_op_id).
Proof.
  unfold finish. cbv [bind get when modify ret fail].
  destruct (_ && _);
    destruct (0 <? op_index (gc_last_streamed_op_id _));
    destruct (gc_report_tablet_split _);
    intro E; injection E as _ <-; reflexivity.
Qed.


(** The request's cursor is not ahead of what the tablet has replicated when
    the first call of a snapshot reads the data it answers with. *)
Definition last_replicated_not_before (from_op_id : CDCSDKCheckpointPB) : Prop :=
  forall tablet txn_participant txn_context data,
    shared_tablet_safe tablet_peer = inl tablet ->
    transaction_participant tablet = Some txn_participant ->
    context txn_participant = Some txn_context ->
    GetLastReplicatedData txn_context 1 = inl data ->
    OpId_le (checkpoint_op from_op_id) (rid_op_id data) = true.

(** A snapshot that is under way: write id -1 with a key or a snapshot time. *)
Definition snapshot_under_way (from_op_id : CDCSDKCheckpointPB) : Prop :=
  cp_write_id from_op_id = -1
  /\ String.eqb (cp_key from_op_id) "" && (cp_snapshot_time from_op_id =? 0) = false.

Lemma select_mode_checkpoint fuel tablet_id from_op_id tablet_ptr resp cached_schema
      cached_schema_version last_streamed_op_id commit_timestamp last_readable_opid_index
      u st' :
  reads_forward ->
  last_replicated_not_before from_op_id ->
  shared_tablet_safe tablet_peer = inl tablet_ptr ->
  select_mode fuel tablet_id from_op_id tablet_ptr
    (GetChangesState_init resp cached_schema cached_schema_version last_streamed_op_id
       commit_timestamp last_readable_opid_index from_op_id) = Some (inl u, st') ->
  (gc_checkpoint_updated st' = true ->
   OpId_le (checkpoint_op from_op_id) (checkpoint_op (gc_checkpoint st')) = true)
  /\ (snapshot_under_way from_op_id ->
      gc_checkpoint_updated st' = true
      /\ checkpoint_op (gc_checkpoint st') = checkpoint_op from_op_id).
Proof.
  intros Hread Hrepl Ht E.
  set (st0 := GetChangesState_init _ _ _ _ _ _ _) in E.
  unfold select_mode in E.
  destruct (cp_write_id from_op_id =? -1) eqn:Ew.
  - injection E as E. unfold snapshot_branch in E.
    apply bind_ok in E. destruct E as (u1 & s1 & E1 & E). apply modify_ok in E1. subst s1.
    destruct (String.eqb (cp_key from_op_id) "" && (cp_snapshot_time from_op_id =? 0))
      eqn:Eh.
    + destruct u. apply snapshot_first_call_checkpoint in E.
      destruct E as (p & ctx & data & Hp & Hc & Hd & Hu & Hk).
      split.
      * intros _. rewrite Hk. exact (Hrepl _ _ _ _ Ht Hp Hc Hd).
      * intros [_ H]. rewrite Eh in H. discriminate H.
    + destruct u. apply snapshot_next_call_checkpoint in E. destruct E as [Hu Hk].
      split.
      * intros _. rewrite Hk. apply OpId_le_refl.
      * intros _. split; assumption.
  - assert (Hn : ~ snapshot_under_way from_op_id).
    { intros [H _]. apply Z.eqb_neq in Ew. contradiction. }
    split; [| intro H; contradiction].
    destruct (negb (String.eqb (cp_key from_op_id) "") && negb (cp_write_id from_op_id =? 0)).
    + injection E as E. destruct u. apply resume_branch_checkpoint in E.
      destruct E as [_ Hk]. intros _. rewrite Hk. apply OpId_le_refl.
    + destruct (read_batches fuel tablet_id tablet_ptr st0) as [[[[] | e] s1] |] eqn:Eb;
        try discriminate E.
      injection E as E.
      assert (H0 : wal_inv (checkpoint_op from_op_id) st0).
      { constructor.
        - apply OpId_le_refl.
        - intro H. discriminate H.
        - intro H. simpl in H. rewrite OpId_eqb_refl in H. discriminate H. }
      pose proof (read_batches_wal_inv tablet_id tablet_ptr Hread fuel H0 Eb) as H1.
      exact (wi_checkpoint (checkpoint_from_default_message_wal_inv H1 E)).
Qed.

Lemma answer_not_before_request fuel tablet_id from_op_id resp cached_schema
      cached_schema_version last_streamed_op_id commit_timestamp last_readable_opid_index
      st' :
  reads_forward ->
  last_replicated_not_before from_op_id ->
  GetChangesForCDCSDK fuel tablet_id from_op_id
    (GetChangesState_init resp cached_schema cached_schema_version last_streamed_op_id
       commit_timestamp last_readable_opid_index from_op_id) = Some (inl tt, st') ->
  OpId_le (checkpoint_op from_op_id)
          (checkpoint_op (cdc_sdk_checkpoint (gc_resp st'))) = true
  /\ (snapshot_under_way from_op_id ->
      checkpoint_op (cdc_sdk_checkpoint (gc_resp st')) = checkpoint_op from_op_id).
Proof.
  intros Hread Hrepl E. unfold GetChangesForCDCSDK in E.
  destruct (shared_tablet_safe tablet_peer) as [tablet_ptr | e] eqn:Ht; [| discriminate E].
  destruct (select_mode _ _ _ _ _) as [[[u | e] s1] |] eqn:Es; try discriminate E.
  injection E as E.
  destruct (@select_mode_checkpoint fuel tablet_id from_op_id tablet_ptr resp cached_schema
              cached_schema_version last_streamed_op_id commit_timestamp
              last_readable_opid_index u s1 Hread Hrepl Ht Es) as [K1 K2].
  rewrite (@finish_checkpoint tablet_id from_op_id s1 (inl tt) st' E).
  split.
  - destruct (gc_checkpoint_updated s1); [exact (K1 eq_refl) | apply OpId_le_refl].
  - intro Hs. destruct (K2 Hs) as [-> Hk]. exact Hk.
Qed.

(** C1, as the code has it.  Let the reader of the log hand out only entries
    that are not before the OpId it reads from and whose UPDATE_TRANSACTION
    entries apply a transaction, and let the cursor of a request not be ahead
    of the last replicated OpId.  Then the (term, index) of the checkpoint of
    a call that returns OK is not before the (term, index) of the cursor
    received, and when that checkpoint is the cursor of the next request, the
    checkpoint of the next answer is not before it.  A call on a snapshot
    that is under way keeps the term and index of the cursor, whether the
    snapshot goes on or completes. *)
Theorem cursor_monotonicity
        fuel1 fuel2 tablet_id from_op_id
        resp1 cached_schema1 cached_schema_version1 last_streamed_op_id1 commit_timestamp1
        last_readable_opid_index1 st1
        resp2 cached_schema2 cached_schema_version2 last_streamed_op_id2 commit_timestamp2
        last_readable_opid_index2 st2 :
  reads_forward ->
  last_replicated_not_before from_op_id ->
  last_replicated_not_before (cdc_sdk_checkpoint (gc_resp st1)) ->
  GetChangesForCDCSDK fuel1 tablet_id from_op_id
    (GetChangesState_init resp1 cached_schema1 cached_schema_version1 last_streamed_op_id1
       commit_timestamp1 last_readable_opid_index1 from_op_id) = Some (inl tt, st1) ->
  GetChangesForCDCSDK fuel2 tablet_id (cdc_sdk_checkpoint (gc_resp st1))
    (GetChangesState_init resp2 cached_schema2 cached_schema_version2 last_streamed_op_id2
       commit_timestamp2 last_readable_opid_index2 (cdc_sdk_checkpoint (gc_resp st1)))
  = Some (inl tt, st2) ->
  OpId_le (checkpoint_op from_op_id)
          (checkpoint_op (cdc_sdk_checkpoint (gc_resp st1))) = true
  /\ OpId_le (checkpoint_op (cdc_sdk_checkpoint (gc_resp st1)))
             (checkpoint_op (cdc_sdk_checkpoint (gc_resp st2))) = true
  /\ (snapshot_under_way from_op_id ->
      checkpoint_op (cdc_sdk_checkpoint (gc_resp st1)) = checkpoint_op from_op_id).
Proof.
  intros Hread Hrepl1 Hrepl2 E1 E2.
  destruct (@answer_not_before_request _ _ _ _ _ _ _ _ _ _ Hread Hrepl1 E1) as [A1 B1].
  destruct (@answer_not_before_request _ _ _ _ _ _ _ _ _ _ Hread Hrepl2 E2) as [A2 _].
  split; [exact A1 | split; [exact A2 | exact B1]].
Qed.

(** ** Further properties of the producer *)

(** *** Snapshot records *)

(** The entry [PopulateCDCSDKSnapshotRecord] writes for the column of index
    [col_idx]. *)
Definition snapshot_entry (row : QLTableRow) (schema : Schema) (col_idx : Z)
           (d : DatumMessagePB) : Prop :=
  exists col_schema,
    column_by_id schema (column_id schema col_idx) = inl col_schema
    /\ match GetColumn row (column_id schema col_idx) with
       | Some v =>
           if negb (IsNull v) && negb (pg_type_oid col_schema =? 0)
           then SetValueFromQLBinaryWrapper docdb v (pg_type_oid col_schema)
                                            (mkDatum (name col_schema) 0 None) = inl d
           else d = mkDatum (name col_schema) (pg_type_oid col_schema) None
       | None => d = mkDatum (name col_schema) (pg_type_oid col_schema) None
       end.

Lemma snapshot_column_ok row schema col_idx m m' :
  snapshot_column row schema col_idx m = (inl tt, m') ->
  exists d, snapshot_entry row schema col_idx d
            /\ m' = add_old_tuple DatumMessagePB_default (add_new_tuple d m).
Proof.
  unfold snapshot_column, snapshot_entry. intro E.
  apply bind_ok in E. destruct E as (col_schema & m1 & E1 & E).
  apply liftC_ok in E1. destruct E1 as [Hc ->].
  apply bind_ok in E. destruct E as (u & m2 & E2 & E). apply modify_ok in E. subst m'.
  unfold zoom in E2.
  destruct (GetColumn row (column_id schema col_idx)) as [v |].
  - destruct (negb (IsNull v) && negb (pg_type_oid col_schema =? 0)) eqn:Ec.
    + cbv [bind modify get put liftC] in E2. cbn in E2.
      destruct (SetValueFromQLBinaryWrapper docdb v (pg_type_oid col_schema) _)
        as [d' | e] eqn:Es; [| discriminate E2].
      injection E2 as _ <-. exists d'. split; [| reflexivity].
      exists col_schema. split; [exact Hc | rewrite Ec; exact Es].
    + cbv [bind modify] in E2. cbn in E2. injection E2 as _ <-.
      eexists. split; [| reflexivity]. exists col_schema.
      split; [exact Hc | rewrite Ec; reflexivity].
  - cbv [bind modify] in E2. cbn in E2. injection E2 as _ <-.
    eexists. split; [| reflexivity]. exists col_schema. split; [exact Hc | reflexivity].
Qed.

Lemma forM_snapshot_column_ok row schema : forall idxs m m',
  forM idxs (snapshot_column row schema) m = (inl tt, m') ->
  exists ds,
    Forall2 (snapshot_entry row schema) idxs ds
    /\ m' = set_old_tuple (old_tuple m ++ repeat DatumMessagePB_default (List.length ds))
              (set_new_tuple (new_tuple m ++ ds) m).
Proof.
  induction idxs as [| i idxs IH]; intros m m' E; simpl in E.
  - apply ret_ok in E. destruct E as [_ ->]. exists []. split; [constructor |].
    destruct m; unfold set_old_tuple, set_new_tuple; simpl. rewrite !app_nil_r. reflexivity.
  - apply bind_ok in E. destruct E as (u & m1 & E1 & E).
    destruct u. apply snapshot_column_ok in E1. destruct E1 as (d & Hd & ->).
    apply IH in E. destruct E as (ds & Hds & ->).
    exists (d :: ds). split; [constructor; assumption |].
    destruct m; unfold set_old_tuple, set_new_tuple, add_old_tuple, add_new_tuple; simpl.
    rewrite <- !app_assoc. reflexivity.
Qed.

(** A call of [PopulateCDCSDKSnapshotRecord] that returns OK adds one record
    after those of the response: a READ of the tablet's table at the snapshot
    time, with one [new_tuple] entry for each column of the schema, in the
    order of the column indexes, and as many empty [old_tuple] entries. *)
Theorem snapshot_record_shape row schema time resp resp' tablet :
  shared_tablet_safe tablet_peer = inl tablet ->
  PopulateCDCSDKSnapshotRecord row schema time resp = (inl tt, resp') ->
  exists rec,
    cdc_sdk_proto_records resp' = cdc_sdk_proto_records resp ++ [rec]
    /\ cdc_sdk_checkpoint resp' = cdc_sdk_checkpoint resp
    /\ cdc_sdk_op_id rec = CDCSDKOpIdPB_default
    /\ op (row_message rec) = RowMessage_Op_READ
    /\ table (row_message rec) = table_name tablet
    /\ commit_time (row_message rec) = time
    /\ pgschema_name (row_message rec) = SchemaName schema
    /\ Forall2 (snapshot_entry row schema) (column_indexes schema) (new_tuple (row_message rec))
    /\ old_tuple (row_message rec)
       = repeat DatumMessagePB_default (Z.to_nat (num_columns schema)).
Proof.
  intros Ht E. unfold PopulateCDCSDKSnapshotRecord in E. rewrite Ht in E.
  apply bind_ok in E. destruct E as (t & r1 & E1 & E). apply liftC_ok in E1.
  destruct E1 as [E1 ->]. injection E1 as <-.
  apply bind_ok in E. destruct E as (u & r2 & E2 & E). apply modify_ok in E2. subst r2.
  unfold zoom at 1 in E. unfold last_record at 1 in E.
  cbn [cdc_sdk_proto_records add_cdc_sdk_proto_records] in E. rewrite last_last in E.
  unfold zoom at 1 in E. cbn [row_message CDCSDKProtoRecordPB_default] in E.
  destruct (bind _ _ RowMessage_default) as [[[] | e] m'] eqn:Em; [| discriminate E].
  injection E as <-.
  apply bind_ok in Em. destruct Em as (u1 & m1 & Eh & Em). apply modify_ok in Eh. subst m1.
  apply forM_snapshot_column_ok in Em. destruct Em as (ds & Hds & ->).
  eexists. split.
  { unfold set_last_record. cbn [cdc_sdk_proto_records add_cdc_sdk_proto_records].
    rewrite set_last_app. reflexivity. }
  cbn. repeat split.
  - exact Hds.
  - f_equal. rewrite <- (Forall2_length Hds). unfold column_indexes.
    rewrite length_map, length_seq. reflexivity.
Qed.


(** *** DDL records for the tables of a tablet *)

(** The records [FillDDLInfo] adds. *)
Definition DDL_info (current_schema : Schema) (current_schema_version : Z)
  : list CDCSDKProtoRecordPB :=
  match shared_tablet_safe tablet_peer with
  | inl tablet =>
      map (fun table_id =>
             FillDDLInfo_record tablet table_id current_schema current_schema_version)
          (GetAllColocatedTables tablet_peer)
  | inr _ => []
  end.

Lemma FillDDLInfo_fold current_schema current_schema_version tables : forall resp,
  fold_left
    (fun resp table_id =>
       match shared_tablet_safe tablet_peer with
       | inr _ => resp
       | inl tablet =>
           add_cdc_sdk_proto_records
             (FillDDLInfo_record tablet table_id current_schema current_schema_version) resp
       end) tables resp
  = mkResp (cdc_sdk_proto_records resp
            ++ match shared_tablet_safe tablet_peer with
               | inl tablet =>
                   map (fun table_id =>
                          FillDDLInfo_record tablet table_id current_schema
                                             current_schema_version) tables
               | inr _ => []
               end)
           (cdc_sdk_checkpoint resp) (checkpoint_op_id resp).
Proof.
  induction tables as [| t tables IH]; intro resp; simpl.
  - destruct (shared_tablet_safe tablet_peer); rewrite app_nil_r; destruct resp; reflexivity.
  - rewrite IH. destruct (shared_tablet_safe tablet_peer) as [tablet | e].
    + unfold add_cdc_sdk_proto_records. simpl. rewrite <- app_assoc. reflexivity.
    + reflexivity.
Qed.

(** [FillDDLInfo] keeps the records and the checkpoint of the response and
    adds, when the tablet is reached, one DDL record for each table of the
    tablet, in the order of [GetAllColocatedTables]; each carries the name of
    its table, the schema version given and the columns of the schema given.
    When the tablet is not reached it adds nothing. *)
Theorem FillDDLInfo_records current_schema current_schema_version resp :
  cdc_sdk_proto_records (FillDDLInfo current_schema current_schema_version resp)
  = cdc_sdk_proto_records resp ++ DDL_info current_schema current_schema_version
  /\ cdc_sdk_checkpoint (FillDDLInfo current_schema current_schema_version resp)
     = cdc_sdk_checkpoint resp
  /\ List.length (DDL_info current_schema current_schema_version)
     = match shared_tablet_safe tablet_peer with
       | inl _ => List.length (GetAllColocatedTables tablet_peer)
       | inr _ => 0%nat
       end
  /\ Forall (fun rec =>
               op (row_message rec) = RowMessage_Op_DDL
               /\ schema_version (row_message rec) = current_schema_version
               /\ schema_column_info (row_message rec)
                  = map SetColumnInfo (columns (SchemaToPB current_schema))
               /\ exists tablet table_id,
                   shared_tablet_safe tablet_peer = inl tablet
                   /\ In table_id (GetAllColocatedTables tablet_peer)
                   /\ table (row_message rec) = table_name_of tablet table_id)
            (DDL_info current_schema current_schema_version).
Proof.
  unfold FillDDLInfo, DDL_info. rewrite FillDDLInfo_fold. simpl.
  split; [reflexivity | split; [reflexivity |]].
  destruct (shared_tablet_safe tablet_peer) as [tablet | e].
  - split; [apply length_map |].
    apply Forall_forall. intros rec Hin. apply in_map_iff in Hin.
    destruct Hin as (table_id & <- & Hin).
    split; [reflexivity | split; [reflexivity | split; [reflexivity |]]].
    exists tablet, table_id. split; [reflexivity | split; [exact Hin | reflexivity]].
  - split; [reflexivity | constructor].
Qed.


(** *** A batch of a snapshot *)

Definition snapshot_row (time : Z) (rec : CDCSDKProtoRecordPB) : Prop :=
  op (row_message rec) = RowMessage_Op_READ /\ commit_time (row_message rec) = time.

Lemma on_resp_ok (m : M GetChangesResponsePB unit) st u st' :
  on_resp m st = (inl u, st') ->
  exists resp', m (gc_resp st) = (inl u, resp') /\ st' = set_gc_resp resp' st.
Proof.
  unfold on_resp, zoom. destruct (m (gc_resp st)) as [[a | e] resp']; intro E.
  - injection E as <- <-. exists resp'. split; reflexivity.
  - discriminate E.
Qed.

Lemma PopulateCDCSDKSnapshotRecord_reaches_tablet row schema time resp resp' :
  PopulateCDCSDKSnapshotRecord row schema time resp = (inl tt, resp') ->
  exists tablet, shared_tablet_safe tablet_peer = inl tablet.
Proof.
  unfold PopulateCDCSDKSnapshotRecord. intro E.
  apply bind_ok in E. destruct E as (t & r1 & E1 & _). apply liftC_ok in E1.
  exists t. apply E1.
Qed.

Lemma snapshot_rows_ok iter schema time : forall remaining fetched st n st',
  snapshot_rows iter schema time remaining fetched st = (inl n, st') ->
  exists rows,
    gc_records st' = gc_records st ++ rows
    /\ (fetched <= n <= fetched + remaining)%nat
    /\ List.length rows = (n - fetched)%nat
    /\ Forall (snapshot_row time) rows
    /\ gc_checkpoint st' = gc_checkpoint st
    /\ same_control st st'
    /\ ((n < fetched + remaining)%nat -> HasNext iter n = inl false).
Proof.
  induction remaining as [| remaining IH]; intros fetched st n st' E; simpl in E.
  - apply bind_ok in E. destruct E as (has_next & s1 & E1 & E). apply liftC_ok in E1.
    destruct E1 as [_ ->]. apply ret_ok in E. destruct E as [-> ->].
    exists []. rewrite app_nil_r.
    split; [reflexivity | split; [lia | split; [simpl; lia | split; [constructor |]]]].
    split; [reflexivity | split; [apply same_control_refl | lia]].
  - apply bind_ok in E. destruct E as (has_next & s1 & E1 & E). apply liftC_ok in E1.
    destruct E1 as [Hn ->]. destruct has_next.
    + apply bind_ok in E. destruct E as (row & s2 & E2 & E). apply liftC_ok in E2.
      destruct E2 as [_ ->].
      apply bind_ok in E. destruct E as (u & s3 & E3 & E). destruct u.
      apply on_resp_ok in E3. destruct E3 as (resp' & Er & ->).
      destruct (PopulateCDCSDKSnapshotRecord_reaches_tablet _ _ _ _ Er) as [tablet Ht].
      destruct (snapshot_record_shape _ _ _ _ Ht Er)
        as (rec & R1 & R2 & _ & R4 & _ & R6 & _).
      apply IH in E. destruct E as (rows & A1 & A2 & A3 & A4 & A5 & A6 & A7).
      exists (rec :: rows).
      split.
      { rewrite A1. unfold gc_records. cbn [gc_resp set_gc_resp]. rewrite R1, <- app_assoc.
        reflexivity. }
      split; [lia |]. split; [simpl; lia |].
      split; [constructor; [split; assumption | exact A4] |].
      split; [rewrite A5; reflexivity |].
      split.
      { destruct A6. constructor; cbn in *; assumption. }
      intro H. apply A7. lia.
    + apply ret_ok in E. destruct E as [-> ->].
      exists []. rewrite app_nil_r.
      split; [reflexivity | split; [lia | split; [simpl; lia | split; [constructor |]]]].
      split; [reflexivity | split; [apply same_control_refl | intros _; exact Hn]].
Qed.


Lemma finish_fields tablet_id from_op_id st r st' :
  finish tablet_id from_op_id st = (r, st') ->
  cdc_sdk_proto_records (gc_resp st') = cdc_sdk_proto_records (gc_resp st)
  /\ gc_last_streamed_op_id st' = gc_last_streamed_op_id st
  /\ checkpoint_op_id (gc_resp st')
     = (if 0 <? op_index (gc_last_streamed_op_id st)
        then Some (gc_last_streamed_op_id st)
        else checkpoint_op_id (gc_resp st)).
Proof.
  intro E. unfold finish in E. cbv [bind get when modify ret fail] in E.
  destruct (negb (gc_snapshot_operation st) && _ && _);
    cbn [gc_last_streamed_op_id set_gc_resp set_gc_report_tablet_split gc_resp] in E;
    destruct (0 <? op_index (gc_last_streamed_op_id st));
    cbn [gc_report_tablet_split set_gc_resp set_gc_report_tablet_split] in E;
    destruct (gc_report_tablet_split st);
    injection E as _ <-; repeat split.
Qed.

(** The schema a batch of a snapshot reads the rows with. *)
Definition snapshot_schema (tablet_ptr : Tablet) (cached_schema : Schema)
           (cached_schema_version : Z) : Schema * Z :=
  if initialized cached_schema then (cached_schema, cached_schema_version)
  else match GetTableSchemaFromSysCatalog client (table_id tablet_ptr) UINT64_MAX with
       | inl result => result
       | inr _ => (tablet_schema tablet_ptr, metadata_schema_version tablet_ptr)
       end.

(** A call on a snapshot that is under way which returns OK adds to the
    response the DDL records of the tablet's tables and then at most
    [FLAGS_cdc_snapshot_batch_size] READ records, all at the snapshot time of
    the cursor; it stops short of that number only when the iterator has no
    next row.  The checkpoint keeps the term and index of the cursor: with the
    next key, write id -1 and the snapshot time while a next key is left, and
    with an empty key, write id 0 and time 0 once none is.
    [last_streamed_op_id] is left alone. *)
Theorem snapshot_batch
        fuel tablet_id from_op_id resp cached_schema cached_schema_version
        last_streamed_op_id commit_timestamp last_readable_opid_index st' :
  cp_write_id from_op_id = -1 ->
  String.eqb (cp_key from_op_id) "" && (cp_snapshot_time from_op_id =? 0) = false ->
  GetChangesForCDCSDK fuel tablet_id from_op_id
    (GetChangesState_init resp cached_schema cached_schema_version last_streamed_op_id
       commit_timestamp last_readable_opid_index from_op_id) = Some (inl tt, st') ->
  exists tablet_ptr iter rows next_key,
    shared_tablet_safe tablet_peer = inl tablet_ptr
    /\ CreateCDCSnapshotIterator tablet_ptr (cp_snapshot_time from_op_id) (cp_key from_op_id)
       = inl iter
    /\ cdc_sdk_proto_records (gc_resp st')
       = cdc_sdk_proto_records resp
         ++ DDL_info (fst (snapshot_schema tablet_ptr cached_schema cached_schema_version))
                     (snd (snapshot_schema tablet_ptr cached_schema cached_schema_version))
         ++ rows
    /\ Forall (snapshot_row (cp_snapshot_time from_op_id)) rows
    /\ (List.length rows <= Z.to_nat (FLAGS_cdc_snapshot_batch_size flags))%nat
    /\ ((List.length rows < Z.to_nat (FLAGS_cdc_snapshot_batch_size flags))%nat ->
        HasNext iter (List.length rows) = inl false)
    /\ GetNextReadSubDocKey iter (List.length rows) = inl next_key
    /\ cdc_sdk_checkpoint (gc_resp st')
       = (if String.eqb next_key ""
          then mkCheckpoint (cp_term from_op_id) (cp_index from_op_id) 0 "" 0
          else mkCheckpoint (cp_term from_op_id) (cp_index from_op_id) (-1) next_key
                            (cp_snapshot_time from_op_id))
    /\ gc_last_streamed_op_id st' = last_streamed_op_id.
Proof.
  intros Hw Hh E. unfold GetChangesForCDCSDK in E.
  destruct (shared_tablet_safe tablet_peer) as [tablet_ptr | e] eqn:Ht; [| discriminate E].
  unfold select_mode in E. rewrite Hw in E. cbn [Z.eqb Pos.eqb] in E.
  set (st0 := GetChangesState_init _ _ _ _ _ _ _) in E.
  destruct (snapshot_branch tablet_id from_op_id tablet_ptr st0) as [[[] | e] s1] eqn:Es;
    [| discriminate E].
  injection E as E.
  destruct (finish_fields _ _ _ E) as (F1 & F2 & _).
  pose proof (finish_checkpoint _ _ _ E) as F3.
  unfold snapshot_branch in Es. rewrite Hh in Es.
  apply bind_ok in Es. destruct Es as (u0 & s0 & E0 & Es). apply modify_ok in E0. subst s0.
  unfold snapshot_next_call in Es.
  destruct (FLAGS_TEST_cdc_snapshot_failure flags); [discriminate Es |].
  apply bind_ok in Es. destruct Es as (g & sa & Eg & Es). apply get_ok in Eg.
  destruct Eg as [-> ->].
  apply bind_ok in Es. destruct Es as (resolved & sb & Eb & Es).
  assert (Hres : resolved = snapshot_schema tablet_ptr cached_schema cached_schema_version
                 /\ gc_records sb = cdc_sdk_proto_records resp
                 /\ gc_last_streamed_op_id sb = last_streamed_op_id).
  { unfold snapshot_schema. cbn [gc_cached_schema set_gc_snapshot_operation st0
                                   GetChangesState_init gc_cached_schema_version] in Eb.
    destruct (initialized cached_schema); cbn [negb] in Eb.
    - apply ret_ok in Eb. destruct Eb as [-> ->]. repeat split.
    - destruct (GetTableSchemaFromSysCatalog client (table_id tablet_ptr) UINT64_MAX)
        as [result | e].
      + cbv [bind modify ret] in Eb. injection Eb as <- <-. repeat split.
      + apply ret_ok in Eb. destruct Eb as [-> ->]. repeat split. }
  destruct Hres as (-> & Rb & Lb).
  set (sch := snapshot_schema tablet_ptr cached_schema cached_schema_version) in *.
  apply bind_ok in Es. destruct Es as (u1 & sc & Ec & Es).
  apply on_resp_ok in Ec. destruct Ec as (resp1 & Ed & ->).
  apply modify_ok in Ed. subst resp1.
  apply bind_ok in Es. destruct Es as (iter & sd & Ei & Es). apply liftC_ok in Ei.
  destruct Ei as [Hi ->].
  apply bind_ok in Es. destruct Es as (fetched & se & Er & Es).
  apply snapshot_rows_ok in Er.
  destruct Er as (rows & A1 & A2 & A3 & A4 & A5 & A6 & A7).
  apply bind_ok in Es. destruct Es as (next_key & sf & Ek & Es). apply liftC_ok in Ek.
  destruct Ek as [Hk ->].
  assert (Hlen : List.length rows = fetched) by lia.
  exists tablet_ptr, iter, rows, next_key.
  split; [reflexivity | split; [exact Hi |]].
  assert (Hrec : gc_records se
                 = cdc_sdk_proto_records resp ++ DDL_info (fst sch) (snd sch) ++ rows).
  { rewrite A1. unfold gc_records at 1. cbn [gc_resp set_gc_resp].
    rewrite (proj1 (FillDDLInfo_records (fst sch) (snd sch) (gc_resp sb))).
    fold (gc_records sb). rewrite Rb, <- app_assoc. reflexivity. }
  assert (Hls : gc_last_streamed_op_id se = last_streamed_op_id).
  { rewrite (sc_last_streamed_op_id A6). exact Lb. }
  rewrite Hlen.
  destruct (String.eqb next_key "");
    apply bind_ok in Es; destruct Es as (u2 & sg & Ea & Es);
    apply modify_ok in Ea; subst sg; apply modify_ok in Es; subst s1;
    (split; [rewrite F1; exact Hrec |
     split; [exact A4 |
     split; [lia |
     split; [intro H; apply A7; lia |
     split; [exact Hk |
     split; [rewrite F3; reflexivity | rewrite F2; exact Hls]]]]]]).
Qed.


(** *** Records of a write batch *)

Lemma when_ok {S} (b : bool) (m : M S unit) s u s' :
  when b m s = (inl u, s') -> if b then m s = (inl u, s') else s' = s.
Proof.
  destruct b; simpl; intro E; [exact E |]. injection E as _ <-. reflexivity.
Qed.

Lemma zoom_ok {S T A} (proj : S -> T) (inj : T -> S -> S) (m : M T A) s a s' :
  zoom proj inj m s = (inl a, s') ->
  exists t, m (proj s) = (inl a, t) /\ s' = inj t s.
Proof.
  unfold zoom. destruct (m (proj s)) as [[a' | e] t]; intro E.
  - injection E as <- <-. exists t. split; reflexivity.
  - discriminate E.
Qed.

Lemma last_record_top resp l r :
  cdc_sdk_proto_records resp = l ++ [r] -> last_record resp = r.
Proof. intro H. unfold last_record. rewrite H. apply last_last. Qed.

Lemma set_last_record_top resp l r r' :
  cdc_sdk_proto_records resp = l ++ [r] ->
  cdc_sdk_proto_records (set_last_record r' resp) = l ++ [r'].
Proof. intro H. unfold set_last_record. simpl. rewrite H. apply set_last_app. Qed.

Lemma wl_with_row_message_top m st l r :
  cdc_sdk_proto_records (wl_resp st) = l ++ [r] ->
  cdc_sdk_proto_records (wl_resp (wl_with_row_message m st))
  = l ++ [mkProtoRecord m (cdc_sdk_op_id r)].
Proof.
  intro H. unfold wl_with_row_message. cbn [wl_resp wl_with_resp].
  rewrite (@set_last_record_top _ _ _ _ H), (@last_record_top _ _ _ H). reflexivity.
Qed.

Lemma wl_row_message_top st l r :
  cdc_sdk_proto_records (wl_resp st) = l ++ [r] -> wl_row_message st = row_message r.
Proof. intro H. unfold wl_row_message. rewrite (@last_record_top _ _ _ H). reflexivity. Qed.

(** What every record of a write batch carries. *)
Definition write_stamped (msg : ReplicateMsg) (tablet_ptr : Tablet) (schema : Schema)
           (rec : CDCSDKProtoRecordPB) : Prop :=
  cdc_sdk_op_id rec = mkCDCSDKOpId (op_term (id msg)) (op_index (id msg)) 0 ""
  /\ table (row_message rec) = table_name tablet_ptr
  /\ pgschema_name (row_message rec) = SchemaName schema
  /\ commit_time (row_message rec) = hybrid_time msg
  /\ transaction_id (row_message rec) = ""
  /\ (op (row_message rec) = RowMessage_Op_INSERT
      \/ op (row_message rec) = RowMessage_Op_UPDATE
      \/ op (row_message rec) = RowMessage_Op_DELETE).

Lemma write_stamped_tuples msg tablet_ptr schema m o nt ot :
  write_stamped msg tablet_ptr schema (mkProtoRecord m o) ->
  write_stamped msg tablet_ptr schema
                (mkProtoRecord (set_old_tuple ot (set_new_tuple nt m)) o).
Proof. intro H. exact H. Qed.

Definition write_inv (msg : ReplicateMsg) (tablet_ptr : Tablet) (schema : Schema)
           (base : list CDCSDKProtoRecordPB) (n : nat) (st : WriteLoop) : Prop :=
  exists added,
    cdc_sdk_proto_records (wl_resp st) = base ++ added
    /\ Forall (write_stamped msg tablet_ptr schema) added
    /\ (List.length added <= n)%nat
    /\ (wl_proto_record_set st = true -> added <> []).

Lemma with_key_entries_stamped msg tablet_ptr schema ds m o :
  write_stamped msg tablet_ptr schema (mkProtoRecord m o) ->
  write_stamped msg tablet_ptr schema (mkProtoRecord (with_key_entries ds m) o).
Proof.
  unfold with_key_entries. destruct (Op_eqb _ _); intro H; exact H.
Qed.

(** The second half of the loop body: the column of the write pair. *)
Lemma write_pair_column_inv msg tablet_ptr schema base n key key_size decoded_value st st' :
  write_inv msg tablet_ptr schema base n st ->
  wl_proto_record_set st = true ->
  when (IsInsertOrUpdate (wl_row_message st))
    (column_id <- liftC (KeyEntryValue_DecodeKey docdb (WithoutPrefix key key_size)) ;;
     if KeyEntryType_eqb (ke_type column_id) kColumnId then
       col <- liftC (column_by_id schema (GetColumnId column_id)) ;;
       zoom wl_row_message wl_with_row_message
            (zoom (fun _ => DatumMessagePB_default) add_new_tuple
                  (AddColumnToMap col (primitive_value decoded_value))) ;;
       modify (fun st => wl_with_row_message
                           (add_old_tuple DatumMessagePB_default (wl_row_message st)) st)
     else ret tt) st = (inl tt, st') ->
  write_inv msg tablet_ptr schema base n st'.
Proof.
  intros (added & R & F & L & N) Hset E.
  apply when_ok in E. destruct (IsInsertOrUpdate (wl_row_message st)).
  2:{ subst st'. exists added. repeat split; assumption. }
  apply bind_ok in E. destruct E as (column_id & s1 & E1 & E). apply liftC_ok in E1.
  destruct E1 as [_ ->].
  destruct (KeyEntryType_eqb (ke_type column_id) kColumnId).
  2:{ apply ret_ok in E. destruct E as [_ ->]. exists added. repeat split; assumption. }
  apply bind_ok in E. destruct E as (col & s2 & E2 & E). apply liftC_ok in E2.
  destruct E2 as [_ ->].
  apply bind_ok in E. destruct E as (u & s3 & E3 & E). apply modify_ok in E. subst st'.
  apply zoom_ok in E3. destruct E3 as (m1 & E3 & ->).
  apply zoom_ok in E3. destruct E3 as (d & _ & ->).
  destruct added as [| r0 added0] using rev_ind; [contradiction (N Hset eq_refl) |].
  clear IHadded0. rewrite app_assoc in R.
  pose proof (@wl_row_message_top _ _ _ R) as Hm.
  pose proof (@wl_with_row_message_top (add_new_tuple d (wl_row_message st)) _ _ _ R) as R1.
  pose proof (@wl_row_message_top _ _ _ R1) as Hm1.
  pose proof (@wl_with_row_message_top
                (add_old_tuple DatumMessagePB_default
                   (wl_row_message (wl_with_row_message
                                      (add_new_tuple d (wl_row_message st)) st))) _ _ _ R1)
    as R2.
  cbn [cdc_sdk_op_id] in R2.
  exists (added0 ++ [mkProtoRecord
                       (add_old_tuple DatumMessagePB_default
                          (wl_row_message (wl_with_row_message
                                             (add_new_tuple d (wl_row_message st)) st)))
                       (cdc_sdk_op_id r0)]).
  split; [rewrite app_assoc; exact R2 |].
  apply Forall_app in F. destruct F as [F0 Fr]. inversion Fr as [| ? ? Hr _]; subst.
  split.
  { apply Forall_app. split; [exact F0 |]. constructor; [| constructor].
    rewrite Hm1. cbn [row_message]. rewrite Hm. destruct r0 as [m0 o0]. exact Hr. }
  split.
  { rewrite length_app in *. simpl in *. exact L. }
  intros _ H. destruct added0; discriminate H.
Qed.


Lemma opened_write_record_stamped msg tablet_ptr schema o ds :
  o = RowMessage_Op_INSERT \/ o = RowMessage_Op_UPDATE \/ o = RowMessage_Op_DELETE ->
  write_stamped msg tablet_ptr schema
    (mkProtoRecord
       (set_commit_time (hybrid_time msg)
          (with_key_entries ds
             (SetOperation o schema
                (set_table (table_name tablet_ptr)
                   (set_pgschema_name (SchemaName schema) RowMessage_default)))))
       (SetCDCSDKOpId (op_term (id msg)) (op_index (id msg)) 0 "")).
Proof.
  intro Ho. unfold write_stamped, with_key_entries.
  destruct (Op_eqb _ _); cbn; repeat split; exact Ho.
Qed.

(** The first half of the loop body, for a write pair of another row. *)
Lemma write_pair_open_inv msg tablet_ptr schema base n key key_size decoded_value st st' :
  write_inv msg tablet_ptr schema base n st ->
  (modify (fun st => mkWriteLoop
                       (add_cdc_sdk_proto_records CDCSDKProtoRecordPB_default (wl_resp st))
                       (wl_prev_key st) true) ;;
   modify (fun st => wl_with_row_message
                       (set_table (table_name tablet_ptr)
                          (set_pgschema_name (SchemaName schema) (wl_row_message st))) st) ;;
   modify (fun st => wl_with_resp
                       (set_last_record
                          (with_record_op_id
                             (SetCDCSDKOpId (op_term (id msg)) (op_index (id msg)) 0 "")
                             (last_record (wl_resp st)))
                          (wl_resp st)) st) ;;
   decoded_key <- liftC (SubDocKey_DecodeFrom docdb key) ;;
   (if is_root_tombstone decoded_value decoded_key then
      modify (fun st => wl_with_row_message
                          (SetOperation RowMessage_Op_DELETE schema (wl_row_message st)) st)
    else
      column_id <- liftC (KeyEntryValue_DecodeKey docdb (WithoutPrefix key key_size)) ;;
      if KeyEntryType_eqb (ke_type column_id) kSystemColumnId
         && ValueEntryType_eqb (value_type decoded_value) kNullLow then
        modify (fun st => wl_with_row_message
                            (SetOperation RowMessage_Op_INSERT schema (wl_row_message st)) st)
      else
        modify (fun st => wl_with_row_message
                            (SetOperation RowMessage_Op_UPDATE schema (wl_row_message st)) st)) ;;
   zoom wl_row_message wl_with_row_message (AddPrimaryKey decoded_key schema) ;;
   modify (fun st => wl_with_row_message
                       (set_commit_time (hybrid_time msg) (wl_row_message st)) st)) st
  = (inl tt, st') ->
  write_inv msg tablet_ptr schema base (S n) st' /\ wl_proto_record_set st' = true.
Proof.
  intros (added & R & F & L & N) E.
  apply bind_ok in E. destruct E as (u1 & s1 & E1 & E). apply modify_ok in E1. subst s1.
  apply bind_ok in E. destruct E as (u2 & s2 & E2 & E). apply modify_ok in E2.
  apply bind_ok in E. destruct E as (u3 & s3 & E3 & E). apply modify_ok in E3.
  apply bind_ok in E. destruct E as (decoded_key & s4 & E4 & E). apply liftC_ok in E4.
  destruct E4 as [_ ->].
  apply bind_ok in E. destruct E as (u5 & s5 & E5 & E).
  apply bind_ok in E. destruct E as (u6 & s6 & E6 & E). apply modify_ok in E.
  destruct u6. apply zoom_ok in E6. destruct E6 as (m' & E6 & Hs6).
  apply AddPrimaryKey_ok in E6. destruct E6 as (ds & _ & ->).
  set (l := base ++ added) in *.
  (* the record is added, named and stamped *)
  assert (R1 : cdc_sdk_proto_records
                 (wl_resp (mkWriteLoop
                             (add_cdc_sdk_proto_records CDCSDKProtoRecordPB_default
                                                        (wl_resp st))
                             (wl_prev_key st) true))
               = l ++ [CDCSDKProtoRecordPB_default]).
  { cbn. rewrite R. reflexivity. }
  assert (R2 : cdc_sdk_proto_records (wl_resp s2)
               = l ++ [mkProtoRecord
                         (set_table (table_name tablet_ptr)
                            (set_pgschema_name (SchemaName schema) RowMessage_default))
                         CDCSDKOpIdPB_default]).
  { rewrite E2, (@wl_with_row_message_top _ _ _ _ R1), (@wl_row_message_top _ _ _ R1).
    reflexivity. }
  assert (P2 : wl_proto_record_set s2 = true) by (rewrite E2; reflexivity).
  assert (R3 : cdc_sdk_proto_records (wl_resp s3)
               = l ++ [mkProtoRecord
                         (set_table (table_name tablet_ptr)
                            (set_pgschema_name (SchemaName schema) RowMessage_default))
                         (SetCDCSDKOpId (op_term (id msg)) (op_index (id msg)) 0 "")]).
  { rewrite E3. cbn [wl_resp wl_with_resp].
    rewrite (@set_last_record_top _ _ _ _ R2), (@last_record_top _ _ _ R2). reflexivity. }
  assert (P3 : wl_proto_record_set s3 = true) by (rewrite E3; exact P2).
  (* the operation *)
  assert (H5 : exists o,
             (o = RowMessage_Op_INSERT \/ o = RowMessage_Op_UPDATE \/ o = RowMessage_Op_DELETE)
             /\ s5 = wl_with_row_message (SetOperation o schema (wl_row_message s3)) s3).
  { destruct (is_root_tombstone decoded_value decoded_key).
    - apply modify_ok in E5. exists RowMessage_Op_DELETE. split; [auto | exact E5].
    - apply bind_ok in E5. destruct E5 as (column_id & s7 & E7 & E5). apply liftC_ok in E7.
      destruct E7 as [_ ->].
      destruct (_ && _); apply modify_ok in E5;
        [exists RowMessage_Op_INSERT | exists RowMessage_Op_UPDATE]; split; auto. }
  destruct H5 as (o & Ho & ->).
  rewrite (@wl_row_message_top _ _ _ R3) in *. cbn [row_message] in *.
  pose proof (@wl_with_row_message_top
                (SetOperation o schema
                   (set_table (table_name tablet_ptr)
                      (set_pgschema_name (SchemaName schema) RowMessage_default)))
                _ _ _ R3) as R5.
  cbn [cdc_sdk_op_id] in R5.
  match type of R5 with
  | cdc_sdk_proto_records (wl_resp ?s) = _ => set (s5 := s) in *
  end.
  rewrite (@wl_row_message_top _ _ _ R5) in *. cbn [row_message] in *.
  pose proof (@wl_with_row_message_top
                (with_key_entries ds
                   (SetOperation o schema
                      (set_table (table_name tablet_ptr)
                         (set_pgschema_name (SchemaName schema) RowMessage_default))))
                _ _ _ R5) as R6.
  cbn [cdc_sdk_op_id] in R6. rewrite <- Hs6 in R6.
  rewrite (@wl_row_message_top _ _ _ R6) in *. cbn [row_message] in *.
  pose proof (@wl_with_row_message_top
                (set_commit_time (hybrid_time msg)
                   (with_key_entries ds
                      (SetOperation o schema
                         (set_table (table_name tablet_ptr)
                            (set_pgschema_name (SchemaName schema) RowMessage_default)))))
                _ _ _ R6) as R7.
  cbn [cdc_sdk_op_id] in R7. rewrite <- E in R7.
  split.
  - eexists (added ++ [_]). split; [rewrite app_assoc; exact R7 |].
    split; [apply Forall_app; split;
            [exact F | constructor; [apply opened_write_record_stamped; exact Ho
                                    | constructor]] |].
    split; [rewrite length_app; simpl; lia |].
    intros _ H. destruct added; discriminate H.
  - rewrite E, Hs6. exact P3.
Qed.


Lemma write_inv_weaken msg tablet_ptr schema base n st :
  write_inv msg tablet_ptr schema base n st -> write_inv msg tablet_ptr schema base (S n) st.
Proof.
  intros (added & R & F & L & N). exists added. repeat split; try assumption. lia.
Qed.

Lemma write_pair_body_inv msg tablet_ptr schema base n write_pair st st' :
  write_inv msg tablet_ptr schema base n st ->
  write_pair_body msg tablet_ptr schema write_pair st = (inl tt, st') ->
  write_inv msg tablet_ptr schema base (S n) st'.
Proof.
  intros Hinv E. unfold write_pair_body in E.
  apply bind_ok in E. destruct E as (key_size & s0 & E0 & E). apply liftC_ok in E0.
  destruct E0 as [_ ->].
  apply bind_ok in E. destruct E as (decoded_value & s1 & E1 & E). apply liftC_ok in E1.
  destruct E1 as [_ ->].
  apply bind_ok in E. destruct E as (g & s2 & E2 & E). apply get_ok in E2.
  destruct E2 as [-> ->].
  apply bind_ok in E. destruct E as (u3 & s3 & E3 & E). destruct u3.
  apply bind_ok in E. destruct E as (u4 & s4 & E4 & E). apply modify_ok in E4.
  apply bind_ok in E. destruct E as (g' & s5 & E5 & E). apply get_ok in E5.
  destruct E5 as [-> ->].
  destruct (negb (wl_proto_record_set s4)) eqn:Eset; [discriminate E |].
  apply negb_false_iff in Eset.
  assert (H3 : write_inv msg tablet_ptr schema base (S n) s3).
  { apply when_ok in E3. destruct (negb _).
    - exact (proj1 (write_pair_open_inv _ _ _ Hinv E3)).
    - subst s3. apply write_inv_weaken. exact Hinv. }
  assert (H4 : write_inv msg tablet_ptr schema base (S n) s4).
  { destruct H3 as (added & R & F & L & N). exists added. subst s4.
    repeat split; assumption. }
  exact (write_pair_column_inv _ _ _ H4 Eset E).
Qed.

Lemma forM_write_pair_body_inv msg tablet_ptr schema base : forall pairs n st st',
  write_inv msg tablet_ptr schema base n st ->
  forM pairs (write_pair_body msg tablet_ptr schema) st = (inl tt, st') ->
  write_inv msg tablet_ptr schema base (n + List.length pairs) st'.
Proof.
  induction pairs as [| p pairs IH]; intros n st st' Hinv E; simpl in E.
  - apply ret_ok in E. destruct E as [_ ->]. simpl. rewrite Nat.add_0_r. exact Hinv.
  - apply bind_ok in E. destruct E as (u & s1 & E1 & E). destruct u.
    pose proof (@write_pair_body_inv _ _ _ _ _ _ _ _ Hinv E1) as H1.
    pose proof (IH _ _ _ H1 E) as H2. simpl.
    replace (n + S (List.length pairs))%nat with (S n + List.length pairs)%nat by lia.
    exact H2.
Qed.

(** A call of [PopulateCDCSDKWriteRecord] that returns OK adds to the
    response at most one record for each write pair of the batch, after the
    records already there.  Each of them is an INSERT, an UPDATE or a DELETE
    that carries the term and index of the log entry with write id 0 and an
    empty key, the name of the tablet's table, the schema's name, no
    transaction id, and the hybrid time of the entry as commit time. *)
Theorem write_batch_records msg schema resp resp' :
  PopulateCDCSDKWriteRecord msg schema resp = (inl tt, resp') ->
  exists tablet_ptr added,
    shared_tablet_safe tablet_peer = inl tablet_ptr
    /\ cdc_sdk_proto_records resp' = cdc_sdk_proto_records resp ++ added
    /\ Forall (write_stamped msg tablet_ptr schema) added
    /\ (List.length added <= List.length (write_pairs msg))%nat.
Proof.
  unfold PopulateCDCSDKWriteRecord. intro E.
  apply bind_ok in E. destruct E as (tablet_ptr & r1 & E1 & E). apply liftC_ok in E1.
  destruct E1 as [Ht ->].
  apply zoom_ok in E. destruct E as (st' & E & ->).
  assert (H0 : write_inv msg tablet_ptr schema (cdc_sdk_proto_records resp) 0
                         (mkWriteLoop resp "" false)).
  { exists []. simpl. rewrite app_nil_r.
    repeat split; [constructor | lia | discriminate]. }
  destruct (@forM_write_pair_body_inv _ _ _ _ _ _ _ _ H0 E) as (added & R & F & L & _).
  exists tablet_ptr, added. repeat split; assumption.
Qed.

(** *** What the records of a transaction carry *)

Section Stamps.

Variable op_id : OpId.
Variable txn : string.
Variable tn : string.
Variable schema : Schema.
Variable base : list CDCSDKProtoRecordPB.

(** A row record of the transaction [txn] applied at [op_id], on table
    [tn]. *)
Definition intent_stamped (rec : CDCSDKProtoRecordPB) : Prop :=
  oi_term (cdc_sdk_op_id rec) = op_term op_id
  /\ oi_index (cdc_sdk_op_id rec) = op_index op_id
  /\ transaction_id (row_message rec) = txn
  /\ table (row_message rec) = tn
  /\ commit_time (row_message rec) = 0
  /\ row_op rec.

Definition message_tagged (m : RowMessage) : Prop :=
  commit_time m = 0
  /\ (op m = RowMessage_Op_INSERT \/ op m = RowMessage_Op_UPDATE
      \/ op m = RowMessage_Op_DELETE -> transaction_id m = txn).

Definition message_named (m : RowMessage) : Prop :=
  op m = RowMessage_Op_UPDATE -> table m = tn.

Definition stamped_records (st : IntentLoop) : Prop :=
  exists added, records st = base ++ added /\ Forall intent_stamped added.

Definition stamps_inv (st : IntentLoop) : Prop :=
  stamped_records st
  /\ message_tagged (il_row_message st) /\ message_named (il_row_message st).

Lemma stamped_records_same st st' :
  records st' = records st -> stamped_records st -> stamped_records st'.
Proof. intros E (added & R & F). exists added. rewrite E. split; assumption. Qed.

Lemma stamped_records_add st st' intent m :
  records st' = records st ++ [record_for op_id intent m] ->
  stamped_records st ->
  message_tagged m -> table m = tn ->
  op m = RowMessage_Op_INSERT \/ op m = RowMessage_Op_UPDATE \/ op m = RowMessage_Op_DELETE ->
  stamped_records st'.
Proof.
  intros E (added & R & F) [Hc Ht] Hn Ho. exists (added ++ [record_for op_id intent m]).
  split; [rewrite E, R, app_assoc; reflexivity |].
  apply Forall_app. split; [exact F |]. constructor; [| constructor].
  unfold intent_stamped, record_for, row_op. cbn.
  split; [reflexivity | split; [reflexivity | split; [exact (Ht Ho) |]]].
  split; [exact Hn | split; [exact Hc | exact Ho]].
Qed.

Lemma pending_update_UPDATE st :
  pending_update st = true -> op (il_row_message st) = RowMessage_Op_UPDATE.
Proof.
  unfold pending_update. rewrite !andb_true_iff. intros [_ H]. apply Op_eqb_eq. exact H.
Qed.

Lemma flush_state_stamps st :
  stamps_inv st -> stamps_inv (flush_state op_id st).
Proof.
  intros (Hr & Hm & Hn).
  destruct (flush_state_fields op_id st) as (_ & _ & _ & _ & Em & Er).
  unfold stamps_inv. rewrite Em. split; [| split; assumption].
  destruct (FLAGS_enable_single_record_update flags && pending_update st) eqn:E.
  - apply andb_true_iff in E. destruct E as [_ Ep]. apply pending_update_UPDATE in Ep.
    eapply stamped_records_add; [exact Er | exact Hr | exact Hm | exact (Hn Ep) | auto].
  - rewrite app_nil_r in Er. exact (stamped_records_same _ Er Hr).
Qed.

Lemma with_key_entries_tagged ds m : message_tagged m -> message_tagged (with_key_entries ds m).
Proof. unfold with_key_entries. destruct (Op_eqb _ _); intro H; exact H. Qed.

Lemma emit_state_stamps intent st :
  stamped_records st -> message_tagged (il_row_message st) ->
  stamps_inv (emit_state op_id schema tn intent st).
Proof.
  intros Hr Hm.
  destruct (emit_state_fields op_id schema tn intent st) as (_ & _ & _ & Em & Er).
  cbv zeta in Em, Er. split; [| split].
  - destruct (emits schema st) eqn:E.
    + eapply stamped_records_add; [exact Er | exact Hr | exact Hm | reflexivity |].
      exact (emits_row_op _ _ E).
    + rewrite app_nil_r in Er. exact (stamped_records_same _ Er Hr).
  - rewrite Em. exact Hm.
  - rewrite Em. intros _. reflexivity.
Qed.

Lemma intent_body_stamps intent st r st' :
  stamps_inv st ->
  intent_body op_id txn schema tn intent st = (r, st') ->
  stamped_records st' /\ (r = inl tt -> stamps_inv st').
Proof.
  intros Hinv E. rewrite intent_body_run in E.
  destruct (decode_intent intent) as [d | e].
  2:{ injection E as <- <-. split; [apply Hinv | discriminate]. }
  destruct (is_key_column_intent schema (di_column_id_opt d)).
  { injection E as <- <-. split; [apply Hinv | intros _; exact Hinv]. }
  cbv zeta in E.
  set (st1 := with_new_cdc_record_needed _ st) in E.
  assert (H1 : stamps_inv st1) by exact Hinv.
  assert (H2 : forall r2 st2,
             (if il_new_cdc_record_needed st1
              then open_record txn schema intent d (flush_state op_id st1)
              else (inl tt, st1)) = (r2, st2) ->
             stamped_records st2 /\ (r2 = inl tt -> message_tagged (il_row_message st2))).
  { intros r2 st2 E2. destruct (il_new_cdc_record_needed st1).
    - pose proof (flush_state_stamps H1) as (Hr & _ & _).
      destruct (open_record_fields _ _ _ _ _ E2) as (_ & _ & _ & _ & Er & Hm).
      split; [exact (stamped_records_same _ Er Hr) |].
      intros ->. destruct (Hm eq_refl) as (ds & _ & ->).
      apply with_key_entries_tagged. split; [reflexivity | intros _; reflexivity].
    - injection E2 as <- <-. split; [apply H1 | intros _; apply H1]. }
  destruct (if il_new_cdc_record_needed st1 then _ else _) as [[[] | e] st2] eqn:E2.
  2:{ injection E as <- <-. split; [exact (proj1 (H2 _ _ eq_refl)) | discriminate]. }
  destruct (H2 _ _ eq_refl) as [Hr2 Hm2]. specialize (Hm2 eq_refl).
  destruct (fold_column schema intent d (mark_state intent d st2)) as [[[] | e] st4] eqn:E4.
  - injection E as <- <-.
    destruct (fold_column_fields _ _ _ _ E4) as (_ & _ & _ & _ & Er & _ & _ & Hm).
    assert (Hr4 : stamped_records st4) by exact (stamped_records_same _ Er Hr2).
    assert (Hm4 : message_tagged (il_row_message st4)).
    { destruct (Hm eq_refl) as [-> | [dt ->]]; exact Hm2. }
    pose proof (emit_state_stamps intent Hr4 Hm4) as H.
    split; [apply H | intros _; exact H].
  - injection E as <- <-.
    destruct (fold_column_fields _ _ _ _ E4) as (_ & _ & _ & _ & Er & _).
    split; [exact (stamped_records_same _ Er Hr2) | discriminate].
Qed.

Lemma forM_intent_body_stamps : forall intents st r st',
  stamps_inv st ->
  forM intents (intent_body op_id txn schema tn) st = (r, st') ->
  stamped_records st' /\ (r = inl tt -> stamps_inv st').
Proof.
  induction intents as [| intent intents IH]; intros st r st' Hinv E; simpl in E.
  - injection E as <- <-. split; [apply Hinv | intros _; exact Hinv].
  - unfold bind in E.
    destruct (intent_body op_id txn schema tn intent st) as [[[] | e] s1] eqn:E1.
    + destruct (intent_body_stamps _ Hinv E1) as [_ H1]. exact (IH _ _ _ (H1 eq_refl) E).
    + injection E as <- <-. split; [exact (proj1 (intent_body_stamps _ Hinv E1)) | discriminate].
Qed.

End Stamps.

(** Whatever the outcome of [PopulateCDCSDKIntentRecord], every record it has
    added to the response is an INSERT, an UPDATE or a DELETE that carries the
    term and index of the apply record, the id of the transaction and the name
    of the tablet's table; none carries a commit time. *)
Theorem intent_records_stamped op_id transaction_id intents schema resp w k tablet r st' :
  shared_tablet_safe tablet_peer = inl tablet ->
  PopulateCDCSDKIntentRecord op_id transaction_id intents schema (IntentLoop_init resp w k)
  = (r, st') ->
  exists added,
    cdc_sdk_proto_records (il_resp st') = cdc_sdk_proto_records resp ++ added
    /\ Forall (intent_stamped op_id transaction_id (table_name tablet)) added.
Proof.
  intros Ht E. unfold PopulateCDCSDKIntentRecord in E. rewrite Ht in E.
  unfold bind at 1, liftC at 1 in E.
  assert (H0 : stamps_inv op_id transaction_id (table_name tablet)
                          (cdc_sdk_proto_records resp) (IntentLoop_init resp w k)).
  { split; [| split].
    - exists []. split; [unfold records; simpl; rewrite app_nil_r; reflexivity | constructor].
    - split; [reflexivity |]. cbn. intros [H | [H | H]]; discriminate H.
    - intro H. discriminate H. }
  unfold bind in E.
  destruct (forM intents _ _) as [[[] | e] s1] eqn:EF.
  - destruct (@forM_intent_body_stamps _ _ _ _ _ _ _ _ _ H0 EF) as [_ H1].
    destruct (H1 eq_refl) as (Hr & Hm & Hn).
    rewrite flush_at_end_run in E. injection E as <- <-.
    destruct (FLAGS_enable_single_record_update flags && pending_update s1) eqn:Ep.
    + apply andb_true_iff in Ep. destruct Ep as [_ Ep]. apply pending_update_UPDATE in Ep.
      cbv zeta.
      assert (Hs : stamped_records op_id transaction_id (table_name tablet)
                     (cdc_sdk_proto_records resp)
                     (MakeNewProtoRecord
                        (il_prev_intent
                           (with_row_message (set_table (table_name tablet) (il_row_message s1))
                                             s1))
                        op_id
                        (il_row_message
                           (with_row_message (set_table (table_name tablet) (il_row_message s1))
                                             s1))
                        (with_row_message (set_table (table_name tablet) (il_row_message s1))
                                          s1))).
      { eapply stamped_records_add with (st := s1) (intent := il_prev_intent s1)
                                        (m := set_table (table_name tablet) (il_row_message s1)).
        - reflexivity.
        - exact Hr.
        - exact Hm.
        - reflexivity.
        - right. left. exact Ep. }
      exact Hs.
    + exact Hr.
  - injection E as <- <-. exact (proj1 (@forM_intent_body_stamps _ _ _ _ _ _ _ _ _ H0 EF)).
Qed.

(** *** Entries that are not acted upon *)

(** An entry the loop over the log passes by: an entry of a type it has no
    case for, a write of a transaction, a truncation when truncations are not
    streamed, a split the catalog does not confirm. *)
Definition idle_entry (tablet_id : string) (tablet_ptr : Tablet) (msg : ReplicateMsg) : Prop :=
  match op_type msg with
  | OTHER_OP => True
  | WRITE_OP => has_transaction msg = true
  | TRUNCATE_OP => FLAGS_stream_truncate_record flags = false
  | SPLIT_OP => VerifyTabletSplitOnParentTablet (table_id tablet_ptr) tablet_id = false
  | UPDATE_TRANSACTION_OP | CHANGE_METADATA_OP => False
  end.

(** The entries the loop over the log reads while no checkpoint is set: one
    batch after the other, each from the entry last seen, until the reader
    hands out nothing or the entry last seen has reached the last readable
    index. *)
Fixpoint entries_read (fuel : nat) (from : OpId) (readable : option Z) : list ReplicateMsg :=
  match fuel with
  | O => []
  | S fuel' =>
      match ReadReplicatedMessagesForCDC tablet_peer from readable with
      | inr _ => []
      | inl read_ops =>
          match fst read_ops with
          | [] => []
          | m :: rest =>
              (m :: rest)
              ++ (if match snd read_ops with
                     | Some last_readable => op_index (entry_op (last rest m)) <? last_readable
                     | None => false
                     end
                  then entries_read fuel' (entry_op (last rest m)) (snd read_ops)
                  else [])
          end
      end
  end.

(** The OpId of the last entry of a type without a case among [msgs], [d]
    when there is none. *)
Definition last_default (d : OpId) (msgs : list ReplicateMsg) : OpId :=
  fold_left (fun d m => match op_type m with OTHER_OP => entry_op m | _ => d end) msgs d.

Record idle_inv (resp : GetChangesResponsePB) (last_streamed_op_id seen : OpId)
       (readable : option Z) (d : OpId) (st : GetChangesState) : Prop := {
  ii_resp : gc_resp st = resp;
  ii_checkpoint_updated : gc_checkpoint_updated st = false;
  ii_cached_schema : initialized (gc_cached_schema st) = true;
  ii_last_streamed_op_id : gc_last_streamed_op_id st = last_streamed_op_id;
  ii_seen : gc_last_seen_op_id st = seen;
  ii_readable : gc_last_readable_opid_index st = readable;
  ii_default : gc_last_seen_default_message_op_id st = d }.

Lemma message_body_idle tablet_id tablet_ptr resp lso seen readable d msg st :
  idle_entry tablet_id tablet_ptr msg ->
  idle_inv resp lso seen readable d st ->
  exists st', message_body tablet_id tablet_ptr msg st = (inl tt, st')
              /\ idle_inv resp lso (entry_op msg) readable (last_default d [msg]) st'
              /\ gc_pending_intents st' = gc_pending_intents st.
Proof.
  intros Hidle [A B C D F G H].
  rewrite (message_body_cached tablet_id tablet_ptr msg st C).
  unfold idle_entry in Hidle. unfold last_default. cbn [fold_left].
  destruct (op_type msg) eqn:Eo; try contradiction.
  - unfold on_WRITE_OP. rewrite Hidle. cbn [negb when ret].
    eexists. split; [reflexivity | split; [constructor; try assumption; reflexivity | reflexivity]].
  - unfold on_TRUNCATE_OP. rewrite Hidle. cbn [when ret].
    eexists. split; [reflexivity | split; [constructor; try assumption; reflexivity | reflexivity]].
  - rewrite on_SPLIT_OP_run, Hidle. cbn [andb].
    eexists. split; [reflexivity | split; [constructor; try assumption; reflexivity | reflexivity]].
  - unfold modify.
    eexists. split; [reflexivity | split; [| reflexivity]].
    constructor; try assumption; reflexivity.
Qed.

Lemma last_cons {A} (l : list A) : forall x d, last (x :: l) d = last l x.
Proof.
  induction l as [| y l IH]; intros x d; [reflexivity |].
  change (last (x :: y :: l) d) with (last (y :: l) d). rewrite (IH y d), (IH y x). reflexivity.
Qed.

Lemma messages_loop_idle tablet_id tablet_ptr resp lso readable msgs :
  Forall (idle_entry tablet_id tablet_ptr) msgs ->
  forall seen d st,
    idle_inv resp lso seen readable d st -> gc_pending_intents st = false ->
    exists st', messages_loop tablet_id tablet_ptr msgs st = (inl tt, st')
                /\ idle_inv resp lso
                            match msgs with
                            | [] => seen
                            | m :: rest => entry_op (last rest m)
                            end
                            readable (last_default d msgs) st'.
Proof.
  induction 1 as [| m msgs Hm _ IH]; intros seen d st Hinv Hp.
  - exists st. split; [reflexivity | exact Hinv].
  - destruct (@message_body_idle tablet_id tablet_ptr resp lso seen readable d m st Hm Hinv)
      as (s1 & E1 & H1 & P1).
    simpl messages_loop. unfold bind at 1. rewrite E1.
    unfold bind at 1, get at 1. rewrite P1, Hp.
    destruct (IH _ _ _ H1 (eq_trans P1 Hp)) as (s2 & E2 & H2).
    exists s2. split; [exact E2 |].
    destruct msgs as [| m2 rest]; [exact H2 |].
    rewrite <- (last_cons rest m2 m) in H2. exact H2.
Qed.

(** The reader hands out only entries that are passed by. *)
Definition reads_idle (tablet_id : string) (tablet_ptr : Tablet) : Prop :=
  forall op idx r,
    ReadReplicatedMessagesForCDC tablet_peer op idx = inl r ->
    Forall (idle_entry tablet_id tablet_ptr) (fst r).

Lemma read_batch_idle tablet_id tablet_ptr resp lso seen readable d st b st' :
  reads_idle tablet_id tablet_ptr ->
  idle_inv resp lso seen readable d st ->
  read_batch tablet_id tablet_ptr st = (inl b, st') ->
  exists read_ops,
    ReadReplicatedMessagesForCDC tablet_peer seen readable = inl read_ops
    /\ b = match fst read_ops with [] => true | _ => false end
    /\ idle_inv resp lso
                match fst read_ops with
                | [] => seen
                | m :: rest => entry_op (last rest m)
                end
                (snd read_ops) (last_default d (fst read_ops)) st'.
Proof.
  intros Hread Hs E. unfold read_batch in E.
  apply bind_ok in E. destruct E as (g & s1 & Eg & E). apply get_ok in Eg.
  destruct Eg as [-> ->].
  apply bind_ok in E. destruct E as (read_ops & s2 & Er & E). apply liftC_ok in Er.
  destruct Er as [Er ->]. rewrite (ii_seen Hs), (ii_readable Hs) in Er.
  exists read_ops. split; [exact Er |]. apply Hread in Er.
  apply bind_ok in E. destruct E as (u1 & s3 & E3 & E). apply modify_ok in E3. subst s3.
  apply bind_ok in E. destruct E as (u2 & s4 & E4 & E).
  assert (s4 = set_gc_last_readable_opid_index (snd read_ops) st).
  { destruct (transaction_participant tablet_ptr).
    - apply liftC_ok in E4. apply E4.
    - apply ret_ok in E4. apply E4. }
  subst s4. clear E4.
  apply bind_ok in E. destruct E as (u3 & s5 & E5 & E). apply modify_ok in E5. subst s5.
  apply bind_ok in E. destruct E as (u4 & s6 & E6 & E). apply modify_ok in E6. subst s6.
  apply bind_ok in E. destruct E as (u5 & s7 & E7 & E). apply modify_ok in E7. subst s7.
  match type of E with _ ?s = _ => set (sb := s) in E end.
  assert (Hb : idle_inv resp lso seen (snd read_ops) d sb)
    by (destruct Hs; constructor; try assumption; reflexivity).
  destruct (fst read_ops) as [| m msgs] eqn:Em.
  - apply ret_ok in E. destruct E as [-> ->]. split; [reflexivity | exact Hb].
  - apply bind_ok in E. destruct E as (u6 & s8 & E8 & E). apply ret_ok in E.
    destruct E as [-> ->]. split; [reflexivity |].
    destruct (@messages_loop_idle tablet_id tablet_ptr resp lso (snd read_ops) _ Er
                seen d sb Hb eq_refl) as (s9 & E9 & H9).
    rewrite E9 in E8. injection E8 as _ <-. exact H9.
Qed.

Lemma read_batches_idle tablet_id tablet_ptr resp lso :
  reads_idle tablet_id tablet_ptr ->
  forall fuel seen readable d st st',
    idle_inv resp lso seen readable d st ->
    read_batches fuel tablet_id tablet_ptr st = Some (inl tt, st') ->
    exists seen' readable',
      idle_inv resp lso seen' readable' (last_default d (entries_read fuel seen readable)) st'.
Proof.
  intro Hread. induction fuel as [| fuel IH]; intros seen readable d st st' Hs E; simpl in E.
  - discriminate E.
  - destruct (read_batch tablet_id tablet_ptr st) as [[b | e] s1] eqn:Eb.
    2:{ discriminate E. }
    destruct (@read_batch_idle _ _ _ _ _ _ _ _ _ _ Hread Hs Eb) as (read_ops & Er & Hb & H1).
    cbn [entries_read]. rewrite Er.
    assert (Ha : read_again s1
                 = match snd read_ops with
                   | Some last_readable =>
                       op_index (gc_last_seen_op_id s1) <? last_readable
                   | None => false
                   end).
    { unfold read_again. rewrite (ii_checkpoint_updated H1), (ii_readable H1). reflexivity. }
    destruct (fst read_ops) as [| m rest].
    + subst b. injection E as <-. eauto.
    + subst b. rewrite Ha, (ii_seen H1) in E. unfold last_default. rewrite fold_left_app.
      fold (last_default d (m :: rest)).
      destruct (match snd read_ops with Some _ => _ | None => false end).
      * exact (IH _ _ _ _ _ H1 E).
      * injection E as <-. eauto.
Qed.

(** A call that reads the log (the cursor is neither of a snapshot nor of a
    transaction under way) with an initialised cached schema, and that is
    handed only entries it passes by, adds no record when it returns OK.
    When the entries it has read hold none of a type without a case (or the
    last such entry carries the invalid OpId), its checkpoint is the cursor
    received and [last_streamed_op_id] is left alone; otherwise the
    checkpoint is the OpId of the last such entry read, with write id 0, an
    empty key and snapshot time 0, and [last_streamed_op_id] is that OpId. *)
Theorem idle_entries_keep_cursor
        fuel tablet_id tablet_ptr from_op_id resp cached_schema cached_schema_version
        last_streamed_op_id commit_timestamp last_readable_opid_index st' :
  shared_tablet_safe tablet_peer = inl tablet_ptr ->
  (cp_write_id from_op_id =? -1) = false ->
  negb (String.eqb (cp_key from_op_id) "") && negb (cp_write_id from_op_id =? 0) = false ->
  initialized cached_schema = true ->
  reads_idle tablet_id tablet_ptr ->
  GetChangesForCDCSDK fuel tablet_id from_op_id
    (GetChangesState_init resp cached_schema cached_schema_version last_streamed_op_id
       commit_timestamp last_readable_opid_index from_op_id) = Some (inl tt, st') ->
  let default :=
    last_default (OpId_Invalid opid_decl)
                 (entries_read fuel (checkpoint_op from_op_id) last_readable_opid_index) in
  cdc_sdk_proto_records (gc_resp st') = cdc_sdk_proto_records resp
  /\ if OpId_eqb default (OpId_Invalid opid_decl)
     then cdc_sdk_checkpoint (gc_resp st') = from_op_id
          /\ gc_last_streamed_op_id st' = last_streamed_op_id
     else cdc_sdk_checkpoint (gc_resp st')
          = mkCheckpoint (op_term default) (op_index default) 0 "" 0
          /\ gc_last_streamed_op_id st' = default.
Proof.
  intros Ht Hw Hk Hi Hread E default. unfold GetChangesForCDCSDK in E. rewrite Ht in E.
  unfold select_mode in E. rewrite Hw, Hk in E.
  set (st0 := GetChangesState_init _ _ _ _ _ _ _) in E.
  destruct (read_batches fuel tablet_id tablet_ptr st0) as [[[[] | e] s1] |] eqn:Eb;
    try discriminate E.
  assert (H0 : idle_inv resp last_streamed_op_id (checkpoint_op from_op_id)
                        last_readable_opid_index (OpId_Invalid opid_decl) st0).
  { constructor; try reflexivity. exact Hi. }
  destruct (@read_batches_idle _ _ _ _ Hread fuel _ _ _ _ _ H0 Eb)
    as (seen' & readable' & [A B C D _ _ F]).
  fold default in F.
  destruct (checkpoint_from_default_message s1) as [[u | e] s2] eqn:Ec; [| discriminate E].
  injection E as E.
  destruct (finish_fields _ _ _ E) as (F1 & F2 & _).
  pose proof (finish_checkpoint _ _ _ E) as F3.
  unfold checkpoint_from_default_message, bind at 1, get at 1 in Ec. rewrite B, F in Ec.
  cbn [negb andb] in Ec.
  destruct (OpId_eqb default (OpId_Invalid opid_decl)); cbn [negb when] in Ec.
  - apply ret_ok in Ec. destruct Ec as [_ ->].
    split; [rewrite F1, A; reflexivity |].
    split; [rewrite F3, B; reflexivity | rewrite F2; exact D].
  - unfold bind, modify in Ec. injection Ec as _ <-.
    split; [rewrite F1; cbn; rewrite A; reflexivity |].
    split; [rewrite F3; cbn; reflexivity | rewrite F2; cbn; destruct default; reflexivity].
Qed.

(** *** The cursor of a transaction under way, written and read back *)

Lemma to_int32_cases w :
  0 <= w < 2 ^ 32 -> to_int32 w = if w <? 2 ^ 31 then w else w - 2 ^ 32.
Proof.
  intro H. unfold to_int32. destruct (w <? 2 ^ 31) eqn:E.
  - apply Z.ltb_lt in E. rewrite Z.mod_small; lia.
  - apply Z.ltb_ge in E.
    replace (w + 2 ^ 31) with (w + 2 ^ 31 - 2 ^ 32 + 1 * 2 ^ 32) by lia.
    rewrite Z.mod_add by lia. rewrite Z.mod_small; lia.
Qed.

Lemma to_uint32_to_int32 w : 0 <= w < 2 ^ 32 -> to_uint32 (to_int32 w) = w.
Proof.
  intro H. rewrite (to_int32_cases H). unfold to_uint32. destruct (w <? 2 ^ 31) eqn:E.
  - apply Z.mod_small. exact H.
  - replace (w - 2 ^ 32) with (w + (-1) * 2 ^ 32) by lia.
    rewrite Z.mod_add by lia. apply Z.mod_small. exact H.
Qed.

(** A checkpoint that [SetKeyWriteId] has given a key that is not empty and
    a write id other than 0 and [UINT32_MAX] is, as the cursor of the next
    request, taken for a transaction under way: [ProcessIntents] is called for
    the OpId of the cursor with the same key and write id as stream state,
    also when the write id does not fit in 31 bits, and
    [last_streamed_op_id] moves only when the transaction is finished.  With
    the write id [UINT32_MAX] the checkpoint reads -1 and the next request is
    taken for a snapshot. *)
Theorem resume_cursor_round_trip fuel tablet_id tablet_ptr key w checkpoint st st' :
  key <> "" ->
  0 < w < 2 ^ 32 - 1 ->
  select_mode fuel tablet_id (SetKeyWriteId key w checkpoint) tablet_ptr st
  = Some (inl tt, st') ->
  (exists transaction_id new_stream_state s1,
      DecodeTransactionId client key = inl transaction_id
      /\ call_ProcessIntents (gc_op_id st) transaction_id (mkApplyState key w) st
         = (inl new_stream_state, s1)
      /\ gc_resp st' = gc_resp s1
      /\ gc_checkpoint st' = gc_checkpoint s1
      /\ gc_checkpoint_updated st' = true
      /\ gc_last_streamed_op_id st'
         = if (cp_write_id (gc_checkpoint s1) =? 0) && String.eqb (cp_key (gc_checkpoint s1)) ""
           then checkpoint_op (gc_checkpoint s1)
           else gc_last_streamed_op_id st)
  /\ select_mode fuel tablet_id (SetKeyWriteId key (2 ^ 32 - 1) checkpoint) tablet_ptr st
     = Some (snapshot_branch tablet_id (SetKeyWriteId key (2 ^ 32 - 1) checkpoint)
                             tablet_ptr st).
Proof.
  intros Hk Hw E. split; [| reflexivity].
  assert (Hr : 0 <= w < 2 ^ 32) by lia.
  unfold select_mode in E. cbn [cp_write_id cp_key SetKeyWriteId] in E.
  assert (H1 : (to_int32 w =? -1) = false).
  { apply Z.eqb_neq. rewrite (to_int32_cases Hr). destruct (w <? 2 ^ 31); lia. }
  assert (H0 : (to_int32 w =? 0) = false).
  { apply Z.eqb_neq. rewrite (to_int32_cases Hr). destruct (w <? 2 ^ 31) eqn:E0; [lia |].
    apply Z.ltb_ge in E0. lia. }
  assert (Hke : String.eqb key "" = false) by (apply String.eqb_neq; exact Hk).
  rewrite H1, H0, Hke in E. cbn [negb andb] in E. injection E as E.
  unfold resume_branch in E. cbn [cp_write_id cp_key SetKeyWriteId] in E.
  rewrite (to_uint32_to_int32 Hr) in E.
  apply bind_ok in E. destruct E as (transaction_id & s0 & E0 & E). apply liftC_ok in E0.
  destruct E0 as [Hd ->].
  apply bind_ok in E. destruct E as (g & s2 & E2 & E). apply get_ok in E2.
  destruct E2 as [-> ->].
  apply bind_ok in E. destruct E as (new_stream_state & s1 & Ec & E).
  pose proof (call_ProcessIntents_control _ _ _ _ Ec) as C.
  apply bind_ok in E. destruct E as (g' & s4 & E4 & E). apply get_ok in E4.
  destruct E4 as [-> ->].
  apply bind_ok in E. destruct E as (u5 & s5 & E5 & E). apply when_modify_ok in E5.
  apply modify_ok in E. subst st' s5.
  exists transaction_id, new_stream_state, s1.
  split; [exact Hd | split; [exact Ec |]].
  destruct (_ && _); cbn; repeat split.
  exact (sc_last_streamed_op_id C).
Qed.

(** *** The end of the loop over the log *)

(** The reader hands out entries whose index is above the one it reads from,
    and never reports a last readable index above [bound]. *)
Definition reads_onward (bound : Z) : Prop :=
  forall op idx r,
    ReadReplicatedMessagesForCDC tablet_peer op idx = inl r ->
    Forall (fun m => op_index op < op_index (id m)) (fst r)
    /\ forall b, snd r = Some b -> b <= bound.

Definition seen (x : OpId) (readable : option Z) (s : GetChangesState) : Prop :=
  gc_last_seen_op_id s = x /\ gc_last_readable_opid_index s = readable.

Lemma on_resp_seen x readable (m : M GetChangesResponsePB unit) :
  triple (seen x readable) (on_resp m) (fun _ => seen x readable) (fun _ _ => True).
Proof.
  intros s Hs. unfold on_resp, zoom. destruct (m (gc_resp s)) as [[a | e] r]; [| exact I].
  exact Hs.
Qed.

Lemma call_ProcessIntents_seen x readable op_id transaction_id stream_state :
  triple (seen x readable) (call_ProcessIntents op_id transaction_id stream_state)
         (fun _ => seen x readable) (fun _ _ => True).
Proof.
  intros s [H1 H2].
  destruct (call_ProcessIntents op_id transaction_id stream_state s) as [[a | e] s'] eqn:E;
    [| exact I].
  pose proof (call_ProcessIntents_control _ _ _ _ E) as C. split.
  - rewrite (sc_last_seen_op_id C). exact H1.
  - rewrite (sc_last_readable_opid_index C). exact H2.
Qed.

Ltac seen_step x readable :=
  first [ apply on_resp_seen
        | apply call_ProcessIntents_seen
        | keep_step (seen x readable) ];
  try assumption.

Lemma message_body_seen tablet_id tablet_ptr msg st st' :
  message_body tablet_id tablet_ptr msg st = (inl tt, st') ->
  seen (entry_op msg) (gc_last_readable_opid_index st) st'.
Proof.
  intro E. set (readable := gc_last_readable_opid_index st).
  assert (T : triple (fun s => gc_last_readable_opid_index s = readable)
                     (message_body tablet_id tablet_ptr msg)
                     (fun _ => seen (entry_op msg) readable) (fun _ _ => True)).
  { unfold message_body.
    eapply triple_bind with (Q' := fun _ => seen (entry_op msg) readable).
    { apply triple_modify. intros s Hs. split; [reflexivity | exact Hs]. }
    intros _.
    eapply triple_bind with (Q' := fun _ => seen (entry_op msg) readable).
    { intros s [H1 H2].
      destruct (resolve_message_schema_run tablet_ptr msg s) as (s' & Er & C & _).
      rewrite Er. split.
      - rewrite (sc_last_seen_op_id C). exact H1.
      - rewrite (sc_last_readable_opid_index C). exact H2. }
    intros _.
    destruct (op_type msg).
    - unfold on_UPDATE_TRANSACTION_OP. repeat seen_step (entry_op msg) readable.
    - unfold on_WRITE_OP. repeat seen_step (entry_op msg) readable.
    - unfold on_CHANGE_METADATA_OP. repeat seen_step (entry_op msg) readable.
    - unfold on_TRUNCATE_OP. repeat seen_step (entry_op msg) readable.
    - unfold on_SPLIT_OP. repeat seen_step (entry_op msg) readable.
    - apply triple_modify. intros s Hs. exact Hs. }
  exact (triple_run _ T eq_refl E).
Qed.

Lemma messages_loop_seen tablet_id tablet_ptr msgs :
  msgs <> [] ->
  forall st st',
    messages_loop tablet_id tablet_ptr msgs st = (inl tt, st') ->
    exists m, In m msgs /\ seen (entry_op m) (gc_last_readable_opid_index st) st'.
Proof.
  induction msgs as [| m rest IH]; intros Hn st st' E; [contradiction Hn; reflexivity |].
  cbn [messages_loop] in E.
  apply bind_ok in E. destruct E as (u & s1 & Eb & E). destruct u.
  apply message_body_seen in Eb.
  apply bind_ok in E. destruct E as (g & s2 & Eg & E). apply get_ok in Eg.
  destruct Eg as [-> ->].
  destruct (gc_pending_intents s1).
  - apply ret_ok in E. destruct E as [_ ->]. exists m. split; [left; reflexivity | exact Eb].
  - destruct rest as [| m2 rest].
    + apply ret_ok in E. destruct E as [_ ->]. exists m. split; [left; reflexivity | exact Eb].
    + destruct (IH ltac:(discriminate) _ _ E) as (m' & Hin & Hm').
      exists m'. split; [right; exact Hin |].
      destruct Eb as [_ Eb]. rewrite <- Eb. exact Hm'.
Qed.

Lemma read_batch_onward bound tablet_id tablet_ptr st st' :
  reads_onward bound ->
  read_batch tablet_id tablet_ptr st = (inl false, st') ->
  op_index (gc_last_seen_op_id st) < op_index (gc_last_seen_op_id st')
  /\ forall b, gc_last_readable_opid_index st' = Some b -> b <= bound.
Proof.
  intros Hread E. unfold read_batch in E.
  apply bind_ok in E. destruct E as (g & s1 & Eg & E). apply get_ok in Eg.
  destruct Eg as [-> ->].
  apply bind_ok in E. destruct E as (read_ops & s2 & Er & E). apply liftC_ok in Er.
  destruct Er as [Er ->].
  apply Hread in Er. destruct Er as [Hmsgs Hb].
  apply bind_ok in E. destruct E as (u1 & s3 & E3 & E). apply modify_ok in E3. subst s3.
  apply bind_ok in E. destruct E as (u2 & s4 & E4 & E).
  assert (s4 = set_gc_last_readable_opid_index (snd read_ops) st).
  { destruct (transaction_participant tablet_ptr).
    - apply liftC_ok in E4. apply E4.
    - apply ret_ok in E4. apply E4. }
  subst s4. clear E4.
  apply bind_ok in E. destruct E as (u3 & s5 & E5 & E). apply modify_ok in E5. subst s5.
  apply bind_ok in E. destruct E as (u4 & s6 & E6 & E). apply modify_ok in E6. subst s6.
  apply bind_ok in E. destruct E as (u5 & s7 & E7 & E). apply modify_ok in E7. subst s7.
  destruct (fst read_ops) as [| m msgs] eqn:Em.
  - apply ret_ok in E. destruct E as [E _]. discriminate E.
  - apply bind_ok in E. destruct E as (u6 & s8 & E8 & E). apply ret_ok in E.
    destruct E as [_ ->]. destruct u6.
    apply messages_loop_seen in E8; [| discriminate].
    destruct E8 as (m' & Hin & Hm' & Hr). split.
    + rewrite Hm'. cbn [entry_op op_index].
      rewrite Forall_forall in Hmsgs. exact (Hmsgs m' Hin).
    + rewrite Hr. exact Hb.
Qed.

Lemma read_batches_end bound tablet_id tablet_ptr :
  reads_onward bound ->
  forall fuel st,
    (Z.to_nat (bound - op_index (gc_last_seen_op_id st)) < fuel)%nat ->
    exists r, read_batches fuel tablet_id tablet_ptr st = Some r.
Proof.
  intro Hread. induction fuel as [| fuel IH]; intros st Hf; [lia |].
  cbn [read_batches].
  destruct (read_batch tablet_id tablet_ptr st) as [[[|] | e] st'] eqn:E;
    [eexists; reflexivity | | eexists; reflexivity].
  destruct (read_again st') eqn:Ea; [| eexists; reflexivity].
  pose proof (@read_batch_onward _ _ _ _ _ Hread E) as [Hs Hb].
  apply IH. unfold read_again in Ea. apply andb_prop in Ea. destruct Ea as [_ Ea].
  destruct (gc_last_readable_opid_index st') as [b |]; [| discriminate Ea].
  apply Z.ltb_lt in Ea. specialize (Hb b eq_refl). lia.
Qed.

(** With a reader that hands out entries whose index is above the one it is
    asked to read from and that never reports a last readable index above
    [bound], the call returns: the loop over the log is left after at most
    [bound - index + 1] batches, [index] being the index of the entry last
    seen when the call begins (that of [from_op_id] in a state made by
    [GetChangesState_init]). *)
Theorem call_returns bound fuel tablet_id from_op_id st :
  reads_onward bound ->
  (Z.to_nat (bound - op_index (gc_last_seen_op_id st)) < fuel)%nat ->
  exists r, GetChangesForCDCSDK fuel tablet_id from_op_id st = Some r.
Proof.
  intros Hread Hf. unfold GetChangesForCDCSDK.
  destruct (shared_tablet_safe tablet_peer) as [tablet_ptr | e]; [| eexists; reflexivity].
  unfold select_mode.
  destruct (cp_write_id from_op_id =? -1).
  { destruct (snapshot_branch _ _ _ _) as [[u | e] s]; eexists; reflexivity. }
  destruct (_ && _).
  { destruct (resume_branch _ _) as [[u | e] s]; eexists; reflexivity. }
  destruct (@read_batches_end bound tablet_id tablet_ptr Hread fuel st Hf) as ([[u | e] s] & ->);
    [| eexists; reflexivity].
  destruct (checkpoint_from_default_message s) as [[u' | e] s']; eexists; reflexivity.
Qed.

(** *** How many records a walk over the intents adds *)

(** One when an UPDATE is held back for the next flush, zero otherwise. *)
Definition owed (st : IntentLoop) : nat :=
  if FLAGS_enable_single_record_update flags && pending_update st then 1%nat else 0%nat.

Lemma owed_le st : (owed st <= 1)%nat.
Proof. unfold owed. destruct (_ && _); lia. Qed.

Lemma emit_state_owed op_id schema table_name intent st :
  ((if emits schema st then 1 else 0)
   + owed (emit_state op_id schema table_name intent st) <= 1)%nat.
Proof.
  destruct (emits schema st) eqn:E; [| pose proof (owed_le (emit_state op_id schema table_name intent st)); lia].
  destruct (emit_state_fields op_id schema table_name intent st) as (_ & _ & _ & Em & _).
  cbv zeta in Em. unfold owed, pending_update. rewrite Em.
  unfold emits in E. cbn [op set_table].
  destruct (FLAGS_enable_single_record_update flags); [| cbn; lia].
  destruct (op (il_row_message st)); cbn in E; try discriminate E;
    rewrite !andb_false_r; cbn; lia.
Qed.

Lemma intent_body_count op_id transaction_id schema table_name intent st r st' :
  intent_body op_id transaction_id schema table_name intent st = (r, st') ->
  (List.length (records st') + match r with inl _ => owed st' | inr _ => 0 end
   <= List.length (records st) + owed st + 1)%nat.
Proof.
  intro E. rewrite intent_body_run in E.
  destruct (decode_intent intent) as [d | e].
  2:{ injection E as <- <-. lia. }
  destruct (is_key_column_intent schema (di_column_id_opt d)).
  { injection E as <- <-. change (owed (skip_state intent st)) with (owed st).
    change (records (skip_state intent st)) with (records st). lia. }
  cbv zeta in E.
  set (st1 := with_new_cdc_record_needed _ st) in E.
  assert (H2 : forall r2 st2,
             (if il_new_cdc_record_needed st1
              then open_record transaction_id schema intent d (flush_state op_id st1)
              else (inl tt, st1)) = (r2, st2) ->
             (List.length (records st2) <= List.length (records st) + owed st)%nat).
  { intros r2 st2 E2. destruct (il_new_cdc_record_needed st1).
    - destruct (flush_state_fields op_id st1) as (_ & _ & _ & _ & _ & Er1).
      destruct (open_record_fields _ _ _ _ _ E2) as (_ & _ & _ & _ & Er & _).
      rewrite Er, Er1, length_app.
      change (records st1) with (records st). change (pending_update st1) with (pending_update st).
      unfold owed. destruct (_ && _); cbn; lia.
    - injection E2 as _ <-. change (records st1) with (records st). lia. }
  destruct (if il_new_cdc_record_needed st1 then _ else _) as [[[] | e] st2] eqn:E2.
  2:{ injection E as <- <-. specialize (H2 _ _ eq_refl). lia. }
  specialize (H2 _ _ eq_refl).
  destruct (fold_column schema intent d (mark_state intent d st2)) as [[[] | e] st4] eqn:E4.
  - injection E as <- <-.
    destruct (fold_column_fields _ _ _ _ E4) as (_ & _ & _ & _ & Er & _).
    change (records (mark_state intent d st2)) with (records st2) in Er.
    destruct (emit_state_fields op_id schema table_name intent st4) as (_ & _ & _ & _ & Ee).
    cbv zeta in Ee. rewrite Ee, length_app, Er.
    pose proof (emit_state_owed op_id schema table_name intent st4) as Ho.
    destruct (emits schema st4); cbn [List.length] in *; lia.
  - injection E as <- <-.
    destruct (fold_column_fields _ _ _ _ E4) as (_ & _ & _ & _ & Er & _).
    change (records (mark_state intent d st2)) with (records st2) in Er.
    rewrite Er. lia.
Qed.

Lemma forM_intent_body_count op_id transaction_id schema table_name :
  forall intents st r st',
    forM intents (intent_body op_id transaction_id schema table_name) st = (r, st') ->
    (List.length (records st') + match r with inl _ => owed st' | inr _ => 0 end
     <= List.length (records st) + owed st + List.length intents)%nat.
Proof.
  induction intents as [| intent intents IH]; intros st r st' E; simpl in E.
  - injection E as <- <-. cbn. lia.
  - unfold bind in E.
    destruct (intent_body op_id transaction_id schema table_name intent st)
      as [[[] | e] s1] eqn:E1.
    + apply intent_body_count in E1. apply IH in E. cbn [List.length]. cbn in E1. lia.
    + injection E as <- <-. apply intent_body_count in E1. cbn [List.length]. lia.
Qed.

(** Whether it succeeds or fails, [PopulateCDCSDKIntentRecord] leaves in the
    response at most one more record for each intent it is given, also when
    UPDATE records are held back until the next intent of another row and
    flushed after the last one. *)
Theorem intent_records_bounded op_id transaction_id intents schema resp w k :
  (List.length
     (cdc_sdk_proto_records
        (il_resp (snd (PopulateCDCSDKIntentRecord op_id transaction_id intents schema
                         (IntentLoop_init resp w k)))))
   <= List.length (cdc_sdk_proto_records resp) + List.length intents)%nat.
Proof.
  unfold PopulateCDCSDKIntentRecord, bind, liftC.
  destruct (shared_tablet_safe tablet_peer) as [tablet | e]; [| cbn; lia].
  destruct (forM intents _ _) as [[[] | e] s1] eqn:E; apply forM_intent_body_count in E;
    change (records (IntentLoop_init resp w k)) with (cdc_sdk_proto_records resp) in E;
    assert (H0 : owed (IntentLoop_init resp w k) = 0%nat)
      by (unfold owed, pending_update; cbn; rewrite !andb_false_r; reflexivity);
    rewrite H0 in E.
  - rewrite flush_at_end_run. cbn [snd]. unfold owed in E.
    destruct (_ && _); [| fold (records s1); lia].
    cbn. rewrite length_app. cbn. fold (records s1). lia.
  - cbn [snd]. fold (records s1). lia.
Qed.

(** *** TRUNCATE entries *)

(** The record of a TRUNCATE entry: it carries no table name. *)
Definition TRUNCATE_record (msg : ReplicateMsg) (schema : Schema) : CDCSDKProtoRecordPB :=
  mkProtoRecord
    (set_pgschema_name (SchemaName schema) (set_op RowMessage_Op_TRUNCATE RowMessage_default))
    (SetCDCSDKOpId (op_term (id msg)) (op_index (id msg)) 0 "").

(** With [stream_truncate_record] set and a schema in the cache, a TRUNCATE
    entry that has its truncate request adds one record, which names the
    schema but no table, and moves the checkpoint and [last_streamed_op_id] to
    the entry; one that lacks the request fails with InvalidArgument and a
    message that ends with the text of the entry, and the blank record added
    for it stays in the response while the checkpoint is left alone. *)
Theorem truncate_entry tablet_id tablet_ptr msg st r st' :
  op_type msg = TRUNCATE_OP ->
  FLAGS_stream_truncate_record flags = true ->
  initialized (gc_cached_schema st) = true ->
  message_body tablet_id tablet_ptr msg st = (r, st') ->
  if has_truncate msg then
    r = inl tt
    /\ cdc_sdk_proto_records (gc_resp st')
       = cdc_sdk_proto_records (gc_resp st) ++ [TRUNCATE_record msg (gc_cached_schema st)]
    /\ gc_checkpoint st' = mkCheckpoint (op_term (id msg)) (op_index (id msg)) 0 "" 0
    /\ gc_checkpoint_updated st' = true
    /\ gc_last_streamed_op_id st' = entry_op msg
  else
    r = inr (STATUS InvalidArgument
               ("Truncate message requires truncate request information: "
                ++ ShortDebugString msg))
    /\ cdc_sdk_proto_records (gc_resp st')
       = cdc_sdk_proto_records (gc_resp st) ++ [CDCSDKProtoRecordPB_default]
    /\ gc_checkpoint st' = gc_checkpoint st
    /\ gc_checkpoint_updated st' = gc_checkpoint_updated st
    /\ gc_last_streamed_op_id st' = gc_last_streamed_op_id st.
Proof.
  intros Ho Hf Hi E. unfold message_body in E. rewrite Ho in E.
  unfold bind at 1, modify at 1 in E.
  unfold bind at 1, resolve_message_schema, bind at 1, get at 1 in E.
  cbn [gc_schema_streamed gc_cached_schema set_gc_last_seen_op_id] in E.
  rewrite Hi, andb_false_r in E. unfold modify at 1 in E.
  unfold on_TRUNCATE_OP in E. rewrite Hf in E.
  unfold when, bind at 1, get at 1, bind at 1, on_resp, zoom in E.
  rewrite on_added_record_run in E. unfold PopulateCDCSDKTruncateRecord in E.
  destruct (has_truncate msg).
  - cbn in E. injection E as <- <-. cbn. repeat split; reflexivity.
  - cbn -[append] in E. injection E as <- <-. cbn -[append]. repeat split; reflexivity.
Qed.

(** *** The schema in the cache *)

(** The reader hands out no CHANGE_METADATA entry. *)
Definition reads_no_DDL : Prop :=
  forall op idx r,
    ReadReplicatedMessagesForCDC tablet_peer op idx = inl r ->
    Forall (fun m => op_type m <> CHANGE_METADATA_OP) (fst r).

Section Cache.

Variable cached : Schema.
Variable version : Z.
Hypothesis cached_initialized : initialized cached = true.

Definition pi_cache (s : ProcessIntentsState) : Prop :=
  pi_cached_schema s = cached /\ pi_cached_schema_version s = version.

Definition gc_cache (s : GetChangesState) : Prop :=
  gc_cached_schema s = cached /\ gc_cached_schema_version s = version.

Ltac cache_step I :=
  lazymatch goal with
  | |- triple _ (forM _ _) _ _ => apply triple_forM; intros ? _
  | |- triple _ (zoom _ _ _) _ _ =>
      apply triple_zoom; intros ? ? ? ->;
      match goal with |- match ?m ?t with _ => _ end => destruct (m t) as [[? | ?] ?] end;
      assumption
  | |- triple _ (checkC _) _ _ => apply triple_checkC; intros; auto
  | _ => keep_step I
  end;
  try assumption.

Lemma resolve_schema_body_cache tablet keyValue :
  preserves pi_cache (resolve_schema_body tablet keyValue).
Proof.
  unfold preserves, resolve_schema_body.
  eapply triple_bind with (Q' := fun _ => pi_cache); [cache_step pi_cache |].
  intros _.
  eapply triple_bind with (Q' := fun a s => pi_cache s /\ a = s);
    [apply triple_get; auto |].
  intro st.
  eapply triple_bind with (Q' := fun _ => pi_cache).
  { intros s [Hs ->]. destruct Hs as [H1 H2]. rewrite H1, cached_initialized. cbn.
    split; assumption. }
  intros _. repeat cache_step pi_cache.
Qed.

Lemma ProcessIntents_cache op_id transaction_id :
  preserves pi_cache (ProcessIntents op_id transaction_id).
Proof.
  unfold preserves, ProcessIntents.
  repeat first [ apply resolve_schema_body_cache | cache_step pi_cache ].
Qed.

Lemma call_ProcessIntents_cache op_id transaction_id stream_state :
  preserves gc_cache (call_ProcessIntents op_id transaction_id stream_state).
Proof.
  intros s Hs. unfold call_ProcessIntents.
  match goal with |- context [ProcessIntents _ _ ?p] => set (p0 := p) end.
  assert (H0 : pi_cache p0) by exact Hs.
  pose proof (@ProcessIntents_cache op_id transaction_id p0 H0) as H.
  destruct (ProcessIntents op_id transaction_id p0) as [[u | e] pi]; exact H.
Qed.

Lemma on_resp_cache (m : M GetChangesResponsePB unit) : preserves gc_cache (on_resp m).
Proof.
  intros s Hs. unfold on_resp, zoom. destruct (m (gc_resp s)) as [[a | e] r]; exact Hs.
Qed.

Ltac gc_cache_step :=
  first [ apply on_resp_cache
        | apply call_ProcessIntents_cache
        | cache_step gc_cache ].

Lemma message_body_cache tablet_id tablet_ptr msg :
  op_type msg <> CHANGE_METADATA_OP ->
  preserves gc_cache (message_body tablet_id tablet_ptr msg).
Proof.
  intros Hm s Hs.
  assert (Hi : initialized (gc_cached_schema s) = true)
    by (rewrite (proj1 Hs); exact cached_initialized).
  rewrite (message_body_cached tablet_id tablet_ptr msg s Hi).
  match goal with |- match _ ?s0 with _ => _ end => set (s1 := s0) end.
  assert (H1 : gc_cache s1) by exact Hs.
  revert H1. generalize s1. clear s1 Hi Hs s.
  change (preserves gc_cache
            match op_type msg with
            | UPDATE_TRANSACTION_OP => on_UPDATE_TRANSACTION_OP msg
            | WRITE_OP => on_WRITE_OP msg
            | CHANGE_METADATA_OP => on_CHANGE_METADATA_OP tablet_ptr msg
            | TRUNCATE_OP => on_TRUNCATE_OP msg
            | SPLIT_OP => on_SPLIT_OP tablet_id tablet_ptr msg
            | OTHER_OP => modify (set_gc_last_seen_default_message_op_id (entry_op msg))
            end).
  unfold preserves.
  destruct (op_type msg); [| | contradiction Hm; reflexivity | | |].
  - unfold on_UPDATE_TRANSACTION_OP. repeat gc_cache_step.
  - unfold on_WRITE_OP. repeat gc_cache_step.
  - unfold on_TRUNCATE_OP. repeat gc_cache_step.
  - unfold on_SPLIT_OP. repeat gc_cache_step.
  - repeat gc_cache_step.
Qed.

Lemma messages_loop_cache tablet_id tablet_ptr msgs :
  Forall (fun m => op_type m <> CHANGE_METADATA_OP) msgs ->
  preserves gc_cache (messages_loop tablet_id tablet_ptr msgs).
Proof.
  unfold preserves. induction 1 as [| m msgs Hm _ IH]; simpl.
  - apply triple_ret. auto.
  - eapply triple_bind with (Q' := fun _ => gc_cache).
    + apply message_body_cache. exact Hm.
    + intros _. eapply triple_bind with (Q' := fun _ => gc_cache).
      * apply triple_get. auto.
      * intro st. destruct (gc_pending_intents st); [apply triple_ret; auto | exact IH].
Qed.

Lemma read_batch_cache tablet_id tablet_ptr :
  reads_no_DDL -> preserves gc_cache (read_batch tablet_id tablet_ptr).
Proof.
  intro Hread. unfold preserves, read_batch.
  eapply triple_bind with (Q' := fun _ => gc_cache); [apply triple_get; auto |].
  intro st.
  eapply triple_bind
    with (Q' := fun r s => gc_cache s
                           /\ Forall (fun m => op_type m <> CHANGE_METADATA_OP) (fst r)).
  { apply triple_liftC; [| auto]. intros s a Hs E. split; [exact Hs |].
    exact (Hread _ _ _ E). }
  intro read_ops.
  eapply triple_conseq
    with (P' := fun s => gc_cache s
                         /\ Forall (fun m => op_type m <> CHANGE_METADATA_OP) (fst read_ops))
         (Q' := fun _ => gc_cache) (R' := fun _ => gc_cache); [| auto | auto | auto].
  intros s [Hs Hmsgs]. revert s Hs.
  change (triple gc_cache
            (modify (set_gc_last_readable_opid_index (snd read_ops)) ;;
             match transaction_participant tablet_ptr with
             | Some txn_participant => liftC (RequestScope_Create txn_participant)
             | None => ret tt
             end ;;
             modify (set_gc_current_schema Schema_default) ;;
             modify (set_gc_pending_intents false) ;;
             modify (set_gc_schema_streamed false) ;;
             match fst read_ops with
             | [] => ret true
             | msgs => messages_loop tablet_id tablet_ptr msgs ;; ret false
             end) (fun _ => gc_cache) (fun _ => gc_cache)).
  repeat first [ apply (@messages_loop_cache tablet_id tablet_ptr); assumption
               | gc_cache_step ].
Qed.

Lemma read_batches_cache tablet_id tablet_ptr :
  reads_no_DDL ->
  forall fuel st r st',
    gc_cache st ->
    read_batches fuel tablet_id tablet_ptr st = Some (r, st') ->
    gc_cache st'.
Proof.
  intro Hread. induction fuel as [| fuel IH]; intros st r st' Hs E; simpl in E.
  - discriminate E.
  - pose proof (@read_batch_cache tablet_id tablet_ptr Hread st Hs) as H.
    destruct (read_batch tablet_id tablet_ptr st) as [[[|] | e] s1].
    + injection E as _ <-. exact H.
    + destruct (read_again s1).
      * exact (IH _ _ _ H E).
      * injection E as _ <-. exact H.
    + injection E as _ <-. exact H.
Qed.

Lemma checkpoint_from_default_message_cache :
  preserves gc_cache checkpoint_from_default_message.
Proof. unfold preserves, checkpoint_from_default_message. repeat gc_cache_step. Qed.

Lemma resume_branch_cache from_op_id : preserves gc_cache (resume_branch from_op_id).
Proof. unfold preserves, resume_branch. repeat gc_cache_step. Qed.

Lemma finish_cache tablet_id from_op_id : preserves gc_cache (finish tablet_id from_op_id).
Proof.
  unfold preserves, finish.
  repeat first [ gc_cache_step
               | match goal with
                 | |- gc_cache (if ?b then _ else _) => destruct b; assumption
                 end ].
Qed.

End Cache.

(** A call that is not part of a snapshot and reads no CHANGE_METADATA entry
    leaves a schema that is in the cache, and its version, as they are,
    whether it succeeds or fails: neither the entries of the log nor the
    intents of the transactions it streams replace them. *)
Theorem cached_schema_kept fuel tablet_id from_op_id st r st' :
  initialized (gc_cached_schema st) = true ->
  (cp_write_id from_op_id =? -1) = false ->
  reads_no_DDL ->
  GetChangesForCDCSDK fuel tablet_id from_op_id st = Some (r, st') ->
  gc_cached_schema st' = gc_cached_schema st
  /\ gc_cached_schema_version st' = gc_cached_schema_version st.
Proof.
  intros Hi Hw Hread E.
  assert (Hs : gc_cache (gc_cached_schema st) (gc_cached_schema_version st) st)
    by (split; reflexivity).
  revert Hs E. generalize (gc_cached_schema_version st) as version.
  revert Hi. generalize (gc_cached_schema st) as cached.
  intros cached Hi version Hs E.
  unfold GetChangesForCDCSDK in E.
  destruct (shared_tablet_safe tablet_peer) as [tablet_ptr | e].
  2:{ injection E as _ <-. exact Hs. }
  assert (Hsel : forall r1 s1,
             select_mode fuel tablet_id from_op_id tablet_ptr st = Some (r1, s1) ->
             gc_cache cached version s1).
  { intros r1 s1 E1. unfold select_mode in E1. rewrite Hw in E1.
    destruct (_ && _).
    - injection E1 as E1.
      pose proof (@resume_branch_cache cached version Hi from_op_id st Hs) as H.
      rewrite E1 in H. destruct r1; exact H.
    - destruct (read_batches fuel tablet_id tablet_ptr st) as [[[u | e] s2] |] eqn:E2;
        [| | discriminate E1].
      + pose proof (@read_batches_cache cached version Hi tablet_id tablet_ptr Hread
                      _ _ _ _ Hs E2) as H2.
        injection E1 as E1.
        pose proof (@checkpoint_from_default_message_cache cached version s2 H2) as H.
        rewrite E1 in H. destruct r1; exact H.
      + injection E1 as _ <-.
        exact (@read_batches_cache cached version Hi tablet_id tablet_ptr Hread
                 _ _ _ _ Hs E2). }
  destruct (select_mode fuel tablet_id from_op_id tablet_ptr st) as [[[u | e] s1] |] eqn:E1;
    [| | discriminate E].
  - injection E as E.
    pose proof (@finish_cache cached version tablet_id from_op_id s1 (Hsel _ _ eq_refl)) as H.
    rewrite E in H. destruct r; exact H.
  - injection E as _ <-. exact (Hsel _ _ eq_refl).
Qed.

End Properties.

(** ** Worked runs *)

(** The runs below are made in the small world of [Toy]: one table with key
    column [id] and two more columns, rows named by two characters. *)

Definition ex_resp : GetChangesResponsePB := GetChangesResponsePB_default.

(** A root-level tombstone on row [k7], a write to its key column, and a
    write to its column [c1]. *)
Definition ex_delete : IntentKeyValueForCDC := mkIntent "k7" "T" "r1" 1 4096.
Definition ex_key_column : IntentKeyValueForCDC := mkIntent "k7c0" "10" "r2" 2 4096.
Definition ex_column : IntentKeyValueForCDC := mkIntent "k7c1" "10" "r1" 1 4096.

Definition ex_tablet (intents : list IntentKeyValueForCDC) (after : ApplyTransactionState)
  : Tablet := Toy.tablet intents after [] (fun _ => "").



Definition ex_PopulateCDCSDKIntentRecord (intents : list IntentKeyValueForCDC) :=
  PopulateCDCSDKIntentRecord (docdb := Toy.docdb) (flags := Toy.flags)
    (tablet_peer := Toy.peer (ex_tablet [] ApplyTransactionState_default) (mkOpId 0 0) [])
    (mkOpId 1 6) "txn" intents Toy.schema
    (IntentLoop_init (docdb := Toy.docdb) ex_resp 0 "").

(** The tablet of the calls: a transaction of one intent whose fetch stops
    short. *)
Definition ex_peer_tablet : Tablet := ex_tablet [ex_column] (mkApplyState "r1" 1).

Definition ex_entry (op_id : OpId) (o : OperationType) : ReplicateMsg :=
  mkReplicateMsg op_id 4096000 o (mkTransactionState APPLYING "txn" "ct") false
                 [("k7c1", "10")] None false "entry".

(** An UPDATE_TRANSACTION entry that applies nothing. *)
Definition ex_other_status : ReplicateMsg :=
  mkReplicateMsg (mkOpId 1 6) 4096000 UPDATE_TRANSACTION_OP
                 (mkTransactionState OTHER_STATUS "txn" "ct") false [] None false "entry".

Definition ex_alter (op_id : OpId) (version : Z) : ReplicateMsg :=
  mkReplicateMsg op_id 4096000 CHANGE_METADATA_OP (mkTransactionState OTHER_STATUS "" "")
                 false []
                 (Some (mkChangeMetadata (mkSchemaPB [] (mkTableProperties 0 1 false) "public")
                                         version "t"))
                 false "alter".

Definition ex_state (from_op_id : CDCSDKCheckpointPB) : GetChangesState :=
  GetChangesState_init (opid_decl := Toy.opid_decl) ex_resp Toy.schema 7 (mkOpId 0 0) ""
                       (Some 0) from_op_id.

(** A call on tablet ["tablet-1"] whose log is [log], with [children] tablets
    split off it in the catalog. *)
Definition ex_call (log : list ReplicateMsg) (children : nat) (catalog : option Z)
           (from_op_id : CDCSDKCheckpointPB) :=
  GetChangesForCDCSDK (docdb := Toy.docdb) (flags := Toy.flags)
    (tablet_peer := Toy.wal_peer ex_peer_tablet (mkOpId 0 0) log)
    (client := Toy.client children catalog) (opid_decl := Toy.opid_decl)
    2 "tablet-1" from_op_id (ex_state from_op_id).

(** A tablet that goes on replicating: the last replicated data is
    ((2, 9), 4096000) when read first and ((2, 10), 4100096) afterwards. *)
Definition ex_moving_context : TransactionParticipantContext :=
  mkContext (fun n => match n with
                      | O => inl (mkRemoveIntentsData (mkOpId 2 9) 4096000)
                      | S _ => inl (mkRemoveIntentsData (mkOpId 2 10) 4100096)
                      end).

Definition ex_moving_tablet : Tablet :=
  mkTablet (table_type ex_peer_tablet) (table_name ex_peer_tablet) (table_id ex_peer_tablet)
           (table_name_of ex_peer_tablet) (metadata_schema_version ex_peer_tablet)
           (tablet_schema ex_peer_tablet) (GetIntents ex_peer_tablet)
           (Some (mkParticipant (Some ex_moving_context) (inl tt)))
           (CreateCDCSnapshotIterator ex_peer_tablet).

(** The first call of a snapshot on that tablet. *)
Definition ex_handshake :=
  GetChangesForCDCSDK (docdb := Toy.docdb) (flags := Toy.flags)
    (tablet_peer := Toy.wal_peer ex_moving_tablet (mkOpId 0 0) [])
    (client := Toy.client 2 None) (opid_decl := Toy.opid_decl)
    2 "tablet-1" (mkCheckpoint 0 0 (-1) "" 0) (ex_state (mkCheckpoint 0 0 (-1) "" 0)).

(** The status, the operations and schema versions of the records, and the
    checkpoint of an answer. *)
Definition ex_answer (run : option ((unit + Error) * GetChangesState)) :=
  match run with
  | Some (r, st) =>
      Some (r,
            map (fun rec => (op (row_message rec), schema_version (row_message rec)))
                (cdc_sdk_proto_records (gc_resp st)),
            cdc_sdk_checkpoint (gc_resp st))
  | None => None
  end.

Definition ex_final (from_op_id : CDCSDKCheckpointPB)
           (run : option ((unit + Error) * GetChangesState)) : GetChangesState :=
  match run with
  | Some (_, st) => st
  | None => ex_state from_op_id
  end.

(** The order the specification puts on cursors: lexicographic over (term,
    index, snapshot_time, key, write_id). *)
Definition spec_cursor_compare (a b : CDCSDKCheckpointPB) : comparison :=
  match cp_term a ?= cp_term b with
  | Eq =>
      match cp_index a ?= cp_index b with
      | Eq =>
          match cp_snapshot_time a ?= cp_snapshot_time b with
          | Eq =>
              match String.compare (cp_key a) (cp_key b) with
              | Eq => cp_write_id a ?= cp_write_id b
              | c => c
              end
          | c => c
          end
      | c => c
      end
  | c => c
  end.


Definition ex_delete_run := ex_PopulateCDCSDKIntentRecord [ex_delete].

(** *** Runs that part from the specification *)

(** C8: on a tablet that replicates one more entry between the two reads of
    the last replicated data, the handshake answers with the OpId (2, 10)
    while intent retention was pinned at (2, 9). *)
Lemma retention_pinned_at_an_earlier_OpId :
  ex_answer ex_handshake = Some (inl tt, [], mkCheckpoint 2 10 (-1) "" 4100096)
  /\ gc_effects (ex_final (mkCheckpoint 0 0 (-1) "" 0) ex_handshake)
     = [UpdateCDCConsumerOpId (mkOpId 2 9); SetIntentRetainOpIdAndTime (mkOpId 2 9) 1000]
  /\ mkOpId 2 9 <> mkOpId 2 10.
Proof. split; [vm_compute; reflexivity | split; [vm_compute; reflexivity | discriminate]]. Qed.

(** C1: a snapshot of a table without rows completes on the cursor
    (1, 5, write id -1, key "k7", snapshot time 4096000); the checkpoint
    returned, (1, 5, 0, "", 0), is below that cursor in the order of the
    specification. *)
Lemma snapshot_completion_goes_back :
  ex_answer (ex_call [] 2 (Some 4) (mkCheckpoint 1 5 (-1) "k7" 4096000))
  = Some (inl tt, [], mkCheckpoint 1 5 0 "" 0)
  /\ spec_cursor_compare (mkCheckpoint 1 5 0 "" 0) (mkCheckpoint 1 5 (-1) "k7" 4096000) = Lt.
Proof. split; vm_compute; reflexivity. Qed.

(** Why [reads_forward] asks that UPDATE_TRANSACTION entries apply a
    transaction: an entry with another status sets [checkpoint_updated] and
    leaves the checkpoint as it was built, so the call on the cursor (1, 5)
    answers with the checkpoint (0, 0). *)
Lemma entry_of_other_status_resets_checkpoint :
  ex_answer (ex_call [ex_other_status] 2 None (mkCheckpoint 1 5 0 "" 0))
  = Some (inl tt, [], mkCheckpoint 0 0 0 "" 0).
Proof. vm_compute. reflexivity. Qed.


(** C4: the DELETE record of a tombstone on row [k7] has a [new_tuple] of
    one placeholder. *)
Lemma delete_new_tuple_not_empty :
  fst ex_delete_run = inl tt
  /\ exists rec,
      cdc_sdk_proto_records (il_resp (snd ex_delete_run)) = [rec]
      /\ op (row_message rec) = RowMessage_Op_DELETE
      /\ new_tuple (row_message rec) = [DatumMessagePB_default]
      /\ new_tuple (row_message rec) <> [].
Proof.
  vm_compute. split; [reflexivity |]. eexists.
  split; [reflexivity | split; [reflexivity | split; [reflexivity | discriminate]]].
Qed.

(** C7: the log holds a confirmed split at (1, 6) and a write at (1, 7), and
    the cursor is at (1, 5).  The call returns OK with the record of the write
    and the checkpoint at (1, 7). *)
Lemma split_followed_by_write :
  VerifyTabletSplitOnParentTablet (client := Toy.client 2 None) "table-id" "tablet-1" = true
  /\ ex_answer (ex_call [ex_entry (mkOpId 1 6) SPLIT_OP; ex_entry (mkOpId 1 7) WRITE_OP]
                        2 None (mkCheckpoint 1 5 0 "" 0))
     = Some (inl tt, [(RowMessage_Op_UPDATE, 0)], mkCheckpoint 1 7 0 "" 0).
Proof. split; vm_compute; reflexivity. Qed.

(** C9: two successive CHANGE_METADATA entries ask for schema version 5 and
    both resolve to version 4 of the catalog; the answer holds two DDL
    records. *)
Lemma two_DDL_records_for_one_version :
  resolved_version (client := Toy.client 2 (Some 4)) ex_peer_tablet (ex_alter (mkOpId 1 6) 5)
  = 4
  /\ resolved_version (client := Toy.client 2 (Some 4)) ex_peer_tablet
                      (ex_alter (mkOpId 1 7) 5) = 4
  /\ ex_answer (ex_call [ex_alter (mkOpId 1 6) 5; ex_alter (mkOpId 1 7) 5] 2 (Some 4)
                        (mkCheckpoint 1 5 0 "" 0))
     = Some (inl tt, [(RowMessage_Op_DDL, 5); (RowMessage_Op_DDL, 5)],
             mkCheckpoint 1 7 0 "" 0).
Proof. repeat split; vm_compute; reflexivity. Qed.

(** *** Runs the theorems apply to *)

Lemma OpId_le_total a b : OpId_le a b = false -> OpId_le b a = true.
Proof.
  intro H. apply OpId_le_iff.
  assert (N : ~ OpId_le a b = true) by (rewrite H; discriminate).
  rewrite OpId_le_iff in N. lia.
Qed.

Lemma wal_peer_reads_forward t latest log :
  Forall applying_only log ->
  reads_forward (tablet_peer := Toy.wal_peer t latest log).
Proof.
  intros H op idx r E. simpl in E. injection E as <-. simpl fst.
  apply Forall_forall. intros m Hin. apply filter_In in Hin. destruct Hin as [Hin Hn].
  split.
  - apply OpId_le_total. apply negb_true_iff. exact Hn.
  - rewrite Forall_forall in H. exact (H m Hin).
Qed.

Lemma wal_peer_last_replicated t latest log from_op_id :
  (forall txn_participant txn_context data,
      transaction_participant t = Some txn_participant ->
      context txn_participant = Some txn_context ->
      GetLastReplicatedData txn_context 1 = inl data ->
      OpId_le (checkpoint_op from_op_id) (rid_op_id data) = true) ->
  last_replicated_not_before (tablet_peer := Toy.wal_peer t latest log) from_op_id.
Proof.
  intros H tablet p ctx data Ht Hp Hc Hd. simpl in Ht. injection Ht as <-.
  exact (H p ctx data Hp Hc Hd).
Qed.

Definition ex_first : GetChangesState :=
  ex_final (mkCheckpoint 1 5 0 "" 0)
           (ex_call [ex_entry (mkOpId 1 6) WRITE_OP] 2 None (mkCheckpoint 1 5 0 "" 0)).

Definition ex_second : GetChangesState :=
  ex_final (cdc_sdk_checkpoint (gc_resp ex_first))
           (ex_call [ex_entry (mkOpId 1 6) WRITE_OP] 2 None
                    (cdc_sdk_checkpoint (gc_resp ex_first))).

Lemma cursor_monotonicity_witness :
  OpId_le (checkpoint_op (mkCheckpoint 1 5 0 "" 0))
          (checkpoint_op (cdc_sdk_checkpoint (gc_resp ex_first))) = true
  /\ OpId_le (checkpoint_op (cdc_sdk_checkpoint (gc_resp ex_first)))
             (checkpoint_op (cdc_sdk_checkpoint (gc_resp ex_second))) = true.
Proof.
  assert (Hread : reads_forward
                    (tablet_peer := Toy.wal_peer ex_peer_tablet (mkOpId 0 0)
                                                 [ex_entry (mkOpId 1 6) WRITE_OP])).
  { apply wal_peer_reads_forward. repeat constructor. }
  assert (Hrepl : forall from_op_id,
             OpId_le (checkpoint_op from_op_id) (mkOpId 2 9) = true ->
             last_replicated_not_before
               (tablet_peer := Toy.wal_peer ex_peer_tablet (mkOpId 0 0)
                                            [ex_entry (mkOpId 1 6) WRITE_OP])
               from_op_id).
  { intros from_op_id H. apply wal_peer_last_replicated.
    intros p ctx data Hp Hc Hd. simpl in Hp. injection Hp as <-. simpl in Hc.
    injection Hc as <-. simpl in Hd. injection Hd as <-. exact H. }
  assert (H1 : OpId_le (checkpoint_op (mkCheckpoint 1 5 0 "" 0)) (mkOpId 2 9) = true)
    by reflexivity.
  assert (H2 : OpId_le (checkpoint_op (cdc_sdk_checkpoint (gc_resp ex_first))) (mkOpId 2 9)
               = true) by (vm_compute; reflexivity).
  pose proof (cursor_monotonicity
                (docdb := Toy.docdb) (flags := Toy.flags)
                (tablet_peer := Toy.wal_peer ex_peer_tablet (mkOpId 0 0)
                                             [ex_entry (mkOpId 1 6) WRITE_OP])
                (client := Toy.client 2 None) (opid_decl := Toy.opid_decl)
                2 2 "tablet-1" (from_op_id := mkCheckpoint 1 5 0 "" 0)
                ex_resp Toy.schema 7 (mkOpId 0 0) "" (Some 0) (st1 := ex_first)
                ex_resp Toy.schema 7 (mkOpId 0 0) "" (Some 0) (st2 := ex_second)
                Hread (Hrepl _ H1) (Hrepl _ H2)) as W.
  lapply W; [clear W; intro W | vm_compute; reflexivity].
  lapply W; [clear W; intro W | vm_compute; reflexivity].
  destruct W as (A & B & _). split; [exact A | exact B].
Defined.

Lemma tuple_length_parity_witness :
  all_balanced ex_resp /\ all_balanced (il_resp (snd ex_delete_run)).
Proof.
  assert (H : all_balanced ex_resp) by constructor.
  split; [exact H |].
  pose proof (proj1 (tuple_length_parity (docdb := Toy.docdb) (flags := Toy.flags)
                       (tablet_peer := Toy.peer (ex_tablet [] ApplyTransactionState_default)
                                                (mkOpId 0 0) [])
                       H)
                    (mkOpId 1 6) "txn" [ex_delete] Toy.schema 0 "" (fst ex_delete_run)
                    (snd ex_delete_run)) as W.
  lapply W; [clear W; intro W; exact W | vm_compute; reflexivity].
Defined.

(** The row [k7] is deleted and written anew at the same physical time: a
    root-level tombstone, the liveness column and the two regular columns.
    The record of the INSERT is opened by the column count alone, which the
    DELETE left at [num_columns]. *)
Definition ex_liveness : IntentKeyValueForCDC := mkIntent "k7s" "N" "r1" 1 4096.
Definition ex_column2 : IntentKeyValueForCDC := mkIntent "k7c2" "20" "r4" 4 4096.
Definition ex_rewritten : list IntentKeyValueForCDC :=
  [ex_delete; ex_liveness; ex_column; ex_column2].
Definition ex_rewritten_run := ex_PopulateCDCSDKIntentRecord ex_rewritten.

Lemma insert_and_delete_shape_witness :
  well_formed_intents (docdb := Toy.docdb) (flags := Toy.flags) Toy.schema
                      (Bookkeeping_init (docdb := Toy.docdb)) ex_rewritten
  /\ exists added,
      cdc_sdk_proto_records (il_resp (snd ex_rewritten_run))
      = cdc_sdk_proto_records ex_resp ++ added
      /\ Forall (record_shape (docdb := Toy.docdb)
                              (tablet_peer := Toy.peer
                                                (ex_tablet [] ApplyTransactionState_default)
                                                (mkOpId 0 0) [])
                              (mkOpId 1 6) Toy.schema ex_rewritten) added
      /\ map (fun rec => (op (row_message rec), List.length (new_tuple (row_message rec))))
             added
         = [(RowMessage_Op_DELETE, 1%nat); (RowMessage_Op_INSERT, 3%nat)].
Proof.
  assert (Hw : well_formed_intents (docdb := Toy.docdb) (flags := Toy.flags) Toy.schema
                                   (Bookkeeping_init (docdb := Toy.docdb)) ex_rewritten).
  { vm_compute.
    repeat split; first [reflexivity | left; reflexivity | right; reflexivity]. }
  split; [exact Hw |].
  pose proof (insert_and_delete_shape
                (docdb := Toy.docdb) (flags := Toy.flags)
                (tablet_peer := Toy.peer (ex_tablet [] ApplyTransactionState_default)
                                         (mkOpId 0 0) [])
                (mkOpId 1 6) "txn" ex_rewritten Toy.schema ex_resp 0 ""
                (r := fst ex_rewritten_run) (st' := snd ex_rewritten_run)) as W.
  lapply W; [clear W; intro W | intro m; reflexivity].
  lapply W; [clear W; intro W | simpl; lia].
  lapply W; [clear W; intro W | exact Hw].
  lapply W; [clear W; intro W | vm_compute; reflexivity].
  destruct W as (added & E & F).
  exists added. split; [exact E | split; [exact F |]].
  change (cdc_sdk_proto_records ex_resp ++ added) with added in E.
  rewrite <- E. vm_compute. reflexivity.
Defined.

(** The tombstone of row [k7], a write to its key column and its liveness
    column, all at one physical time: the record of the liveness column is
    opened by the column count alone.  Then two writes to columns of the row
    at different physical times. *)
Definition ex_decoded (intent : IntentKeyValueForCDC) : DecodedIntent :=
  match decode_intent (docdb := Toy.docdb) intent with
  | inl d => d
  | inr _ => mkDecoded 0 None (mkSubDocKey [] [] 0) (mkValue kValueEntryOther "")
  end.

Definition ex_intent_body :=
  intent_body (docdb := Toy.docdb) (flags := Toy.flags)
              (tablet_peer := Toy.peer (ex_tablet [] ApplyTransactionState_default)
                                       (mkOpId 0 0) [])
              (mkOpId 1 6) "txn" Toy.schema "t".

Definition ex_walk_to_liveness :=
  forM [ex_delete; ex_key_column] ex_intent_body
       (IntentLoop_init (docdb := Toy.docdb) ex_resp 0 "").

Definition ex_liveness_step := ex_intent_body ex_liveness (snd ex_walk_to_liveness).

Definition ex_later_column2 : IntentKeyValueForCDC := mkIntent "k7c2" "20" "r2" 2 8192.

Definition ex_updates_run := ex_PopulateCDCSDKIntentRecord [ex_column; ex_later_column2].

Lemma packed_update_flush_condition_witness :
  (Slice_prefix (key_buf ex_liveness) (di_key_size (ex_decoded ex_liveness))
   = Slice_prefix (key_buf ex_delete) (di_key_size (ex_decoded ex_delete))
   /\ intent_phy_time (docdb := Toy.docdb) ex_liveness
      = intent_phy_time (docdb := Toy.docdb) ex_delete
   /\ is_root_tombstone (di_decoded_value (ex_decoded ex_liveness))
                        (di_decoded_key (ex_decoded ex_liveness)) = false
   /\ bk_col_count (books (docdb := Toy.docdb) (flags := Toy.flags) Toy.schema [ex_delete])
      = num_columns Toy.schema
   /\ il_new_cdc_record_needed (snd ex_liveness_step) = true)
  /\ exists added,
      cdc_sdk_proto_records (il_resp (snd ex_updates_run))
      = cdc_sdk_proto_records ex_resp ++ added
      /\ Forall2 (record_of_one (docdb := Toy.docdb)
                                (tablet_peer := Toy.peer
                                                  (ex_tablet [] ApplyTransactionState_default)
                                                  (mkOpId 0 0) [])
                                (mkOpId 1 6) "txn" Toy.schema "t")
                 [ex_column; ex_later_column2] added.
Proof.
  pose proof (packed_update_flush_condition
                (docdb := Toy.docdb) (flags := Toy.flags)
                (tablet_peer := Toy.peer (ex_tablet [] ApplyTransactionState_default)
                                         (mkOpId 0 0) [])
                (mkOpId 1 6) "txn" Toy.schema ex_resp 0 "") as W.
  lapply W; [clear W; intro W | reflexivity].
  lapply W; [clear W; intro W | intro m; reflexivity].
  lapply W; [clear W; intro W | intro rec; reflexivity].
  destruct W as [W1 W2]. split.
  - repeat (split; [vm_compute; reflexivity |]).
    specialize (W1 "t" [] ex_delete (ex_decoded ex_delete) [ex_key_column]
                   ex_liveness (ex_decoded ex_liveness)
                   (snd ex_walk_to_liveness) (fst ex_liveness_step) (snd ex_liveness_step)).
    lapply W1; [clear W1; intro W1 | vm_compute; reflexivity].
    lapply W1; [clear W1; intro W1 | vm_compute; reflexivity].
    lapply W1; [clear W1; intro W1 |].
    2:{ constructor; [| constructor].
        exists (ex_decoded ex_key_column). split; vm_compute; reflexivity. }
    lapply W1; [clear W1; intro W1 | vm_compute; reflexivity].
    lapply W1; [clear W1; intro W1 | vm_compute; reflexivity].
    lapply W1; [clear W1; intro W1 | vm_compute; reflexivity].
    lapply W1; [clear W1; intro W1 | vm_compute; reflexivity].
    apply (proj1 (proj2 W1)). right. left. vm_compute. discriminate.
  - specialize (W2 [ex_column; ex_later_column2] (ex_tablet [] ApplyTransactionState_default)
                   (snd ex_updates_run)).
    lapply W2; [clear W2; intro W2 | reflexivity].
    lapply W2; [clear W2; intro W2 |].
    2:{ constructor; [| constructor; [| constructor]].
        - exists (ex_decoded ex_column). repeat split; vm_compute; reflexivity.
        - exists (ex_decoded ex_later_column2). repeat split; vm_compute; reflexivity. }
    lapply W2; [clear W2; intro W2 |].
    2:{ vm_compute. repeat split; discriminate. }
    lapply W2; [clear W2; intro W2 | vm_compute; reflexivity].
    exact W2.
Defined.


Lemma snapshot_handshake_witness :
  exists st',
    ex_handshake = Some (inl tt, st')
    /\ cdc_sdk_checkpoint (gc_resp st') = mkCheckpoint 2 10 (-1) "" 4100096
    /\ gc_effects st'
       = [UpdateCDCConsumerOpId (mkOpId 2 9); SetIntentRetainOpIdAndTime (mkOpId 2 9) 1000].
Proof.
  pose proof (@snapshot_handshake Toy.docdb Toy.flags
                (Toy.wal_peer ex_moving_tablet (mkOpId 0 0) [])
                (Toy.client 2 None) Toy.opid_decl
                2%nat "tablet-1" (mkCheckpoint 0 0 (-1) "" 0) ex_resp Toy.schema 7 (mkOpId 0 0) ""
                (Some 0) ex_moving_tablet
                (mkParticipant (Some ex_moving_context) (inl tt))
                ex_moving_context
                (mkRemoveIntentsData (mkOpId 2 9) 4096000)) as W.
  lapply W; [clear W; intro W | reflexivity].
  lapply W; [clear W; intro W | reflexivity].
  lapply W; [clear W; intro W | reflexivity].
  lapply W; [clear W; intro W | reflexivity].
  lapply W; [clear W; intro W | reflexivity].
  lapply W; [clear W; intro W | reflexivity].
  lapply W; [clear W; intro W | reflexivity].
  destruct W as (st' & E & _ & F & C). exists st'.
  unfold ex_handshake, ex_state.
  split; [exact E | split; [exact (C _ eq_refl) | exact F]].
Defined.

Definition ex_alter_run :=
  messages_loop (docdb := Toy.docdb) (flags := Toy.flags)
    (tablet_peer := Toy.wal_peer ex_peer_tablet (mkOpId 0 0) [])
    (client := Toy.client 2 (Some 4))
    "tablet-1" ex_peer_tablet [ex_alter (mkOpId 1 6) 4; ex_alter (mkOpId 1 7) 4]
    (ex_state (mkCheckpoint 1 5 0 "" 0)).

Lemma ddl_deduplication_witness :
  exists st1, gc_records (snd ex_alter_run) = gc_records st1.
Proof.
  pose proof (ddl_deduplication
                (docdb := Toy.docdb) (flags := Toy.flags)
                (tablet_peer := Toy.wal_peer ex_peer_tablet (mkOpId 0 0) [])
                (client := Toy.client 2 (Some 4))
                "tablet-1" ex_peer_tablet (ex_alter (mkOpId 1 6) 4) (ex_alter (mkOpId 1 7) 4)
                (ex_state (mkCheckpoint 1 5 0 "" 0)) (st2 := snd ex_alter_run)) as W.
  lapply W; [clear W; intro W | reflexivity].
  lapply W; [clear W; intro W | reflexivity].
  lapply W; [clear W; intro W | intros pb s H; injection H as <-; reflexivity].
  lapply W; [clear W; intro W | intros t ht s v H; injection H as <- _; reflexivity].
  lapply W; [clear W; intro W | reflexivity].
  lapply W; [clear W; intro W | reflexivity].
  lapply W; [clear W; intro W | vm_compute; reflexivity].
  destruct W as (st1 & ddl1 & ddl2 & _ & _ & _ & _ & D). exists st1.
  apply D; reflexivity.
Defined.

Definition ex_apply : ReplicateMsg := ex_entry (mkOpId 1 6) UPDATE_TRANSACTION_OP.

Lemma mid_transaction_suspension_witness :
  exists txn_id st0 new_stream_state st1,
    call_ProcessIntents (docdb := Toy.docdb) (flags := Toy.flags)
      (tablet_peer := Toy.wal_peer ex_peer_tablet (mkOpId 0 0) [ex_apply])
      (client := Toy.client 2 None)
      (entry_op ex_apply) txn_id ApplyTransactionState_default st0
    = (inl new_stream_state, st1).
Proof.
  pose proof (mid_transaction_suspension
                (docdb := Toy.docdb) (flags := Toy.flags)
                (tablet_peer := Toy.wal_peer ex_peer_tablet (mkOpId 0 0) [ex_apply])
                (client := Toy.client 2 None)
                "tablet-1" ex_peer_tablet ex_apply (ex_state (mkCheckpoint 1 5 0 "" 0))) as W.
  lapply W; [clear W; intro W | reflexivity].
  lapply W; [clear W; intro W | reflexivity].
  lapply W; [clear W; intro W | reflexivity].
  lapply W; [clear W; intro W | vm_compute; reflexivity].
  destruct W as (txn_id & st0 & new_stream_state & st1 & _ & _ & E & _).
  exists txn_id, st0, new_stream_state, st1. exact E.
Defined.

(** The transaction applied at (1, 6) is followed in the log by a write at
    (1, 7).  The fetch of its intents hands out the liveness column of row
    [k7] alone and leaves the stream state at key ["r1"] and write id 1:
    intents remain. *)
Definition ex_unfinished_tablet : Tablet := ex_tablet [ex_liveness] (mkApplyState "r1" 1).

Definition ex_unfinished_log : list ReplicateMsg :=
  [ex_entry (mkOpId 1 6) UPDATE_TRANSACTION_OP; ex_entry (mkOpId 1 7) WRITE_OP].

Definition ex_unfinished_call (from_op_id : CDCSDKCheckpointPB) :=
  GetChangesForCDCSDK (docdb := Toy.docdb) (flags := Toy.flags)
    (tablet_peer := Toy.wal_peer ex_unfinished_tablet (mkOpId 0 0) ex_unfinished_log)
    (client := Toy.client 2 None) (opid_decl := Toy.opid_decl)
    2 "tablet-1" from_op_id (ex_state from_op_id).

(** C6: the walk over the one intent opens an INSERT that it does not
    complete, adds no record and skips no intent.  The first request, from
    (1, 5), is answered with BEGIN alone; the loop has stopped at the apply
    entry with intents pending, the write at (1, 7) is not dispatched and
    [last_streamed_op_id] is not advanced, but the checkpoint is (1, 6) with
    key [""] and write id 0.  The next request, made from that checkpoint,
    does not take up the transaction: it reads the log after (1, 6), streams
    the write at (1, 7) and moves the checkpoint to (1, 7). *)
Lemma suspended_transaction_is_passed_by :
  ex_answer (ex_unfinished_call (mkCheckpoint 1 5 0 "" 0))
  = Some (inl tt, [(RowMessage_Op_BEGIN, 0)], mkCheckpoint 1 6 0 "" 0)
  /\ gc_pending_intents
       (ex_final (mkCheckpoint 1 5 0 "" 0) (ex_unfinished_call (mkCheckpoint 1 5 0 "" 0)))
     = true
  /\ gc_last_streamed_op_id
       (ex_final (mkCheckpoint 1 5 0 "" 0) (ex_unfinished_call (mkCheckpoint 1 5 0 "" 0)))
     = mkOpId 0 0
  /\ ex_answer (ex_unfinished_call (mkCheckpoint 1 6 0 "" 0))
     = Some (inl tt, [(RowMessage_Op_UPDATE, 0)], mkCheckpoint 1 7 0 "" 0).
Proof. repeat split; vm_compute; reflexivity. Qed.

Definition ex_split : ReplicateMsg := ex_entry (mkOpId 1 6) SPLIT_OP.

Lemma tablet_split_handling_witness :
  exists st',
    ex_call [ex_split] 2 None (mkCheckpoint 1 5 0 "" 0)
    = Some (inr (TabletSplit_status "tablet-1"), st').
Proof.
  pose proof (tablet_split_handling
                (docdb := Toy.docdb) (flags := Toy.flags)
                (tablet_peer := Toy.wal_peer ex_peer_tablet (mkOpId 0 0) [ex_split])
                (client := Toy.client 2 None) (opid_decl := Toy.opid_decl)
                1 "tablet-1" (tablet_ptr := ex_peer_tablet) (mkCheckpoint 1 5 0 "" 0)
                ex_resp Toy.schema 7 (mkOpId 0 0) "" (Some 0)
                (msg := ex_split) (rest := []) (idx := Some 0)) as W.
  lapply W; [clear W; intro W | reflexivity].
  lapply W; [clear W; intro W | reflexivity].
  lapply W; [clear W; intro W | reflexivity].
  lapply W; [clear W; intro W | reflexivity].
  lapply W; [clear W; intro W | reflexivity].
  lapply W; [clear W; intro W | reflexivity].
  lapply W; [clear W; intro W | reflexivity].
  lapply W; [clear W; intro W | constructor].
  lapply W; [clear W; intro W | reflexivity].
  destruct W as (_ & _ & st' & E & _). exists st'.
  unfold ex_call, ex_state. exact E.
Defined.

(** *** Runs of the further properties *)

(** A row whose three columns hold ["10"], and a tablet that holds it. *)
Definition ex_row : QLTableRow := mkRow (fun _ => Some (QLVal "10")).

Definition ex_rows_tablet : Tablet :=
  Toy.tablet [] ApplyTransactionState_default [ex_row] (fun _ => "").

Definition ex_snapshot_record :=
  PopulateCDCSDKSnapshotRecord (docdb := Toy.docdb)
    (tablet_peer := Toy.peer ex_rows_tablet (mkOpId 0 0) [])
    ex_row Toy.schema 4096000 ex_resp.

Lemma snapshot_record_shape_witness :
  exists rec,
    cdc_sdk_proto_records (snd ex_snapshot_record) = cdc_sdk_proto_records ex_resp ++ [rec]
    /\ op (row_message rec) = RowMessage_Op_READ
    /\ commit_time (row_message rec) = 4096000
    /\ old_tuple (row_message rec)
       = repeat DatumMessagePB_default (Z.to_nat (num_columns Toy.schema)).
Proof.
  pose proof (@snapshot_record_shape Toy.docdb (Toy.peer ex_rows_tablet (mkOpId 0 0) [])
                ex_row Toy.schema 4096000 ex_resp (snd ex_snapshot_record) ex_rows_tablet) as W.
  lapply W; [clear W; intro W | reflexivity].
  lapply W; [clear W; intro W | vm_compute; reflexivity].
  destruct W as (rec & R & _ & _ & O & _ & C & _ & _ & T). exists rec.
  split; [exact R | split; [exact O | split; [exact C | exact T]]].
Defined.

(** A call on a snapshot under way, on a tablet of one row. *)
Definition ex_snapshot_cursor : CDCSDKCheckpointPB := mkCheckpoint 1 5 (-1) "k7" 4096000.

Definition ex_snapshot_call :=
  GetChangesForCDCSDK (docdb := Toy.docdb) (flags := Toy.flags)
    (tablet_peer := Toy.peer ex_rows_tablet (mkOpId 0 0) [])
    (client := Toy.client 2 (Some 4)) (opid_decl := Toy.opid_decl)
    2 "tablet-1" ex_snapshot_cursor (ex_state ex_snapshot_cursor).

Lemma snapshot_batch_witness :
  exists rows,
    Forall (snapshot_row 4096000) rows
    /\ (List.length rows <= 2)%nat
    /\ cdc_sdk_checkpoint (gc_resp (ex_final ex_snapshot_cursor ex_snapshot_call))
       = mkCheckpoint 1 5 0 "" 0.
Proof.
  pose proof (@snapshot_batch Toy.docdb Toy.flags (Toy.peer ex_rows_tablet (mkOpId 0 0) [])
                (Toy.client 2 (Some 4)) Toy.opid_decl
                2%nat "tablet-1" ex_snapshot_cursor ex_resp Toy.schema 7 (mkOpId 0 0) ""
                (Some 0) (ex_final ex_snapshot_cursor ex_snapshot_call)) as W.
  lapply W; [clear W; intro W | reflexivity].
  lapply W; [clear W; intro W | reflexivity].
  lapply W; [clear W; intro W | vm_compute; reflexivity].
  destruct W as (tablet_ptr & iter & rows & next_key & Ht & Hi & _ & F & L & _ & N & C & _).
  exists rows. split; [exact F | split; [exact L |]].
  rewrite C. injection Ht as <-. injection Hi as <-.
  cbn in N. injection N as <-. reflexivity.
Defined.

(** A write to column [c1] of row [k7] outside any transaction. *)
Definition ex_write : ReplicateMsg := ex_entry (mkOpId 1 6) WRITE_OP.

Definition ex_write_record :=
  PopulateCDCSDKWriteRecord (docdb := Toy.docdb)
    (tablet_peer := Toy.peer ex_peer_tablet (mkOpId 0 0) [])
    ex_write Toy.schema ex_resp.

Lemma write_batch_records_witness :
  exists added,
    cdc_sdk_proto_records (snd ex_write_record) = cdc_sdk_proto_records ex_resp ++ added
    /\ Forall (write_stamped ex_write ex_peer_tablet Toy.schema) added
    /\ (List.length added <= 1)%nat.
Proof.
  pose proof (@write_batch_records Toy.docdb (Toy.peer ex_peer_tablet (mkOpId 0 0) [])
                ex_write Toy.schema ex_resp (snd ex_write_record)) as W.
  lapply W; [clear W; intro W | vm_compute; reflexivity].
  destruct W as (tablet_ptr & added & Ht & R & F & L). injection Ht as <-.
  exists added. split; [exact R | split; [exact F | exact L]].
Defined.

Lemma intent_records_stamped_witness :
  exists added,
    cdc_sdk_proto_records (il_resp (snd ex_delete_run))
    = cdc_sdk_proto_records ex_resp ++ added
    /\ Forall (intent_stamped (mkOpId 1 6) "txn" "t") added.
Proof.
  pose proof (@intent_records_stamped Toy.docdb Toy.flags
                (Toy.peer (ex_tablet [] ApplyTransactionState_default) (mkOpId 0 0) [])
                (mkOpId 1 6) "txn" [ex_delete] Toy.schema ex_resp 0 ""
                (ex_tablet [] ApplyTransactionState_default)
                (fst ex_delete_run) (snd ex_delete_run)) as W.
  lapply W; [clear W; intro W | reflexivity].
  lapply W; [clear W; intro W | vm_compute; reflexivity].
  exact W.
Defined.

Lemma Forall_filter_kept {A} (P : A -> Prop) (f : A -> bool) (l : list A) :
  Forall P l -> Forall P (filter f l).
Proof.
  intro H. apply Forall_forall. intros x Hx. apply filter_In in Hx.
  rewrite Forall_forall in H. apply H, Hx.
Qed.

Lemma wal_peer_reads t latest log from idx r :
  ReadReplicatedMessagesForCDC (Toy.wal_peer t latest log) from idx = inl r ->
  fst r = filter (fun m => negb (OpId_le (id m) from)) log.
Proof.
  intro E. cbv [ReadReplicatedMessagesForCDC Toy.wal_peer] in E. injection E as <-.
  reflexivity.
Qed.

(** An entry of a type that has no case. *)
Definition ex_other : ReplicateMsg := ex_entry (mkOpId 1 6) OTHER_OP.

Lemma idle_entries_keep_cursor_witness :
  cdc_sdk_proto_records
    (gc_resp (ex_final (mkCheckpoint 1 5 0 "" 0)
                (ex_call [ex_other] 2 None (mkCheckpoint 1 5 0 "" 0))))
  = cdc_sdk_proto_records ex_resp
  /\ cdc_sdk_checkpoint
       (gc_resp (ex_final (mkCheckpoint 1 5 0 "" 0)
                   (ex_call [ex_other] 2 None (mkCheckpoint 1 5 0 "" 0))))
     = mkCheckpoint 1 6 0 "" 0.
Proof.
  pose proof (@idle_entries_keep_cursor Toy.docdb Toy.flags
                (Toy.wal_peer ex_peer_tablet (mkOpId 0 0) [ex_other])
                (Toy.client 2 None) Toy.opid_decl
                2%nat "tablet-1" ex_peer_tablet (mkCheckpoint 1 5 0 "" 0)
                ex_resp Toy.schema 7 (mkOpId 0 0) "" (Some 0)
                (ex_final (mkCheckpoint 1 5 0 "" 0)
                   (ex_call [ex_other] 2 None (mkCheckpoint 1 5 0 "" 0)))) as W.
  lapply W; [clear W; intro W | reflexivity].
  lapply W; [clear W; intro W | reflexivity].
  lapply W; [clear W; intro W | reflexivity].
  lapply W; [clear W; intro W | reflexivity].
  lapply W; [clear W; intro W |].
  2:{ intros from idx r E. rewrite (@wal_peer_reads _ _ _ _ _ _ E).
      apply Forall_filter_kept. repeat constructor. }
  lapply W; [clear W; intro W | vm_compute; reflexivity].
  cbv zeta in W. destruct W as [R C]. split; [exact R |].
  match type of C with
  | if ?b then _ else _ => replace b with false in C by (vm_compute; reflexivity)
  end.
  destruct C as [C _]. rewrite C. vm_compute. reflexivity.
Defined.

(** The cursor a suspended transaction leaves: key ["r1"], write id 1. *)
Definition ex_resume_cursor : CDCSDKCheckpointPB :=
  SetKeyWriteId "r1" 1 (mkCheckpoint 1 6 0 "" 0).

Definition ex_resume :=
  select_mode (docdb := Toy.docdb) (flags := Toy.flags)
    (tablet_peer := Toy.wal_peer ex_peer_tablet (mkOpId 0 0) [])
    (client := Toy.client 2 None) (opid_decl := Toy.opid_decl)
    2 "tablet-1" ex_resume_cursor ex_peer_tablet (ex_state ex_resume_cursor).

Lemma resume_cursor_round_trip_witness :
  exists transaction_id new_stream_state s1,
    call_ProcessIntents (docdb := Toy.docdb) (flags := Toy.flags)
      (tablet_peer := Toy.wal_peer ex_peer_tablet (mkOpId 0 0) [])
      (client := Toy.client 2 None)
      (mkOpId 1 6) transaction_id (mkApplyState "r1" 1) (ex_state ex_resume_cursor)
    = (inl new_stream_state, s1)
    /\ gc_checkpoint_updated (ex_final ex_resume_cursor ex_resume) = true.
Proof.
  pose proof (@resume_cursor_round_trip Toy.docdb Toy.flags
                (Toy.wal_peer ex_peer_tablet (mkOpId 0 0) [])
                (Toy.client 2 None) Toy.opid_decl
                2%nat "tablet-1" ex_peer_tablet "r1" 1 (mkCheckpoint 1 6 0 "" 0)
                (ex_state ex_resume_cursor) (ex_final ex_resume_cursor ex_resume)) as W.
  lapply W; [clear W; intro W | discriminate].
  lapply W; [clear W; intro W | lia].
  lapply W; [clear W; intro W | vm_compute; reflexivity].
  destruct W as ((transaction_id & new_stream_state & s1 & _ & E & _ & _ & U & _) & _).
  exists transaction_id, new_stream_state, s1. split; [exact E | exact U].
Defined.

(** A peer whose reader hands out the entries of [log] with an index above
    the one it reads from, and reports [last] as the last readable index. *)
Definition ex_index_peer (log : list ReplicateMsg) (last : Z) : TabletPeer :=
  mkTabletPeer (inl ex_peer_tablet) (mkOpId 0 0) []
               (fun from _ =>
                  inl (filter (fun m => op_index from <? op_index (id m)) log, Some last)).

Lemma call_returns_witness :
  exists r,
    GetChangesForCDCSDK (docdb := Toy.docdb) (flags := Toy.flags)
      (tablet_peer := ex_index_peer [ex_other; ex_entry (mkOpId 1 7) OTHER_OP] 7)
      (client := Toy.client 2 None) (opid_decl := Toy.opid_decl)
      3 "tablet-1" (mkCheckpoint 1 5 0 "" 0) (ex_state (mkCheckpoint 1 5 0 "" 0))
    = Some r.
Proof.
  pose proof (@call_returns Toy.docdb Toy.flags
                (ex_index_peer [ex_other; ex_entry (mkOpId 1 7) OTHER_OP] 7)
                (Toy.client 2 None) Toy.opid_decl
                7 3%nat "tablet-1" (mkCheckpoint 1 5 0 "" 0)
                (ex_state (mkCheckpoint 1 5 0 "" 0))) as W.
  lapply W; [clear W; intro W |].
  2:{ intros from idx r E. cbv [ReadReplicatedMessagesForCDC ex_index_peer] in E.
      assert (Er : r = (filter (fun m => op_index from <? op_index (id m))
                               [ex_other; ex_entry (mkOpId 1 7) OTHER_OP], Some 7))
        by congruence.
      rewrite Er. unfold fst, snd. split.
      - apply Forall_forall. intros m Hin. apply filter_In in Hin.
        destruct Hin as [_ Hin]. apply Z.ltb_lt. exact Hin.
      - intros b Hb. injection Hb as <-. lia. }
  lapply W; [clear W; intro W | cbv; lia].
  exact W.
Defined.

(** A TRUNCATE entry with its request, under [stream_truncate_record]. *)
Definition ex_truncate : ReplicateMsg :=
  mkReplicateMsg (mkOpId 1 6) 4096000 TRUNCATE_OP (mkTransactionState OTHER_STATUS "" "")
                 false [] None true "truncate".

Definition ex_truncate_flags : Flags := mkFlags 2 true true 1000 false.

Definition ex_truncate_run :=
  message_body (docdb := Toy.docdb) (flags := ex_truncate_flags)
    (tablet_peer := Toy.wal_peer ex_peer_tablet (mkOpId 0 0) [ex_truncate])
    (client := Toy.client 2 None)
    "tablet-1" ex_peer_tablet ex_truncate (ex_state (mkCheckpoint 1 5 0 "" 0)).

Lemma truncate_entry_witness :
  fst ex_truncate_run = inl tt
  /\ cdc_sdk_proto_records (gc_resp (snd ex_truncate_run))
     = [TRUNCATE_record ex_truncate Toy.schema]
  /\ gc_checkpoint (snd ex_truncate_run) = mkCheckpoint 1 6 0 "" 0.
Proof.
  pose proof (@truncate_entry Toy.docdb ex_truncate_flags
                (Toy.wal_peer ex_peer_tablet (mkOpId 0 0) [ex_truncate])
                (Toy.client 2 None)
                "tablet-1" ex_peer_tablet ex_truncate (ex_state (mkCheckpoint 1 5 0 "" 0))
                (fst ex_truncate_run) (snd ex_truncate_run)) as W.
  lapply W; [clear W; intro W | reflexivity].
  lapply W; [clear W; intro W | reflexivity].
  lapply W; [clear W; intro W | reflexivity].
  lapply W; [clear W; intro W | vm_compute; reflexivity].
  cbn [has_truncate ex_truncate] in W.
  destruct W as (R & Rs & C & _). split; [exact R | split; [exact Rs | exact C]].
Defined.

Lemma cached_schema_kept_witness :
  gc_cached_schema (ex_final (mkCheckpoint 1 5 0 "" 0)
                      (ex_call [ex_write] 2 None (mkCheckpoint 1 5 0 "" 0)))
  = Toy.schema
  /\ gc_cached_schema_version (ex_final (mkCheckpoint 1 5 0 "" 0)
                                 (ex_call [ex_write] 2 None (mkCheckpoint 1 5 0 "" 0)))
     = 7.
Proof.
  pose proof (@cached_schema_kept Toy.docdb Toy.flags
                (Toy.wal_peer ex_peer_tablet (mkOpId 0 0) [ex_write])
                (Toy.client 2 None) Toy.opid_decl
                2%nat "tablet-1" (mkCheckpoint 1 5 0 "" 0) (ex_state (mkCheckpoint 1 5 0 "" 0))
                (inl tt)
                (ex_final (mkCheckpoint 1 5 0 "" 0)
                   (ex_call [ex_write] 2 None (mkCheckpoint 1 5 0 "" 0)))) as W.
  lapply W; [clear W; intro W | reflexivity].
  lapply W; [clear W; intro W | reflexivity].
  lapply W; [clear W; intro W |].
  2:{ intros from idx r E. rewrite (@wal_peer_reads _ _ _ _ _ _ E).
      apply Forall_filter_kept. repeat constructor. discriminate. }
  lapply W; [clear W; intro W | vm_compute; reflexivity].
  exact W.
Defined.
